(** * TOON codec (toon-py): a shallow embedding and its verified properties

    The development follows the layout of the Python package:
    [constants.py], [types.py], [normalize.py], [primitives.py],
    [writer.py], [encoders.py], [encoder.py], [scanner.py], [parser.py],
    [decoders.py] and [decoder.py].

    Modelling conventions.
    - A Python [str] is a Rocq [string]; a character is a code point in
      the range 0..255 (Latin-1), with Python's Unicode tables restricted
      to that range.
    - A Python [int] is a [Z]; a Python [float] is an IEEE value of
      [SpecFloat.spec_float].
    - A Python [dict] is an association list in insertion order, updated
      with [dict_set] (replace in place, else append).
    - Raising an exception is the [Raise] outcome of [result].  The
      mutually recursive encoders and decoders recurse on a [fuel]
      argument and return [OutOfFuel] when it is exhausted; [encode_value]
      and [decode] give them fuel for the size of their input, which is
      proved to be enough ([encode_value_succeeds], [decode_terminates]).
    - Interpreter limits (recursion depth, the digit limit of [int] and
      [str] conversions) and cyclic containers are not modelled.
    - Library calls whose numeric behaviour is not re-implemented here
      (shortest float repr, correctly rounded string-to-float, ...) are
      the fields of the class [PyRuntime]. *)

From Stdlib Require Import ZArith String Ascii List Lia Bool DecimalString.
From Stdlib Require Import SpecFloat.
From Stdlib Require DecimalFacts DecimalPos DecimalZ.
Import ListNotations.
Set Warnings "-register-all".
Open Scope string_scope.
Open Scope Z_scope.

(* ================================================================== *)
(** * Exceptions and outcomes *)

Inductive PyError : Type :=
| NoContent                         (* ValueError('No content to decode') *)
| CountMismatch (expected : Z) (label : string) (actual : Z)
                                    (* ValueError('Expected .. , but got ..') *)
| FoundMore (expected : Z) (label : string)
                                    (* ValueError('Expected .. , but found more') *)
| ExpectedListItem                  (* ValueError('Expected list item') *)
| UnexpectedAfterQuote              (* ValueError('Unexpected characters after closing quote') *)
| UnterminatedString                (* ValueError('Unterminated string: missing closing quote') *)
| EscapeAtEnd                       (* ValueError('Invalid escape sequence at end of string') *)
| InvalidEscape (c : ascii)         (* ValueError('Invalid escape sequence: \\c') *)
| MissingKey                        (* ValueError('Missing key') *)
| MissingColon                      (* ValueError('Missing colon after key') *)
| UnterminatedQuotedKey             (* ValueError('Unterminated quoted key') *)
| InvalidArrayLength (segment : string)
                                    (* ValueError('Invalid array length: ..') *)
| InvalidIntLiteral (s : string)    (* ValueError raised by int(s) *)
| IndexError                        (* list index out of range *)
| KeyError (k : string)             (* missing dict key *)
| AttributeError                    (* a str method on a value that is no str *)
| UnsupportedDelimiter (value : string)
                                    (* ValueError('Unsupported delimiter value: ..') *)
| UnsupportedLengthMarker           (* ValueError('Unsupported length_marker value: ..') *)
| ZeroDivisionError.                (* integer division by zero *)

Inductive result (A : Type) : Type :=
| Ok (a : A)
| Raise (e : PyError)
| OutOfFuel.

Arguments Ok {A} a.
Arguments Raise {A} e.
Arguments OutOfFuel {A}.

Definition bind {A B : Type} (r : result A) (k : A -> result B) : result B :=
  match r with
  | Ok a => k a
  | Raise e => Raise e
  | OutOfFuel => OutOfFuel
  end.

Notation "'let*' x ':=' r 'in' k" := (bind r (fun x => k))
  (at level 10, x pattern, r at level 100, k at level 200).

(** [for x in xs: acc = f(acc, x)] with exceptions. *)
Fixpoint foldM {A B : Type} (f : B -> A -> result B) (xs : list A) (acc : B)
  : result B :=
  match xs with
  | [] => Ok acc
  | x :: rest => let* acc' := f acc x in foldM f rest acc'
  end.

(** [[f(x) for x in xs]] with exceptions. *)
Fixpoint mapM {A B : Type} (f : A -> result B) (xs : list A) : result (list B) :=
  match xs with
  | [] => Ok []
  | x :: rest =>
      let* y := f x in
      let* ys := mapM f rest in
      Ok (y :: ys)
  end.

(* ================================================================== *)
(** * Python string primitives *)

Module PyStr.

Definition code (c : ascii) : N := N_of_ascii c.

Definition chr (n : N) : ascii := ascii_of_N n.

(** [str.isspace] on one character. *)
Definition is_space (c : ascii) : bool :=
  let n := code c in
  ((9 <=? n) && (n <=? 13) || (28 <=? n) && (n <=? 32)
   || (n =? 133) || (n =? 160))%N.

(** ASCII decimal digit: the decimal digits of the modelled range. *)
Definition is_digit (c : ascii) : bool :=
  let n := code c in ((48 <=? n) && (n <=? 57))%N.

Definition digit_value (c : ascii) : Z := Z.of_N (code c) - 48.

(** [str.isdigit] on one character: decimal digits and superscripts. *)
Definition is_unicode_digit (c : ascii) : bool :=
  let n := code c in
  (is_digit c || (n =? 178) || (n =? 179) || (n =? 185))%N.

Definition is_ascii_alpha (c : ascii) : bool :=
  let n := code c in
  ((65 <=? n) && (n <=? 90) || (97 <=? n) && (n <=? 122))%N.

(** The class [\w] of [re] on [str] patterns. *)
Definition is_word (c : ascii) : bool :=
  let n := code c in
  (is_ascii_alpha c || is_digit c || (n =? 95)
   || (n =? 170) || (n =? 181) || (n =? 186)
   || (n =? 178) || (n =? 179) || (n =? 185)
   || (188 <=? n) && (n <=? 190)
   || (192 <=? n) && (n <=? 214)
   || (216 <=? n) && (n <=? 246)
   || (248 <=? n) && (n <=? 255))%N.

Definition to_lower (c : ascii) : ascii :=
  let n := code c in
  if ((65 <=? n) && (n <=? 90))%N then chr (n + 32) else c.

(** Lowercasing of the ASCII letters: [str.lower] as far as a comparison
    with an ASCII word can tell. *)
Fixpoint lower (s : string) : string :=
  match s with
  | EmptyString => EmptyString
  | String c r => String (to_lower c) (lower r)
  end.

Definition len (s : string) : Z := Z.of_nat (String.length s).

Definition rev (s : string) : string :=
  string_of_list_ascii (List.rev (list_ascii_of_string s)).

Fixpoint lstrip (s : string) : string :=
  match s with
  | EmptyString => EmptyString
  | String c r => if is_space c then lstrip r else s
  end.

Definition rstrip (s : string) : string := rev (lstrip (rev s)).

Definition strip (s : string) : string := rstrip (lstrip s).

Definition startswith (s prefix : string) : bool := String.prefix prefix s.

Definition endswith (s suffix : string) : bool :=
  String.prefix (rev suffix) (rev s).

(** [c in s] for a one-character [c]. *)
Fixpoint contains (c : ascii) (s : string) : bool :=
  match s with
  | EmptyString => false
  | String a r => Ascii.eqb a c || contains c r
  end.

Fixpoint drop (n : nat) (s : string) : string :=
  match n, s with
  | O, _ => s
  | S n', String _ r => drop n' r
  | S _, EmptyString => EmptyString
  end.

Fixpoint take (n : nat) (s : string) : string :=
  match n, s with
  | O, _ => EmptyString
  | S n', String c r => String c (take n' r)
  | S _, EmptyString => EmptyString
  end.

(** [s[lo:]], [s[:hi]] and [s[lo:hi]] for non-negative bounds. *)
Definition from (s : string) (lo : Z) : string := drop (Z.to_nat lo) s.

Definition upto (s : string) (hi : Z) : string := take (Z.to_nat hi) s.

Definition slice (s : string) (lo hi : Z) : string :=
  drop (Z.to_nat lo) (take (Z.to_nat hi) s).

(** [s[:-1]]. *)
Definition drop_last (s : string) : string :=
  take (String.length s - 1) s.

(** [s[i]] for [0 <= i]; [None] is Python's IndexError. *)
Definition at_ (s : string) (i : Z) : option ascii :=
  if i <? 0 then None else String.get (Z.to_nat i) s.

Fixpoint find_aux (c : ascii) (s : string) (i : Z) : Z :=
  match s with
  | EmptyString => -1
  | String a r => if Ascii.eqb a c then i else find_aux c r (i + 1)
  end.

(** [s.find(c, start)] for a one-character [c] and [0 <= start]. *)
Definition find (c : ascii) (s : string) (start : Z) : Z :=
  find_aux c (from s start) start.

(** [s.replace(c, by)] for a one-character [c]. *)
Fixpoint replace (c : ascii) (by_ : string) (s : string) : string :=
  match s with
  | EmptyString => EmptyString
  | String a r =>
      if Ascii.eqb a c then by_ ++ replace c by_ r
      else String a (replace c by_ r)
  end.

(** [sep.join(parts)]. *)
Fixpoint join (sep : string) (parts : list string) : string :=
  match parts with
  | [] => EmptyString
  | [p] => p
  | p :: rest => p ++ sep ++ join sep rest
  end.

Fixpoint split_aux (c : ascii) (s : string) (cur : string) : list string :=
  match s with
  | EmptyString => [rev cur]
  | String a r =>
      if Ascii.eqb a c then rev cur :: split_aux c r EmptyString
      else split_aux c r (String a cur)
  end.

(** [s.split(c)] for a one-character separator. *)
Definition split (c : ascii) (s : string) : list string :=
  split_aux c s EmptyString.

(** [' ' * n]. *)
Fixpoint spaces (n : nat) : string :=
  match n with
  | O => EmptyString
  | S n' => String " " (spaces n')
  end.

(** [str(n)] for an [int]. *)
Definition of_int (z : Z) : string := NilZero.string_of_int (Z.to_int z).

Fixpoint all_chars (p : ascii -> bool) (s : string) : bool :=
  match s with
  | EmptyString => true
  | String c r => p c && all_chars p r
  end.

End PyStr.

(* ================================================================== *)
(** * constants.py *)

Definition LIST_ITEM_MARKER : string := "-".
Definition LIST_ITEM_PREFIX : string := "- ".

Definition COMMA : ascii := ","%char.
Definition COLON : ascii := ":"%char.
Definition SPACE : ascii := " "%char.
Definition PIPE : ascii := "|"%char.
Definition HASH : ascii := "#"%char.
Definition OPEN_BRACKET : ascii := "["%char.
Definition CLOSE_BRACKET : ascii := "]"%char.
Definition OPEN_BRACE : ascii := "{"%char.
Definition CLOSE_BRACE : ascii := "}"%char.

Definition NULL_LITERAL : string := "null".
Definition TRUE_LITERAL : string := "true".
Definition FALSE_LITERAL : string := "false".

Definition BACKSLASH : ascii := "\"%char.
Definition DOUBLE_QUOTE : ascii := "034"%char.
Definition NEWLINE : ascii := "010"%char.
Definition CARRIAGE_RETURN : ascii := "013"%char.
Definition TAB : ascii := "009"%char.

Definition Delimiter : Type := ascii.
Definition DEFAULT_DELIMITER : Delimiter := COMMA.

(** Single-character strings, as Python has no character type. *)
Definition str1 (c : ascii) : string := String c EmptyString.

(** [ESCAPE_SEQUENCES], in the dict's insertion order. *)
Definition ESCAPE_SEQUENCES : list (ascii * string) :=
  [ (BACKSLASH, String BACKSLASH (str1 BACKSLASH));
    (DOUBLE_QUOTE, String BACKSLASH (str1 DOUBLE_QUOTE));
    (NEWLINE, String BACKSLASH "n");
    (CARRIAGE_RETURN, String BACKSLASH "r") ].

(* ================================================================== *)
(** * types.py *)

(** IEEE binary64 values, as data. *)
Definition PyFloat : Type := spec_float.

Inductive JsonValue : Type :=
| JNull
| JBool (b : bool)
| JInt (z : Z)
| JFloat (f : PyFloat)
| JStr (s : string)
| JArr (items : list JsonValue)
| JObj (members : list (string * JsonValue)).

Definition JsonObject : Type := list (string * JsonValue).
Definition JsonArray : Type := list JsonValue.
Definition Depth : Type := Z.

Record ResolvedEncodeOptions : Type := {
  enc_indent : Z;
  enc_delimiter : Delimiter;
  enc_lengthMarker : bool   (* true is the marker '#', false is False *)
}.

(** The value given for the [length_marker] option. *)
Inductive LengthMarkerValue : Type :=
| LMBool (b : bool)
| LMNone
| LMStr (s : string).

(** The options dict of [encode], by key; [None] is an absent key. *)
Record EncodeOptions : Type := {
  opt_indent : option Z;
  opt_delimiter : option string;
  opt_length_marker : option LengthMarkerValue
}.

(** The options dict of [decode], by key; [None] is an absent key. *)
Record DecodeOptions : Type := {
  opt_dec_indent : option Z;
  opt_strict : option bool
}.

Record ResolvedDecodeOptions : Type := {
  dec_indent : Z;
  dec_strict : bool
}.

Record ArrayHeaderInfo : Type := {
  hdr_key : option string;
  hdr_length : Z;
  hdr_delimiter : Delimiter;
  hdr_fields : option (list string);
  hdr_hasLengthMarker : bool
}.

Record ParsedLine : Type := {
  ln_raw : string;
  ln_depth : Z;
  ln_indent : Z;
  ln_content : string
}.

(* ------------------------------------------------------------------ *)
(** ** Python dicts as insertion-ordered association lists *)

Fixpoint dict_get {V : Type} (k : string) (d : list (string * V)) : option V :=
  match d with
  | [] => None
  | (k', v) :: rest => if String.eqb k' k then Some v else dict_get k rest
  end.

(** [d[k] = v]: an existing key keeps its position. *)
Fixpoint dict_set {V : Type} (k : string) (v : V) (d : list (string * V))
  : list (string * V) :=
  match d with
  | [] => [(k, v)]
  | (k', v') :: rest =>
      if String.eqb k' k then (k', v) :: rest
      else (k', v') :: dict_set k v rest
  end.

Definition dict_keys {V : Type} (d : list (string * V)) : list string :=
  map fst d.

Definition dict_mem {V : Type} (k : string) (d : list (string * V)) : bool :=
  match dict_get k d with Some _ => true | None => false end.

(* ------------------------------------------------------------------ *)
(** ** Host values handed to [encode] *)

Inductive PyDecimal : Type :=
| DecNaN
| DecInfinity (negative : bool)
| DecFinite (negative : bool) (coefficient : N) (exponent : Z).

Record PyDatetime : Type := {
  dt_year : Z; dt_month : Z; dt_day : Z;
  dt_hour : Z; dt_minute : Z; dt_second : Z; dt_microsecond : Z;
  dt_utcoffset : option Z
}.

(** Library behaviour taken as given. *)
Class PyRuntime : Type := {
  (** [repr(x)] of a finite float that is not an integer below 10^16. *)
  float_repr : PyFloat -> string;
  (** the value of [float(s)] for a decimal literal [s]. *)
  float_of_literal : string -> PyFloat;
  (** [float(d)] for a finite [Decimal]. *)
  float_of_decimal : PyDecimal -> PyFloat;
  (** [datetime.isoformat()]. *)
  isoformat : PyDatetime -> string
}.

(** A runtime for evaluating examples.  Its functions are library
    behaviour the examples never depend on: they use no [Decimal], no
    [datetime] and no float other than small integers. *)
Definition example_runtime : PyRuntime :=
  {| float_repr := fun _ => "0.5";
     float_of_literal := fun _ => S754_finite false 1 (-1);
     float_of_decimal := fun _ => S754_finite false 1 (-1);
     isoformat := fun _ => "1970-01-01T00:00:00" |}.

(** Hashable dict keys of host values, with what [str(key)] needs. *)
Inductive PyKey : Type :=
| KStr (s : string)
| KInt (z : Z)
| KBool (b : bool)
| KNone
| KFloat (f : PyFloat)
| KOpaque (text : string).   (* any other key, with its [str()] text *)

Inductive PyValue : Type :=
| PNone
| PBool (b : bool)
| PInt (z : Z)
| PFloat (f : PyFloat)
| PDecimal (d : PyDecimal)
| PStr (s : string)
| PDatetime (d : PyDatetime)
| PSet (items : list PyValue)          (* in iteration order *)
| PDict (items : list (PyKey * PyValue))
| PList (items : list PyValue)
| PTuple (items : list PyValue)
| POpaque.                             (* functions, handles, ... *)

Section Toon.

Context {rt : PyRuntime}.

(** The value of a finite float [m * 2^e] when it is an integer. *)
Definition finite_integer (m : positive) (e : Z) : option Z :=
  if 0 <=? e then Some (Zpos m * 2 ^ e)
  else if (Zpos m) mod (2 ^ (- e)) =? 0 then Some (Zpos m / 2 ^ (- e))
  else None.

(** [str(x)] for a float. *)
Definition float_str (f : PyFloat) : string :=
  match f with
  | S754_nan => "nan"
  | S754_infinity s => if s then "-inf" else "inf"
  | S754_zero s => if s then "-0.0" else "0.0"
  | S754_finite s m e =>
      match finite_integer m e with
      | Some n =>
          if n <? 10 ^ 16
          then (if s then "-" else "") ++ PyStr.of_int n ++ ".0"
          else float_repr f
      | None => float_repr f
      end
  end.

Definition float_is_nan (f : PyFloat) : bool :=
  match f with S754_nan => true | _ => false end.

Definition float_is_inf (f : PyFloat) : bool :=
  match f with S754_infinity _ => true | _ => false end.

(** [value == 0] for a float. *)
Definition float_is_zero (f : PyFloat) : bool :=
  match f with S754_zero _ => true | _ => false end.

(** [str(key)]. *)
Definition key_str (k : PyKey) : string :=
  match k with
  | KStr s => s
  | KInt z => PyStr.of_int z
  | KBool b => if b then "True" else "False"
  | KNone => "None"
  | KFloat f => float_str f
  | KOpaque text => text
  end.

(* ================================================================== *)
(** * normalize.py *)

(** The branch commented [BigInt handling] in the source.  It comes
    after the test [isinstance(value, (int, float))], which returns
    every int, so [normalize_value] never takes it. *)
Definition bigint_branch (z : Z) : JsonValue :=
  if (- 2 ^ 53 <=? z) && (z <=? 2 ^ 53) then JInt z
  else JStr (PyStr.of_int z).

Fixpoint normalize_value (value : PyValue) : JsonValue :=
  match value with
  | PNone => JNull
  | PBool b => JBool b
  | PDecimal d =>
      match d with
      | DecNaN => JNull
      | DecInfinity _ => JNull
      | DecFinite _ _ _ => JFloat (float_of_decimal d)
      end
  | PInt z => JInt z   (* isinstance(value, (int, float)): returned as it is *)
  | PFloat f =>
      if float_is_nan f || float_is_inf f then JNull
      else if float_is_zero f && String.eqb (float_str f) "-0.0" then JInt 0
      else JFloat f
  | PStr s => JStr s
  | PDatetime d => JStr (isoformat d)
  | PSet items => JArr (map normalize_value items)
  | PDict items =>
      JObj (fold_left
              (fun result_ kv =>
                 match kv with
                 | (key, val) => dict_set (key_str key) (normalize_value val) result_
                 end)
              items [])
  | PList items => JArr (map normalize_value items)
  | PTuple items => JArr (map normalize_value items)
  | POpaque => JNull
  end.

Definition is_json_primitive (value : JsonValue) : bool :=
  match value with
  | JNull | JBool _ | JInt _ | JFloat _ | JStr _ => true
  | JArr _ | JObj _ => false
  end.

Definition is_json_object (value : JsonValue) : bool :=
  match value with JObj _ => true | _ => false end.

Definition is_json_array (value : JsonValue) : bool :=
  match value with JArr _ => true | _ => false end.

Definition is_array_of_primitives (value : JsonValue) : bool :=
  match value with
  | JArr items => forallb is_json_primitive items
  | _ => false
  end.

Definition is_array_of_objects (value : JsonValue) : bool :=
  match value with
  | JArr [] => false
  | JArr items => forallb is_json_object items
  | _ => false
  end.

Definition is_array_of_arrays (value : JsonValue) : bool :=
  match value with
  | JArr [] => false
  | JArr items => forallb is_json_array items
  | _ => false
  end.

(* ================================================================== *)
(** * primitives.py *)

Definition escape_string (value : string) : string :=
  fold_left (fun escaped cr => PyStr.replace (fst cr) (snd cr) escaped)
            ESCAPE_SEQUENCES value.

(** Leading run of decimal digits removed. *)
Fixpoint skip_digits (s : string) : string :=
  match s with
  | EmptyString => EmptyString
  | String c r => if PyStr.is_digit c then skip_digits r else s
  end.

(** [\d+] at the head of [s]: the rest after the longest run, if any. *)
Definition digits1 (s : string) : option string :=
  match s with
  | String c r => if PyStr.is_digit c then Some (skip_digits r) else None
  | EmptyString => None
  end.

Definition is_sign (c : ascii) : bool :=
  Ascii.eqb c "+" || Ascii.eqb c "-".

Definition is_exp_mark (c : ascii) : bool :=
  Ascii.eqb c "e" || Ascii.eqb c "E".

(** [(?:e[+-]?\d+)?] followed by the end of the string. *)
Definition match_exponent_tail (s : string) : bool :=
  match s with
  | EmptyString => true
  | String c r =>
      if is_exp_mark c then
        let r' := match r with
                  | String sg r2 => if is_sign sg then r2 else r
                  | EmptyString => r
                  end in
        match digits1 r' with
        | Some EmptyString => true
        | _ => false
        end
      else false
  end.

(** [(?:\.\d+)?(?:e[+-]?\d+)?] followed by the end of the string. *)
Definition match_fraction_tail (s : string) : bool :=
  match s with
  | String "." r =>
      match digits1 r with
      | Some r' => match_exponent_tail r'
      | None => false
      end
  | _ => match_exponent_tail s
  end.

(** [re.fullmatch(r'-?\d+(?:\.\d+)?(?:e[+-]?\d+)?', value, re.IGNORECASE)]. *)
Definition match_number_regex (value : string) : bool :=
  let body := match value with
              | String "-" r => r
              | _ => value
              end in
  match digits1 body with
  | Some rest => match_fraction_tail rest
  | None => false
  end.

(** [re.fullmatch(r'0\d+', value)]. *)
Definition match_leading_zero_regex (value : string) : bool :=
  match value with
  | String "0" r =>
      match digits1 r with
      | Some EmptyString => true
      | _ => false
      end
  | _ => false
  end.

Definition is_numeric_like (value : string) : bool :=
  match_number_regex value || match_leading_zero_regex value.

Definition is_safe_unquoted (value : string) (delimiter : Delimiter) : bool :=
  if String.eqb value "" then false
  else if negb (String.eqb value (PyStr.strip value)) then false
  else if String.eqb value TRUE_LITERAL || String.eqb value FALSE_LITERAL
          || String.eqb value NULL_LITERAL then false
  else if is_numeric_like value then false
  else if PyStr.contains ":" value || PyStr.contains DOUBLE_QUOTE value
          || PyStr.contains BACKSLASH value then false
  else if PyStr.contains "[" value || PyStr.contains "]" value
          || PyStr.contains "{" value || PyStr.contains "}" value then false
  else if PyStr.contains NEWLINE value || PyStr.contains CARRIAGE_RETURN value
          || PyStr.contains TAB value then false
  else if (if Ascii.eqb delimiter "|" then false
           else PyStr.contains delimiter value || PyStr.contains "|" value)
       then false
  else if PyStr.startswith value LIST_ITEM_MARKER then false
  else true.

Definition quoted (body : string) : string :=
  String DOUBLE_QUOTE (body ++ str1 DOUBLE_QUOTE).

Definition encode_string_literal (value : string) (delimiter : Delimiter) : string :=
  if is_safe_unquoted value delimiter then value
  else quoted (escape_string value).

(** [encode_primitive]; a list or dict falls through to
    [encode_string_literal], whose string methods it does not have. *)
Definition encode_primitive (value : JsonValue) (delimiter : Delimiter)
  : result string :=
  match value with
  | JNull => Ok NULL_LITERAL
  | JBool b => Ok (if b then TRUE_LITERAL else FALSE_LITERAL)
  | JInt z => Ok (PyStr.of_int z)
  | JFloat f => Ok (float_str f)
  | JStr s => Ok (encode_string_literal s delimiter)
  | JArr _ | JObj _ => Raise AttributeError
  end.

(** [re.fullmatch(r'[A-Za-z_][\w.]*', key)]. *)
Definition match_key_regex (key : string) : bool :=
  match key with
  | String c r =>
      (PyStr.is_ascii_alpha c || Ascii.eqb c "_")
      && PyStr.all_chars (fun a => PyStr.is_word a || Ascii.eqb a ".") r
  | EmptyString => false
  end.

Definition encode_key (key : string) : string :=
  if match_key_regex key then key
  else quoted (escape_string key).

Definition encode_and_join_primitives (values : list JsonValue)
  (delimiter : Delimiter) : result string :=
  let* encoded := mapM (fun value => encode_primitive value delimiter) values in
  Ok (PyStr.join (str1 delimiter) encoded).

Definition format_header (length : Z) (key : option string)
  (fields : option (list string)) (delimiter : Delimiter)
  (length_marker : bool) : string :=
  let header := match key with
                | Some k => encode_key k
                | None => EmptyString
                end in
  let marker := if length_marker then "#" else "" in
  let suffix := if Ascii.eqb delimiter DEFAULT_DELIMITER then ""
                else str1 delimiter in
  let header := header ++ "[" ++ marker ++ PyStr.of_int length ++ suffix ++ "]" in
  let header :=
    match fields with
    | Some (f :: fs) =>
        header ++ "{" ++ PyStr.join (str1 delimiter) (map encode_key (f :: fs)) ++ "}"
    | _ => header
    end in
  header ++ ":".

(* ================================================================== *)
(** * writer.py *)

Record LineWriter : Type := {
  indent_size : Z;
  lines : list string
}.

Definition new_writer (indent_size : Z) : LineWriter :=
  {| indent_size := indent_size; lines := [] |}.

Definition push (writer : LineWriter) (depth : Depth) (content : string)
  : LineWriter :=
  let content := PyStr.rstrip content in
  let indent_depth :=
    if (0 <? depth)
       && (PyStr.startswith content LIST_ITEM_PREFIX
           || String.eqb content LIST_ITEM_MARKER)
    then Z.max 0 (depth - 1)
    else depth in
  let indent := PyStr.spaces (Z.to_nat (indent_depth * indent_size writer)) in
  {| indent_size := indent_size writer;
     lines := lines writer ++ [indent ++ content] |}.

Definition to_string (writer : LineWriter) : string :=
  PyStr.join (str1 NEWLINE) (lines writer).

(* ================================================================== *)
(** * encoders.py *)

Definition array_items (value : JsonValue) : list JsonValue :=
  match value with JArr items => items | _ => [] end.

Definition encode_inline_array_line (values : list JsonValue)
  (delimiter : Delimiter) (prefix : option string) (length_marker : bool)
  : result string :=
  let header := format_header (Z.of_nat (length values)) prefix None
                              delimiter length_marker in
  match values with
  | [] => Ok header
  | _ =>
      let* joined := encode_and_join_primitives values delimiter in
      let separator := if Ascii.eqb delimiter TAB then str1 TAB else " " in
      Ok (header ++ separator ++ joined)
  end.

Definition encode_inline_primitive_array (prefix : option string)
  (values : list JsonValue) (writer : LineWriter) (depth : Depth)
  (options : ResolvedEncodeOptions) : result LineWriter :=
  let* line := encode_inline_array_line values (enc_delimiter options) prefix
                                        (enc_lengthMarker options) in
  Ok (push writer depth line).

Definition encode_array_of_arrays_as_list_items (prefix : option string)
  (values : list JsonValue) (writer : LineWriter) (depth : Depth)
  (options : ResolvedEncodeOptions) : result LineWriter :=
  let header := format_header (Z.of_nat (length values)) prefix None
                              (enc_delimiter options) (enc_lengthMarker options) in
  let writer := push writer depth header in
  foldM
    (fun w arr =>
       if is_array_of_primitives arr then
         let* inline := encode_inline_array_line (array_items arr)
                          (enc_delimiter options) None (enc_lengthMarker options) in
         Ok (push w (depth + 1) (LIST_ITEM_PREFIX ++ inline))
       else Ok w)
    values writer.

(** [is_tabular_array]: every row is a dict with as many keys as the
    header, holding a primitive under each header key. *)
Definition is_tabular_row (header : list string) (row : JsonValue) : bool :=
  match row with
  | JObj members =>
      Nat.eqb (length (dict_keys members)) (length header)
      && forallb (fun key =>
                    match dict_get key members with
                    | Some v => is_json_primitive v
                    | None => false
                    end)
                 header
  | _ => false
  end.

Definition is_tabular_array (rows : list JsonValue) (header : list string) : bool :=
  forallb (is_tabular_row header) rows.

Definition extract_tabular_header (rows : list JsonValue) : option (list string) :=
  match rows with
  | [] => None
  | first_row :: _ =>
      match first_row with
      | JObj members =>
          let header := dict_keys members in
          match header with
          | [] => None
          | _ => if is_tabular_array rows header then Some header else None
          end
      | _ => None
      end
  end.

(** [values = [row[key] for key in header]]. *)
Definition row_values (members : JsonObject) (header : list string)
  : result (list JsonValue) :=
  mapM (fun key =>
          match dict_get key members with
          | Some v => Ok v
          | None => Raise (KeyError key)
          end)
       header.

Definition write_tabular_rows (rows : list JsonValue) (header : list string)
  (writer : LineWriter) (depth : Depth) (options : ResolvedEncodeOptions)
  : result LineWriter :=
  foldM (fun w row =>
           match row with
           | JObj members =>
               let* values := row_values members header in
               let* joined :=
                 encode_and_join_primitives values (enc_delimiter options) in
               Ok (push w depth joined)
           | _ => Ok w
           end)
        rows writer.

Definition encode_array_of_objects_as_tabular (prefix : option string)
  (rows : list JsonValue) (header : list string) (writer : LineWriter)
  (depth : Depth) (options : ResolvedEncodeOptions) : result LineWriter :=
  let header_line := format_header (Z.of_nat (length rows)) prefix (Some header)
                       (enc_delimiter options) (enc_lengthMarker options) in
  write_tabular_rows rows header (push writer depth header_line) (depth + 1) options.

(** The representation [encode_array] selects, in the order of its tests. *)
Inductive ArrayForm : Type :=
| FormEmpty
| FormInline
| FormArrayOfArrays
| FormTabular (header : list string)
| FormListItems.

Definition select_array_form (value : list JsonValue) : ArrayForm :=
  if Nat.eqb (length value) 0 then FormEmpty
  else if is_array_of_primitives (JArr value) then FormInline
  else if is_array_of_arrays (JArr value)
          && forallb is_array_of_primitives value then FormArrayOfArrays
  else if is_array_of_objects (JArr value) then
    match extract_tabular_header value with
    | Some header => FormTabular header
    | None => FormListItems
    end
  else FormListItems.

(** The list-item line of a primitive-only nested array. *)
(** [writer.push(depth, f'{LIST_ITEM_PREFIX}{inline}')] for a
    primitive-only nested array. *)
Definition push_list_item_inline (writer : LineWriter) (depth : Depth)
  (item : JsonValue) (options : ResolvedEncodeOptions) : result LineWriter :=
  let* inline := encode_inline_array_line (array_items item)
                   (enc_delimiter options) None (enc_lengthMarker options) in
  Ok (push writer depth (LIST_ITEM_PREFIX ++ inline)).

(** [writer.push(depth, f'{LIST_ITEM_PREFIX}{encode_primitive(item, ..)}')]. *)
Definition push_list_item_primitive (writer : LineWriter) (depth : Depth)
  (item : JsonValue) (options : ResolvedEncodeOptions) : result LineWriter :=
  let* encoded := encode_primitive item (enc_delimiter options) in
  Ok (push writer depth (LIST_ITEM_PREFIX ++ encoded)).

Fixpoint encode_object (fuel : nat) (value : JsonObject) (writer : LineWriter)
  (depth : Depth) (options : ResolvedEncodeOptions) {struct fuel}
  : result LineWriter :=
  match fuel with
  | O => OutOfFuel
  | S fuel' =>
      foldM (fun w km =>
               encode_key_value_pair fuel' (fst km) (snd km) w depth options)
            value writer
  end

with encode_key_value_pair (fuel : nat) (key : string) (value : JsonValue)
  (writer : LineWriter) (depth : Depth) (options : ResolvedEncodeOptions)
  {struct fuel} : result LineWriter :=
  match fuel with
  | O => OutOfFuel
  | S fuel' =>
      let encoded_key := encode_key key in
      match value with
      | JArr items => encode_array fuel' (Some key) items writer depth options
      | JObj members =>
          match dict_keys members with
          | [] => Ok (push writer depth (encoded_key ++ ":"))
          | _ =>
              encode_object fuel' members
                            (push writer depth (encoded_key ++ ":"))
                            (depth + 1) options
          end
      | _ =>
          let* encoded := encode_primitive value (enc_delimiter options) in
          Ok (push writer depth (encoded_key ++ ": " ++ encoded))
      end
  end

with encode_array (fuel : nat) (key : option string) (value : list JsonValue)
  (writer : LineWriter) (depth : Depth) (options : ResolvedEncodeOptions)
  {struct fuel} : result LineWriter :=
  match fuel with
  | O => OutOfFuel
  | S fuel' =>
      match select_array_form value with
      | FormEmpty =>
          Ok (push writer depth
                   (format_header 0 key None (enc_delimiter options)
                                  (enc_lengthMarker options)))
      | FormInline =>
          encode_inline_primitive_array key value writer depth options
      | FormArrayOfArrays =>
          encode_array_of_arrays_as_list_items key value writer depth options
      | FormTabular header =>
          encode_array_of_objects_as_tabular key value header writer depth options
      | FormListItems =>
          encode_mixed_array_as_list_items fuel' key value writer depth options
      end
  end

with encode_mixed_array_as_list_items (fuel : nat) (prefix : option string)
  (values : list JsonValue) (writer : LineWriter) (depth : Depth)
  (options : ResolvedEncodeOptions) {struct fuel} : result LineWriter :=
  match fuel with
  | O => OutOfFuel
  | S fuel' =>
      let header := format_header (Z.of_nat (length values)) prefix None
                      (enc_delimiter options) (enc_lengthMarker options) in
      foldM (fun w item =>
               match item with
               | JArr items =>
                   if is_array_of_primitives item
                   then push_list_item_inline w (depth + 1) item options
                   else encode_array fuel' None items w (depth + 1) options
               | JObj members =>
                   encode_object_as_list_item fuel' members w (depth + 1) options
               | _ => push_list_item_primitive w (depth + 1) item options
               end)
            values (push writer depth header)
  end

with encode_object_as_list_item (fuel : nat) (obj : JsonObject)
  (writer : LineWriter) (depth : Depth) (options : ResolvedEncodeOptions)
  {struct fuel} : result LineWriter :=
  match fuel with
  | O => OutOfFuel
  | S fuel' =>
      match dict_keys obj with
      | [] => Ok (push writer depth LIST_ITEM_MARKER)
      | first_key :: extra_keys =>
          let* first_value :=
            match dict_get first_key obj with
            | Some v => Ok v
            | None => Raise (KeyError first_key)
            end in
          let encoded_first_key := encode_key first_key in
          let bare_header :=
            LIST_ITEM_PREFIX ++ encoded_first_key ++ "["
            ++ PyStr.of_int (Z.of_nat (length (array_items first_value))) ++ "]:" in
          let* writer :=
            match first_value with
            | JArr items =>
                if is_array_of_primitives first_value then
                  let* inline :=
                    encode_inline_array_line items (enc_delimiter options)
                      (Some first_key) (enc_lengthMarker options) in
                  Ok (push writer depth (LIST_ITEM_PREFIX ++ inline))
                else if is_array_of_objects first_value then
                  match extract_tabular_header items with
                  | Some header =>
                      let header_line :=
                        format_header (Z.of_nat (length items)) (Some first_key)
                          (Some header) (enc_delimiter options)
                          (enc_lengthMarker options) in
                      write_tabular_rows items header
                        (push writer depth (LIST_ITEM_PREFIX ++ header_line))
                        (depth + 1) options
                  | None =>
                      foldM (fun w nested =>
                               match nested with
                               | JObj members =>
                                   encode_object_as_list_item fuel' members w
                                                              (depth + 1) options
                               | JArr _ =>
                                   if is_array_of_primitives nested
                                   then push_list_item_inline w (depth + 1) nested
                                                              options
                                   else Ok w
                               | _ =>
                                   push_list_item_primitive w (depth + 1) nested
                                                            options
                               end)
                            items (push writer depth bare_header)
                  end
                else
                  foldM (fun w nested =>
                           match nested with
                           | JArr _ =>
                               if is_array_of_primitives nested
                               then push_list_item_inline w (depth + 1) nested
                                                          options
                               else Ok w
                           | JObj members =>
                               encode_object_as_list_item fuel' members w
                                                          (depth + 1) options
                           | _ =>
                               push_list_item_primitive w (depth + 1) nested
                                                        options
                           end)
                        items (push writer depth bare_header)
            | JObj members =>
                match dict_keys members with
                | [] =>
                    Ok (push writer depth
                             (LIST_ITEM_PREFIX ++ encoded_first_key ++ ":"))
                | _ =>
                    encode_object fuel' members
                      (push writer depth
                            (LIST_ITEM_PREFIX ++ encoded_first_key ++ ":"))
                      (depth + 2) options
                end
            | _ =>
                let* encoded :=
                  encode_primitive first_value (enc_delimiter options) in
                Ok (push writer depth
                         (LIST_ITEM_PREFIX ++ encoded_first_key ++ ": " ++ encoded))
            end in
          foldM (fun w extra_key =>
                   let* member :=
                     match dict_get extra_key obj with
                     | Some v => Ok v
                     | None => Raise (KeyError extra_key)
                     end in
                   encode_key_value_pair fuel' extra_key member w (depth + 1) options)
                extra_keys writer
      end
  end.

(** Number of constructors of a value: a bound on the encoder's call depth. *)
Fixpoint json_size (value : JsonValue) : nat :=
  match value with
  | JArr items => S (fold_right (fun item n => (json_size item + n)%nat) O items)
  | JObj members =>
      S (fold_right (fun km n => (json_size (snd km) + n)%nat) O members)
  | _ => 1%nat
  end.

Definition encode_fuel (value : JsonValue) : nat := (2 * json_size value + 2)%nat.

Definition encode_value_with (fuel : nat) (value : JsonValue)
  (options : ResolvedEncodeOptions) : result string :=
  if is_json_primitive value then
    encode_primitive value (enc_delimiter options)
  else
    let writer := new_writer (enc_indent options) in
    let* writer :=
      match value with
      | JArr items => encode_array fuel None items writer 0 options
      | JObj members => encode_object fuel members writer 0 options
      | _ => Ok writer
      end in
    Ok (to_string writer).

Definition encode_value (value : JsonValue) (options : ResolvedEncodeOptions)
  : result string :=
  encode_value_with (encode_fuel value) value options.

(* ================================================================== *)
(** * encoder.py *)

(** [_normalise_delimiter]. *)
Definition _normalise_delimiter (value : string) : result Delimiter :=
  let lowered := PyStr.lower value in
  if String.eqb lowered "comma" then Ok COMMA
  else if String.eqb lowered "tab" then Ok TAB
  else if String.eqb lowered "pipe" then Ok PIPE
  else if String.eqb value (str1 COMMA) then Ok COMMA
  else if String.eqb value (str1 TAB) then Ok TAB
  else if String.eqb value (str1 PIPE) then Ok PIPE
  else Raise (UnsupportedDelimiter value).

(** [_normalise_length_marker]: [true] is the marker ['#']. *)
Definition _normalise_length_marker (value : LengthMarkerValue) : result bool :=
  match value with
  | LMBool false | LMNone => Ok false
  | LMBool true => Ok true
  | LMStr s => if String.eqb s "#" then Ok true else Raise UnsupportedLengthMarker
  end.

Definition resolve_encode_options (options : EncodeOptions)
  : result ResolvedEncodeOptions :=
  let indent := match opt_indent options with Some n => n | None => 2 end in
  let* delimiter :=
    match opt_delimiter options with
    | Some value => _normalise_delimiter value
    | None => Ok DEFAULT_DELIMITER
    end in
  let* length_marker :=
    match opt_length_marker options with
    | Some value => _normalise_length_marker value
    | None => Ok false
    end in
  Ok {| enc_indent := indent;
        enc_delimiter := delimiter;
        enc_lengthMarker := length_marker |}.

(** The empty options dict. *)
Definition no_encode_options : EncodeOptions :=
  {| opt_indent := None; opt_delimiter := None; opt_length_marker := None |}.

(** [resolve_encode_options({})]. *)
Definition default_encode_options : ResolvedEncodeOptions :=
  {| enc_indent := 2; enc_delimiter := DEFAULT_DELIMITER; enc_lengthMarker := false |}.

Definition encode (input_value : PyValue) (options : EncodeOptions)
  : result string :=
  let normalized := normalize_value input_value in
  let* resolved := resolve_encode_options options in
  encode_value normalized resolved.

(* ================================================================== *)
(** * scanner.py *)

Definition parse_line (indent_size : Z) (raw_line : string) : result ParsedLine :=
  let indent := PyStr.len raw_line - PyStr.len (PyStr.lstrip raw_line) in
  if indent_size =? 0 then Raise ZeroDivisionError
  else
    Ok {| ln_raw := raw_line;
          ln_depth := indent / indent_size;
          ln_indent := indent;
          ln_content := PyStr.lstrip raw_line |}.

Definition to_parsed_lines (input_text : string) (indent_size : Z)
  : result (list ParsedLine) :=
  mapM (parse_line indent_size)
       (filter (fun raw_line => negb (String.eqb (PyStr.strip raw_line) ""))
               (PyStr.split NEWLINE input_text)).

Record LineCursor : Type := {
  cur_lines : list ParsedLine;
  cur_index : nat
}.

Definition new_cursor (lines : list ParsedLine) : LineCursor :=
  {| cur_lines := lines; cur_index := O |}.

Definition peek (cursor : LineCursor) : option ParsedLine :=
  nth_error (cur_lines cursor) (cur_index cursor).

Definition advance (cursor : LineCursor) : LineCursor :=
  match peek cursor with
  | None => cursor
  | Some _ => {| cur_lines := cur_lines cursor; cur_index := S (cur_index cursor) |}
  end.

Definition at_end (cursor : LineCursor) : bool :=
  Nat.leb (length (cur_lines cursor)) (cur_index cursor).

Definition cursor_length (cursor : LineCursor) : nat := length (cur_lines cursor).

(* ================================================================== *)
(** * parser.py *)

(** The [while] loop of [unescape_string]: [value] is the unread suffix
    [value[i:]] and [result_] the text built so far. *)
Fixpoint unescape_loop (value : string) (result_ : string) : result string :=
  match value with
  | EmptyString => Ok result_
  | String char rest =>
      if Ascii.eqb char BACKSLASH then
        match rest with
        | EmptyString => Raise EscapeAtEnd
        | String nxt rest' =>
            if Ascii.eqb nxt "n" then unescape_loop rest' (result_ ++ str1 NEWLINE)
            else if Ascii.eqb nxt "t" then unescape_loop rest' (result_ ++ str1 TAB)
            else if Ascii.eqb nxt "r"
            then unescape_loop rest' (result_ ++ str1 CARRIAGE_RETURN)
            else if Ascii.eqb nxt BACKSLASH
            then unescape_loop rest' (result_ ++ str1 BACKSLASH)
            else if Ascii.eqb nxt DOUBLE_QUOTE
            then unescape_loop rest' (result_ ++ str1 DOUBLE_QUOTE)
            else Raise (InvalidEscape nxt)
        end
      else unescape_loop rest (result_ ++ str1 char)
  end.

Definition unescape_string (value : string) : result string :=
  unescape_loop value EmptyString.

(** The [while] loop of [parse_string_literal] on [trimmed[i:]]. *)
Fixpoint parse_string_literal_loop (unread : string) (content : string)
  : result string :=
  match unread with
  | EmptyString => Raise UnterminatedString
  | String char rest =>
      match rest with
      | String nxt rest' =>
          if Ascii.eqb char BACKSLASH
          then parse_string_literal_loop rest' (content ++ String char (str1 nxt))
          else if Ascii.eqb char DOUBLE_QUOTE then Raise UnexpectedAfterQuote
          else parse_string_literal_loop rest (content ++ str1 char)
      | EmptyString =>
          if Ascii.eqb char DOUBLE_QUOTE then unescape_string content
          else parse_string_literal_loop rest (content ++ str1 char)
      end
  end.

Definition parse_string_literal (token : string) : result string :=
  let trimmed := PyStr.strip token in
  match trimmed with
  | String c rest =>
      if Ascii.eqb c DOUBLE_QUOTE then parse_string_literal_loop rest EmptyString
      else Ok trimmed
  | EmptyString => Ok trimmed
  end.

(** The [while] loop of [parse_delimited_values] on [input_text[i:]]. *)
Fixpoint parse_delimited_loop (unread : string) (delimiter : Delimiter)
  (current : string) (in_quotes : bool) (values : list string) : list string :=
  match unread with
  | EmptyString =>
      if negb (String.eqb current "") || negb (Nat.eqb (length values) 0)
      then values ++ [PyStr.strip current]
      else values
  | String char rest =>
      match rest with
      | String nxt rest' =>
          if Ascii.eqb char BACKSLASH && in_quotes
          then parse_delimited_loop rest' delimiter
                 (current ++ String char (str1 nxt)) in_quotes values
          else if Ascii.eqb char DOUBLE_QUOTE
          then parse_delimited_loop rest delimiter (current ++ str1 char)
                 (negb in_quotes) values
          else if Ascii.eqb char delimiter && negb in_quotes
          then parse_delimited_loop rest delimiter EmptyString in_quotes
                 (values ++ [PyStr.strip current])
          else parse_delimited_loop rest delimiter (current ++ str1 char)
                 in_quotes values
      | EmptyString =>
          if Ascii.eqb char DOUBLE_QUOTE
          then parse_delimited_loop rest delimiter (current ++ str1 char)
                 (negb in_quotes) values
          else if Ascii.eqb char delimiter && negb in_quotes
          then parse_delimited_loop rest delimiter EmptyString in_quotes
                 (values ++ [PyStr.strip current])
          else parse_delimited_loop rest delimiter (current ++ str1 char)
                 in_quotes values
      end
  end.

Definition parse_delimited_values (input_text : string) (delimiter : Delimiter)
  : list string :=
  parse_delimited_loop input_text delimiter EmptyString false [].

(* ------------------------------------------------------------------ *)
(** ** The builtins [float(s)] and [int(s)] on strings *)

(** What [float(s)] makes of an accepted string. *)
Inductive FloatSyntax : Type :=
| SynNaN
| SynInfinity
| SynDecimal.

(** Underscores are accepted between two digits only, and dropped. *)
Fixpoint drop_underscores (s : string) (prev : ascii) : option string :=
  match s with
  | EmptyString => if Ascii.eqb prev "_" then None else Some EmptyString
  | String c r =>
      if Ascii.eqb c "_" then
        if PyStr.is_digit prev then drop_underscores r c else None
      else if Ascii.eqb prev "_" && negb (PyStr.is_digit c) then None
      else
        match drop_underscores r c with
        | Some r' => Some (String c r')
        | None => None
        end
  end.

(** An optional exponent, then the end of the string. *)
Definition float_exponent_tail (s : string) : bool :=
  match s with
  | EmptyString => true
  | String c r =>
      if is_exp_mark c then
        let r' := match r with
                  | String sg r2 => if is_sign sg then r2 else r
                  | EmptyString => r
                  end in
        match digits1 r' with
        | Some EmptyString => true
        | _ => false
        end
      else false
  end.

(** Digits, an optional point and digits, with a digit on one side at
    least, then [float_exponent_tail]. *)
Definition float_decimal (s : string) : bool :=
  let after_int := skip_digits s in
  let has_int := negb (String.eqb after_int s) in
  match after_int with
  | String "." r =>
      let after_frac := skip_digits r in
      let has_frac := negb (String.eqb after_frac r) in
      (has_int || has_frac) && float_exponent_tail after_frac
  | _ => has_int && float_exponent_tail after_int
  end.

(** The text after an optional leading sign. *)
Definition strip_sign (t : string) : string :=
  match t with
  | String c r => if is_sign c then r else t
  | EmptyString => t
  end.

(** The grammar of [float(s)]: surrounding whitespace, a sign, then
    [inf], [infinity] or [nan] in any case, or a decimal literal. *)
Definition float_syntax (s : string) : option FloatSyntax :=
  let t := PyStr.strip s in
  match (if PyStr.contains "_" t then drop_underscores t "000"%char else Some t) with
  | None => None
  | Some t =>
      let body := strip_sign t in
      let low := PyStr.lower body in
      if String.eqb low "inf" || String.eqb low "infinity" then Some SynInfinity
      else if String.eqb low "nan" then Some SynNaN
      else if float_decimal body then Some SynDecimal
      else None
  end.

Fixpoint digits_value (s : string) (acc : Z) : option Z :=
  match s with
  | EmptyString => Some acc
  | String c r =>
      if PyStr.is_digit c then digits_value r (10 * acc + PyStr.digit_value c)
      else None
  end.

(** [int(s)] in base 10. *)
Definition py_int (s : string) : result Z :=
  let t := PyStr.strip s in
  let negative := match t with String "-" _ => true | _ => false end in
  let body := strip_sign t in
  match drop_underscores body "000"%char with
  | Some (String c r) =>
      match digits_value (String c r) 0 with
      | Some n => Ok (if negative then - n else n)
      | None => Raise (InvalidIntLiteral s)
      end
  | _ => Raise (InvalidIntLiteral s)
  end.

(* ------------------------------------------------------------------ *)

Definition is_boolean_or_null_literal (token : string) : bool :=
  String.eqb token TRUE_LITERAL || String.eqb token FALSE_LITERAL
  || String.eqb token NULL_LITERAL.

Definition is_numeric_literal (token : string) : bool :=
  match token with
  | EmptyString => false
  | String c0 rest =>
      if (match rest with
          | String c1 _ => Ascii.eqb c0 "0" && negb (Ascii.eqb c1 ".")
          | EmptyString => false
          end)
      then false
      else
        match float_syntax token with
        | None => false
        | Some SynNaN => false
        | Some _ => true
        end
  end.

Definition has_float_mark (token : string) : bool :=
  PyStr.contains "." token || PyStr.contains "e" token || PyStr.contains "E" token.

Definition parse_primitive_token (token : string) : result JsonValue :=
  let trimmed := PyStr.strip token in
  if String.eqb trimmed "" then Ok (JStr "")
  else if PyStr.startswith trimmed (str1 DOUBLE_QUOTE) then
    let* s := parse_string_literal trimmed in Ok (JStr s)
  else if is_boolean_or_null_literal trimmed then
    if String.eqb trimmed TRUE_LITERAL then Ok (JBool true)
    else if String.eqb trimmed FALSE_LITERAL then Ok (JBool false)
    else Ok JNull
  else if is_numeric_literal trimmed then
    if has_float_mark trimmed then Ok (JFloat (float_of_literal trimmed))
    else let* n := py_int trimmed in Ok (JInt n)
  else Ok (JStr trimmed).

Definition map_row_values_to_primitives (values : list string)
  : result (list JsonValue) :=
  mapM parse_primitive_token values.

Definition parse_fields_segment (segment : string) (delimiter : Delimiter)
  : result (list string) :=
  mapM (fun field => parse_string_literal (PyStr.strip field))
       (parse_delimited_values segment delimiter).

Definition parse_bracket_segment (segment : string) (default_delimiter : Delimiter)
  : result (Z * Delimiter * bool) :=
  let has_length_marker := PyStr.startswith segment (str1 HASH) in
  let content := if has_length_marker then PyStr.from segment 1 else segment in
  let delimiter :=
    if PyStr.endswith content (str1 TAB) then TAB
    else if PyStr.endswith content (str1 PIPE) then PIPE
    else default_delimiter in
  let content :=
    if PyStr.endswith content (str1 TAB) || PyStr.endswith content (str1 PIPE)
    then PyStr.drop_last content else content in
  if String.eqb content "" || negb (PyStr.all_chars PyStr.is_unicode_digit content)
  then Raise (InvalidArrayLength segment)
  else
    match digits_value content 0 with
    | Some length => Ok (length, delimiter, has_length_marker)
    | None => Raise (InvalidIntLiteral content)
    end.

Definition nonempty_or_none (s : string) : option string :=
  if String.eqb s "" then None else Some s.

Definition parse_array_header_line (content : string) (default_delimiter : Delimiter)
  : result (option (ArrayHeaderInfo * option string)) :=
  if PyStr.startswith (PyStr.lstrip content) (str1 DOUBLE_QUOTE) then Ok None
  else
    let bracket_start := PyStr.find OPEN_BRACKET content 0 in
    if bracket_start =? -1 then Ok None
    else
      let bracket_end := PyStr.find CLOSE_BRACKET content bracket_start in
      if bracket_end =? -1 then Ok None
      else
        let brace_start := PyStr.find OPEN_BRACE content bracket_end in
        let brace_end :=
          if negb (brace_start =? -1) then
            let colon_after_bracket := PyStr.find COLON content bracket_end in
            if negb (colon_after_bracket =? -1) && (brace_start <? colon_after_bracket)
            then
              let found_brace_end := PyStr.find CLOSE_BRACE content brace_start in
              if negb (found_brace_end =? -1) then found_brace_end + 1
              else bracket_end + 1
            else bracket_end + 1
          else bracket_end + 1 in
        let colon_index := PyStr.find COLON content (Z.max bracket_end brace_end) in
        if colon_index =? -1 then Ok None
        else
          let key_segment :=
            nonempty_or_none (PyStr.strip (PyStr.upto content bracket_start)) in
          let after_colon := PyStr.strip (PyStr.from content (colon_index + 1)) in
          let bracket_content := PyStr.slice content (bracket_start + 1) bracket_end in
          match parse_bracket_segment bracket_content default_delimiter with
          | Raise _ => Ok None
          | OutOfFuel => OutOfFuel
          | Ok (length, delimiter, has_length_marker) =>
              let* fields :=
                if negb (brace_start =? -1) && (brace_start <? colon_index) then
                  let found_brace_end := PyStr.find CLOSE_BRACE content brace_start in
                  if negb (found_brace_end =? -1) && (found_brace_end <? colon_index)
                  then
                    let fields_segment :=
                      PyStr.slice content (brace_start + 1) found_brace_end in
                    let* fs := parse_fields_segment fields_segment delimiter in
                    Ok (Some fs)
                  else Ok None
                else Ok None in
              let* key :=
                match key_segment with
                | Some ks =>
                    if PyStr.startswith ks (str1 DOUBLE_QUOTE)
                    then let* k := parse_string_literal ks in Ok (Some k)
                    else Ok (Some ks)
                | None => Ok None
                end in
              Ok (Some ({| hdr_key := key;
                           hdr_length := length;
                           hdr_delimiter := delimiter;
                           hdr_fields := fields;
                           hdr_hasLengthMarker := has_length_marker |},
                        nonempty_or_none after_colon))
          end.

Definition parse_unquoted_key (content : string) (start : Z) : result (string * Z) :=
  let end_ := PyStr.find COLON content start in
  if end_ =? -1 then Raise MissingColon
  else Ok (PyStr.strip (PyStr.slice content start end_), end_ + 1).

(** The [while] loop of [parse_quoted_key] on [content[i:]]. *)
Fixpoint parse_quoted_key_loop (unread : string) (i : Z) (key_content : string)
  : result (string * Z) :=
  match unread with
  | EmptyString => Raise UnterminatedQuotedKey
  | String char rest =>
      match rest with
      | String nxt rest' =>
          if Ascii.eqb char BACKSLASH
          then parse_quoted_key_loop rest' (i + 2)
                 (key_content ++ String char (str1 nxt))
          else if Ascii.eqb char DOUBLE_QUOTE then
            if negb (Ascii.eqb nxt COLON) then Raise MissingColon
            else let* parsed := unescape_string key_content in Ok (parsed, i + 2)
          else parse_quoted_key_loop rest (i + 1) (key_content ++ str1 char)
      | EmptyString =>
          if Ascii.eqb char DOUBLE_QUOTE then Raise MissingColon
          else parse_quoted_key_loop rest (i + 1) (key_content ++ str1 char)
      end
  end.

Definition parse_quoted_key (content : string) (start : Z) : result (string * Z) :=
  parse_quoted_key_loop (PyStr.from content (start + 1)) (start + 1) EmptyString.

Definition parse_key_token (content : string) (start : Z) : result (string * Z) :=
  match PyStr.at_ content start with
  | None => Raise MissingKey
  | Some c =>
      if Ascii.eqb c DOUBLE_QUOTE then parse_quoted_key content start
      else parse_unquoted_key content start
  end.

Definition is_array_header_after_hyphen (content : string) : bool :=
  let stripped := PyStr.strip content in
  PyStr.startswith stripped (str1 OPEN_BRACKET) && PyStr.contains COLON stripped.

Definition is_object_first_field_after_hyphen (content : string) : bool :=
  PyStr.contains COLON content.

(* ================================================================== *)
(** * decoders.py *)

Definition assert_expected_count (actual expected : Z) (label : string)
  (options : ResolvedDecodeOptions) : result unit :=
  if dec_strict options && negb (actual =? expected)
  then Raise (CountMismatch expected label actual)
  else Ok tt.

Definition is_root_array_header_line (line : ParsedLine) : bool :=
  is_array_header_after_hyphen (ln_content line).

(** The [while] loop of [is_key_value_line] on [content[i:]]. *)
Fixpoint quoted_key_line_loop (unread : string) : bool :=
  match unread with
  | EmptyString => false
  | String char rest =>
      match rest with
      | String nxt rest' =>
          if Ascii.eqb char BACKSLASH then quoted_key_line_loop rest'
          else if Ascii.eqb char DOUBLE_QUOTE then Ascii.eqb nxt COLON
          else quoted_key_line_loop rest
      | EmptyString =>
          if Ascii.eqb char DOUBLE_QUOTE then false
          else quoted_key_line_loop rest
      end
  end.

Definition is_key_value_line (line : ParsedLine) : bool :=
  let content := ln_content line in
  match content with
  | String c rest =>
      if Ascii.eqb c DOUBLE_QUOTE then quoted_key_line_loop rest
      else PyStr.contains COLON content
  | EmptyString => false
  end.

(** [values[i : i + chunk_size]] joined, for [i] in
    [range(0, len(values), chunk_size)]; [n] bounds the number of chunks. *)
Fixpoint join_chunks (n : nat) (values : list string) (chunk_size : nat)
  (delimiter : Delimiter) : list string :=
  match n with
  | O => []
  | S n' =>
      match values with
      | [] => []
      | _ =>
          PyStr.join (str1 delimiter) (firstn chunk_size values)
          :: join_chunks n' (skipn chunk_size values) chunk_size delimiter
      end
  end.

Definition merge_tail (values : list string) (expected : Z) (delimiter : Delimiter)
  : list string :=
  let head := firstn (Z.to_nat (expected - 1)) values in
  let tail := PyStr.join (str1 delimiter) (skipn (Z.to_nat (expected - 1)) values) in
  head ++ [tail].

Definition _coalesce_inline_values (values : list string) (expected : Z)
  (delimiter : Delimiter) : list string :=
  let n := Z.of_nat (length values) in
  if expected <=? 0 then values
  else if n =? expected then values
  else if n <? expected then values
  else if (n mod expected =? 0) && (1 <? n / expected)
  then join_chunks (length values) values (Z.to_nat (n / expected)) delimiter
  else if (1 <? expected) && (expected <? n)
  then merge_tail values expected delimiter
  else values.

Definition _coalesce_row_values (values : list string) (expected : Z)
  (delimiter : Delimiter) : list string :=
  let n := Z.of_nat (length values) in
  if expected <=? 0 then values
  else if n =? expected then values
  else if expected <? n then merge_tail values expected delimiter
  else values.

Definition decode_inline_primitive_array (header : ArrayHeaderInfo)
  (inline_values : string) (options : ResolvedDecodeOptions)
  : result (list JsonValue) :=
  let values := parse_delimited_values inline_values (hdr_delimiter header) in
  let values := _coalesce_inline_values values (hdr_length header)
                                        (hdr_delimiter header) in
  let* primitives := map_row_values_to_primitives values in
  let* _ := assert_expected_count (Z.of_nat (length primitives)) (hdr_length header)
                                  "inline array items" options in
  Ok primitives.

Definition header_fields (header : ArrayHeaderInfo) : list string :=
  match hdr_fields header with
  | Some fields => fields
  | None => []
  end.

(** [for idx, field in enumerate(fields): obj[field] = primitives[idx]]. *)
Fixpoint fill_row (fields : list string) (idx : nat) (primitives : list JsonValue)
  (obj : JsonObject) : result JsonObject :=
  match fields with
  | [] => Ok obj
  | field :: rest =>
      match nth_error primitives idx with
      | Some v => fill_row rest (S idx) primitives (dict_set field v obj)
      | None => Raise IndexError
      end
  end.

(** The strict-mode look at the line after the last row. *)
Definition check_no_more_rows (header : ArrayHeaderInfo) (cursor : LineCursor)
  (row_depth : Depth) (options : ResolvedDecodeOptions) : result unit :=
  if dec_strict options && negb (at_end cursor) then
    match peek cursor with
    | Some next_line =>
        if (ln_depth next_line =? row_depth)
           && negb (PyStr.startswith (ln_content next_line) LIST_ITEM_PREFIX)
        then
          let has_colon := PyStr.contains COLON (ln_content next_line) in
          let has_delimiter :=
            PyStr.contains (hdr_delimiter header) (ln_content next_line) in
          if negb has_colon then Raise (FoundMore (hdr_length header) "tabular rows")
          else if has_delimiter
                  && (PyStr.find (hdr_delimiter header) (ln_content next_line) 0
                      <? PyStr.find COLON (ln_content next_line) 0)
          then Raise (FoundMore (hdr_length header) "tabular rows")
          else Ok tt
        else Ok tt
    | None => Ok tt
    end
  else Ok tt.

Definition finish_tabular_array (header : ArrayHeaderInfo) (objects : list JsonValue)
  (cursor : LineCursor) (row_depth : Depth) (options : ResolvedDecodeOptions)
  : result (list JsonValue * LineCursor) :=
  let* _ := assert_expected_count (Z.of_nat (length objects)) (hdr_length header)
                                  "tabular rows" options in
  let* _ := check_no_more_rows header cursor row_depth options in
  Ok (objects, cursor).

Definition decode_tabular_row (header : ArrayHeaderInfo) (line : ParsedLine)
  (options : ResolvedDecodeOptions) : result JsonValue :=
  let values := parse_delimited_values (ln_content line) (hdr_delimiter header) in
  let values := _coalesce_row_values values
                  (Z.of_nat (length (header_fields header))) (hdr_delimiter header) in
  let* _ := assert_expected_count (Z.of_nat (length values))
              (Z.of_nat (length (header_fields header))) "tabular row values"
              options in
  let* primitives := map_row_values_to_primitives values in
  let* obj := fill_row (header_fields header) O primitives [] in
  Ok (JObj obj).

(** [decode_tabular_array] from the state of its [while] loop. *)
Fixpoint decode_tabular_array_from (fuel : nat) (header : ArrayHeaderInfo)
  (objects : list JsonValue) (cursor : LineCursor) (base_depth : Depth)
  (options : ResolvedDecodeOptions) {struct fuel}
  : result (list JsonValue * LineCursor) :=
  match fuel with
  | O => OutOfFuel
  | S fuel' =>
      let row_depth := base_depth + 1 in
      if negb (at_end cursor) && (Z.of_nat (length objects) <? hdr_length header)
      then
        match peek cursor with
        | None => finish_tabular_array header objects cursor row_depth options
        | Some line =>
            if ln_depth line <? row_depth
            then finish_tabular_array header objects cursor row_depth options
            else if ln_depth line =? row_depth then
              let* obj := decode_tabular_row header line options in
              decode_tabular_array_from fuel' header (objects ++ [obj])
                                        (advance cursor) base_depth options
            else finish_tabular_array header objects cursor row_depth options
        end
      else finish_tabular_array header objects cursor row_depth options
  end.

Definition decode_tabular_array (fuel : nat) (header : ArrayHeaderInfo)
  (cursor : LineCursor) (base_depth : Depth) (options : ResolvedDecodeOptions)
  : result (list JsonValue * LineCursor) :=
  decode_tabular_array_from fuel header [] cursor base_depth options.

(** [line.depth in candidate_depths] of [decode_list_array]. *)
Definition in_candidate_depths (item_depth : Depth) (d : Depth) : bool :=
  (d =? item_depth) || ((0 <? item_depth) && (d =? item_depth - 1)).

Definition min_candidate_depth (item_depth : Depth) : Depth :=
  if 0 <? item_depth then Z.min item_depth (item_depth - 1) else item_depth.

(** The strict-mode look at the line after the last list item. *)
Definition check_no_more_items (header : ArrayHeaderInfo) (cursor : LineCursor)
  (item_depth : Depth) (options : ResolvedDecodeOptions) : result unit :=
  if dec_strict options && negb (at_end cursor) then
    match peek cursor with
    | Some next_line =>
        if in_candidate_depths item_depth (ln_depth next_line) then
          if PyStr.startswith (ln_content next_line) LIST_ITEM_PREFIX
          then Raise (FoundMore (hdr_length header) "list array items")
          else if String.eqb (ln_content next_line) LIST_ITEM_MARKER
          then Raise (FoundMore (hdr_length header) "list array items")
          else Ok tt
        else Ok tt
    | None => Ok tt
    end
  else Ok tt.

Definition finish_list_array (header : ArrayHeaderInfo) (items : list JsonValue)
  (cursor : LineCursor) (item_depth : Depth) (options : ResolvedDecodeOptions)
  : result (list JsonValue * LineCursor) :=
  let* _ := assert_expected_count (Z.of_nat (length items)) (hdr_length header)
                                  "list array items" options in
  let* _ := check_no_more_items header cursor item_depth options in
  Ok (items, cursor).

Definition key_is_set (header : ArrayHeaderInfo) : option string :=
  match hdr_key header with
  | Some k => if String.eqb k "" then None else Some k
  | None => None
  end.

Definition has_inline_values (inline_values : option string) : option string :=
  match inline_values with
  | Some text => if String.eqb (PyStr.strip text) "" then None else Some text
  | None => None
  end.

Definition has_fields (header : ArrayHeaderInfo) : bool :=
  match hdr_fields header with
  | Some (_ :: _) => true
  | _ => false
  end.

(** The mutually recursive decoders.  The loops of [decode_object],
    [decode_list_array] and [decode_object_from_list_item] are the
    functions [decode_object_from], [decode_list_array_from] and
    [decode_item_fields_from], started from the loop's initial state;
    [decode_key_value_pair] is [decode_key_value] on the advanced cursor. *)
Fixpoint decode_object_from (fuel : nat) (obj : JsonObject) (cursor : LineCursor)
  (base_depth : Depth) (options : ResolvedDecodeOptions) {struct fuel}
  : result (JsonObject * LineCursor) :=
  match fuel with
  | O => OutOfFuel
  | S fuel' =>
      if at_end cursor then Ok (obj, cursor)
      else
        match peek cursor with
        | None => Ok (obj, cursor)
        | Some line =>
            if ln_depth line <? base_depth then Ok (obj, cursor)
            else if ln_depth line =? base_depth then
              let* (key, value, _, cursor') :=
                decode_key_value fuel' (ln_content line) (advance cursor)
                                 base_depth options in
              decode_object_from fuel' (dict_set key value obj) cursor'
                                 base_depth options
            else Ok (obj, cursor)
        end
  end

with decode_key_value (fuel : nat) (content : string) (cursor : LineCursor)
  (base_depth : Depth) (options : ResolvedDecodeOptions) {struct fuel}
  : result (string * JsonValue * Depth * LineCursor) :=
  match fuel with
  | O => OutOfFuel
  | S fuel' =>
      let* array_header := parse_array_header_line content DEFAULT_DELIMITER in
      match (match array_header with
             | Some (header, inline_values) =>
                 match key_is_set header with
                 | Some key => Some (header, inline_values, key)
                 | None => None
                 end
             | None => None
             end) with
      | Some (header, inline_values, key) =>
          let* (value, cursor') :=
            decode_array_from_header fuel' header inline_values cursor
                                     base_depth options in
          Ok (key, JArr value, base_depth + 1, cursor')
      | None =>
          let* (key, end_) := parse_key_token content 0 in
          let rest := PyStr.strip (PyStr.from content end_) in
          if String.eqb rest "" then
            match peek cursor with
            | Some next_line =>
                if base_depth <? ln_depth next_line then
                  let* (nested, cursor') :=
                    decode_object_from fuel' [] cursor (base_depth + 1) options in
                  Ok (key, JObj nested, base_depth + 1, cursor')
                else Ok (key, JObj [], base_depth + 1, cursor)
            | None => Ok (key, JObj [], base_depth + 1, cursor)
            end
          else
            let* value := parse_primitive_token rest in
            Ok (key, value, base_depth + 1, cursor)
      end
  end

with decode_array_from_header (fuel : nat) (header : ArrayHeaderInfo)
  (inline_values : option string) (cursor : LineCursor) (base_depth : Depth)
  (options : ResolvedDecodeOptions) {struct fuel}
  : result (list JsonValue * LineCursor) :=
  match fuel with
  | O => OutOfFuel
  | S fuel' =>
      match has_inline_values inline_values with
      | Some text =>
          let* items := decode_inline_primitive_array header text options in
          Ok (items, cursor)
      | None =>
          if has_fields header
          then decode_tabular_array fuel' header cursor base_depth options
          else decode_list_array_from fuel' header [] cursor base_depth options
      end
  end

with decode_list_array_from (fuel : nat) (header : ArrayHeaderInfo)
  (items : list JsonValue) (cursor : LineCursor) (base_depth : Depth)
  (options : ResolvedDecodeOptions) {struct fuel}
  : result (list JsonValue * LineCursor) :=
  match fuel with
  | O => OutOfFuel
  | S fuel' =>
      let item_depth := base_depth + 1 in
      if negb (at_end cursor) && (Z.of_nat (length items) <? hdr_length header)
      then
        match peek cursor with
        | None => finish_list_array header items cursor item_depth options
        | Some line =>
            if ln_depth line <? min_candidate_depth item_depth
            then finish_list_array header items cursor item_depth options
            else if in_candidate_depths item_depth (ln_depth line) then
              if String.eqb (ln_content line) LIST_ITEM_MARKER then
                decode_list_array_from fuel' header (items ++ [JObj []])
                                       (advance cursor) base_depth options
              else if PyStr.startswith (ln_content line) LIST_ITEM_PREFIX then
                let* (item, cursor') :=
                  decode_list_item fuel' cursor item_depth (hdr_delimiter header)
                                   options in
                decode_list_array_from fuel' header (items ++ [item]) cursor'
                                       base_depth options
              else
                let* nested_header :=
                  parse_array_header_line (ln_content line) (hdr_delimiter header) in
                match nested_header with
                | Some (nested, inline_values) =>
                    let* (value, cursor') :=
                      decode_array_from_header fuel' nested inline_values
                                               (advance cursor) item_depth options in
                    decode_list_array_from fuel' header (items ++ [JArr value])
                                           cursor' base_depth options
                | None => finish_list_array header items cursor item_depth options
                end
            else finish_list_array header items cursor item_depth options
        end
      else finish_list_array header items cursor item_depth options
  end

with decode_list_item (fuel : nat) (cursor : LineCursor) (base_depth : Depth)
  (active_delimiter : Delimiter) (options : ResolvedDecodeOptions) {struct fuel}
  : result (JsonValue * LineCursor) :=
  match fuel with
  | O => OutOfFuel
  | S fuel' =>
      match peek cursor with
      | None => Raise ExpectedListItem
      | Some line =>
          let cursor := advance cursor in
          if String.eqb (ln_content line) LIST_ITEM_MARKER then Ok (JObj [], cursor)
          else
            let after_hyphen := PyStr.from (ln_content line) 2 in
            if String.eqb (PyStr.strip after_hyphen) "" then Ok (JObj [], cursor)
            else
              let* array_header :=
                if is_array_header_after_hyphen after_hyphen
                then parse_array_header_line after_hyphen active_delimiter
                else Ok None in
              match array_header with
              | Some (header, inline_values) =>
                  let* (value, cursor') :=
                    decode_array_from_header fuel' header inline_values cursor
                                             base_depth options in
                  Ok (JArr value, cursor')
              | None =>
                  if is_object_first_field_after_hyphen after_hyphen then
                    let* (obj, cursor') :=
                      decode_object_from_list_item fuel' line cursor base_depth
                                                   options in
                    Ok (JObj obj, cursor')
                  else
                    let* value := parse_primitive_token after_hyphen in
                    Ok (value, cursor)
              end
      end
  end

with decode_object_from_list_item (fuel : nat) (first_line : ParsedLine)
  (cursor : LineCursor) (base_depth : Depth) (options : ResolvedDecodeOptions)
  {struct fuel} : result (JsonObject * LineCursor) :=
  match fuel with
  | O => OutOfFuel
  | S fuel' =>
      let after_hyphen := PyStr.from (ln_content first_line) 2 in
      let* (key, value, follow_depth, cursor') :=
        decode_key_value fuel' after_hyphen cursor base_depth options in
      decode_item_fields_from fuel' [(key, value)] cursor' follow_depth options
  end

with decode_item_fields_from (fuel : nat) (obj : JsonObject) (cursor : LineCursor)
  (follow_depth : Depth) (options : ResolvedDecodeOptions) {struct fuel}
  : result (JsonObject * LineCursor) :=
  match fuel with
  | O => OutOfFuel
  | S fuel' =>
      if at_end cursor then Ok (obj, cursor)
      else
        match peek cursor with
        | None => Ok (obj, cursor)
        | Some line =>
            if ln_depth line <? follow_depth then Ok (obj, cursor)
            else if (ln_depth line =? follow_depth)
                    && negb (PyStr.startswith (ln_content line) LIST_ITEM_PREFIX)
            then
              let* (k, v, _, cursor') :=
                decode_key_value fuel' (ln_content line) (advance cursor)
                                 follow_depth options in
              decode_item_fields_from fuel' (dict_set k v obj) cursor'
                                      follow_depth options
            else Ok (obj, cursor)
        end
  end.

Definition decode_object (fuel : nat) (cursor : LineCursor) (base_depth : Depth)
  (options : ResolvedDecodeOptions) : result (JsonObject * LineCursor) :=
  decode_object_from fuel [] cursor base_depth options.

Definition decode_value_from_lines (fuel : nat) (cursor : LineCursor)
  (options : ResolvedDecodeOptions) : result JsonValue :=
  match peek cursor with
  | None => Raise NoContent
  | Some first =>
      let* header_info :=
        if is_root_array_header_line first
        then parse_array_header_line (ln_content first) DEFAULT_DELIMITER
        else Ok None in
      match header_info with
      | Some (header, inline_values) =>
          let* (value, _) :=
            decode_array_from_header fuel header inline_values (advance cursor)
                                     0 options in
          Ok (JArr value)
      | None =>
          if Nat.eqb (cursor_length cursor) 1 && negb (is_key_value_line first)
          then parse_primitive_token (PyStr.strip (ln_content first))
          else
            let* (obj, _) := decode_object fuel cursor 0 options in
            Ok (JObj obj)
      end
  end.

(* ================================================================== *)
(** * decoder.py *)

Definition resolve_decode_options (options : DecodeOptions)
  : ResolvedDecodeOptions :=
  {| dec_indent := match opt_dec_indent options with Some n => n | None => 2 end;
     dec_strict := match opt_strict options with Some b => b | None => true end |}.

(** The empty options dict. *)
Definition no_decode_options : DecodeOptions :=
  {| opt_dec_indent := None; opt_strict := None |}.

(** The decoders consume a line at least every fifth call. *)
Definition decode_fuel (lines : list ParsedLine) : nat :=
  (5 * length lines + 3)%nat.

(** [decode] with the depth of the decoders' recursion bounded by
    [fuel]. *)
Definition decode_with (fuel : nat) (input_text : string)
  (options : DecodeOptions) : result JsonValue :=
  if String.eqb input_text "" || String.eqb (PyStr.strip input_text) ""
  then Ok (JObj [])
  else
    let resolved := resolve_decode_options options in
    let* lines := to_parsed_lines input_text (dec_indent resolved) in
    if Nat.eqb (length lines) 0 then Ok (JObj [])
    else decode_value_from_lines fuel (new_cursor lines) resolved.

Definition decode (input_text : string) (options : DecodeOptions)
  : result JsonValue :=
  if String.eqb input_text "" || String.eqb (PyStr.strip input_text) ""
  then Ok (JObj [])
  else
    let resolved := resolve_decode_options options in
    let* lines := to_parsed_lines input_text (dec_indent resolved) in
    if Nat.eqb (length lines) 0 then Ok (JObj [])
    else decode_value_from_lines (decode_fuel lines) (new_cursor lines) resolved.

(* ================================================================== *)
(** * Vocabulary of the properties *)










(** A token that starts with [0] followed by anything but a point. *)
Definition has_leading_zero (token : string) : bool :=
  match token with
  | String c0 (String c1 _) => Ascii.eqb c0 "0" && negb (Ascii.eqb c1 ".")
  | _ => false
  end.

(** A line at depth [d] of the form [key: token] with a primitive token:
    no array header, a key up to the colon, a non-empty rest. *)
Definition binds_primitive (d : Depth) (line : ParsedLine)
  (binding : string * JsonValue) : Prop :=
  ln_depth line = d
  /\ parse_array_header_line (ln_content line) DEFAULT_DELIMITER = Ok None
  /\ exists end_,
       parse_key_token (ln_content line) 0 = Ok (fst binding, end_)
       /\ PyStr.strip (PyStr.from (ln_content line) end_) <> ""
       /\ parse_primitive_token (PyStr.strip (PyStr.from (ln_content line) end_))
          = Ok (snd binding).


Definition strict_options : DecodeOptions :=
  {| opt_dec_indent := None; opt_strict := Some true |}.

Definition lax_options : DecodeOptions :=
  {| opt_dec_indent := None; opt_strict := Some false |}.

(** An array holding one object whose first field is itself a
    non-empty object: [[{"a": {"c": 1}}]]. *)
Definition nested_first_field : JsonValue :=
  JArr [JObj [("a", JObj [("c", JInt 1)])]].

Definition nested_first_field_text : string :=
  "[1]:
- a:
      c: 1".

(** The dict built by assigning the bindings in order. *)
Definition assign_all (bindings : list (string * JsonValue)) (obj : JsonObject)
  : JsonObject :=
  fold_left (fun o kv => dict_set (fst kv) (snd kv) o) bindings obj.



Definition items_size (items : list JsonValue) : nat :=
  fold_right (fun item n => (json_size item + n)%nat) O items.

Definition members_size (members : JsonObject) : nat :=
  fold_right (fun km n => (json_size (snd km) + n)%nat) O members.

(** The run returns a value: it neither raises nor runs out of fuel. *)
Definition succeeds {A : Type} (r : result A) : Prop :=
  exists a, r = Ok a.

(** The characters a numeric literal is made of. *)
Definition is_number_char (c : ascii) : bool :=
  PyStr.is_digit c || is_sign c || is_exp_mark c || Ascii.eqb c ".".




(** The body of a token that matches the number regex: the token
    without its leading minus sign. *)
Definition number_body (token : string) : string :=
  match token with
  | String "-" r => r
  | _ => token
  end.

(** Two uniform rows. *)
Definition user_rows : list JsonValue :=
  [ JObj [("id", JInt 1); ("name", JStr "Alice")];
    JObj [("id", JInt 2); ("name", JStr "Bob")] ].

(** The run with more fuel [more] agrees with the run [less] unless
    that one ran out of fuel. *)
Definition extends {A : Type} (less more : result A) : Prop :=
  less = OutOfFuel \/ more = less.

(** The run does not run out of fuel. *)
Definition terminates {A : Type} (r : result A) : Prop :=
  r <> OutOfFuel.

(** Lines left to read. *)
Definition remaining (cursor : LineCursor) : nat :=
  (length (cur_lines cursor) - cur_index cursor)%nat.

(** [later] reads the same lines as [earlier], from its position or
    further. *)
Definition cursor_le (earlier later : LineCursor) : Prop :=
  cur_lines later = cur_lines earlier
  /\ (cur_index earlier <= cur_index later)%nat.

(** The run terminates and, when it returns, leaves the cursor on the
    same lines at the position of [cursor] or further. *)
Definition advances_from {A : Type} (cursor : LineCursor)
  (r : result (A * LineCursor)) : Prop :=
  match r with
  | Ok (_, cursor') => cursor_le cursor cursor'
  | Raise _ => True
  | OutOfFuel => False
  end.

(* ================================================================== *)
(** * Vocabulary of the round-trip properties *)

(** What [escape_string] writes for one character of its input. *)
Definition escape_char (c : ascii) : string :=
  if Ascii.eqb c BACKSLASH then String BACKSLASH (str1 BACKSLASH)
  else if Ascii.eqb c DOUBLE_QUOTE then String BACKSLASH (str1 DOUBLE_QUOTE)
  else if Ascii.eqb c NEWLINE then String BACKSLASH "n"
  else if Ascii.eqb c CARRIAGE_RETURN then String BACKSLASH "r"
  else str1 c.

(** The escaped text, character by character. *)
Fixpoint escape_chars (s : string) : string :=
  match s with
  | EmptyString => EmptyString
  | String c r => escape_char c ++ escape_chars r
  end.

(** Characters with no role in the syntax of a line. *)
Definition is_plain_char (c : ascii) : bool :=
  negb (PyStr.is_space c || Ascii.eqb c DOUBLE_QUOTE || Ascii.eqb c BACKSLASH
        || Ascii.eqb c ":" || Ascii.eqb c "[" || Ascii.eqb c "]"
        || Ascii.eqb c "{" || Ascii.eqb c "}" || Ascii.eqb c ","
        || Ascii.eqb c "|" || Ascii.eqb c "-" || Ascii.eqb c "#").

(** The primitives whose token [parse_primitive_token] reads back as the
    same value: null, the booleans, the integers, and every string that
    is written between quotes or that is no numeric literal.  Floats
    are left out: their text is the runtime's [repr]. *)
Definition token_reads_back (value : JsonValue) (delimiter : Delimiter) : bool :=
  match value with
  | JNull | JBool _ | JInt _ => true
  | JStr s => negb (is_safe_unquoted s delimiter && is_numeric_literal s)
  | JFloat _ | JArr _ | JObj _ => false
  end.

(** The delimiters [_normalise_delimiter] lets through. *)
Definition is_valid_delimiter (d : Delimiter) : bool :=
  Ascii.eqb d COMMA || Ascii.eqb d TAB || Ascii.eqb d PIPE.

(** A cell of a row: a quoted literal, or a bare text without quote or
    delimiter that stripping leaves as it is. *)
Definition is_cell (delimiter : Delimiter) (t : string) : Prop :=
  (exists s, t = quoted (escape_chars s))
  \/ (t <> "" /\ PyStr.strip t = t
      /\ PyStr.contains DOUBLE_QUOTE t = false
      /\ PyStr.contains delimiter t = false).

(** The primitives whose token is one cell of a row: null, the
    booleans, the integers, and every string that is written between
    quotes or does not hold the delimiter.  Under the pipe delimiter
    [is_safe_unquoted] leaves a string that holds a pipe bare. *)
Definition cell_safe (value : JsonValue) (delimiter : Delimiter) : bool :=
  match value with
  | JNull | JBool _ | JInt _ => true
  | JStr s => negb (is_safe_unquoted s delimiter && PyStr.contains delimiter s)
  | JFloat _ | JArr _ | JObj _ => false
  end.

(** An absent key, or a key that [encode_key] writes bare. *)
Definition is_bare_key_option (key : option string) : bool :=
  match key with
  | Some k => match_key_regex k
  | None => true
  end.

(** Field names that [encode_key] writes bare. *)
Definition are_bare_fields (fields : option (list string)) : bool :=
  match fields with
  | Some fs => forallb match_key_regex fs
  | None => true
  end.

(** The header a written header line stands for; an empty field list
    is no field list. *)
Definition written_header (length : Z) (key : option string)
  (fields : option (list string)) (delimiter : Delimiter) (length_marker : bool)
  : ArrayHeaderInfo :=
  {| hdr_key := key;
     hdr_length := length;
     hdr_delimiter := delimiter;
     hdr_fields := match fields with
                   | Some (f :: fs) => Some (f :: fs)
                   | _ => None
                   end;
     hdr_hasLengthMarker := length_marker |}.

(** The three parts of a header line: the key, the inside of the
    brackets and the braces with the field names. *)
Definition header_key_text (key : option string) : string :=
  match key with
  | Some k => encode_key k
  | None => EmptyString
  end.

Definition header_bracket_text (length : Z) (delimiter : Delimiter)
  (length_marker : bool) : string :=
  (if length_marker then "#" else "") ++ PyStr.of_int length
  ++ (if Ascii.eqb delimiter DEFAULT_DELIMITER then "" else str1 delimiter).

Definition header_fields_text (fields : option (list string))
  (delimiter : Delimiter) : string :=
  match fields with
  | Some (f :: fs) =>
      String "{" (PyStr.join (str1 delimiter) (map encode_key (f :: fs)) ++ "}")
  | _ => EmptyString
  end.

(** The primitives a row or an inline array gives back. *)
Definition cell_round_trips (value : JsonValue) (delimiter : Delimiter) : bool :=
  token_reads_back value delimiter && cell_safe value delimiter.

(** A string value without an opening bracket; any other value. *)
Definition is_bracket_free (value : JsonValue) : bool :=
  match value with
  | JStr s => negb (PyStr.contains "[" s)
  | _ => true
  end.

(** The members that a line [key: token] gives back: the value is one
    whose token reads back, and the line is not taken for an array
    header, which [parse_array_header_line] looks for in any line that
    does not start with a quote and holds an opening bracket. *)
Definition binding_reads_back (key : string) (value : JsonValue)
  (delimiter : Delimiter) : bool :=
  token_reads_back value delimiter
  && (negb (match_key_regex key) || is_bracket_free value).

(** The line [encode_key_value_pair] writes for a primitive member. *)
Definition binding_text (key token : string) : string :=
  encode_key key ++ ": " ++ token.

(** The parsed form of a line without indentation. *)
Definition root_line (text : string) : ParsedLine :=
  {| ln_raw := text; ln_depth := 0; ln_indent := 0; ln_content := text |}.

(** The line of a primitive member, as [encode_key_value_pair] writes
    it at depth 0. *)
Definition member_line (delimiter : Delimiter) (km : string * JsonValue)
  : result string :=
  let* token := encode_primitive (snd km) delimiter in
  Ok (binding_text (fst km) token).

(** A row of a table that comes back as it is: an object that lists
    the fields of the header in their order, with values that a cell
    gives back. *)
Definition row_round_trips (header : list string) (delimiter : Delimiter)
  (row : JsonValue) : Prop :=
  match row with
  | JObj members =>
      dict_keys members = header
      /\ forallb (fun value => cell_round_trips value delimiter)
                 (map snd members) = true
  | _ => False
  end.

(** The text [write_tabular_rows] writes for a row that is an object. *)
Definition row_text (delimiter : Delimiter) (header : list string)
  (row : JsonValue) : result string :=
  match row with
  | JObj members =>
      let* values := row_values members header in
      encode_and_join_primitives values delimiter
  | _ => Raise AttributeError
  end.

(** The parsed form of a line one level deep. *)
Definition nested_line (indent_size : Z) (content : string) : ParsedLine :=
  {| ln_raw := PyStr.spaces (Z.to_nat (1 * indent_size)) ++ content;
     ln_depth := 1;
     ln_indent := 1 * indent_size;
     ln_content := content |}.

(** The two failures of [resolve_encode_options]. *)
Definition is_option_error (e : PyError) : bool :=
  match e with
  | UnsupportedDelimiter _ | UnsupportedLengthMarker => true
  | _ => false
  end.

(** The member a dict item becomes: the text of its key and its
    normalised value. *)
Definition normalized_item (kv : PyKey * PyValue) : string * JsonValue :=
  (key_str (fst kv), normalize_value (snd kv)).

(** The failures of [parse_key_token]. *)
Definition is_key_error (e : PyError) : bool :=
  match e with
  | MissingKey | MissingColon | UnterminatedQuotedKey => true
  | _ => false
  end.

(** The failures of [unescape_string]. *)
Definition is_escape_error (e : PyError) : bool :=
  match e with
  | EscapeAtEnd | InvalidEscape _ => true
  | _ => false
  end.

(** The level at which [push] writes a content: a list item below the
    root is pulled back one level. *)
Definition written_depth (depth : Depth) (content : string) : Depth :=
  if (0 <? depth)
     && (PyStr.startswith content LIST_ITEM_PREFIX
         || String.eqb content LIST_ITEM_MARKER)
  then Z.max 0 (depth - 1)
  else depth.

(** The pushes of a list of depths and contents, in order. *)
Definition push_all (writer : LineWriter) (items : list (Depth * string))
  : LineWriter :=
  fold_left (fun w item => push w (fst item) (snd item)) items writer.

(** The parsed form of a pushed content. *)
Definition scanned_line (indent_size : Z) (item : Depth * string) : ParsedLine :=
  let depth := written_depth (fst item) (snd item) in
  {| ln_raw := PyStr.spaces (Z.to_nat (depth * indent_size)) ++ snd item;
     ln_depth := depth;
     ln_indent := depth * indent_size;
     ln_content := snd item |}.

(** Keys that differ from one another. *)
Fixpoint distinct_keys (keys : list string) : bool :=
  match keys with
  | [] => true
  | k :: rest => negb (existsb (String.eqb k) rest) && distinct_keys rest
  end.

(** [row_round_trips], as a test. *)
Definition row_reads_back (header : list string) (delimiter : Delimiter)
  (row : JsonValue) : bool :=
  match row with
  | JObj members =>
      (if list_eq_dec string_dec (dict_keys members) header then true else false)
      && forallb (fun value => cell_round_trips value delimiter) (map snd members)
  | _ => false
  end.

(** The arrays that come back from the lines written for them under a
    key: an array that the encoder writes as a table, with distinct
    field names that need no quotes and rows that list the fields in
    the header's order with values that a cell gives back; and an
    array of primitives that cells give back. *)
Definition array_reads_back (delimiter : Delimiter) (items : list JsonValue)
  : bool :=
  match select_array_form items with
  | FormTabular header =>
      distinct_keys header
      && forallb match_key_regex header
      && forallb (row_reads_back header delimiter) items
  | _ => forallb (fun item => cell_round_trips item delimiter) items
  end.

(** The members that come back from the lines written for them, at any
    depth: a primitive that [binding_reads_back]; an array that
    [array_reads_back], under a key written without quotes; an object
    with distinct keys whose members come back. *)
Fixpoint member_reads_back (delimiter : Delimiter) (key : string)
  (value : JsonValue) {struct value} : bool :=
  match value with
  | JObj members =>
      distinct_keys (dict_keys members)
      && forallb (fun km => member_reads_back delimiter (fst km) (snd km)) members
  | JArr items => match_key_regex key && array_reads_back delimiter items
  | _ => binding_reads_back key value delimiter
  end.

(** The row [write_tabular_rows] writes for an object. *)
Definition row_line_text (delimiter : Delimiter) (header : list string)
  (row : JsonValue) : string :=
  match row_text delimiter header row with
  | Ok line => line
  | _ => EmptyString
  end.

(** The token [encode_primitive] returns. *)
Definition token_text (value : JsonValue) (delimiter : Delimiter) : string :=
  match encode_primitive value delimiter with
  | Ok token => token
  | _ => EmptyString
  end.

(** The line [encode_inline_array_line] returns for an array of
    primitives. *)
Definition array_line_text (prefix : option string) (items : list JsonValue)
  (options : ResolvedEncodeOptions) : string :=
  match encode_inline_array_line items (enc_delimiter options) prefix
                                 (enc_lengthMarker options) with
  | Ok line => line
  | _ => EmptyString
  end.

(** The pushes of [encode_key_value_pair] for a member: depth and
    content, in order. *)
Fixpoint member_items (options : ResolvedEncodeOptions) (depth : Depth)
  (key : string) (value : JsonValue) {struct value} : list (Depth * string) :=
  match value with
  | JObj members =>
      (depth, encode_key key ++ ":")
      :: flat_map (fun km => member_items options (depth + 1) (fst km) (snd km))
                  members
  | JArr items =>
      match select_array_form items with
      | FormTabular header =>
          (depth, format_header (Z.of_nat (length items)) (Some key) (Some header)
                                (enc_delimiter options) (enc_lengthMarker options))
          :: map (fun row =>
                    (depth + 1, row_line_text (enc_delimiter options) header row))
                 items
      | _ => [(depth, array_line_text (Some key) items options)]
      end
  | _ => [(depth, binding_text key (token_text value (enc_delimiter options)))]
  end.

(** The pushes of [encode_object]. *)
Definition object_items (options : ResolvedEncodeOptions) (depth : Depth)
  (members : JsonObject) : list (Depth * string) :=
  flat_map (fun km => member_items options depth (fst km) (snd km)) members.

(** Lines that may follow a block read at a depth: none, or a first
    line that lies no deeper than [bound] and, when it lies at [bound],
    is no list item. *)
Definition ends_block (bound : Depth) (after : list ParsedLine) : Prop :=
  match after with
  | [] => True
  | line :: _ =>
      ln_depth line <= bound
      /\ (ln_depth line = bound ->
          PyStr.startswith (ln_content line) LIST_ITEM_PREFIX = false
          /\ String.eqb (ln_content line) LIST_ITEM_MARKER = false)
  end.

(** [decode_key_value] reads a member back from the lines written for
    it: the content of the first line, and the cursor on those that
    follow it. *)
Definition member_decodes (indent_size : Z) (options : ResolvedEncodeOptions)
  (decode_options : ResolvedDecodeOptions) (depth : Depth) (key : string)
  (value : JsonValue) : Prop :=
  exists (tail : string) (rest_items : list (Depth * string)),
    member_items options depth key value
    = (depth, encode_key key ++ tail) :: rest_items
    /\ forall (all_lines : list ParsedLine) (index : nat)
              (after : list ParsedLine) (fuel : nat),
         skipn index all_lines
         = (map (scanned_line indent_size) rest_items ++ after)%list ->
         ends_block depth after ->
         (2 * length rest_items + 3 <= fuel)%nat ->
         decode_key_value fuel (encode_key key ++ tail)
           {| cur_lines := all_lines; cur_index := index |} depth decode_options
         = Ok (key, value, depth + 1,
               {| cur_lines := all_lines;
                  cur_index := (index + length rest_items)%nat |}).

(** The items of a list array that come back from the lines written
    for them: an array of primitives that cells give back, and a
    primitive whose token reads back and holds no colon. *)
Definition list_item_reads_back (delimiter : Delimiter) (item : JsonValue)
  : bool :=
  match item with
  | JArr row => forallb (fun value => cell_round_trips value delimiter) row
  | JObj _ => false
  | JStr s => token_reads_back item delimiter && negb (PyStr.contains COLON s)
  | _ => token_reads_back item delimiter
  end.

(** The content of the line written for an item of a list array. *)
Definition list_item_text (options : ResolvedEncodeOptions) (item : JsonValue)
  : string :=
  LIST_ITEM_PREFIX
  ++ match item with
     | JArr row => array_line_text None row options
     | _ => token_text item (enc_delimiter options)
     end.

(** The pushes of [encode_array] for a list array at the root: the
    header, and one list item a level deep for each element. *)
Definition list_array_items (options : ResolvedEncodeOptions)
  (values : list JsonValue) : list (Depth * string) :=
  (0, format_header (Z.of_nat (length values)) None None (enc_delimiter options)
                    (enc_lengthMarker options))
  :: map (fun item => (1, list_item_text options item)) values.

(** A JSON value as the host value it is in Python: lists for arrays,
    dicts with string keys for objects. *)
Fixpoint host_value (value : JsonValue) : PyValue :=
  match value with
  | JNull => PNone
  | JBool b => PBool b
  | JInt z => PInt z
  | JFloat f => PFloat f
  | JStr s => PStr s
  | JArr items => PList (map host_value items)
  | JObj members =>
      PDict (map (fun km => (KStr (fst km), host_value (snd km))) members)
  end.

(** JSON values with finite floats other than -0.0 and objects whose
    keys are distinct. *)
Fixpoint is_normal (value : JsonValue) : bool :=
  match value with
  | JFloat f =>
      negb (float_is_nan f || float_is_inf f)
      && negb (float_is_zero f && String.eqb (float_str f) "-0.0")
  | JArr items => forallb is_normal items
  | JObj members =>
      distinct_keys (dict_keys members)
      && forallb (fun km => is_normal (snd km)) members
  | _ => true
  end.

(** The items of a list array that come back, objects included: an
    item that [list_item_reads_back]; the empty object; an object with
    distinct keys whose first member is a primitive that
    [binding_reads_back] and whose other members [member_reads_back]. *)
Definition list_member_reads_back (delimiter : Delimiter) (item : JsonValue)
  : bool :=
  match item with
  | JObj [] => true
  | JObj ((key, value) :: others) =>
      distinct_keys (key :: dict_keys others)
      && binding_reads_back key value delimiter
      && forallb (fun km => member_reads_back delimiter (fst km) (snd km)) others
  | _ => list_item_reads_back delimiter item
  end.

(** The pushes of [encode_mixed_array_as_list_items] for an item of a
    root array: a list item a level deep, and for an object its other
    members two levels deep. *)
Definition list_item_items (options : ResolvedEncodeOptions) (item : JsonValue)
  : list (Depth * string) :=
  match item with
  | JObj [] => [(1, LIST_ITEM_MARKER)]
  | JObj ((key, value) :: others) =>
      (1, LIST_ITEM_PREFIX
          ++ binding_text key (token_text value (enc_delimiter options)))
      :: object_items options 2 others
  | _ => [(1, list_item_text options item)]
  end.

(** An array of primitives that cells give back, under a key that is
    written between quotes. *)
Definition is_quoted_key_array (delimiter : Delimiter)
  (km : string * JsonValue) : bool :=
  negb (match_key_regex (fst km))
  && match snd km with
     | JArr items => forallb (fun value => cell_round_trips value delimiter) items
     | _ => false
     end.

(** A string that holds a colon. *)
Definition is_colon_string (item : JsonValue) : bool :=
  match item with
  | JStr s => PyStr.contains COLON s
  | _ => false
  end.

(** The pushes of [encode_array] for a root array in list-items form. *)
Definition list_document_items (options : ResolvedEncodeOptions)
  (values : list JsonValue) : list (Depth * string) :=
  (0, format_header (Z.of_nat (length values)) None None (enc_delimiter options)
                    (enc_lengthMarker options))
  :: flat_map (list_item_items options) values.

(** The documents that come back: a primitive whose token reads back;
    an object with distinct keys and members that [member_reads_back];
    an array in list-items form with items that
    [list_member_reads_back], an array of arrays of primitives with
    items that [list_item_reads_back], and an empty array, an array of
    primitives or a table that [array_reads_back]. *)
Definition document_reads_back (delimiter : Delimiter) (value : JsonValue)
  : bool :=
  match value with
  | JObj members =>
      distinct_keys (dict_keys members)
      && forallb (fun km => member_reads_back delimiter (fst km) (snd km)) members
  | JArr items =>
      match select_array_form items with
      | FormListItems => forallb (list_member_reads_back delimiter) items
      | FormArrayOfArrays => forallb (list_item_reads_back delimiter) items
      | _ => array_reads_back delimiter items
      end
  | _ => token_reads_back value delimiter
  end.

(* ------------------------------------------------------------------ *)
(** ** Values and texts of the examples *)

(** [{"name": "Ada", "age": 30, "ok": true}]. *)
Definition flat_members : JsonObject :=
  [("name", JStr "Ada"); ("age", JInt 30); ("ok", JBool true)].

Definition flat_members_text : string :=
  "name: Ada
age: 30
ok: true".

(** The table of [user_rows]. *)
Definition user_rows_text : string :=
  "[2]{id,name}:
  1,Alice
  2,Bob".

(** An object with a table, an object nested to two levels, an inline
    array, an empty object and an empty array. *)
Definition team_members : JsonObject :=
  [("title", JStr "Team");
   ("users", JArr [JObj [("id", JInt 1); ("name", JStr "Ada")];
                   JObj [("id", JInt 2); ("name", JStr "Bob")]]);
   ("meta", JObj [("count", JInt 2); ("tags", JArr [JStr "a"; JStr "b"]);
                  ("owner", JObj [("id", JInt 7)]); ("none", JObj [])]);
   ("empty", JArr [])].

Definition team_members_text : string :=
  "title: Team
users[2]{id,name}:
  1,Ada
  2,Bob
meta:
  count: 2
  tags[2]: a,b
  owner:
    id: 7
  none:
empty[0]:".

(** [[[1, 2], "x", [], null]]. *)
Definition mixed_items : list JsonValue :=
  [JArr [JInt 1; JInt 2]; JStr "x"; JArr []; JNull].

Definition mixed_items_text : string :=
  "[4]:
- [2]: 1,2
- x
- [0]:
- null".

(** A list of two objects with different keys, the empty object and a
    string. *)
Definition roster_items : list JsonValue :=
  [JObj [("id", JInt 1); ("tags", JArr [JStr "a"; JStr "b"]);
         ("owner", JObj [("name", JStr "Ada")])];
   JObj [("id", JInt 2)];
   JObj [];
   JStr "x"].

Definition roster_items_text : string :=
  "[4]:
- id: 1
    tags[2]: a,b
    owner:
      name: Ada
- id: 2
-
- x".

(** A list with a string that holds a colon, and the text written
    for it. *)
Definition colon_items : list JsonValue :=
  [JInt 1; JStr "a: b"; JObj [("k", JStr "v")]].

Definition colon_items_text : string :=
  "[3]:
- 1
- " ++ quoted "a: b" ++ "
- k: v".

(** An object with an array under a key that needs quotes, and the
    text written for it; the array alone in an object. *)
Definition quoted_key_members : JsonObject :=
  [("id", JInt 1); ("my key", JArr [JInt 1; JInt 2])].

Definition quoted_key_members_text : string :=
  "id: 1
" ++ quoted "my key" ++ "[2]: 1,2".

Definition quoted_key_alone : JsonObject :=
  [("my key", JArr [JInt 1; JInt 2])].

(** The header [[3]:] of an inline array, and the header
    [rows[1]{id,name,email}:] of a table. *)
Definition inline_header : ArrayHeaderInfo :=
  {| hdr_key := None; hdr_length := 3; hdr_delimiter := COMMA;
     hdr_fields := None; hdr_hasLengthMarker := false |}.

Definition table_header : ArrayHeaderInfo :=
  {| hdr_key := Some "rows"; hdr_length := 1; hdr_delimiter := COMMA;
     hdr_fields := Some ["id"; "name"; "email"]; hdr_hasLengthMarker := false |}.

(** A row at depth 1 with the given content. *)
Definition row_line (content : string) : ParsedLine :=
  {| ln_raw := "  " ++ content; ln_depth := 1; ln_indent := 2;
     ln_content := content |}.

(** The pushes of [a:], [b: 1] a level deep and the list item [- x] a
    level deep. *)
Definition pushed_items : list (Depth * string) :=
  [(0, "a:"); (1, "b: 1"); (1, "- x")].

End Toon.

(* ================================================================== *)
(** * Properties *)

Section ToonProofs.

Context {rt : PyRuntime}.

(* ------------------------------------------------------------------ *)
(** ** Strings and decimal text *)

Lemma all_chars_impl (p q : ascii -> bool) (s : string) :
  (forall c, p c = true -> q c = true) ->
  PyStr.all_chars p s = true -> PyStr.all_chars q s = true.
Proof.
  intros Hpq. induction s as [|c s IH]; simpl; auto.
  intros H. apply andb_true_iff in H as [Hc Hs].
  rewrite (Hpq _ Hc), (IH Hs). reflexivity.
Qed.

Lemma all_chars_not_contains (p : ascii -> bool) (c : ascii) (s : string) :
  p c = false -> PyStr.all_chars p s = true -> PyStr.contains c s = false.
Proof.
  intros Hc. induction s as [|a s IH]; simpl; auto.
  intros H. apply andb_true_iff in H as [Ha Hs].
  rewrite (IH Hs), orb_false_r.
  destruct (Ascii.eqb_spec a c) as [->|]; congruence.
Qed.

Lemma string_of_uint_digits (d : Decimal.uint) :
  PyStr.all_chars PyStr.is_digit (NilEmpty.string_of_uint d) = true.
Proof.
  induction d; simpl; auto.
Qed.

Lemma nilzero_string_of_uint_digits (d : Decimal.uint) :
  PyStr.all_chars PyStr.is_digit (NilZero.string_of_uint d) = true.
Proof.
  destruct d; try reflexivity; apply (string_of_uint_digits (_ d)).
Qed.

(** The text of an integer is an optional minus sign and digits. *)
Lemma of_int_chars (z : Z) :
  PyStr.all_chars (fun c => PyStr.is_digit c || Ascii.eqb c "-") (PyStr.of_int z)
  = true.
Proof.
  unfold PyStr.of_int.
  destruct (Z.to_int z) as [d|d]; simpl.
  - apply all_chars_impl with (p := PyStr.is_digit).
    + intros c ->. reflexivity.
    + apply nilzero_string_of_uint_digits.
  - apply all_chars_impl with (p := PyStr.is_digit).
    + intros c ->. reflexivity.
    + apply nilzero_string_of_uint_digits.
Qed.


Lemma contains_app (c : ascii) (a b : string) :
  PyStr.contains c (a ++ b) = PyStr.contains c a || PyStr.contains c b.
Proof.
  induction a as [|x a IH]; simpl; auto.
  rewrite IH. apply orb_assoc.
Qed.

(* ------------------------------------------------------------------ *)
(** ** Normalisation of integers *)

(** C2 (as the code has it): [normalize_value] keeps every Python int,
    whatever its magnitude, as a Number holding that integer; the
    string branch for integers beyond 2^53 is never reached, so no
    integer becomes a String. *)
Theorem normalize_int_is_number :
  forall z : Z,
    normalize_value (PInt z) = JInt z
    /\ forall s : string, normalize_value (PInt z) <> JStr s.
Proof.
  intros z. split; [reflexivity|]. intros s. discriminate.
Qed.

(* ------------------------------------------------------------------ *)
(** ** Rendering of numbers *)


(* ------------------------------------------------------------------ *)
(** ** Coalescing of row tokens *)

Lemma length_merge_tail (values : list string) (expected : Z) (d : Delimiter) :
  0 < expected -> expected <= Z.of_nat (length values) ->
  Z.of_nat (length (merge_tail values expected d)) = expected.
Proof.
  intros Hpos Hle. unfold merge_tail.
  rewrite length_app, length_firstn. simpl. lia.
Qed.



(* ------------------------------------------------------------------ *)
(** ** Strict and non-strict counts on a concrete document *)

(** C7: decoding [items[3]: a,b] in strict mode raises the
    count-mismatch error (3 declared, 2 read); with strict mode
    disabled it returns the object [{items: ["a", "b"]}]. *)
Theorem decode_items3_strict_and_lax :
  decode "items[3]: a,b" strict_options
  = Raise (CountMismatch 3 "inline array items" 2)
  /\ decode "items[3]: a,b" lax_options
     = Ok (JObj [("items", JArr [JStr "a"; JStr "b"])]).
Proof.
  split; vm_compute; reflexivity.
Qed.

(* ------------------------------------------------------------------ *)
(** ** A value that does not survive the round trip *)

(** C1 (the code at the failing input): [encode_value] writes the
    nested member [c] three levels deep, under a list item the writer
    has pulled back to depth 0; [decode], with its default options (strict,
    indent 2), reads the item's first field as an empty object,
    ignores the last line, and returns [[{"a": {}}]], which is not the
    value encoded. *)
Theorem roundtrip_loses_nested_first_field :
  encode_value nested_first_field default_encode_options
  = Ok nested_first_field_text
  /\ decode nested_first_field_text no_decode_options
     = Ok (JArr [JObj [("a", JObj [])]])
  /\ JArr [JObj [("a", JObj [])]] <> nested_first_field.
Proof.
  split; [vm_compute; reflexivity|].
  split; [vm_compute; reflexivity|].
  unfold nested_first_field. intros H. discriminate H.
Qed.

(* ------------------------------------------------------------------ *)
(** ** The encoder on the documented scenarios *)

Example encode_flat_object :
  encode (PDict [(KStr "name", PStr "Ada Lovelace"); (KStr "age", PInt 30);
                 (KStr "active", PBool true)])
         no_encode_options
  = Ok "name: Ada Lovelace
age: 30
active: true".
Proof. vm_compute. reflexivity. Qed.

Example encode_inline_tags :
  encode (PDict [(KStr "tags", PList [PStr "python"; PStr "ai"; PStr "developer"])])
         no_encode_options
  = Ok "tags[3]: python,ai,developer".
Proof. vm_compute. reflexivity. Qed.

Example encode_tabular_users :
  encode (PDict [(KStr "users",
                  PList [PDict [(KStr "id", PInt 1); (KStr "name", PStr "Alice")];
                         PDict [(KStr "id", PInt 2); (KStr "name", PStr "Bob")]])])
         no_encode_options
  = Ok "users[2]{id,name}:
  1,Alice
  2,Bob".
Proof. vm_compute. reflexivity. Qed.

Example encode_tab_delimited :
  encode (PDict [(KStr "items", PList [PStr "a,b"; PStr "c,d"])])
         {| opt_indent := None; opt_delimiter := Some "tab";
            opt_length_marker := None |}
  = Ok ("items[2" ++ str1 TAB ++ "]:" ++ str1 TAB ++ "a,b" ++ str1 TAB ++ "c,d").
Proof. vm_compute. reflexivity. Qed.

Example encode_empty_with_marker :
  encode (PDict [(KStr "items", PList [])])
         {| opt_indent := None; opt_delimiter := None;
            opt_length_marker := Some (LMStr "#") |}
  = Ok "items[#0]:".
Proof. vm_compute. reflexivity. Qed.

Example decode_tabular_users :
  decode "users[2]{id,name}:
  1,Alice
  2,Bob" no_decode_options
  = Ok (JObj [("users",
               JArr [JObj [("id", JInt 1); ("name", JStr "Alice")];
                     JObj [("id", JInt 2); ("name", JStr "Bob")]])]).
Proof. vm_compute. reflexivity. Qed.

Example decode_blank_is_empty_object :
  decode "   " no_decode_options = Ok (JObj []).
Proof. vm_compute. reflexivity. Qed.

(* ------------------------------------------------------------------ *)
(** ** Dicts *)





(* ------------------------------------------------------------------ *)
(** ** Tabular eligibility *)









(* ------------------------------------------------------------------ *)
(** ** Assignment to a dict *)








(* ------------------------------------------------------------------ *)
(** ** Objects with repeated keys *)

Lemma peek_middle (pre : list ParsedLine) (line : ParsedLine)
  (rest : list ParsedLine) :
  peek {| cur_lines := pre ++ line :: rest; cur_index := length pre |} = Some line.
Proof.
  unfold peek. simpl. rewrite nth_error_app2 by lia.
  now rewrite Nat.sub_diag.
Qed.

Lemma at_end_middle (pre : list ParsedLine) (line : ParsedLine)
  (rest : list ParsedLine) :
  at_end {| cur_lines := pre ++ line :: rest; cur_index := length pre |} = false.
Proof.
  unfold at_end. simpl. apply Nat.leb_gt. rewrite length_app. simpl. lia.
Qed.

Lemma at_end_last (lines : list ParsedLine) :
  at_end {| cur_lines := lines; cur_index := length lines |} = true.
Proof.
  unfold at_end. simpl. apply Nat.leb_refl.
Qed.

Lemma advance_middle (pre : list ParsedLine) (line : ParsedLine)
  (rest : list ParsedLine) :
  advance {| cur_lines := pre ++ line :: rest; cur_index := length pre |}
  = {| cur_lines := (pre ++ [line]) ++ rest; cur_index := length (pre ++ [line]) |}.
Proof.
  unfold advance. rewrite peek_middle. simpl.
  rewrite <- app_assoc, length_app. simpl. f_equal. lia.
Qed.

(** One line that binds a primitive, read by [decode_key_value]. *)
Lemma decode_key_value_primitive (fuel : nat) (d : Depth) (line : ParsedLine)
  (binding : string * JsonValue) (cursor : LineCursor)
  (options : ResolvedDecodeOptions) :
  binds_primitive d line binding ->
  (0 < fuel)%nat ->
  decode_key_value fuel (ln_content line) cursor d options
  = Ok (fst binding, snd binding, d + 1, cursor).
Proof.
  intros (_ & Hheader & end_ & Hkey & Hrest & Hvalue) Hfuel.
  destruct fuel as [|fuel]; [lia|].
  simpl. rewrite Hheader. simpl. rewrite Hkey. simpl.
  destruct (String.eqb_spec
              (PyStr.strip (PyStr.from (ln_content line) end_)) "") as [He|_];
    [contradiction|].
  rewrite Hvalue. reflexivity.
Qed.

Lemma decode_object_from_bindings (d : Depth) (options : ResolvedDecodeOptions)
  (lines : list ParsedLine) (bindings : list (string * JsonValue)) :
  Forall2 (binds_primitive d) lines bindings ->
  forall (pre : list ParsedLine) (obj : JsonObject) (fuel : nat),
    (length lines < fuel)%nat ->
    decode_object_from fuel obj
      {| cur_lines := pre ++ lines; cur_index := length pre |} d options
    = Ok (assign_all bindings obj,
          {| cur_lines := pre ++ lines; cur_index := length (pre ++ lines) |}).
Proof.
  induction 1 as [|line binding lines bindings Hline Hrest IH];
    intros pre obj fuel Hfuel.
  - destruct fuel as [|fuel]; [simpl in Hfuel; lia|].
    rewrite app_nil_r. simpl. rewrite at_end_last. reflexivity.
  - destruct fuel as [|fuel]; simpl in Hfuel; [lia|].
    cbn [decode_object_from].
    rewrite at_end_middle, peek_middle.
    pose proof Hline as (Hd & _). rewrite Hd, Z.ltb_irrefl, Z.eqb_refl.
    rewrite (decode_key_value_primitive fuel d line binding _ options Hline)
      by lia.
    cbn [bind]. rewrite advance_middle.
    rewrite (IH (pre ++ [line])%list (dict_set (fst binding) (snd binding) obj)
                fuel) by lia.
    rewrite <- app_assoc. reflexivity.
Qed.


(* ------------------------------------------------------------------ *)
(** ** Strict mode changes count handling only *)



Section StrictAndLax.

Variables os ol : ResolvedDecodeOptions.
Hypothesis os_strict : dec_strict os = true.
Hypothesis ol_lax : dec_strict ol = false.













End StrictAndLax.



(* ------------------------------------------------------------------ *)
(** ** The encoder returns on every value *)

Lemma succeeds_ok {A : Type} (a : A) : succeeds (Ok a).
Proof. now exists a. Qed.

Lemma succeeds_bind {A B : Type} (r : result A) (k : A -> result B) :
  succeeds r -> (forall a, succeeds (k a)) -> succeeds (bind r k).
Proof.
  intros [a ->] Hk. apply Hk.
Qed.


Lemma succeeds_mapM {A B : Type} (f : A -> result B) (xs : list A) :
  (forall x, In x xs -> succeeds (f x)) -> succeeds (mapM f xs).
Proof.
  induction xs as [|x xs IH]; intros Hf; simpl.
  - apply succeeds_ok.
  - apply succeeds_bind; [apply Hf; now left|].
    intros y. apply succeeds_bind; [apply IH; intros z Hz; apply Hf; now right|].
    intros ys. apply succeeds_ok.
Qed.

Lemma json_size_pos (value : JsonValue) : (1 <= json_size value)%nat.
Proof. destruct value; simpl; lia. Qed.

Lemma in_items_size (item : JsonValue) (items : list JsonValue) :
  In item items -> (json_size item <= items_size items)%nat.
Proof.
  induction items as [|x items IH]; simpl; [tauto|].
  intros [->|Hin]; [lia|]. specialize (IH Hin). lia.
Qed.

Lemma in_members_size (k : string) (v : JsonValue) (members : JsonObject) :
  In (k, v) members -> (json_size v <= members_size members)%nat.
Proof.
  induction members as [|[k' v'] members IH]; simpl; [tauto|].
  intros [[= -> ->]|Hin]; [lia|]. specialize (IH Hin). lia.
Qed.


Lemma encode_primitive_succeeds (value : JsonValue) (delimiter : Delimiter) :
  is_json_primitive value = true -> succeeds (encode_primitive value delimiter).
Proof.
  destruct value; try discriminate; intros _; apply succeeds_ok.
Qed.

Lemma encode_and_join_primitives_succeeds (values : list JsonValue)
  (delimiter : Delimiter) :
  Forall (fun v => is_json_primitive v = true) values ->
  succeeds (encode_and_join_primitives values delimiter).
Proof.
  intros Hall. unfold encode_and_join_primitives.
  apply succeeds_bind; [|intros; apply succeeds_ok].
  apply succeeds_mapM. intros v Hv. apply encode_primitive_succeeds.
  rewrite Forall_forall in Hall. auto.
Qed.

Lemma encode_inline_array_line_succeeds (values : list JsonValue)
  (delimiter : Delimiter) (prefix : option string) (length_marker : bool) :
  forallb is_json_primitive values = true ->
  succeeds (encode_inline_array_line values delimiter prefix length_marker).
Proof.
  intros Hall. unfold encode_inline_array_line.
  destruct values as [|v vs]; [apply succeeds_ok|].
  apply succeeds_bind; [|intros; apply succeeds_ok].
  apply encode_and_join_primitives_succeeds.
  apply Forall_forall. now apply forallb_forall.
Qed.











(* ------------------------------------------------------------------ *)
(** ** Unquoted tokens *)

Lemma digit_not_other (c x : ascii) :
  PyStr.is_digit c = true -> PyStr.is_digit x = false -> Ascii.eqb c x = false.
Proof.
  intros Hc Hx. destruct (Ascii.eqb_spec c x) as [->|]; congruence.
Qed.

Lemma to_lower_digit (c : ascii) : PyStr.is_digit c = true -> PyStr.to_lower c = c.
Proof.
  destruct c as [[] [] [] [] [] [] [] []]; try discriminate; reflexivity.
Qed.

Lemma string_eqb_head (c c' : ascii) (t t' : string) :
  Ascii.eqb c c' = false -> String.eqb (String c t) (String c' t') = false.
Proof.
  intros H. simpl. now rewrite H.
Qed.

Lemma skip_digits_head (c : ascii) (t : string) :
  PyStr.is_digit c = true -> skip_digits (String c t) = skip_digits t.
Proof.
  intros H. simpl. now rewrite H.
Qed.

Lemma digits1_some (s r : string) :
  digits1 s = Some r ->
  exists c t, s = String c t /\ PyStr.is_digit c = true /\ r = skip_digits t.
Proof.
  destruct s as [|c t]; simpl; [discriminate|].
  destruct (PyStr.is_digit c) eqn:Hc; [|discriminate].
  intros [= <-]. now exists c, t.
Qed.

Lemma skip_digits_length (s : string) :
  (String.length (skip_digits s) <= String.length s)%nat.
Proof.
  induction s as [|c t IH]; simpl; [lia|].
  destruct (PyStr.is_digit c); simpl; lia.
Qed.

Lemma skip_digits_shorter (c : ascii) (t : string) :
  PyStr.is_digit c = true ->
  String.eqb (skip_digits (String c t)) (String c t) = false.
Proof.
  intros Hc. apply String.eqb_neq. intros Heq.
  pose proof (skip_digits_length t) as Hlen.
  rewrite (skip_digits_head c t Hc) in Heq. rewrite Heq in Hlen.
  simpl in Hlen. lia.
Qed.

Lemma all_chars_skip_digits (p : ascii -> bool) (s : string) :
  (forall c, PyStr.is_digit c = true -> p c = true) ->
  PyStr.all_chars p (skip_digits s) = true -> PyStr.all_chars p s = true.
Proof.
  intros Hp. induction s as [|c t IH]; simpl; auto.
  destruct (PyStr.is_digit c) eqn:Hc.
  - intros H. rewrite (Hp c Hc), (IH H). reflexivity.
  - simpl. auto.
Qed.

Lemma skip_digits_empty_all_digits (s : string) :
  skip_digits s = "" -> PyStr.all_chars PyStr.is_digit s = true.
Proof.
  intros H. apply all_chars_skip_digits; auto. now rewrite H.
Qed.

Lemma digit_is_number_char (c : ascii) :
  PyStr.is_digit c = true -> is_number_char c = true.
Proof.
  intros H. unfold is_number_char. now rewrite H.
Qed.

Lemma match_exponent_tail_chars (s : string) :
  match_exponent_tail s = true -> PyStr.all_chars is_number_char s = true.
Proof.
  destruct s as [|c r]; [reflexivity|]. simpl.
  destruct (is_exp_mark c) eqn:Hc; [|discriminate].
  assert (Hnc : is_number_char c = true).
  { unfold is_number_char. rewrite Hc. now rewrite !orb_true_r. }
  rewrite Hnc. simpl.
  assert (Hdigits : forall r', digits1 r' = Some "" ->
                               PyStr.all_chars is_number_char r' = true).
  { intros r' Hd. apply digits1_some in Hd as (c' & t & -> & Hc' & Ht).
    simpl. rewrite (digit_is_number_char c' Hc'). simpl.
    apply all_chars_impl with (p := PyStr.is_digit);
      [apply digit_is_number_char|].
    now apply skip_digits_empty_all_digits. }
  destruct r as [|sg r2].
  - simpl. discriminate.
  - destruct (is_sign sg) eqn:Hsg.
    + destruct (digits1 r2) as [[|]|] eqn:Hd; try discriminate.
      intros _. simpl.
      assert (Hs : is_number_char sg = true).
      { unfold is_number_char. rewrite Hsg. now rewrite !orb_true_r. }
      rewrite Hs. simpl. now apply Hdigits.
    + destruct (digits1 (String sg r2)) as [[|]|] eqn:Hd; try discriminate.
      intros _. now apply Hdigits.
Qed.

Lemma match_fraction_tail_chars (s : string) :
  match_fraction_tail s = true -> PyStr.all_chars is_number_char s = true.
Proof.
  unfold match_fraction_tail.
  destruct s as [|c r]; [reflexivity|].
  destruct (Ascii.eqb_spec c ".") as [->|Hne].
  - destruct (digits1 r) as [r'|] eqn:Hd; [|discriminate].
    intros Htail. apply digits1_some in Hd as (c' & t & -> & Hc' & ->).
    simpl. rewrite (digit_is_number_char c' Hc'). simpl.
    apply all_chars_skip_digits; [apply digit_is_number_char|].
    now apply match_exponent_tail_chars.
  - intros H. apply match_exponent_tail_chars.
    destruct c as [[] [] [] [] [] [] [] []]; try exact H; congruence.
Qed.

Lemma match_number_regex_body (token : string) :
  match_number_regex token = true ->
  exists c t,
    number_body token = String c t /\ PyStr.is_digit c = true
    /\ match_fraction_tail (skip_digits t) = true.
Proof.
  unfold match_number_regex. fold (number_body token).
  destruct (digits1 (number_body token)) as [rest|] eqn:Hd; [|discriminate].
  intros Htail. apply digits1_some in Hd as (c & t & Hb & Hc & ->).
  now exists c, t.
Qed.

Lemma number_body_cases (token : string) :
  token = number_body token \/ token = String "-" (number_body token).
Proof.
  destruct token as [|c r]; [now left|].
  destruct (Ascii.eqb_spec c "-") as [->|Hne]; [now right|].
  left. destruct c as [[] [] [] [] [] [] [] []]; try reflexivity; congruence.
Qed.

Lemma match_number_regex_chars (token : string) :
  match_number_regex token = true ->
  PyStr.all_chars is_number_char token = true.
Proof.
  intros Hm. destruct (match_number_regex_body token Hm) as (c & t & Hb & Hc & Ht).
  assert (Hbody : PyStr.all_chars is_number_char (number_body token) = true).
  { rewrite Hb. simpl. rewrite (digit_is_number_char c Hc). simpl.
    apply all_chars_skip_digits; [apply digit_is_number_char|].
    now apply match_fraction_tail_chars. }
  destruct (number_body_cases token) as [Heq|Heq]; rewrite Heq; [exact Hbody|].
  simpl. exact Hbody.
Qed.

Lemma number_char_not_underscore (s : string) :
  PyStr.all_chars is_number_char s = true -> PyStr.contains "_" s = false.
Proof.
  apply all_chars_not_contains. reflexivity.
Qed.

Lemma float_exponent_tail_is_regex_tail (s : string) :
  float_exponent_tail s = match_exponent_tail s.
Proof. reflexivity. Qed.

Lemma float_decimal_of_regex (c : ascii) (t : string) :
  PyStr.is_digit c = true ->
  match_fraction_tail (skip_digits t) = true ->
  float_decimal (String c t) = true.
Proof.
  intros Hc Htail. unfold float_decimal.
  rewrite (skip_digits_shorter c t Hc), (skip_digits_head c t Hc).
  cbn [negb orb andb].
  unfold match_fraction_tail in Htail.
  destruct (skip_digits t) as [|p r]; [exact Htail|].
  destruct (Ascii.eqb_spec p ".") as [->|Hne].
  - destruct (digits1 r) as [r'|] eqn:Hd; [|discriminate].
    apply digits1_some in Hd as (c' & t' & -> & Hc' & ->).
    rewrite (skip_digits_head c' t' Hc'). exact Htail.
  - destruct p as [[] [] [] [] [] [] [] []]; try exact Htail; congruence.
Qed.

(** The sign [float] and [int] strip is the minus sign of the regex. *)
Lemma signed_body_of_regex (token : string) :
  match_number_regex token = true ->
  strip_sign token = number_body token.
Proof.
  intros Hm. unfold strip_sign. destruct (match_number_regex_body token Hm) as (c & t & Hb & Hc & _).
  destruct token as [|a r]; [reflexivity|].
  destruct (Ascii.eqb_spec a "-") as [->|Hne]; [reflexivity|].
  assert (Heq : number_body (String a r) = String a r).
  { destruct a as [[] [] [] [] [] [] [] []]; try reflexivity; congruence. }
  rewrite Heq in *. injection Hb as -> ->.
  assert (Hs : is_sign c = false).
  { destruct c as [[] [] [] [] [] [] [] []]; try discriminate; reflexivity. }
  now rewrite Hs.
Qed.

Lemma float_syntax_of_regex (token : string) :
  PyStr.strip token = token ->
  match_number_regex token = true ->
  float_syntax token = Some SynDecimal.
Proof.
  intros Hstrip Hm. unfold float_syntax. rewrite Hstrip.
  rewrite (number_char_not_underscore token (match_number_regex_chars token Hm)).
  rewrite (signed_body_of_regex token Hm).
  destruct (match_number_regex_body token Hm) as (c & t & -> & Hc & Ht).
  cbn [PyStr.lower]. rewrite (to_lower_digit c Hc).
  rewrite !string_eqb_head by (apply digit_not_other; [exact Hc|reflexivity]).
  cbn [orb]. now rewrite (float_decimal_of_regex c t Hc Ht).
Qed.

Lemma is_numeric_literal_unfold (token : string) :
  is_numeric_literal token
  = if String.eqb token "" then false
    else if has_leading_zero token then false
    else match float_syntax token with
         | None | Some SynNaN => false
         | Some _ => true
         end.
Proof.
  destruct token as [|c0 [|c1 rest]]; reflexivity.
Qed.

Lemma is_numeric_literal_of_regex (token : string) :
  PyStr.strip token = token ->
  match_number_regex token = true ->
  has_leading_zero token = false ->
  is_numeric_literal token = true.
Proof.
  intros Hstrip Hm Hz. rewrite is_numeric_literal_unfold, Hz.
  rewrite (float_syntax_of_regex token Hstrip Hm).
  destruct token; [discriminate Hm|reflexivity].
Qed.

Lemma drop_underscores_digits (s : string) :
  PyStr.all_chars PyStr.is_digit s = true ->
  forall prev, Ascii.eqb prev "_" = false -> drop_underscores s prev = Some s.
Proof.
  induction s as [|c r IH]; intros Hall prev Hprev; simpl.
  - now rewrite Hprev.
  - simpl in Hall. apply andb_true_iff in Hall as [Hc Hr].
    rewrite (digit_not_other c "_" Hc eq_refl), Hc, andb_false_r.
    rewrite (IH Hr c (digit_not_other c "_" Hc eq_refl)). reflexivity.
Qed.





Lemma regex_token_not_special (token : string) :
  match_number_regex token = true ->
  String.eqb token "" = false
  /\ PyStr.startswith token (str1 DOUBLE_QUOTE) = false
  /\ is_boolean_or_null_literal token = false.
Proof.
  intros Hm. destruct (match_number_regex_body token Hm) as (c & t & Hb & Hc & _).
  destruct (number_body_cases token) as [Heq|Heq]; rewrite Heq, ?Hb.
  - destruct c as [[] [] [] [] [] [] [] []]; try discriminate Hc;
      repeat split; reflexivity.
  - repeat split; reflexivity.
Qed.







(* ------------------------------------------------------------------ *)
(** ** The parsers never run out of fuel *)

Create HintDb toon_term.

Lemma terminates_ok {A : Type} (a : A) : terminates (Ok a).
Proof. discriminate. Qed.

Lemma terminates_raise {A : Type} (e : PyError) : terminates (@Raise A e).
Proof. discriminate. Qed.

Lemma terminates_bind {A B : Type} (r : result A) (k : A -> result B) :
  terminates r -> (forall a, terminates (k a)) -> terminates (bind r k).
Proof.
  intros Hr Hk. destruct r as [a| |]; simpl; [apply Hk|discriminate|].
  now elim Hr.
Qed.

Lemma terminates_mapM {A B : Type} (f : A -> result B) (xs : list A) :
  (forall x, terminates (f x)) -> terminates (mapM f xs).
Proof.
  intros Hf. induction xs as [|x xs IH]; simpl.
  - apply terminates_ok.
  - apply terminates_bind; [apply Hf|]. intros y.
    apply terminates_bind; [exact IH|]. intros ys. apply terminates_ok.
Qed.

#[local] Hint Resolve terminates_ok terminates_raise : toon_term.

(** One step of a termination proof: through a [bind], by cases on a
    test, or by a lemma of the hint database. *)
Ltac term_step :=
  first
    [ solve [auto with toon_term]
    | apply terminates_bind; [|intros ?]
    | apply terminates_mapM; intros ?
    | match goal with
      | |- terminates (match ?s with _ => _ end) => destruct s eqn:?
      | |- terminates (if ?s then _ else _) => destruct s eqn:?
      end ].

Ltac term := repeat term_step.

Lemma unescape_loop_terminates_upto (n : nat) :
  forall (value : string) (acc : string),
    (String.length value <= n)%nat ->
    terminates (unescape_loop value acc).
Proof.
  induction n as [|n IH]; intros value acc Hlen.
  - destruct value; [simpl; term|simpl in Hlen; lia].
  - destruct value as [|c rest]; [simpl; term|].
    cbn [unescape_loop]. term; apply IH; simpl in *; lia.
Qed.

Lemma unescape_loop_terminates (value : string) (acc : string) :
  terminates (unescape_loop value acc).
Proof. now apply (unescape_loop_terminates_upto (String.length value)). Qed.

Lemma unescape_string_terminates (value : string) :
  terminates (unescape_string value).
Proof. apply unescape_loop_terminates. Qed.

#[local] Hint Resolve unescape_string_terminates : toon_term.

Lemma parse_string_literal_loop_terminates_upto (n : nat) :
  forall (unread : string) (acc : string),
    (String.length unread <= n)%nat ->
    terminates (parse_string_literal_loop unread acc).
Proof.
  induction n as [|n IH]; intros unread acc Hlen.
  - destruct unread; [simpl; term|simpl in Hlen; lia].
  - destruct unread as [|c rest]; [simpl; term|].
    cbn [parse_string_literal_loop]. term; apply IH; simpl in *; lia.
Qed.

Lemma parse_string_literal_loop_terminates (unread : string) (acc : string) :
  terminates (parse_string_literal_loop unread acc).
Proof. now apply (parse_string_literal_loop_terminates_upto (String.length unread)). Qed.

Lemma parse_string_literal_terminates (token : string) :
  terminates (parse_string_literal token).
Proof.
  unfold parse_string_literal. term.
  apply parse_string_literal_loop_terminates.
Qed.

#[local] Hint Resolve parse_string_literal_terminates : toon_term.

Lemma parse_quoted_key_loop_terminates_upto (n : nat) :
  forall (unread : string) (i : Z) (acc : string),
    (String.length unread <= n)%nat ->
    terminates (parse_quoted_key_loop unread i acc).
Proof.
  induction n as [|n IH]; intros unread i acc Hlen.
  - destruct unread; [simpl; term|simpl in Hlen; lia].
  - destruct unread as [|c rest]; [simpl; term|].
    cbn [parse_quoted_key_loop]. term; apply IH; simpl in *; lia.
Qed.

Lemma parse_quoted_key_loop_terminates (unread : string) (i : Z) (acc : string) :
  terminates (parse_quoted_key_loop unread i acc).
Proof. now apply (parse_quoted_key_loop_terminates_upto (String.length unread)). Qed.

Lemma parse_key_token_terminates (content : string) (start : Z) :
  terminates (parse_key_token content start).
Proof.
  unfold parse_key_token, parse_quoted_key, parse_unquoted_key. term.
  apply parse_quoted_key_loop_terminates.
Qed.

Lemma py_int_terminates (s : string) : terminates (py_int s).
Proof. unfold py_int. term. Qed.

#[local] Hint Resolve parse_key_token_terminates py_int_terminates : toon_term.

Lemma parse_primitive_token_terminates (token : string) :
  terminates (parse_primitive_token token).
Proof. unfold parse_primitive_token. term. Qed.

#[local] Hint Resolve parse_primitive_token_terminates : toon_term.

Lemma parse_bracket_segment_terminates (segment : string) (d : Delimiter) :
  terminates (parse_bracket_segment segment d).
Proof. unfold parse_bracket_segment. term. Qed.

Lemma parse_array_header_line_terminates (content : string) (d : Delimiter) :
  terminates (parse_array_header_line content d).
Proof.
  unfold parse_array_header_line, parse_fields_segment.
  pose proof (parse_bracket_segment_terminates) as Hseg.
  term.
  match goal with
  | H : parse_bracket_segment ?s ?d = OutOfFuel |- _ =>
      now elim (Hseg s d)
  end.
Qed.

#[local] Hint Resolve parse_array_header_line_terminates : toon_term.

Lemma fill_row_terminates (fields : list string) :
  forall idx primitives obj, terminates (fill_row fields idx primitives obj).
Proof.
  induction fields as [|field fields IH]; intros; simpl; term.
Qed.

#[local] Hint Resolve fill_row_terminates : toon_term.

Lemma assert_expected_count_terminates (actual expected : Z) (label : string)
  (options : ResolvedDecodeOptions) :
  terminates (assert_expected_count actual expected label options).
Proof. unfold assert_expected_count. term. Qed.

#[local] Hint Resolve assert_expected_count_terminates : toon_term.

Lemma decode_inline_primitive_array_terminates (header : ArrayHeaderInfo)
  (inline_values : string) (options : ResolvedDecodeOptions) :
  terminates (decode_inline_primitive_array header inline_values options).
Proof.
  unfold decode_inline_primitive_array, map_row_values_to_primitives. term.
Qed.

Lemma decode_tabular_row_terminates (header : ArrayHeaderInfo) (line : ParsedLine)
  (options : ResolvedDecodeOptions) :
  terminates (decode_tabular_row header line options).
Proof.
  unfold decode_tabular_row, map_row_values_to_primitives. term.
Qed.

Lemma check_no_more_rows_terminates (header : ArrayHeaderInfo)
  (cursor : LineCursor) (row_depth : Depth) (options : ResolvedDecodeOptions) :
  terminates (check_no_more_rows header cursor row_depth options).
Proof. unfold check_no_more_rows. term. Qed.

Lemma check_no_more_items_terminates (header : ArrayHeaderInfo)
  (cursor : LineCursor) (item_depth : Depth) (options : ResolvedDecodeOptions) :
  terminates (check_no_more_items header cursor item_depth options).
Proof. unfold check_no_more_items. term. Qed.

#[local] Hint Resolve decode_inline_primitive_array_terminates
  decode_tabular_row_terminates check_no_more_rows_terminates
  check_no_more_items_terminates : toon_term.

(* ------------------------------------------------------------------ *)
(** ** The decoders return with the fuel [decode] gives them *)

Lemma cursor_le_refl (c : LineCursor) : cursor_le c c.
Proof. split; [reflexivity|apply Nat.le_refl]. Qed.

Lemma cursor_le_trans (a b c : LineCursor) :
  cursor_le a b -> cursor_le b c -> cursor_le a c.
Proof.
  intros [H1 H2] [H3 H4]. split; [congruence|lia].
Qed.

Lemma cursor_le_advance (c : LineCursor) : cursor_le c (advance c).
Proof.
  unfold advance. destruct (peek c); split; simpl; auto.
Qed.

Lemma remaining_antitone (a b : LineCursor) :
  cursor_le a b -> (remaining b <= remaining a)%nat.
Proof.
  intros [H1 H2]. unfold remaining. rewrite H1. lia.
Qed.

Lemma remaining_advance (c : LineCursor) (line : ParsedLine) :
  peek c = Some line -> remaining c = S (remaining (advance c)).
Proof.
  intros Hpeek. unfold advance. rewrite Hpeek. unfold remaining. simpl.
  unfold peek in Hpeek.
  assert (cur_index c < length (cur_lines c))%nat.
  { apply nth_error_Some. congruence. }
  lia.
Qed.

Lemma advances_weaken {A : Type} (c c' : LineCursor) (r : result (A * LineCursor)) :
  cursor_le c c' -> advances_from c' r -> advances_from c r.
Proof.
  intros Hle. destruct r as [[a c'']| |]; simpl; auto.
  now apply cursor_le_trans.
Qed.

Lemma advances_bind_pure {A B : Type} (c : LineCursor) (r : result A)
  (k : A -> result (B * LineCursor)) :
  terminates r -> (forall a, advances_from c (k a)) ->
  advances_from c (bind r k).
Proof.
  intros Hr Hk. destruct r as [a| |]; simpl; [apply Hk|exact I|now elim Hr].
Qed.

Lemma advances_bind {A B : Type} (c c1 : LineCursor)
  (r : result (A * LineCursor)) (k : A * LineCursor -> result (B * LineCursor)) :
  cursor_le c c1 ->
  advances_from c1 r ->
  (forall a c', cursor_le c1 c' -> advances_from c (k (a, c'))) ->
  advances_from c (bind r k).
Proof.
  intros Hle Hr Hk. destruct r as [[a c']| |]; simpl in *; auto.
Qed.

(** The arithmetic facts about the cursors at hand. *)
Ltac fuel_facts :=
  repeat match goal with
    | H : cursor_le ?a ?b |- _ =>
        lazymatch goal with
        | _ : (remaining b <= remaining a)%nat |- _ => fail
        | _ => pose proof (remaining_antitone a b H)
        end
    | H : peek ?c = Some ?l |- _ =>
        lazymatch goal with
        | _ : remaining c = S (remaining (advance c)) |- _ => fail
        | _ => pose proof (remaining_advance c l H)
        end
    end.

Ltac solve_later :=
  solve [ eauto 6 using cursor_le_refl, cursor_le_trans, cursor_le_advance ].

(** A call of a decoder: by a hypothesis giving its fuel need, on the
    cursor it is called with. *)
Ltac adv_call :=
  eapply advances_weaken; cycle 1;
  [ match goal with
    | H : forall _, _ |- advances_from _ _ => apply H; fuel_facts; lia
    end
  | solve_later ].

Ltac adv_step :=
  first
    [ exact I
    | match goal with
      | |- advances_from _ (Ok _) => simpl; solve_later
      end
    | apply advances_bind_pure; [solve [term]|intros ?]
    | eapply advances_bind; cycle 1;
      [ match goal with
        | H : forall _, _ |- advances_from _ _ => apply H; fuel_facts; lia
        end
      | intros ? ? ?
      | solve_later ]
    | match goal with
      | |- advances_from _ (match ?s with _ => _ end) => destruct s eqn:?
      | |- advances_from _ (if ?s then _ else _) => destruct s eqn:?
      end
    | adv_call ].

Ltac adv := repeat adv_step.

Lemma finish_tabular_array_advances (header : ArrayHeaderInfo)
  (objects : list JsonValue) (cursor : LineCursor) (row_depth : Depth)
  (options : ResolvedDecodeOptions) :
  advances_from cursor
    (finish_tabular_array header objects cursor row_depth options).
Proof. unfold finish_tabular_array. adv. Qed.

Lemma finish_list_array_advances (header : ArrayHeaderInfo)
  (items : list JsonValue) (cursor : LineCursor) (item_depth : Depth)
  (options : ResolvedDecodeOptions) :
  advances_from cursor (finish_list_array header items cursor item_depth options).
Proof. unfold finish_list_array. adv. Qed.

Lemma decode_tabular_array_from_advances (fuel : nat) :
  forall header objects cursor base_depth options,
    (remaining cursor + 1 <= fuel)%nat ->
    advances_from cursor
      (decode_tabular_array_from fuel header objects cursor base_depth options).
Proof.
  induction fuel as [|fuel IH]; intros header objects cursor base_depth options Hf;
    [lia|].
  cbn [decode_tabular_array_from].
  pose proof (finish_tabular_array_advances header objects cursor
                (base_depth + 1) options) as Hfinish.
  adv; exact Hfinish.
Qed.

(** The seven mutually recursive decoders, with the fuel each needs for
    the lines left: a line is consumed at least every fifth call. *)
Lemma decoders_advance (fuel : nat) :
  (forall obj cursor d options,
      (5 * remaining cursor + 3 <= fuel)%nat ->
      advances_from cursor (decode_object_from fuel obj cursor d options))
  /\ (forall content cursor d options,
         (5 * remaining cursor + 4 <= fuel)%nat ->
         advances_from cursor (decode_key_value fuel content cursor d options))
  /\ (forall header inline_values cursor d options,
         (5 * remaining cursor + 3 <= fuel)%nat ->
         advances_from cursor
           (decode_array_from_header fuel header inline_values cursor d options))
  /\ (forall header items cursor d options,
         (5 * remaining cursor + 2 <= fuel)%nat ->
         advances_from cursor
           (decode_list_array_from fuel header items cursor d options))
  /\ (forall cursor d delimiter options,
         (5 * remaining cursor + 1 <= fuel)%nat ->
         advances_from (advance cursor)
           (decode_list_item fuel cursor d delimiter options))
  /\ (forall first_line cursor d options,
         (5 * remaining cursor + 5 <= fuel)%nat ->
         advances_from cursor
           (decode_object_from_list_item fuel first_line cursor d options))
  /\ (forall obj cursor d options,
         (5 * remaining cursor + 4 <= fuel)%nat ->
         advances_from cursor (decode_item_fields_from fuel obj cursor d options)).
Proof.
  induction fuel as [|fuel IH].
  - repeat split; intros; lia.
  - destruct IH as (IHobj & IHkv & IHarr & IHlist & IHitem & IHfirst & IHfields).
    pose proof (decode_tabular_array_from_advances fuel) as IHtab.
    split; [|split; [|split; [|split; [|split; [|split]]]]].
    + intros obj cursor d options Hf. cbn [decode_object_from]. adv.
    + intros content cursor d options Hf. cbn [decode_key_value]. adv.
    + intros header inline_values cursor d options Hf.
      cbn [decode_array_from_header]. unfold decode_tabular_array. adv.
    + intros header items cursor d options Hf. cbn [decode_list_array_from].
      pose proof (finish_list_array_advances header items cursor (d + 1) options)
        as Hfinish.
      adv; exact Hfinish.
    + intros cursor d delimiter options Hf. cbn [decode_list_item]. adv.
    + intros first_line cursor d options Hf.
      cbn [decode_object_from_list_item]. adv.
    + intros obj cursor d options Hf. cbn [decode_item_fields_from]. adv.
Qed.

Lemma decode_value_from_lines_terminates (lines : list ParsedLine)
  (options : ResolvedDecodeOptions) :
  terminates (decode_value_from_lines (decode_fuel lines) (new_cursor lines) options).
Proof.
  destruct (decoders_advance (decode_fuel lines))
    as (Hobj & _ & Harr & _).
  assert (Hrem : remaining (new_cursor lines) = length lines)
    by (unfold remaining; simpl; lia).
  unfold decode_value_from_lines, decode_object.
  destruct (peek (new_cursor lines)) as [first|] eqn:Hpeek; [|term].
  apply terminates_bind; [term|]. intros header_info.
  destruct header_info as [[header inline_values]|].
  - pose proof (Harr header inline_values (advance (new_cursor lines)) 0 options)
      as Hrun.
    pose proof (remaining_advance _ _ Hpeek) as Hadv.
    destruct (decode_array_from_header (decode_fuel lines) header inline_values
                (advance (new_cursor lines)) 0 options) as [[v c]| |];
      simpl; [term|term|].
    exfalso. apply Hrun. unfold decode_fuel. lia.
  - destruct (Nat.eqb (cursor_length (new_cursor lines)) 1
              && negb (is_key_value_line first)); [term|].
    pose proof (Hobj [] (new_cursor lines) 0 options) as Hrun.
    destruct (decode_object_from (decode_fuel lines) [] (new_cursor lines) 0
                options) as [[v c]| |]; simpl; [term|term|].
    exfalso. apply Hrun. unfold decode_fuel. lia.
Qed.

(** [decode] returns a value or raises: the fuel it gives the decoders
    is never exhausted. *)
Lemma decode_terminates (input_text : string) (options : DecodeOptions) :
  terminates (decode input_text options).
Proof.
  unfold decode.
  destruct (String.eqb input_text "" || String.eqb (PyStr.strip input_text) "");
    [term|].
  apply terminates_bind.
  - unfold to_parsed_lines. apply terminates_mapM. intros raw_line.
    unfold parse_line. term.
  - intros lines. destruct (Nat.eqb (length lines) 0); [term|].
    apply decode_value_from_lines_terminates.
Qed.

(* ------------------------------------------------------------------ *)
(** ** More fuel does not change a result *)

Lemma extends_refl {A : Type} (r : result A) : extends r r.
Proof. now right. Qed.

Lemma extends_bind {A B : Type} (r1 r2 : result A) (k1 k2 : A -> result B) :
  extends r1 r2 ->
  (forall a, extends (k1 a) (k2 a)) ->
  extends (bind r1 k1) (bind r2 k2).
Proof.
  intros [-> | ->] Hk.
  - now left.
  - destruct r1 as [a|e|]; simpl; [apply Hk|now right|now right].
Qed.

Ltac extend_step :=
  first
    [ apply extends_refl
    | apply extends_bind; [|intros ?]
    | match goal with
      | |- extends (match ?s with _ => _ end) _ => destruct s eqn:?
      | |- extends (if ?s then _ else _) _ => destruct s eqn:?
      end
    | match goal with
      | H : forall _, _ |- extends _ _ => apply H
      end ].

Ltac extend := repeat extend_step.

Lemma decode_tabular_array_from_extends (fuel : nat) :
  forall fuel', (fuel <= fuel')%nat ->
  forall header objects cursor base_depth options,
    extends
      (decode_tabular_array_from fuel header objects cursor base_depth options)
      (decode_tabular_array_from fuel' header objects cursor base_depth options).
Proof.
  induction fuel as [|fuel IH]; intros fuel' Hle header objects cursor base_depth
                                       options.
  - now left.
  - destruct fuel' as [|fuel']; [lia|].
    assert (Hle' : (fuel <= fuel')%nat) by lia.
    specialize (IH fuel' Hle').
    cbn [decode_tabular_array_from]. extend.
Qed.

Lemma decoders_extend (fuel : nat) :
  forall fuel', (fuel <= fuel')%nat ->
  (forall obj cursor d options,
      extends (decode_object_from fuel obj cursor d options)
              (decode_object_from fuel' obj cursor d options))
  /\ (forall content cursor d options,
         extends (decode_key_value fuel content cursor d options)
                 (decode_key_value fuel' content cursor d options))
  /\ (forall header inline_values cursor d options,
         extends
           (decode_array_from_header fuel header inline_values cursor d options)
           (decode_array_from_header fuel' header inline_values cursor d options))
  /\ (forall header items cursor d options,
         extends (decode_list_array_from fuel header items cursor d options)
                 (decode_list_array_from fuel' header items cursor d options))
  /\ (forall cursor d delimiter options,
         extends (decode_list_item fuel cursor d delimiter options)
                 (decode_list_item fuel' cursor d delimiter options))
  /\ (forall first_line cursor d options,
         extends (decode_object_from_list_item fuel first_line cursor d options)
                 (decode_object_from_list_item fuel' first_line cursor d options))
  /\ (forall obj cursor d options,
         extends (decode_item_fields_from fuel obj cursor d options)
                 (decode_item_fields_from fuel' obj cursor d options)).
Proof.
  induction fuel as [|fuel IH]; intros fuel' Hle.
  - repeat split; intros; now left.
  - destruct fuel' as [|fuel']; [lia|].
    assert (Hle' : (fuel <= fuel')%nat) by lia.
    destruct (IH fuel' Hle')
      as (IHobj & IHkv & IHarr & IHlist & IHitem & IHfirst & IHfields).
    pose proof (decode_tabular_array_from_extends fuel fuel' Hle') as IHtab.
    clear IH.
    repeat split; intros.
    + cbn [decode_object_from]. extend.
    + cbn [decode_key_value]. extend.
    + cbn [decode_array_from_header]. unfold decode_tabular_array. extend.
    + cbn [decode_list_array_from]. extend.
    + cbn [decode_list_item]. extend.
    + cbn [decode_object_from_list_item]. extend.
    + cbn [decode_item_fields_from]. extend.
Qed.

(** [decode] is [decode_with] at any fuel from [decode_fuel] on: the
    result does not depend on the fuel chosen. *)
Lemma decode_with_enough_fuel (fuel : nat) (input_text : string)
  (options : DecodeOptions) :
  (forall lines,
      to_parsed_lines input_text (dec_indent (resolve_decode_options options))
      = Ok lines ->
      (decode_fuel lines <= fuel)%nat) ->
  decode_with fuel input_text options = decode input_text options.
Proof.
  intros Hfuel. unfold decode_with, decode.
  destruct (String.eqb input_text "" || String.eqb (PyStr.strip input_text) "");
    [reflexivity|].
  cbv zeta.
  destruct (to_parsed_lines input_text
              (dec_indent (resolve_decode_options options))) as [lines| |] eqn:Hl;
    try reflexivity.
  cbn [bind]. destruct (Nat.eqb (length lines) 0); [reflexivity|].
  specialize (Hfuel lines eq_refl).
  pose proof (decode_value_from_lines_terminates lines
                (resolve_decode_options options)) as Hterm.
  destruct (decoders_extend (decode_fuel lines) fuel Hfuel)
    as (IHobj & _ & IHarr & _).
  assert (Hext : extends
            (decode_value_from_lines (decode_fuel lines) (new_cursor lines)
                                     (resolve_decode_options options))
            (decode_value_from_lines fuel (new_cursor lines)
                                     (resolve_decode_options options))).
  { unfold decode_value_from_lines, decode_object. extend. }
  destruct Hext as [Hout | Heq]; [now elim Hterm|exact Heq].
Qed.

(* ------------------------------------------------------------------ *)
(** ** Concatenation, reversal and stripping *)

Lemma append_nil_r (s : string) : s ++ "" = s.
Proof.
  induction s as [|c s IH]; simpl; congruence.
Qed.

Lemma append_assoc (a b c : string) : (a ++ b) ++ c = a ++ b ++ c.
Proof.
  induction a as [|x a IH]; simpl; congruence.
Qed.

Lemma length_append (a b : string) :
  String.length (a ++ b) = (String.length a + String.length b)%nat.
Proof.
  induction a as [|x a IH]; simpl; congruence.
Qed.

Lemma len_append (a b : string) : PyStr.len (a ++ b) = PyStr.len a + PyStr.len b.
Proof.
  unfold PyStr.len. rewrite length_append. lia.
Qed.

Lemma len_nonneg (s : string) : 0 <= PyStr.len s.
Proof.
  unfold PyStr.len. lia.
Qed.

Lemma string_of_list_ascii_app (a b : list ascii) :
  string_of_list_ascii (a ++ b)%list
  = string_of_list_ascii a ++ string_of_list_ascii b.
Proof.
  induction a as [|x a IH]; simpl; congruence.
Qed.

Lemma list_ascii_of_string_app (a b : string) :
  list_ascii_of_string (a ++ b)
  = (list_ascii_of_string a ++ list_ascii_of_string b)%list.
Proof.
  induction a as [|x a IH]; simpl; congruence.
Qed.

Lemma rev_cons (c : ascii) (r : string) :
  PyStr.rev (String c r) = PyStr.rev r ++ str1 c.
Proof.
  unfold PyStr.rev. simpl. now rewrite string_of_list_ascii_app.
Qed.

Lemma rev_append (a b : string) :
  PyStr.rev (a ++ b) = PyStr.rev b ++ PyStr.rev a.
Proof.
  unfold PyStr.rev.
  now rewrite list_ascii_of_string_app, rev_app_distr, string_of_list_ascii_app.
Qed.

Lemma rev_rev (s : string) : PyStr.rev (PyStr.rev s) = s.
Proof.
  unfold PyStr.rev.
  now rewrite list_ascii_of_string_of_list_ascii, rev_involutive,
    string_of_list_ascii_of_string.
Qed.

Lemma all_chars_append (p : ascii -> bool) (a b : string) :
  PyStr.all_chars p (a ++ b) = PyStr.all_chars p a && PyStr.all_chars p b.
Proof.
  induction a as [|x a IH]; simpl; auto.
  rewrite IH. apply andb_assoc.
Qed.

Lemma all_chars_rev (p : ascii -> bool) (s : string) :
  PyStr.all_chars p (PyStr.rev s) = PyStr.all_chars p s.
Proof.
  induction s as [|c s IH]; [reflexivity|].
  rewrite rev_cons, all_chars_append, IH. simpl.
  rewrite andb_true_r. apply andb_comm.
Qed.

Lemma contains_false_all_chars (c : ascii) (s : string) :
  PyStr.contains c s = false <->
  PyStr.all_chars (fun a => negb (Ascii.eqb a c)) s = true.
Proof.
  induction s as [|a s IH]; simpl; [tauto|].
  rewrite orb_false_iff, andb_true_iff, negb_true_iff. tauto.
Qed.

Lemma contains_rev (c : ascii) (s : string) :
  PyStr.contains c (PyStr.rev s) = PyStr.contains c s.
Proof.
  induction s as [|a s IH]; [reflexivity|].
  rewrite rev_cons, contains_app, IH. simpl.
  rewrite orb_false_r. apply orb_comm.
Qed.

(** Stripping leaves a text that starts and ends with a character that
    is no whitespace. *)
Lemma rstrip_snoc (a : string) (c : ascii) :
  PyStr.is_space c = false -> PyStr.rstrip (a ++ str1 c) = a ++ str1 c.
Proof.
  intros Hc. unfold PyStr.rstrip.
  rewrite rev_append. simpl. rewrite Hc.
  change (String c (PyStr.rev a)) with (PyStr.rev (str1 c) ++ PyStr.rev a).
  now rewrite <- rev_append, rev_rev.
Qed.

Lemma strip_bounded (c d : ascii) (a : string) :
  PyStr.is_space c = false -> PyStr.is_space d = false ->
  PyStr.strip (String c (a ++ str1 d)) = String c (a ++ str1 d).
Proof.
  intros Hc Hd. unfold PyStr.strip. simpl. rewrite Hc.
  change (String c (a ++ str1 d)) with ((String c a) ++ str1 d).
  now apply rstrip_snoc.
Qed.

Lemma lstrip_no_space (s : string) :
  PyStr.all_chars (fun c => negb (PyStr.is_space c)) s = true ->
  PyStr.lstrip s = s.
Proof.
  destruct s as [|c s]; [reflexivity|]. simpl.
  intros H. apply andb_true_iff in H as [Hc _].
  apply negb_true_iff in Hc. now rewrite Hc.
Qed.

Lemma strip_no_space (s : string) :
  PyStr.all_chars (fun c => negb (PyStr.is_space c)) s = true ->
  PyStr.strip s = s.
Proof.
  intros H. unfold PyStr.strip, PyStr.rstrip.
  rewrite (lstrip_no_space s H), lstrip_no_space.
  - apply rev_rev.
  - now rewrite all_chars_rev.
Qed.

Lemma strip_empty : PyStr.strip "" = "".
Proof.
  reflexivity.
Qed.

(** A quoted text is its own stripped form. *)
Lemma strip_quoted (body : string) : PyStr.strip (quoted body) = quoted body.
Proof.
  unfold quoted. now apply strip_bounded.
Qed.

Lemma string_eqb_true (a b : string) : String.eqb a b = true -> a = b.
Proof.
  apply String.eqb_eq.
Qed.

Lemma startswith_head (c d : ascii) (r : string) :
  PyStr.startswith (String c r) (str1 d) = Ascii.eqb c d.
Proof.
  unfold PyStr.startswith. simpl.
  destruct (ascii_dec d c) as [->|Hne].
  - destruct r; now rewrite Ascii.eqb_refl.
  - destruct (Ascii.eqb_spec c d); congruence.
Qed.

Lemma startswith_empty (d : ascii) : PyStr.startswith "" (str1 d) = false.
Proof.
  reflexivity.
Qed.

Lemma contains_head_false (c d : ascii) (r : string) :
  PyStr.contains d (String c r) = false -> Ascii.eqb c d = false.
Proof.
  simpl. intros H. now apply orb_false_iff in H.
Qed.

(* ------------------------------------------------------------------ *)
(** ** Escaping and unescaping *)

Lemma replace_append (c : ascii) (by_ a b : string) :
  PyStr.replace c by_ (a ++ b) = PyStr.replace c by_ a ++ PyStr.replace c by_ b.
Proof.
  induction a as [|x a IH]; simpl; [reflexivity|].
  destruct (Ascii.eqb x c); rewrite IH; [now rewrite append_assoc|reflexivity].
Qed.

(** The four replacements of [escape_string], made one after the other
    on the whole text, amount to escaping each character on its own:
    no replacement introduces a character that a later one rewrites. *)
Lemma escape_string_chars (s : string) : escape_string s = escape_chars s.
Proof.
  unfold escape_string, ESCAPE_SEQUENCES. cbn [fold_left fst snd].
  induction s as [|c s IH]; [reflexivity|].
  cbn [PyStr.replace escape_chars]. unfold escape_char.
  destruct (Ascii.eqb_spec c BACKSLASH) as [->|Hb].
  - rewrite !replace_append, IH. reflexivity.
  - change (String c (PyStr.replace BACKSLASH (String BACKSLASH (str1 BACKSLASH)) s))
      with (str1 c ++ PyStr.replace BACKSLASH (String BACKSLASH (str1 BACKSLASH)) s).
    rewrite !replace_append, IH. f_equal.
    cbn [PyStr.replace str1].
    destruct (Ascii.eqb_spec c DOUBLE_QUOTE) as [->|Hq]; [reflexivity|].
    cbn [PyStr.replace str1].
    destruct (Ascii.eqb_spec c NEWLINE) as [->|Hn]; [reflexivity|].
    cbn [PyStr.replace str1].
    destruct (Ascii.eqb_spec c CARRIAGE_RETURN) as [->|Hr]; reflexivity.
Qed.

Lemma unescape_loop_escape_chars (s rest acc : string) :
  unescape_loop (escape_chars s ++ rest) acc = unescape_loop rest (acc ++ s).
Proof.
  revert acc. induction s as [|c s IH]; intros acc.
  - simpl. now rewrite append_nil_r.
  - cbn [escape_chars]. rewrite append_assoc. unfold escape_char.
    replace (acc ++ String c s) with ((acc ++ str1 c) ++ s)
      by (rewrite append_assoc; reflexivity).
    destruct (Ascii.eqb_spec c BACKSLASH) as [->|Hb]; [apply IH|].
    destruct (Ascii.eqb_spec c DOUBLE_QUOTE) as [->|Hq]; [apply IH|].
    destruct (Ascii.eqb_spec c NEWLINE) as [->|Hn]; [apply IH|].
    destruct (Ascii.eqb_spec c CARRIAGE_RETURN) as [->|Hr]; [apply IH|].
    cbn [str1 append unescape_loop].
    apply Ascii.eqb_neq in Hb. rewrite Hb. apply IH.
Qed.

Lemma unescape_escape (s : string) : unescape_string (escape_string s) = Ok s.
Proof.
  unfold unescape_string. rewrite escape_string_chars.
  rewrite <- (append_nil_r (escape_chars s)), unescape_loop_escape_chars.
  reflexivity.
Qed.

(** X1: unescaping an escaped text gives the text back, whatever
    characters it holds. *)
Theorem unescape_string_inverts_escape_string :
  forall value : string, unescape_string (escape_string value) = Ok value.
Proof.
  exact unescape_escape.
Qed.

(* ------------------------------------------------------------------ *)
(** ** Quoted literals *)

Lemma escape_chars_snoc_nonempty (s : string) (q : ascii) (rest : string) :
  exists x y, escape_chars s ++ String q rest = String x y.
Proof.
  destruct s as [|c s]; simpl; [eauto|].
  unfold escape_char.
  destruct (Ascii.eqb c BACKSLASH); [simpl; eauto|].
  destruct (Ascii.eqb c DOUBLE_QUOTE); [simpl; eauto|].
  destruct (Ascii.eqb c NEWLINE); [simpl; eauto|].
  destruct (Ascii.eqb c CARRIAGE_RETURN); simpl; eauto.
Qed.

Lemma parse_string_literal_loop_escaped (s content : string) :
  parse_string_literal_loop (escape_chars s ++ str1 DOUBLE_QUOTE) content
  = unescape_string (content ++ escape_chars s).
Proof.
  revert content. induction s as [|c s IH]; intros content.
  - simpl. now rewrite append_nil_r.
  - cbn [escape_chars]. rewrite append_assoc.
    replace (content ++ escape_char c ++ escape_chars s)
      with ((content ++ escape_char c) ++ escape_chars s)
      by (rewrite append_assoc; reflexivity).
    unfold escape_char.
    destruct (Ascii.eqb_spec c BACKSLASH) as [->|Hb]; [apply IH|].
    destruct (Ascii.eqb_spec c DOUBLE_QUOTE) as [->|Hq]; [apply IH|].
    destruct (Ascii.eqb_spec c NEWLINE) as [->|Hn]; [apply IH|].
    destruct (Ascii.eqb_spec c CARRIAGE_RETURN) as [->|Hr]; [apply IH|].
    cbn [str1 append].
    destruct (escape_chars_snoc_nonempty s DOUBLE_QUOTE "") as (x & y & Hxy).
    unfold str1 in IH |- *.
    cbn [parse_string_literal_loop]. rewrite Hxy.
    apply Ascii.eqb_neq in Hb, Hq. rewrite Hb, Hq.
    rewrite <- Hxy. apply IH.
Qed.

Lemma parse_string_literal_quoted (s : string) :
  parse_string_literal (quoted (escape_string s)) = Ok s.
Proof.
  unfold parse_string_literal. rewrite strip_quoted. unfold quoted.
  rewrite Ascii.eqb_refl, escape_string_chars.
  rewrite parse_string_literal_loop_escaped. simpl.
  rewrite <- escape_string_chars. apply unescape_escape.
Qed.

(** What [is_safe_unquoted] has checked when it answers yes. *)
Lemma is_safe_unquoted_facts (value : string) (delimiter : Delimiter) :
  is_safe_unquoted value delimiter = true ->
  value <> ""
  /\ PyStr.strip value = value
  /\ is_boolean_or_null_literal value = false
  /\ is_numeric_like value = false
  /\ PyStr.contains ":" value = false
  /\ PyStr.contains DOUBLE_QUOTE value = false
  /\ PyStr.contains BACKSLASH value = false
  /\ PyStr.contains "[" value = false
  /\ PyStr.contains "{" value = false
  /\ PyStr.contains NEWLINE value = false
  /\ (delimiter <> "|"%char -> PyStr.contains delimiter value = false)
  /\ PyStr.startswith value LIST_ITEM_MARKER = false.
Proof.
  unfold is_safe_unquoted, is_boolean_or_null_literal.
  destruct (String.eqb_spec value "") as [|Hne]; [discriminate|].
  destruct (String.eqb_spec value (PyStr.strip value)) as [Hs|]; [|discriminate].
  cbn [negb].
  destruct (String.eqb value TRUE_LITERAL || String.eqb value FALSE_LITERAL
            || String.eqb value NULL_LITERAL); [discriminate|].
  destruct (is_numeric_like value); [discriminate|].
  destruct (PyStr.contains ":" value); [discriminate|].
  destruct (PyStr.contains DOUBLE_QUOTE value); [discriminate|].
  destruct (PyStr.contains BACKSLASH value); [discriminate|].
  destruct (PyStr.contains "[" value); [discriminate|].
  destruct (PyStr.contains "]" value); [discriminate|].
  destruct (PyStr.contains "{" value); [discriminate|].
  destruct (PyStr.contains "}" value); [discriminate|].
  destruct (PyStr.contains NEWLINE value); [discriminate|].
  destruct (PyStr.contains CARRIAGE_RETURN value); [discriminate|].
  destruct (PyStr.contains TAB value); [discriminate|].
  cbn [orb].
  destruct (Ascii.eqb_spec delimiter "|") as [->|Hd].
  - destruct (PyStr.startswith value LIST_ITEM_MARKER); [discriminate|].
    intros _. repeat split; auto. congruence.
  - destruct (PyStr.contains delimiter value); [discriminate|].
    destruct (PyStr.contains "|" value); [discriminate|]. cbn [orb].
    destruct (PyStr.startswith value LIST_ITEM_MARKER); [discriminate|].
    intros _. repeat split; auto.
Qed.

Lemma parse_string_literal_unquoted (s : string) :
  PyStr.strip s = s -> PyStr.contains DOUBLE_QUOTE s = false ->
  parse_string_literal s = Ok s.
Proof.
  intros Hs Hq. unfold parse_string_literal. rewrite Hs.
  destruct s as [|c r]; [reflexivity|].
  now rewrite (contains_head_false _ _ _ Hq).
Qed.

Lemma parse_string_literal_encode_string_literal (s : string) (d : Delimiter) :
  parse_string_literal (encode_string_literal s d) = Ok s.
Proof.
  unfold encode_string_literal.
  destruct (is_safe_unquoted s d) eqn:Hsafe.
  - destruct (is_safe_unquoted_facts s d Hsafe)
      as (_ & Hs & _ & _ & _ & Hq & _).
    now apply parse_string_literal_unquoted.
  - apply parse_string_literal_quoted.
Qed.

(** X2: reading back the literal written for a string gives the string,
    whether it was written bare or between quotes, for every text and
    every delimiter. *)
Theorem parse_string_literal_inverts_encode_string_literal :
  forall (value : string) (delimiter : Delimiter),
    parse_string_literal (encode_string_literal value delimiter) = Ok value.
Proof.
  exact parse_string_literal_encode_string_literal.
Qed.

(* ------------------------------------------------------------------ *)
(** ** Searching and slicing *)

Lemma find_aux_skip (c : ascii) (a b : string) (i : Z) :
  PyStr.contains c a = false ->
  PyStr.find_aux c (a ++ b) i = PyStr.find_aux c b (i + PyStr.len a).
Proof.
  revert i. induction a as [|x a IH]; intros i H.
  - simpl. f_equal. unfold PyStr.len. simpl. lia.
  - simpl in H. apply orb_false_iff in H as [Hx Ha].
    simpl. rewrite Hx, (IH _ Ha). f_equal.
    unfold PyStr.len. simpl String.length. lia.
Qed.

Lemma find_aux_absent (c : ascii) (s : string) (i : Z) :
  PyStr.contains c s = false -> PyStr.find_aux c s i = -1.
Proof.
  revert i. induction s as [|x s IH]; intros i H; [reflexivity|].
  simpl in H. apply orb_false_iff in H as [Hx Hs].
  simpl. rewrite Hx. now apply IH.
Qed.

Lemma find_aux_lower (c : ascii) (s : string) (i : Z) :
  PyStr.find_aux c s i = -1 \/ i <= PyStr.find_aux c s i.
Proof.
  revert i. induction s as [|x s IH]; intros i; simpl; [now left|].
  destruct (Ascii.eqb x c); [right; lia|].
  destruct (IH (i + 1)) as [->|H]; [now left|right; lia].
Qed.

Lemma drop_append (a b : string) : PyStr.drop (String.length a) (a ++ b) = b.
Proof.
  induction a as [|x a IH]; simpl; auto.
Qed.

Lemma take_append (a b : string) : PyStr.take (String.length a) (a ++ b) = a.
Proof.
  induction a as [|x a IH]; simpl; [now destruct b|congruence].
Qed.

Lemma from_append (a b : string) : PyStr.from (a ++ b) (PyStr.len a) = b.
Proof.
  unfold PyStr.from, PyStr.len. rewrite Nat2Z.id. apply drop_append.
Qed.

Lemma upto_append (a b : string) : PyStr.upto (a ++ b) (PyStr.len a) = a.
Proof.
  unfold PyStr.upto, PyStr.len. rewrite Nat2Z.id. apply take_append.
Qed.

Lemma from_zero (s : string) : PyStr.from s 0 = s.
Proof.
  reflexivity.
Qed.

(** [(a ++ b ++ c)[len a : len a + len b]] is [b]. *)
Lemma slice_middle (a b c : string) :
  PyStr.slice (a ++ b ++ c) (PyStr.len a) (PyStr.len a + PyStr.len b) = b.
Proof.
  unfold PyStr.slice.
  rewrite <- len_append, <- append_assoc.
  unfold PyStr.len. rewrite !Nat2Z.id, take_append. apply drop_append.
Qed.

Lemma slice_prefix (a b : string) : PyStr.slice (a ++ b) 0 (PyStr.len a) = a.
Proof.
  unfold PyStr.slice, PyStr.len. rewrite Nat2Z.id, take_append. reflexivity.
Qed.

(** The first [c] at or after the end of [p] in [p ++ a ++ c ++ b],
    when [a] has none. *)
Lemma find_after (c : ascii) (p a b : string) :
  PyStr.contains c a = false ->
  PyStr.find c (p ++ a ++ String c b) (PyStr.len p) = PyStr.len p + PyStr.len a.
Proof.
  intros Ha. unfold PyStr.find. rewrite from_append, (find_aux_skip _ _ _ _ Ha).
  simpl. now rewrite Ascii.eqb_refl.
Qed.

Lemma find_first (c : ascii) (a b : string) :
  PyStr.contains c a = false ->
  PyStr.find c (a ++ String c b) 0 = PyStr.len a.
Proof.
  intros Ha. apply (find_after c "" a b Ha).
Qed.

Lemma find_absent (c : ascii) (s : string) :
  PyStr.contains c s = false -> PyStr.find c s 0 = -1.
Proof.
  intros H. unfold PyStr.find. rewrite from_zero. now apply find_aux_absent.
Qed.

Lemma at_head (c : ascii) (r : string) : PyStr.at_ (String c r) 0 = Some c.
Proof.
  reflexivity.
Qed.

(* ------------------------------------------------------------------ *)
(** ** Keys *)

Lemma key_char_is_plain (c : ascii) :
  PyStr.is_word c || Ascii.eqb c "." = true -> is_plain_char c = true.
Proof.
  destruct c as [[] [] [] [] [] [] [] []]; vm_compute; intros H;
    first [reflexivity | discriminate H].
Qed.

Lemma key_head_is_plain (c : ascii) :
  PyStr.is_ascii_alpha c || Ascii.eqb c "_" = true -> is_plain_char c = true.
Proof.
  destruct c as [[] [] [] [] [] [] [] []]; vm_compute; intros H;
    first [reflexivity | discriminate H].
Qed.

(** A key that needs no quotes is made of plain characters. *)
Lemma match_key_regex_plain (key : string) :
  match_key_regex key = true ->
  key <> "" /\ PyStr.all_chars is_plain_char key = true.
Proof.
  destruct key as [|c r]; [discriminate|].
  unfold match_key_regex. intros H. apply andb_true_iff in H as [Hc Hr].
  split; [discriminate|]. simpl.
  rewrite (key_head_is_plain c Hc). simpl.
  eapply all_chars_impl; [|exact Hr]. apply key_char_is_plain.
Qed.

Lemma plain_not_contains (x : ascii) (s : string) :
  is_plain_char x = false ->
  PyStr.all_chars is_plain_char s = true -> PyStr.contains x s = false.
Proof.
  apply all_chars_not_contains.
Qed.

Lemma plain_strip (s : string) :
  PyStr.all_chars is_plain_char s = true -> PyStr.strip s = s.
Proof.
  intros H. apply strip_no_space.
  eapply all_chars_impl; [|exact H].
  intros c Hc. unfold is_plain_char in Hc.
  destruct (PyStr.is_space c); [discriminate Hc|reflexivity].
Qed.

Lemma parse_quoted_key_loop_pair (nxt : ascii) (tail : string) (i : Z)
  (key_content : string) :
  parse_quoted_key_loop (String BACKSLASH (String nxt tail)) i key_content
  = parse_quoted_key_loop tail (i + 2)
      (key_content ++ String BACKSLASH (str1 nxt)).
Proof.
  reflexivity.
Qed.

Lemma parse_quoted_key_loop_escaped (s rest : string) (i : Z) (key_content : string) :
  parse_quoted_key_loop
    (escape_chars s ++ String DOUBLE_QUOTE (String COLON rest)) i key_content
  = let* parsed := unescape_string (key_content ++ escape_chars s) in
    Ok (parsed, i + PyStr.len (escape_chars s) + 2).
Proof.
  assert (Hlen2 : forall a b t, PyStr.len (String a (String b t)) = 2 + PyStr.len t).
  { intros a b t. unfold PyStr.len. simpl String.length. lia. }
  revert i key_content. induction s as [|c s IH]; intros i key_content.
  - simpl. rewrite append_nil_r. unfold PyStr.len. simpl.
    now rewrite Z.add_0_r.
  - cbn [escape_chars]. rewrite append_assoc.
    replace (key_content ++ escape_char c ++ escape_chars s)
      with ((key_content ++ escape_char c) ++ escape_chars s)
      by (rewrite append_assoc; reflexivity).
    unfold escape_char.
    destruct (Ascii.eqb_spec c BACKSLASH) as [->|Hb];
      [|destruct (Ascii.eqb_spec c DOUBLE_QUOTE) as [->|Hq];
        [|destruct (Ascii.eqb_spec c NEWLINE) as [->|Hn];
          [|destruct (Ascii.eqb_spec c CARRIAGE_RETURN) as [->|Hr]]]].
    1-4: cbn [str1 append]; rewrite parse_quoted_key_loop_pair, IH, Hlen2;
      unfold str1;
      match goal with
      | |- bind ?u _ = bind ?u _ =>
          destruct u; cbn [bind]; [do 2 f_equal; lia|reflexivity..]
      end.
    cbn [str1 append].
    destruct (escape_chars_snoc_nonempty s DOUBLE_QUOTE (String COLON rest))
      as (x & y & Hxy).
    cbn [parse_quoted_key_loop]. rewrite Hxy.
    apply Ascii.eqb_neq in Hb, Hq. rewrite Hb, Hq.
    rewrite <- Hxy, IH.
    replace (PyStr.len (String c (escape_chars s)))
      with (1 + PyStr.len (escape_chars s))
      by (unfold PyStr.len; simpl String.length; lia).
    match goal with
    | |- bind ?u _ = bind ?u _ =>
        destruct u; cbn [bind]; [do 2 f_equal; lia|reflexivity..]
    end.
Qed.

(** Reading the key written by [encode_key] in front of a colon gives
    the key and the position after the colon. *)
Lemma parse_key_token_encode_key (key rest : string) :
  parse_key_token (encode_key key ++ String COLON rest) 0
  = Ok (key, PyStr.len (encode_key key) + 1).
Proof.
  unfold encode_key. destruct (match_key_regex key) eqn:Hm.
  - destruct (match_key_regex_plain key Hm) as [Hne Hplain].
    destruct key as [|c r]; [congruence|].
    unfold parse_key_token. cbn [append]. rewrite at_head.
    assert (Hc : Ascii.eqb c DOUBLE_QUOTE = false).
    { apply contains_head_false with (r := r).
      now apply plain_not_contains. }
    rewrite Hc. unfold parse_unquoted_key.
    change (String c (r ++ String COLON rest))
      with (String c r ++ String COLON rest).
    rewrite find_first by now apply plain_not_contains.
    pose proof (len_nonneg (String c r)).
    destruct (Z.eqb_spec (PyStr.len (String c r)) (-1)) as [E|_]; [lia|].
    now rewrite slice_prefix, plain_strip.
  - unfold parse_key_token, quoted. cbn [append]. rewrite at_head.
    rewrite Ascii.eqb_refl. unfold parse_quoted_key.
    change (PyStr.from (String DOUBLE_QUOTE
                          ((escape_string key ++ str1 DOUBLE_QUOTE)
                           ++ String COLON rest)) (0 + 1))
      with ((escape_string key ++ str1 DOUBLE_QUOTE) ++ String COLON rest).
    rewrite append_assoc. cbn [str1 append].
    rewrite escape_string_chars, parse_quoted_key_loop_escaped.
    cbn [append]. rewrite <- escape_string_chars.
    fold (unescape_string (escape_string key)). rewrite unescape_escape.
    cbn [bind]. do 2 f_equal.
    rewrite escape_string_chars. unfold PyStr.len. cbn [String.length].
    rewrite length_append. simpl String.length. lia.
Qed.

(** X3: a key written by [encode_key] and followed by a colon is read
    back by [parse_key_token] as that key, bare or quoted, together
    with the position just after the colon. *)
Theorem parse_key_token_inverts_encode_key :
  forall key rest : string,
    parse_key_token (encode_key key ++ String COLON rest) 0
    = Ok (key, PyStr.len (encode_key key) + 1).
Proof.
  exact parse_key_token_encode_key.
Qed.

(* ------------------------------------------------------------------ *)
(** ** The decimal text of an integer *)

Lemma digits_value_uint_acc (u : Decimal.uint) (acc : positive) :
  digits_value (NilEmpty.string_of_uint u) (Zpos acc)
  = Some (Zpos (Pos.of_uint_acc u acc)).
Proof.
  revert acc. induction u as [|u IH|u IH|u IH|u IH|u IH|u IH|u IH|u IH|u IH|u IH];
    intros acc; [reflexivity|..];
    cbn [NilEmpty.string_of_uint digits_value Pos.of_uint_acc];
    change (PyStr.is_digit _) with true; cbn iota;
    rewrite <- IH; f_equal;
    match goal with
    | |- context [PyStr.digit_value ?c] =>
        let v := eval vm_compute in (PyStr.digit_value c) in
        change (PyStr.digit_value c) with v
    end; lia.
Qed.

Lemma digits_value_uint (u : Decimal.uint) :
  digits_value (NilEmpty.string_of_uint u) 0 = Some (Z.of_N (Pos.of_uint u)).
Proof.
  induction u as [|u IH|u IH|u IH|u IH|u IH|u IH|u IH|u IH|u IH|u IH];
    [reflexivity|exact IH|..];
    cbn [NilEmpty.string_of_uint digits_value Pos.of_uint];
    change (PyStr.is_digit _) with true; cbn iota;
    apply digits_value_uint_acc.
Qed.

(** The digits of a positive number: no leading zero. *)
Lemma to_uint_head (p : positive) :
  exists c r,
    NilZero.string_of_uint (Pos.to_uint p) = String c r
    /\ NilEmpty.string_of_uint (Pos.to_uint p) = String c r
    /\ PyStr.is_digit c = true
    /\ Ascii.eqb c "0" = false.
Proof.
  pose proof (DecimalPos.Unsigned.to_of (Pos.to_uint p)) as Hnorm.
  rewrite DecimalPos.Unsigned.of_to in Hnorm. simpl in Hnorm.
  assert (Hnz : Decimal.nzhead (Pos.to_uint p) = Pos.to_uint p).
  { rewrite <- DecimalFacts.unorm_nzhead; [congruence|].
    intros Hnil. apply DecimalFacts.unorm_0 in Hnil.
    apply (DecimalPos.Unsigned.to_uint_nonzero p). congruence. }
  pose proof (DecimalFacts.nzhead_nonzero (Pos.to_uint p)) as Hhead.
  rewrite Hnz in Hhead.
  pose proof (DecimalPos.Unsigned.to_uint_nonnil p) as Hnil.
  destruct (Pos.to_uint p) as [|u|u|u|u|u|u|u|u|u|u];
    [congruence|exfalso; now apply (Hhead u)|..];
    do 2 eexists; repeat split.
Qed.

Lemma of_int_digits (p : positive) :
  PyStr.all_chars PyStr.is_digit (NilZero.string_of_uint (Pos.to_uint p)) = true.
Proof.
  apply nilzero_string_of_uint_digits.
Qed.

Lemma skip_digits_all (s : string) :
  PyStr.all_chars PyStr.is_digit s = true -> skip_digits s = "".
Proof.
  induction s as [|c s IH]; [reflexivity|]. simpl.
  intros H. apply andb_true_iff in H as [Hc Hs]. rewrite Hc. now apply IH.
Qed.

Lemma match_number_regex_digits (c : ascii) (r : string) :
  PyStr.all_chars PyStr.is_digit (String c r) = true ->
  match_number_regex (String c r) = true
  /\ match_number_regex (String "-" (String c r)) = true.
Proof.
  intros H. pose proof H as H'. simpl in H'.
  apply andb_true_iff in H' as [Hc Hr].
  assert (Hbody : (match String c r with
                   | String "-" r0 => r0
                   | _ => String c r
                   end) = String c r).
  { destruct c as [[] [] [] [] [] [] [] []]; try reflexivity; discriminate Hc. }
  unfold match_number_regex. rewrite Hbody. cbn [digits1].
  rewrite Hc, (skip_digits_all r Hr). split; reflexivity.
Qed.

Lemma of_int_shape (z : Z) :
  exists c r,
    PyStr.all_chars PyStr.is_digit (String c r) = true
    /\ (String c r = "0" \/ Ascii.eqb c "0" = false)
    /\ digits_value (String c r) 0 = Some (Z.abs z)
    /\ PyStr.of_int z = (if z <? 0 then String "-" (String c r) else String c r).
Proof.
  unfold PyStr.of_int. destruct z as [|p|p].
  - exists "0"%char, "". repeat split; auto.
  - destruct (to_uint_head p) as (c & r & Hzero & Hempty & Hc & Hnz).
    exists c, r. cbn [Z.to_int NilZero.string_of_int].
    split; [rewrite <- Hzero; apply of_int_digits|].
    split; [now right|].
    split; [|exact Hzero].
    rewrite <- Hempty, digits_value_uint, DecimalPos.Unsigned.of_to.
    reflexivity.
  - destruct (to_uint_head p) as (c & r & Hzero & Hempty & Hc & Hnz).
    exists c, r. cbn [Z.to_int NilZero.string_of_int].
    split; [rewrite <- Hzero; apply of_int_digits|].
    split; [now right|].
    split; [|now rewrite Hzero].
    rewrite <- Hempty, digits_value_uint, DecimalPos.Unsigned.of_to.
    reflexivity.
Qed.

Lemma digits_no_space (s : string) :
  PyStr.all_chars (fun c => PyStr.is_digit c || Ascii.eqb c "-") s = true ->
  PyStr.all_chars (fun c => negb (PyStr.is_space c)) s = true.
Proof.
  apply all_chars_impl. intros c.
  destruct c as [[] [] [] [] [] [] [] []]; vm_compute; intros H;
    first [reflexivity | discriminate H].
Qed.

Lemma strip_of_int (z : Z) : PyStr.strip (PyStr.of_int z) = PyStr.of_int z.
Proof.
  apply strip_no_space, digits_no_space, of_int_chars.
Qed.

Lemma of_int_no_mark (z : Z) : has_float_mark (PyStr.of_int z) = false.
Proof.
  assert (H : forall x, PyStr.is_digit x || Ascii.eqb x "-" = false ->
                       PyStr.contains x (PyStr.of_int z) = false).
  { intros x Hx.
    apply all_chars_not_contains
      with (p := fun c => PyStr.is_digit c || Ascii.eqb c "-");
      [exact Hx|apply of_int_chars]. }
  unfold has_float_mark. rewrite !H by reflexivity. reflexivity.
Qed.

(** [int(str(z))] is [z]. *)
Lemma py_int_of_int (z : Z) : py_int (PyStr.of_int z) = Ok z.
Proof.
  unfold py_int. rewrite strip_of_int.
  destruct (of_int_shape z) as (c & r & Hall & _ & Hval & Htext).
  assert (Hc : PyStr.is_digit c = true)
    by (simpl in Hall; now apply andb_true_iff in Hall as [? _]).
  assert (Hsign : is_sign c = false /\ (match String c r with
                                         | String "-" _ => true
                                         | _ => false
                                         end) = false).
  { destruct c as [[] [] [] [] [] [] [] []]; try (split; reflexivity);
      discriminate Hc. }
  destruct Hsign as [Hsign Hminus].
  rewrite Htext. destruct (Z.ltb_spec z 0) as [Hneg|Hpos].
  - cbn [strip_sign]. change (is_sign "-") with true. cbn iota.
    rewrite (drop_underscores_digits _ Hall) by reflexivity.
    rewrite Hval. f_equal. lia.
  - unfold strip_sign. rewrite Hsign, Hminus.
    rewrite (drop_underscores_digits _ Hall) by reflexivity.
    rewrite Hval. f_equal. lia.
Qed.

Lemma of_int_matches_regex (z : Z) :
  match_number_regex (PyStr.of_int z) = true
  /\ has_leading_zero (PyStr.of_int z) = false.
Proof.
  destruct (of_int_shape z) as (c & r & Hall & Hzero & _ & Htext).
  destruct (match_number_regex_digits c r Hall) as [Hpos Hneg].
  assert (Hc : PyStr.is_digit c = true)
    by (simpl in Hall; now apply andb_true_iff in Hall as [? _]).
  assert (Hlead : has_leading_zero (String c r) = false).
  { unfold has_leading_zero. destruct Hzero as [E|E].
    - injection E as -> ->. reflexivity.
    - rewrite E. now destruct r. }
  rewrite Htext. destruct (z <? 0); split; auto.
Qed.

Lemma parse_primitive_token_of_int (z : Z) :
  parse_primitive_token (PyStr.of_int z) = Ok (JInt z).
Proof.
  destruct (of_int_matches_regex z) as [Hm Hz].
  destruct (regex_token_not_special _ Hm) as (Hne & Hq & Hlit).
  pose proof (is_numeric_literal_of_regex _ (strip_of_int z) Hm Hz) as Hnum.
  unfold parse_primitive_token.
  rewrite strip_of_int, Hne, Hq, Hlit, Hnum, of_int_no_mark, py_int_of_int.
  reflexivity.
Qed.

(* ------------------------------------------------------------------ *)
(** ** Primitive tokens *)

Lemma startswith_quote_absent (s : string) :
  PyStr.contains DOUBLE_QUOTE s = false ->
  PyStr.startswith s (str1 DOUBLE_QUOTE) = false.
Proof.
  destruct s as [|c r]; [reflexivity|]. intros H.
  rewrite startswith_head. now apply contains_head_false with (r := r).
Qed.

Lemma parse_primitive_token_quoted (s : string) :
  parse_primitive_token (quoted (escape_string s)) = Ok (JStr s).
Proof.
  assert (Hstart : PyStr.startswith (quoted (escape_string s)) (str1 DOUBLE_QUOTE)
                   = true).
  { unfold quoted. rewrite startswith_head. apply Ascii.eqb_refl. }
  unfold parse_primitive_token.
  rewrite strip_quoted, Hstart, parse_string_literal_quoted. reflexivity.
Qed.

(** The token of a string written bare: a number when
    [is_numeric_literal] takes it for one, the string otherwise. *)
Lemma parse_primitive_token_bare (s : string) (d : Delimiter) :
  is_safe_unquoted s d = true ->
  parse_primitive_token s
  = if is_numeric_literal s
    then (if has_float_mark s then Ok (JFloat (float_of_literal s))
          else let* n := py_int s in Ok (JInt n))
    else Ok (JStr s).
Proof.
  intros Hsafe.
  destruct (is_safe_unquoted_facts s d Hsafe)
    as (Hne & Hs & Hlit & _ & _ & Hq & _).
  unfold parse_primitive_token. rewrite Hs.
  destruct (String.eqb_spec s "") as [|_]; [congruence|].
  now rewrite (startswith_quote_absent s Hq), Hlit.
Qed.

Lemma string_token_round_trip (s : string) (d : Delimiter) :
  parse_primitive_token (encode_string_literal s d) = Ok (JStr s)
  <-> is_safe_unquoted s d && is_numeric_literal s = false.
Proof.
  unfold encode_string_literal. destruct (is_safe_unquoted s d) eqn:Hsafe.
  - rewrite (parse_primitive_token_bare s d Hsafe). cbn [andb].
    destruct (is_numeric_literal s); [|tauto].
    split; [|discriminate].
    destruct (has_float_mark s); [discriminate|].
    destruct (py_int s); discriminate.
  - rewrite parse_primitive_token_quoted. cbn [andb]. tauto.
Qed.

Lemma primitive_token_round_trip (value : JsonValue) (d : Delimiter)
  (text : string) :
  token_reads_back value d = true ->
  encode_primitive value d = Ok text ->
  parse_primitive_token text = Ok value.
Proof.
  destruct value as [|b|z|f|s|items|members]; cbn [token_reads_back];
    intros Hback Henc; try discriminate Hback;
    cbn [encode_primitive] in Henc; injection Henc as <-.
  - reflexivity.
  - now destruct b.
  - apply parse_primitive_token_of_int.
  - apply string_token_round_trip. now apply negb_true_iff.
Qed.

(** X4: the token written for null, a boolean, an integer of any size,
    or a string that is quoted or is no numeric literal, is read back
    by [parse_primitive_token] as the value it was written for. *)
Theorem parse_primitive_token_inverts_encode_primitive :
  forall (value : JsonValue) (delimiter : Delimiter) (text : string),
    token_reads_back value delimiter = true ->
    encode_primitive value delimiter = Ok text ->
    parse_primitive_token text = Ok value.
Proof.
  exact primitive_token_round_trip.
Qed.

(** X5: the literal written for a string is read back as that string
    exactly when the string is written between quotes or is no numeric
    literal for the decoder: a bare string such as [+5] or [1_0], which
    the encoder does not take for a number but [float()] does, comes
    back as a number or fails in [int()]. *)
Theorem string_token_reads_back_iff :
  forall (value : string) (delimiter : Delimiter),
    parse_primitive_token (encode_string_literal value delimiter)
    = Ok (JStr value)
    <-> is_safe_unquoted value delimiter && is_numeric_literal value = false.
Proof.
  exact string_token_round_trip.
Qed.

(* ------------------------------------------------------------------ *)
(** ** Splitting a row into cells *)

Lemma parse_delimited_loop_plain (c : ascii) (rest : string) (d : Delimiter)
  (current : string) (values : list string) :
  Ascii.eqb c DOUBLE_QUOTE = false -> Ascii.eqb c d = false ->
  parse_delimited_loop (String c rest) d current false values
  = parse_delimited_loop rest d (current ++ str1 c) false values.
Proof.
  intros Hq Hd. cbn [parse_delimited_loop].
  rewrite Hq, Hd, andb_false_r. cbn [andb]. now destruct rest.
Qed.

Lemma parse_delimited_loop_bare (t tail : string) (d : Delimiter)
  (current : string) (values : list string) :
  PyStr.contains DOUBLE_QUOTE t = false -> PyStr.contains d t = false ->
  parse_delimited_loop (t ++ tail) d current false values
  = parse_delimited_loop tail d (current ++ t) false values.
Proof.
  revert current. induction t as [|c t IH]; intros current Hq Hd.
  - simpl. now rewrite append_nil_r.
  - simpl in Hq, Hd.
    apply orb_false_iff in Hq as [Hcq Hq]. apply orb_false_iff in Hd as [Hcd Hd].
    cbn [append]. rewrite parse_delimited_loop_plain by assumption.
    rewrite (IH _ Hq Hd), append_assoc. reflexivity.
Qed.

Lemma parse_delimited_loop_pair (nxt : ascii) (tail : string) (d : Delimiter)
  (current : string) (values : list string) :
  parse_delimited_loop (String BACKSLASH (String nxt tail)) d current true values
  = parse_delimited_loop tail d (current ++ String BACKSLASH (str1 nxt)) true
      values.
Proof.
  reflexivity.
Qed.

(** Inside quotes the loop passes over an escaped body up to the
    closing quote, whatever the body holds. *)
Lemma parse_delimited_loop_body (s tail : string) (d : Delimiter)
  (current : string) (values : list string) :
  parse_delimited_loop (escape_chars s ++ String DOUBLE_QUOTE tail) d current
                       true values
  = parse_delimited_loop tail d
      (current ++ escape_chars s ++ str1 DOUBLE_QUOTE) false values.
Proof.
  revert current. induction s as [|c s IH]; intros current.
  - cbn [escape_chars append parse_delimited_loop].
    rewrite Ascii.eqb_refl. cbn [andb negb]. now destruct tail.
  - cbn [escape_chars]. rewrite !append_assoc.
    replace (current ++ escape_char c ++ escape_chars s ++ str1 DOUBLE_QUOTE)
      with ((current ++ escape_char c) ++ escape_chars s ++ str1 DOUBLE_QUOTE)
      by (rewrite append_assoc; reflexivity).
    unfold escape_char.
    destruct (Ascii.eqb_spec c BACKSLASH) as [->|Hb];
      [|destruct (Ascii.eqb_spec c DOUBLE_QUOTE) as [->|Hq];
        [|destruct (Ascii.eqb_spec c NEWLINE) as [->|Hn];
          [|destruct (Ascii.eqb_spec c CARRIAGE_RETURN) as [->|Hr]]]].
    1-4: cbn [str1 append]; rewrite parse_delimited_loop_pair; apply IH.
    cbn [str1 append].
    destruct (escape_chars_snoc_nonempty s DOUBLE_QUOTE tail) as (x & y & Hxy).
    cbn [parse_delimited_loop]. rewrite Hxy.
    apply Ascii.eqb_neq in Hb, Hq. rewrite Hb, Hq.
    cbn [andb negb]. rewrite andb_false_r.
    rewrite <- Hxy. apply IH.
Qed.

Lemma parse_delimited_loop_cell (t tail : string) (d : Delimiter)
  (values : list string) :
  is_cell d t ->
  parse_delimited_loop (t ++ tail) d "" false values
  = parse_delimited_loop tail d t false values.
Proof.
  intros [[s ->]|(_ & _ & Hq & Hd)].
  - unfold quoted. cbn [append]. rewrite append_assoc. cbn [str1 append].
    cbn [parse_delimited_loop].
    destruct (escape_chars_snoc_nonempty s DOUBLE_QUOTE tail) as (x & y & Hxy).
    rewrite Hxy. cbn [andb]. rewrite Ascii.eqb_refl. rewrite <- Hxy.
    cbn [negb append]. apply parse_delimited_loop_body.
  - now apply parse_delimited_loop_bare.
Qed.

Lemma is_cell_stripped (d : Delimiter) (t : string) :
  is_cell d t -> PyStr.strip t = t /\ t <> "".
Proof.
  intros [[s ->]|(Hne & Hs & _)]; [|tauto].
  split; [apply strip_quoted|discriminate].
Qed.

Lemma parse_delimited_loop_cells (d : Delimiter) (t : string) (ts : list string)
  (values : list string) :
  Ascii.eqb d DOUBLE_QUOTE = false ->
  Forall (is_cell d) (t :: ts) ->
  parse_delimited_loop (PyStr.join (str1 d) (t :: ts)) d "" false values
  = (values ++ t :: ts)%list.
Proof.
  intros Hdq. revert t values. induction ts as [|t' ts IH]; intros t values Hall.
  - apply Forall_inv in Hall.
    destruct (is_cell_stripped d t Hall) as [Hs Hne].
    cbn [PyStr.join]. rewrite <- (append_nil_r t) at 1.
    rewrite (parse_delimited_loop_cell _ _ _ _ Hall).
    cbn [parse_delimited_loop].
    destruct (String.eqb_spec t "") as [|_]; [congruence|].
    cbn [negb orb]. now rewrite Hs.
  - pose proof (Forall_inv Hall) as Ht. apply Forall_inv_tail in Hall.
    destruct (is_cell_stripped d t Ht) as [Hs Hne].
    change (PyStr.join (str1 d) (t :: t' :: ts))
      with (t ++ String d (PyStr.join (str1 d) (t' :: ts))).
    rewrite (parse_delimited_loop_cell _ _ _ _ Ht).
    assert (Hstep : parse_delimited_loop
                      (String d (PyStr.join (str1 d) (t' :: ts))) d t false values
                    = parse_delimited_loop (PyStr.join (str1 d) (t' :: ts)) d ""
                        false (values ++ [PyStr.strip t])).
    { cbn [parse_delimited_loop].
      rewrite Hdq, Ascii.eqb_refl. cbn [andb negb]. rewrite andb_false_r.
      now destruct (PyStr.join (str1 d) (t' :: ts)). }
    rewrite Hstep, (IH _ _ Hall), Hs, <- app_assoc. reflexivity.
Qed.

(** A row of cells joined by the delimiter splits into those cells. *)
Lemma parse_delimited_values_join (d : Delimiter) (tokens : list string) :
  Ascii.eqb d DOUBLE_QUOTE = false ->
  Forall (is_cell d) tokens ->
  parse_delimited_values (PyStr.join (str1 d) tokens) d = tokens.
Proof.
  intros Hdq Hall. unfold parse_delimited_values.
  destruct tokens as [|t ts]; [reflexivity|].
  now rewrite parse_delimited_loop_cells.
Qed.

Lemma valid_delimiter_cases (d : Delimiter) :
  is_valid_delimiter d = true -> d = COMMA \/ d = TAB \/ d = PIPE.
Proof.
  unfold is_valid_delimiter. intros H.
  apply orb_true_iff in H as [H|H]; [apply orb_true_iff in H as [H|H]|];
    apply Ascii.eqb_eq in H; auto.
Qed.

Lemma valid_delimiter_not_quote (d : Delimiter) :
  is_valid_delimiter d = true -> Ascii.eqb d DOUBLE_QUOTE = false.
Proof.
  intros H. destruct (valid_delimiter_cases d H) as [->|[->| ->]]; reflexivity.
Qed.

(** The token of a primitive that is [cell_safe] is a cell. *)
Lemma encode_primitive_is_cell (value : JsonValue) (d : Delimiter) (t : string) :
  is_valid_delimiter d = true ->
  cell_safe value d = true ->
  encode_primitive value d = Ok t ->
  is_cell d t.
Proof.
  intros Hd Hsafe Henc.
  destruct value as [|b|z|f|s|items|members]; try discriminate Hsafe;
    cbn [encode_primitive] in Henc; injection Henc as <-.
  - right. destruct (valid_delimiter_cases d Hd) as [->|[->| ->]];
      repeat split; discriminate.
  - right. destruct (valid_delimiter_cases d Hd) as [->|[->| ->]];
      destruct b; repeat split; discriminate.
  - right.
    assert (H : forall x, PyStr.is_digit x || Ascii.eqb x "-" = false ->
                         PyStr.contains x (PyStr.of_int z) = false).
    { intros x Hx.
      apply all_chars_not_contains
        with (p := fun c => PyStr.is_digit c || Ascii.eqb c "-");
        [exact Hx|apply of_int_chars]. }
    split; [|split; [apply strip_of_int|split]].
    + destruct (of_int_shape z) as (c & r & _ & _ & _ & ->).
      destruct (z <? 0); discriminate.
    + now apply H.
    + destruct (valid_delimiter_cases d Hd) as [->|[->| ->]]; now apply H.
  - cbn [cell_safe] in Hsafe. apply negb_true_iff in Hsafe.
    unfold encode_string_literal.
    destruct (is_safe_unquoted s d) eqn:Hbare.
    + right. cbn [andb] in Hsafe.
      destruct (is_safe_unquoted_facts s d Hbare)
        as (Hne & Hs & _ & _ & _ & Hq & _).
      repeat split; assumption.
    + left. exists s. now rewrite escape_string_chars.
Qed.

Lemma mapM_encode_cells (values : list JsonValue) (d : Delimiter)
  (tokens : list string) :
  is_valid_delimiter d = true ->
  forallb (fun value => cell_safe value d) values = true ->
  mapM (fun value => encode_primitive value d) values = Ok tokens ->
  Forall (is_cell d) tokens.
Proof.
  intros Hd. revert tokens. induction values as [|v vs IH]; intros tokens Hsafe Henc.
  - injection Henc as <-. constructor.
  - cbn [forallb] in Hsafe. apply andb_true_iff in Hsafe as [Hv Hvs].
    cbn [mapM] in Henc.
    destruct (encode_primitive v d) as [t| |] eqn:Ht; try discriminate Henc.
    cbn [bind] in Henc.
    destruct (mapM (fun value => encode_primitive value d) vs) as [ts| |];
      try discriminate Henc.
    cbn [bind] in Henc. injection Henc as <-.
    constructor; [now apply (encode_primitive_is_cell v d)|now apply IH].
Qed.

Lemma split_encoded_row (values : list JsonValue) (d : Delimiter) (text : string) :
  is_valid_delimiter d = true ->
  forallb (fun value => cell_safe value d) values = true ->
  encode_and_join_primitives values d = Ok text ->
  mapM (fun value => encode_primitive value d) values
  = Ok (parse_delimited_values text d).
Proof.
  intros Hd Hsafe Henc. unfold encode_and_join_primitives in Henc.
  destruct (mapM (fun value => encode_primitive value d) values) as [tokens| |]
    eqn:Htokens; try discriminate Henc.
  cbn [bind] in Henc. injection Henc as <-.
  rewrite parse_delimited_values_join; [reflexivity| |].
  - now apply valid_delimiter_not_quote.
  - now apply (mapM_encode_cells values d).
Qed.

(** X6: a row written by [encode_and_join_primitives] is split by
    [parse_delimited_values] into the tokens of its values, one cell
    for each, also when quoted strings hold the delimiter, quotes or
    backslashes. *)
Theorem parse_delimited_values_inverts_join :
  forall (values : list JsonValue) (delimiter : Delimiter) (text : string),
    is_valid_delimiter delimiter = true ->
    forallb (fun value => cell_safe value delimiter) values = true ->
    encode_and_join_primitives values delimiter = Ok text ->
    mapM (fun value => encode_primitive value delimiter) values
    = Ok (parse_delimited_values text delimiter).
Proof.
  exact split_encoded_row.
Qed.

(* ------------------------------------------------------------------ *)
(** ** Array headers *)

Lemma string_snoc (s : string) :
  s <> "" -> exists a c, s = a ++ str1 c.
Proof.
  induction s as [|x s IH]; [congruence|]. intros _.
  destruct s as [|y s].
  - exists "", x. reflexivity.
  - destruct IH as (a & c & E); [discriminate|].
    exists (String x a), c. cbn [append]. now rewrite E.
Qed.

Lemma endswith_snoc (a : string) (c x : ascii) :
  PyStr.endswith (a ++ str1 c) (str1 x) = Ascii.eqb c x.
Proof.
  unfold PyStr.endswith. rewrite rev_append.
  change (PyStr.rev (str1 c)) with (str1 c).
  change (PyStr.rev (str1 x)) with (str1 x).
  cbn [str1 append]. apply (startswith_head c x).
Qed.

Lemma drop_last_snoc (a : string) (c : ascii) :
  PyStr.drop_last (a ++ str1 c) = a.
Proof.
  unfold PyStr.drop_last. rewrite length_append. simpl String.length.
  replace (String.length a + 1 - 1)%nat with (String.length a) by lia.
  apply take_append.
Qed.

Lemma digits_end (s : string) (x : ascii) :
  s <> "" -> PyStr.all_chars PyStr.is_digit s = true ->
  PyStr.is_digit x = false ->
  PyStr.endswith s (str1 x) = false.
Proof.
  intros Hne Hall Hx. destruct (string_snoc s Hne) as (a & c & ->).
  rewrite endswith_snoc. rewrite all_chars_append in Hall.
  apply andb_true_iff in Hall as [_ Hc]. simpl in Hc.
  rewrite andb_true_r in Hc.
  destruct (Ascii.eqb_spec c x) as [->|]; congruence.
Qed.

(** The text of a non-negative integer: digits, and its value. *)
Lemma of_int_nonneg (n : Z) :
  0 <= n ->
  exists c r,
    PyStr.of_int n = String c r
    /\ PyStr.is_digit c = true
    /\ PyStr.all_chars PyStr.is_digit (String c r) = true
    /\ digits_value (String c r) 0 = Some n.
Proof.
  intros Hn. destruct (of_int_shape n) as (c & r & Hall & _ & Hval & Htext).
  exists c, r. destruct (Z.ltb_spec n 0) as [|_]; [lia|].
  rewrite Z.abs_eq in Hval by assumption.
  repeat split; auto.
  simpl in Hall. now apply andb_true_iff in Hall as [? _].
Qed.

Lemma digit_is_unicode_digit (s : string) :
  PyStr.all_chars PyStr.is_digit s = true ->
  PyStr.all_chars PyStr.is_unicode_digit s = true.
Proof.
  apply all_chars_impl. intros c Hc. unfold PyStr.is_unicode_digit.
  now rewrite Hc.
Qed.

(** The inside of the brackets written by [format_header] reads back
    as the length, the delimiter and the marker it was written for. *)
Lemma parse_bracket_segment_written (n : Z) (d default_delimiter : Delimiter)
  (marker : bool) :
  0 <= n ->
  is_valid_delimiter d = true ->
  parse_bracket_segment
    ((if marker then "#" else "") ++ PyStr.of_int n
     ++ (if Ascii.eqb d DEFAULT_DELIMITER then "" else str1 d))
    default_delimiter
  = Ok (n, (if Ascii.eqb d DEFAULT_DELIMITER then default_delimiter else d),
        marker).
Proof.
  intros Hn Hd.
  destruct (of_int_nonneg n Hn) as (c & r & Htext & Hc & Hall & Hval).
  assert (Hhash : Ascii.eqb c "#" = false).
  { destruct (Ascii.eqb_spec c "#") as [->|]; [discriminate Hc|reflexivity]. }
  set (suffix := if Ascii.eqb d DEFAULT_DELIMITER then "" else str1 d).
  assert (Hcontent :
            (if PyStr.startswith ((if marker then "#" else "")
                                  ++ PyStr.of_int n ++ suffix) (str1 HASH)
             then PyStr.from ((if marker then "#" else "")
                              ++ PyStr.of_int n ++ suffix) 1
             else (if marker then "#" else "") ++ PyStr.of_int n ++ suffix)
            = PyStr.of_int n ++ suffix
            /\ PyStr.startswith ((if marker then "#" else "")
                                 ++ PyStr.of_int n ++ suffix) (str1 HASH)
               = marker).
  { destruct marker; cbn [append].
    - rewrite startswith_head. split; reflexivity.
    - rewrite Htext. cbn [append]. rewrite startswith_head.
      unfold HASH. rewrite Hhash. split; reflexivity. }
  destruct Hcontent as [Hcontent Hmarker].
  unfold parse_bracket_segment. rewrite Hcontent, Hmarker. clear Hcontent Hmarker.
  assert (Hne : PyStr.of_int n <> "") by (rewrite Htext; discriminate).
  assert (Hdigits : PyStr.all_chars PyStr.is_digit (PyStr.of_int n) = true)
    by now rewrite Htext.
  assert (Hvalue : digits_value (PyStr.of_int n) 0 = Some n)
    by now rewrite Htext.
  assert (Hempty : String.eqb (PyStr.of_int n) "" = false)
    by (rewrite Htext; reflexivity).
  subst suffix.
  destruct (valid_delimiter_cases d Hd) as [->|[->| ->]].
  - change (Ascii.eqb COMMA DEFAULT_DELIMITER) with true. cbn iota.
    rewrite append_nil_r.
    rewrite !(digits_end _ _ Hne Hdigits) by reflexivity. cbn [orb].
    now rewrite Hempty, (digit_is_unicode_digit _ Hdigits), Hvalue.
  - change (Ascii.eqb TAB DEFAULT_DELIMITER) with false. cbn iota.
    rewrite !endswith_snoc, drop_last_snoc.
    change (Ascii.eqb TAB TAB) with true. cbn [orb].
    now rewrite Hempty, (digit_is_unicode_digit _ Hdigits), Hvalue.
  - change (Ascii.eqb PIPE DEFAULT_DELIMITER) with false. cbn iota.
    rewrite !endswith_snoc, drop_last_snoc.
    change (Ascii.eqb PIPE TAB) with false.
    change (Ascii.eqb PIPE PIPE) with true. cbn [orb].
    now rewrite Hempty, (digit_is_unicode_digit _ Hdigits), Hvalue.
Qed.

(** A header line, part by part. *)
Lemma format_header_parts (n : Z) (key : option string)
  (fields : option (list string)) (d : Delimiter) (marker : bool) (rest : string) :
  format_header n key fields d marker ++ rest
  = header_key_text key
    ++ String "[" (header_bracket_text n d marker
                   ++ String "]" (header_fields_text fields d ++ String ":" rest)).
Proof.
  unfold format_header, header_key_text, header_bracket_text, header_fields_text.
  destruct fields as [[|f fs]|];
    repeat first [rewrite append_assoc | progress cbn [append]]; reflexivity.
Qed.

Lemma find_at (c : ascii) (p q : string) (start : Z) :
  start = PyStr.len p ->
  PyStr.find c (p ++ q) start = PyStr.find_aux c q start.
Proof.
  intros ->. unfold PyStr.find. now rewrite from_append.
Qed.

Lemma find_lower (c : ascii) (s : string) (start : Z) :
  PyStr.find c s start = -1 \/ start <= PyStr.find c s start.
Proof.
  apply find_aux_lower.
Qed.

Lemma from_at (p q : string) (start : Z) :
  start = PyStr.len p -> PyStr.from (p ++ q) start = q.
Proof.
  intros ->. apply from_append.
Qed.

Lemma slice_at (a b c : string) (lo hi : Z) :
  lo = PyStr.len a -> hi = PyStr.len a + PyStr.len b ->
  PyStr.slice (a ++ b ++ c) lo hi = b.
Proof.
  intros -> ->. apply slice_middle.
Qed.

Lemma len_cons (c : ascii) (s : string) : PyStr.len (String c s) = 1 + PyStr.len s.
Proof.
  unfold PyStr.len. simpl String.length. lia.
Qed.

Lemma nonempty_or_none_plain_key (K : string) :
  PyStr.all_chars is_plain_char K = true ->
  match nonempty_or_none (PyStr.strip K) with
  | Some ks =>
      if PyStr.startswith ks (str1 DOUBLE_QUOTE)
      then let* k := parse_string_literal ks in Ok (Some k)
      else Ok (Some ks)
  | None => Ok None
  end = Ok (nonempty_or_none K).
Proof.
  intros HK. rewrite (plain_strip K HK).
  destruct K as [|c K]; [reflexivity|].
  cbn [nonempty_or_none String.eqb]. rewrite startswith_head.
  simpl in HK. apply andb_true_iff in HK as [Hc _].
  destruct (Ascii.eqb_spec c DOUBLE_QUOTE) as [->|]; [discriminate Hc|reflexivity].
Qed.

Lemma find_after_at (c : ascii) (p a b : string) (start : Z) :
  start = PyStr.len p ->
  PyStr.contains c a = false ->
  PyStr.find c (p ++ a ++ String c b) start = start + PyStr.len a.
Proof.
  intros ->. apply find_after.
Qed.

Lemma find_aux_cons (c x : ascii) (r : string) (i : Z) :
  PyStr.find_aux c (String x r) i
  = if Ascii.eqb x c then i else PyStr.find_aux c r (i + 1).
Proof.
  reflexivity.
Qed.

Ltac reassociate :=
  repeat first [rewrite append_assoc | progress cbn [append]]; reflexivity.

Ltac len_solve :=
  repeat first [rewrite len_append | rewrite len_cons];
  change (PyStr.len "") with 0; lia.

Ltac decide_tests :=
  repeat match goal with
         | |- context [Z.eqb ?a ?b] =>
             destruct (Z.eqb_spec a b); try (exfalso; lia); cbn [negb andb]
         | |- context [Z.ltb ?a ?b] =>
             destruct (Z.ltb_spec a b); try (exfalso; lia); cbn [negb andb]
         end.

(** The positions [parse_array_header_line] finds in a line made of a
    bare key, brackets, optional braces, a colon and a rest. *)
Lemma parse_array_header_line_parts (K B J R : string) (with_fields : bool)
  (default_delimiter : Delimiter) :
  PyStr.all_chars is_plain_char K = true ->
  PyStr.contains "]" B = false ->
  PyStr.contains "}" J = false ->
  PyStr.contains ":" J = false ->
  parse_array_header_line
    (K ++ String "[" (B ++ String "]"
                        ((if with_fields then String "{" (J ++ "}") else "")
                         ++ String ":" R)))
    default_delimiter
  = match parse_bracket_segment B default_delimiter with
    | Raise _ => Ok None
    | OutOfFuel => OutOfFuel
    | Ok (length, delimiter, has_length_marker) =>
        let* fields :=
          if with_fields
          then let* fs := parse_fields_segment J delimiter in Ok (Some fs)
          else Ok None in
        Ok (Some ({| hdr_key := nonempty_or_none K;
                     hdr_length := length;
                     hdr_delimiter := delimiter;
                     hdr_fields := fields;
                     hdr_hasLengthMarker := has_length_marker |},
                  nonempty_or_none (PyStr.strip R)))
    end.
Proof.
  intros HK HB HJbrace HJcolon.
  set (F := if with_fields then String "{" (J ++ "}") else "").
  set (content := K ++ String "[" (B ++ String "]" (F ++ String ":" R))).
  assert (Hquote : PyStr.startswith (PyStr.lstrip content) (str1 DOUBLE_QUOTE)
                   = false).
  { subst content. destruct K as [|c K]; [reflexivity|].
    simpl in HK. apply andb_true_iff in HK as [Hc _].
    cbn [append PyStr.lstrip].
    assert (Hs : PyStr.is_space c = false).
    { unfold is_plain_char in Hc. now destruct (PyStr.is_space c). }
    rewrite Hs, startswith_head.
    destruct (Ascii.eqb_spec c DOUBLE_QUOTE) as [->|]; [discriminate Hc|reflexivity]. }
  pose proof (len_nonneg K) as HKlen. pose proof (len_nonneg B) as HBlen.
  pose proof (len_nonneg J) as HJlen.
  assert (Hstart : PyStr.find OPEN_BRACKET content 0 = PyStr.len K).
  { subst content. apply find_first. now apply plain_not_contains. }
  set (be := PyStr.len K + 1 + PyStr.len B).
  assert (Hend : PyStr.find CLOSE_BRACKET content (PyStr.len K) = be).
  { subst content be.
    change (K ++ String "[" (B ++ String "]" (F ++ String ":" R)))
      with (K ++ String "[" B ++ String "]" (F ++ String ":" R)).
    rewrite find_after; [rewrite len_cons; lia|].
    simpl. exact HB. }
  assert (Hcontent1 : content = (K ++ String "[" B) ++ String "]" (F ++ String ":" R)).
  { subst content. now rewrite append_assoc. }
  assert (Hlen1 : PyStr.len (K ++ String "[" B) = be).
  { subst be. rewrite len_append, len_cons. lia. }
  assert (Hupto : PyStr.upto content (PyStr.len K) = K).
  { subst content. apply upto_append. }
  assert (Hslice : PyStr.slice content (PyStr.len K + 1) be = B).
  { subst content.
    replace (K ++ String "[" (B ++ String "]" (F ++ String ":" R)))
      with ((K ++ "[") ++ B ++ String "]" (F ++ String ":" R))
      by (rewrite append_assoc; reflexivity).
    apply slice_at; [|subst be]; rewrite len_append; unfold PyStr.len; simpl; lia. }
  unfold parse_array_header_line. fold content.
  rewrite Hquote, Hstart.
  destruct (Z.eqb_spec (PyStr.len K) (-1)) as [|_]; [lia|].
  rewrite Hend.
  destruct (Z.eqb_spec be (-1)) as [|_]; [subst be; lia|].
  rewrite Hupto, Hslice, (nonempty_or_none_plain_key K HK).
  destruct with_fields; subst F.
  - assert (Hbrace : PyStr.find OPEN_BRACE content be = be + 1).
    { rewrite Hcontent1, find_at by (symmetry; exact Hlen1).
      cbn [append]. rewrite !find_aux_cons. reflexivity. }
    assert (Hcolon_after : PyStr.find COLON content be = be + PyStr.len J + 3).
    { replace content
        with ((K ++ String "[" B) ++ (String "]" (String "{" (J ++ "}")))
                                  ++ String ":" R)
        by (subst content; reassociate).
      rewrite find_after_at; [subst be; len_solve|symmetry; exact Hlen1|].
      cbn [PyStr.contains]. rewrite contains_app, HJcolon. reflexivity. }
    assert (Hfound : PyStr.find CLOSE_BRACE content (be + 1) = be + PyStr.len J + 2).
    { replace content
        with (((K ++ String "[" B) ++ "]") ++ String "{" J ++ String "}" (String ":" R))
        by (subst content; reassociate).
      rewrite find_after_at; [subst be; len_solve| |].
      - subst be. len_solve.
      - cbn [PyStr.contains]. rewrite HJbrace. reflexivity. }
    assert (Hcolon : PyStr.find COLON content (be + PyStr.len J + 2 + 1)
                     = be + PyStr.len J + 3).
    { replace content
        with ((((K ++ String "[" B) ++ "]") ++ String "{" (J ++ "}")) ++ ""
              ++ String ":" R)
        by (subst content; reassociate).
      rewrite find_after_at; [subst be; len_solve| |reflexivity].
      subst be. len_solve. }
    assert (Hfrom : PyStr.from content (be + PyStr.len J + 3 + 1) = R).
    { replace content
        with (((((K ++ String "[" B) ++ "]") ++ String "{" (J ++ "}")) ++ ":") ++ R)
        by (subst content; reassociate).
      apply from_at. subst be. len_solve. }
    assert (Hfields : PyStr.slice content (be + 1 + 1) (be + PyStr.len J + 2) = J).
    { replace content
        with ((((K ++ String "[" B) ++ "]") ++ "{") ++ J ++ String "}" (String ":" R))
        by (subst content; reassociate).
      apply slice_at; subst be; len_solve. }
    rewrite Hbrace, Hcolon_after, Hfound.
    replace (Z.max be (if negb (be + 1 =? -1)
                       then if negb (be + PyStr.len J + 3 =? -1)
                               && (be + 1 <? be + PyStr.len J + 3)
                            then if negb (be + PyStr.len J + 2 =? -1)
                                 then be + PyStr.len J + 2 + 1
                                 else be + 1
                            else be + 1
                       else be + 1))
      with (be + PyStr.len J + 2 + 1)
      by (subst be; decide_tests; lia).
    rewrite Hcolon, Hfrom, Hfields.
    subst be. decide_tests.
    destruct (parse_bracket_segment B default_delimiter) as [[[length delimiter] marker]| |];
      reflexivity.
  - assert (Hbrace : PyStr.find OPEN_BRACE content be = -1
                     \/ be + 2 <= PyStr.find OPEN_BRACE content be).
    { rewrite Hcontent1, find_at by (symmetry; exact Hlen1).
      cbn [append]. rewrite !find_aux_cons.
      change (Ascii.eqb "]" OPEN_BRACE) with false.
      change (Ascii.eqb ":" OPEN_BRACE) with false. cbn iota.
      destruct (find_aux_lower OPEN_BRACE R (be + 1 + 1)) as [->|H];
        [now left|right; lia]. }
    assert (Hcolon_after : PyStr.find COLON content be = be + 1).
    { rewrite Hcontent1, find_at by (symmetry; exact Hlen1).
      cbn [append]. rewrite !find_aux_cons. reflexivity. }
    assert (Hcolon : PyStr.find COLON content (be + 1) = be + 1).
    { replace content
        with (((K ++ String "[" B) ++ "]") ++ "" ++ String ":" R)
        by (subst content; reassociate).
      rewrite find_after_at; [subst be; len_solve| |reflexivity].
      subst be. len_solve. }
    assert (Hfrom : PyStr.from content (be + 1 + 1) = R).
    { replace content
        with ((((K ++ String "[" B) ++ "]") ++ ":") ++ R)
        by (subst content; reassociate).
      apply from_at. subst be. len_solve. }
    rewrite Hcolon_after.
    set (x := PyStr.find OPEN_BRACE content be) in *.
    replace (Z.max be (if negb (x =? -1)
                       then if negb (be + 1 =? -1) && (x <? be + 1)
                            then if negb (PyStr.find CLOSE_BRACE content x =? -1)
                                 then PyStr.find CLOSE_BRACE content x + 1
                                 else be + 1
                            else be + 1
                       else be + 1))
      with (be + 1).
    2: { destruct (Z.eqb_spec x (-1)); cbn [negb];
           [lia|destruct (Z.ltb_spec x (be + 1)); [lia|rewrite andb_false_r; lia]]. }
    rewrite Hcolon, Hfrom.
    assert (Hno : negb (x =? -1) && (x <? be + 1) = false).
    { destruct (Z.eqb_spec x (-1)); cbn [negb andb]; [reflexivity|].
      apply Z.ltb_ge. subst be. lia. }
    rewrite Hno.
    destruct (Z.eqb_spec (be + 1) (-1)) as [|_]; [subst be; lia|].
    destruct (parse_bracket_segment B default_delimiter) as [[[length delimiter] marker]| |];
      reflexivity.
Qed.

Lemma bare_key_text (key : option string) :
  is_bare_key_option key = true ->
  PyStr.all_chars is_plain_char (header_key_text key) = true
  /\ nonempty_or_none (header_key_text key) = key.
Proof.
  destruct key as [k|]; cbn [is_bare_key_option header_key_text]; [|now split].
  intros Hk. unfold encode_key. rewrite Hk.
  destruct (match_key_regex_plain k Hk) as [Hne Hplain]. split; [exact Hplain|].
  unfold nonempty_or_none. destruct (String.eqb_spec k ""); congruence.
Qed.

Lemma bracket_text_no_bracket (n : Z) (d : Delimiter) (marker : bool) :
  is_valid_delimiter d = true ->
  PyStr.contains "]" (header_bracket_text n d marker) = false.
Proof.
  intros Hd. unfold header_bracket_text. rewrite !contains_app.
  assert (Hn : PyStr.contains "]" (PyStr.of_int n) = false).
  { apply all_chars_not_contains
      with (p := fun c => PyStr.is_digit c || Ascii.eqb c "-");
      [reflexivity|apply of_int_chars]. }
  rewrite Hn.
  destruct (valid_delimiter_cases d Hd) as [->|[->| ->]]; now destruct marker.
Qed.

Lemma bare_fields_encode (fs : list string) :
  forallb match_key_regex fs = true -> map encode_key fs = fs.
Proof.
  induction fs as [|f fs IH]; [reflexivity|]. cbn [forallb map].
  intros H. apply andb_true_iff in H as [Hf Hfs].
  rewrite (IH Hfs). unfold encode_key. now rewrite Hf.
Qed.

Lemma join_chars (p : ascii -> bool) (d : Delimiter) (parts : list string) :
  p d = true ->
  Forall (fun part => PyStr.all_chars p part = true) parts ->
  PyStr.all_chars p (PyStr.join (str1 d) parts) = true.
Proof.
  intros Hd. induction parts as [|a parts IH]; intros Hall; [reflexivity|].
  pose proof (Forall_inv Hall) as Ha. apply Forall_inv_tail in Hall.
  destruct parts as [|b parts]; [exact Ha|].
  change (PyStr.join (str1 d) (a :: b :: parts))
    with (a ++ String d (PyStr.join (str1 d) (b :: parts))).
  rewrite all_chars_append, Ha. cbn [PyStr.all_chars andb].
  rewrite Hd. now apply IH.
Qed.

Lemma bare_fields_plain (fs : list string) :
  forallb match_key_regex fs = true ->
  Forall (fun f => f <> "" /\ PyStr.all_chars is_plain_char f = true) fs.
Proof.
  induction fs as [|f fs IH]; [constructor|]. cbn [forallb].
  intros H. apply andb_true_iff in H as [Hf Hfs].
  constructor; [now apply match_key_regex_plain|now apply IH].
Qed.

Lemma bare_fields_join_chars (d : Delimiter) (fs : list string) (x : ascii) :
  forallb match_key_regex fs = true ->
  is_plain_char x = false -> Ascii.eqb x d = false ->
  PyStr.contains x (PyStr.join (str1 d) fs) = false.
Proof.
  intros Hfs Hx Hxd.
  apply all_chars_not_contains
    with (p := fun c => is_plain_char c || Ascii.eqb c d).
  - now rewrite Hx, Hxd.
  - apply join_chars; [now rewrite Ascii.eqb_refl, orb_true_r|].
    eapply Forall_impl; [|apply (bare_fields_plain fs Hfs)].
    intros f [_ Hf]. eapply all_chars_impl; [|exact Hf].
    intros c Hc. now rewrite Hc.
Qed.

Lemma bare_field_is_cell (d : Delimiter) (f : string) :
  is_valid_delimiter d = true ->
  f <> "" /\ PyStr.all_chars is_plain_char f = true ->
  is_cell d f.
Proof.
  intros Hd [Hne Hplain]. right.
  split; [exact Hne|split; [now apply plain_strip|split]].
  - now apply plain_not_contains.
  - destruct (valid_delimiter_cases d Hd) as [->|[->| ->]];
      apply all_chars_not_contains with (p := is_plain_char);
      solve [reflexivity | exact Hplain
             | eapply all_chars_impl; [|exact Hplain];
               intros c Hc; unfold is_plain_char in Hc |- *; exact Hc].
Qed.

Lemma parse_fields_segment_written (d : Delimiter) (fs : list string) :
  is_valid_delimiter d = true ->
  forallb match_key_regex fs = true ->
  parse_fields_segment (PyStr.join (str1 d) (map encode_key fs)) d = Ok fs.
Proof.
  intros Hd Hfs. rewrite (bare_fields_encode fs Hfs).
  pose proof (bare_fields_plain fs Hfs) as Hplain.
  unfold parse_fields_segment.
  rewrite parse_delimited_values_join.
  - clear Hfs. induction Hplain as [|f fs [Hne Hf] _ IH]; [reflexivity|].
    cbn [mapM]. rewrite (plain_strip f Hf).
    rewrite parse_string_literal_unquoted;
      [|now apply plain_strip|now apply plain_not_contains].
    cbn [bind]. now rewrite IH.
  - now apply valid_delimiter_not_quote.
  - eapply Forall_impl; [|exact Hplain]. intros f. now apply bare_field_is_cell.
Qed.

(** The header line written by [format_header] for a bare key and bare
    field names, followed by any rest of the line, reads back as the
    header it was written for, and the stripped rest. *)
Lemma parse_array_header_line_written (n : Z) (key : option string)
  (fields : option (list string)) (d default_delimiter : Delimiter)
  (marker : bool) (rest : string) :
  0 <= n ->
  is_valid_delimiter d = true ->
  default_delimiter = DEFAULT_DELIMITER \/ default_delimiter = d ->
  is_bare_key_option key = true ->
  are_bare_fields fields = true ->
  parse_array_header_line (format_header n key fields d marker ++ rest)
                          default_delimiter
  = Ok (Some (written_header n key fields d marker,
              nonempty_or_none (PyStr.strip rest))).
Proof.
  intros Hn Hd Hdefault Hkey Hfields.
  destruct (bare_key_text key Hkey) as [HK Hkey_back].
  pose proof (bracket_text_no_bracket n d marker Hd) as HB.
  assert (Hdelim : (if Ascii.eqb d DEFAULT_DELIMITER then default_delimiter else d)
                   = d).
  { destruct (Ascii.eqb_spec d DEFAULT_DELIMITER) as [E|]; [|reflexivity].
    destruct Hdefault; congruence. }
  rewrite format_header_parts.
  assert (Hcases :
            exists (J : string) (with_fields : bool),
              header_fields_text fields d
              = (if with_fields then String "{" (J ++ "}") else "")
              /\ PyStr.contains "}" J = false
              /\ PyStr.contains ":" J = false
              /\ (if with_fields
                  then let* fs := parse_fields_segment J d in Ok (Some fs)
                  else Ok None)
                 = Ok (hdr_fields (written_header n key fields d marker))).
  { destruct fields as [[|f fs]|].
    - exists "", false. repeat split.
    - exists (PyStr.join (str1 d) (map encode_key (f :: fs))), true.
      cbn [are_bare_fields] in Hfields.
      split; [reflexivity|].
      rewrite (parse_fields_segment_written d (f :: fs) Hd Hfields).
      rewrite (bare_fields_encode _ Hfields).
      destruct (valid_delimiter_cases d Hd) as [->|[->| ->]];
        repeat split; now apply bare_fields_join_chars.
    - exists "", false. repeat split. }
  destruct Hcases as (J & with_fields & -> & HJbrace & HJcolon & Hparsed).
  rewrite (parse_array_header_line_parts _ _ J rest with_fields default_delimiter
             HK HB HJbrace HJcolon).
  unfold header_bracket_text.
  rewrite (parse_bracket_segment_written n d default_delimiter marker Hn Hd).
  rewrite Hdelim, Hparsed, Hkey_back. reflexivity.
Qed.

(** X7: a header line written by [format_header] -- with or without a
    key, a length marker and field names, for any of the three
    delimiters, and whatever follows the colon -- is read back by
    [parse_array_header_line] as the same key, length, delimiter,
    fields and marker, provided the key and the field names need no
    quotes. *)
Theorem parse_array_header_line_inverts_format_header :
  forall (length : Z) (key : option string) (fields : option (list string))
         (delimiter default_delimiter : Delimiter) (length_marker : bool)
         (rest : string),
    0 <= length ->
    is_valid_delimiter delimiter = true ->
    default_delimiter = DEFAULT_DELIMITER \/ default_delimiter = delimiter ->
    is_bare_key_option key = true ->
    are_bare_fields fields = true ->
    parse_array_header_line
      (format_header length key fields delimiter length_marker ++ rest)
      default_delimiter
    = Ok (Some (written_header length key fields delimiter length_marker,
                nonempty_or_none (PyStr.strip rest))).
Proof.
  exact parse_array_header_line_written.
Qed.

(* ------------------------------------------------------------------ *)
(** ** Inline arrays and tabular rows *)

Lemma mapM_length {A B : Type} (f : A -> result B) (xs : list A) (ys : list B) :
  mapM f xs = Ok ys -> length ys = length xs.
Proof.
  revert ys. induction xs as [|x xs IH]; intros ys H.
  - injection H as <-. reflexivity.
  - cbn [mapM] in H. destruct (f x) as [y| |]; try discriminate H.
    cbn [bind] in H. destruct (mapM f xs) as [ys'| |]; try discriminate H.
    cbn [bind] in H. injection H as <-. simpl. now rewrite (IH ys').
Qed.

Lemma cell_round_trips_parts (values : list JsonValue) (d : Delimiter) :
  forallb (fun value => cell_round_trips value d) values = true ->
  forallb (fun value => token_reads_back value d) values = true
  /\ forallb (fun value => cell_safe value d) values = true.
Proof.
  induction values as [|v vs IH]; [now split|]. cbn [forallb].
  intros H. apply andb_true_iff in H as [Hv Hvs].
  apply andb_true_iff in Hv as [Hback Hsafe].
  destruct (IH Hvs) as [-> ->]. now rewrite Hback, Hsafe.
Qed.

(** Reading back the tokens of values that [token_reads_back]. *)
Lemma mapM_parse_tokens (values : list JsonValue) (d : Delimiter)
  (tokens : list string) :
  forallb (fun value => token_reads_back value d) values = true ->
  mapM (fun value => encode_primitive value d) values = Ok tokens ->
  map_row_values_to_primitives tokens = Ok values.
Proof.
  unfold map_row_values_to_primitives.
  revert tokens. induction values as [|v vs IH]; intros tokens Hback Henc.
  - injection Henc as <-. reflexivity.
  - cbn [forallb] in Hback. apply andb_true_iff in Hback as [Hv Hvs].
    cbn [mapM] in Henc.
    destruct (encode_primitive v d) as [t| |] eqn:Ht; try discriminate Henc.
    cbn [bind] in Henc.
    destruct (mapM (fun value => encode_primitive value d) vs) as [ts| |];
      try discriminate Henc.
    cbn [bind] in Henc. injection Henc as <-.
    cbn [mapM]. rewrite (primitive_token_round_trip v d t Hv Ht).
    cbn [bind]. now rewrite (IH ts Hvs).
Qed.

Lemma coalesce_inline_exact (tokens : list string) (expected : Z) (d : Delimiter) :
  expected = Z.of_nat (length tokens) ->
  _coalesce_inline_values tokens expected d = tokens.
Proof.
  intros ->. unfold _coalesce_inline_values.
  destruct (Z.of_nat (length tokens) <=? 0); [reflexivity|].
  now rewrite Z.eqb_refl.
Qed.

Lemma coalesce_row_exact (tokens : list string) (expected : Z) (d : Delimiter) :
  expected = Z.of_nat (length tokens) ->
  _coalesce_row_values tokens expected d = tokens.
Proof.
  intros ->. unfold _coalesce_row_values.
  destruct (Z.of_nat (length tokens) <=? 0); [reflexivity|].
  now rewrite Z.eqb_refl.
Qed.

Lemma assert_expected_count_exact (n : Z) (label : string)
  (options : ResolvedDecodeOptions) :
  assert_expected_count n n label options = Ok tt.
Proof.
  unfold assert_expected_count. now rewrite Z.eqb_refl, andb_false_r.
Qed.

(** The values of an inline array are read back from the text written
    for them, in strict mode or not. *)
Lemma decode_inline_written (values : list JsonValue) (header : ArrayHeaderInfo)
  (text : string) (options : ResolvedDecodeOptions) :
  is_valid_delimiter (hdr_delimiter header) = true ->
  hdr_length header = Z.of_nat (length values) ->
  forallb (fun value => cell_round_trips value (hdr_delimiter header)) values
  = true ->
  encode_and_join_primitives values (hdr_delimiter header) = Ok text ->
  decode_inline_primitive_array header text options = Ok values.
Proof.
  intros Hd Hlen Hall Henc.
  destruct (cell_round_trips_parts _ _ Hall) as [Hback Hsafe].
  pose proof (split_encoded_row _ _ _ Hd Hsafe Henc) as Htokens.
  pose proof (mapM_length _ _ _ Htokens) as Hcount.
  unfold decode_inline_primitive_array.
  rewrite coalesce_inline_exact by (rewrite Hlen, Hcount; reflexivity).
  rewrite (mapM_parse_tokens _ _ _ Hback Htokens). cbn [bind].
  rewrite Hlen, assert_expected_count_exact. reflexivity.
Qed.

(** X8: an inline array of primitives is read back by
    [decode_inline_primitive_array] from the text
    [encode_and_join_primitives] writes for it, in strict mode or not,
    when the header declares its length and each value is one that a
    cell gives back. *)
Theorem decode_inline_primitive_array_inverts_join :
  forall (values : list JsonValue) (header : ArrayHeaderInfo) (text : string)
         (options : ResolvedDecodeOptions),
    is_valid_delimiter (hdr_delimiter header) = true ->
    hdr_length header = Z.of_nat (length values) ->
    forallb (fun value => cell_round_trips value (hdr_delimiter header)) values
    = true ->
    encode_and_join_primitives values (hdr_delimiter header) = Ok text ->
    decode_inline_primitive_array header text options = Ok values.
Proof.
  exact decode_inline_written.
Qed.

(* ------------------------------------------------------------------ *)

Lemma dict_set_fresh {V : Type} (k : string) (v : V) (d : list (string * V)) :
  ~ In k (dict_keys d) -> dict_set k v d = (d ++ [(k, v)])%list.
Proof.
  induction d as [|[k' v'] d IH]; intros Hfresh; [reflexivity|].
  cbn [dict_set]. simpl in Hfresh.
  destruct (String.eqb_spec k' k) as [->|_]; [tauto|].
  simpl. rewrite IH; tauto.
Qed.

Lemma fill_row_combine (fields : list string) (primitives : list JsonValue) :
  forall (idx : nat) (obj : JsonObject),
    NoDup (dict_keys obj ++ fields)%list ->
    length primitives = (idx + length fields)%nat ->
    fill_row fields idx primitives obj
    = Ok (obj ++ combine fields (skipn idx primitives))%list.
Proof.
  induction fields as [|f fields IH]; intros idx obj Hnd Hlen.
  - simpl. now rewrite app_nil_r.
  - cbn [fill_row]. simpl in Hlen.
    destruct (nth_error primitives idx) as [v|] eqn:Hv.
    + assert (Hskip : skipn idx primitives = v :: skipn (S idx) primitives).
      { clear - Hv. revert primitives Hv.
        induction idx as [|idx IHidx]; intros [|p ps] Hv; try discriminate Hv.
        - injection Hv as ->. reflexivity.
        - simpl in Hv. now apply IHidx. }
      assert (Hfresh : ~ In f (dict_keys obj)).
      { apply NoDup_remove_2 in Hnd. intros Hin. apply Hnd.
        apply in_or_app. now left. }
      rewrite (dict_set_fresh f v obj Hfresh).
      rewrite IH.
      * rewrite Hskip. cbn [combine]. now rewrite <- app_assoc.
      * unfold dict_keys in *. rewrite map_app. simpl.
        rewrite <- app_assoc. exact Hnd.
      * lia.
    + apply nth_error_None in Hv. lia.
Qed.

(** A row of a table is read back as the object that pairs the fields
    with the values written. *)
Lemma decode_tabular_row_written (header : ArrayHeaderInfo) (line : ParsedLine)
  (values : list JsonValue) (options : ResolvedDecodeOptions) :
  is_valid_delimiter (hdr_delimiter header) = true ->
  NoDup (header_fields header) ->
  length values = length (header_fields header) ->
  forallb (fun value => cell_round_trips value (hdr_delimiter header)) values
  = true ->
  encode_and_join_primitives values (hdr_delimiter header)
  = Ok (ln_content line) ->
  decode_tabular_row header line options
  = Ok (JObj (combine (header_fields header) values)).
Proof.
  intros Hd Hnd Hlen Hall Henc.
  destruct (cell_round_trips_parts _ _ Hall) as [Hback Hsafe].
  pose proof (split_encoded_row _ _ _ Hd Hsafe Henc) as Htokens.
  pose proof (mapM_length _ _ _ Htokens) as Hcount.
  unfold decode_tabular_row.
  rewrite coalesce_row_exact by (rewrite Hcount, Hlen; reflexivity).
  rewrite Hcount, Hlen, assert_expected_count_exact. cbn [bind].
  rewrite (mapM_parse_tokens _ _ _ Hback Htokens). cbn [bind].
  rewrite (fill_row_combine _ _ O []); [reflexivity|exact Hnd|].
  simpl. exact Hlen.
Qed.

Lemma row_values_skip (k : string) (v : JsonValue) (members : JsonObject)
  (keys : list string) :
  ~ In k keys ->
  row_values ((k, v) :: members) keys = row_values members keys.
Proof.
  unfold row_values. induction keys as [|key keys IH]; intros Hfresh;
    [reflexivity|].
  cbn [mapM]. rewrite IH by (simpl in Hfresh; tauto).
  cbn [dict_get].
  destruct (String.eqb_spec k key) as [->|_]; [simpl in Hfresh; tauto|].
  reflexivity.
Qed.



(* ------------------------------------------------------------------ *)
(** ** Texts that stripping leaves as they are *)

Lemma length_rev (s : string) : String.length (PyStr.rev s) = String.length s.
Proof.
  induction s as [|c s IH]; [reflexivity|].
  rewrite rev_cons, length_append, IH. simpl. lia.
Qed.

Lemma length_lstrip (s : string) :
  (String.length (PyStr.lstrip s) <= String.length s)%nat.
Proof.
  induction s as [|c s IH]; simpl; [lia|].
  destruct (PyStr.is_space c); simpl; lia.
Qed.

Lemma length_rstrip (s : string) :
  (String.length (PyStr.rstrip s) <= String.length s)%nat.
Proof.
  unfold PyStr.rstrip. rewrite length_rev.
  pose proof (length_lstrip (PyStr.rev s)) as H. now rewrite length_rev in H.
Qed.

Lemma rstrip_snoc_space (a : string) (c : ascii) :
  PyStr.is_space c = true -> PyStr.rstrip (a ++ str1 c) = PyStr.rstrip a.
Proof.
  intros Hc. unfold PyStr.rstrip. rewrite rev_append. simpl. now rewrite Hc.
Qed.

(** A non-empty text that stripping leaves as it is starts and ends
    with a character that is no whitespace. *)
Lemma strip_fixed_ends (s : string) :
  PyStr.strip s = s -> s <> "" ->
  (exists c r, s = String c r /\ PyStr.is_space c = false)
  /\ (exists a c, s = a ++ str1 c /\ PyStr.is_space c = false).
Proof.
  intros Hs Hne.
  assert (Hfirst : exists c r, s = String c r /\ PyStr.is_space c = false).
  { destruct s as [|c r]; [congruence|]. exists c, r. split; [reflexivity|].
    destruct (PyStr.is_space c) eqn:Hc; [exfalso|reflexivity].
    pose proof (f_equal String.length Hs) as Hlen.
    unfold PyStr.strip in Hlen. simpl PyStr.lstrip in Hlen. rewrite Hc in Hlen.
    pose proof (length_rstrip (PyStr.lstrip r)).
    pose proof (length_lstrip r). simpl in Hlen. lia. }
  split; [exact Hfirst|].
  destruct Hfirst as (c & r & -> & Hc).
  destruct (string_snoc (String c r) Hne) as (a & x & E).
  exists a, x. split; [exact E|].
  destruct (PyStr.is_space x) eqn:Hx; [exfalso|reflexivity].
  unfold PyStr.strip in Hs. simpl PyStr.lstrip in Hs. rewrite Hc in Hs.
  rewrite E in Hs. rewrite (rstrip_snoc_space a x Hx) in Hs.
  pose proof (f_equal String.length Hs) as Hlen.
  pose proof (length_rstrip a). rewrite length_append in Hlen. simpl in Hlen. lia.
Qed.

Lemma rstrip_ends (a t : string) :
  PyStr.strip t = t -> t <> "" -> PyStr.rstrip (a ++ t) = a ++ t.
Proof.
  intros Hs Hne.
  destruct (strip_fixed_ends t Hs Hne) as [_ (b & c & -> & Hc)].
  rewrite <- append_assoc. now apply rstrip_snoc.
Qed.

Lemma lstrip_starts (t b : string) :
  PyStr.strip t = t -> t <> "" -> PyStr.lstrip (t ++ b) = t ++ b.
Proof.
  intros Hs Hne.
  destruct (strip_fixed_ends t Hs Hne) as [(c & r & -> & Hc) _].
  simpl. now rewrite Hc.
Qed.

(** A text between two texts that stripping leaves as they are. *)
Lemma strip_between (a m b : string) :
  PyStr.strip a = a -> a <> "" -> PyStr.strip b = b -> b <> "" ->
  PyStr.strip (a ++ m ++ b) = a ++ m ++ b.
Proof.
  intros Ha Hane Hb Hbne. unfold PyStr.strip.
  rewrite (lstrip_starts a _ Ha Hane).
  rewrite <- append_assoc. now apply rstrip_ends.
Qed.

Lemma lstrip_spaces (n : nat) (t : string) :
  PyStr.lstrip (PyStr.spaces n ++ t) = PyStr.lstrip t.
Proof.
  induction n as [|n IH]; [reflexivity|]. simpl. exact IH.
Qed.

Lemma len_spaces (n : nat) : PyStr.len (PyStr.spaces n) = Z.of_nat n.
Proof.
  unfold PyStr.len. induction n as [|n IH]; [reflexivity|].
  simpl String.length. lia.
Qed.

Lemma strip_space_head (t : string) :
  PyStr.strip (String " " t) = PyStr.strip t.
Proof.
  reflexivity.
Qed.

Lemma strip_fixed_nonblank (t : string) :
  PyStr.strip t = t -> t <> "" -> String.eqb (PyStr.strip t) "" = false.
Proof.
  intros -> Hne. now apply String.eqb_neq.
Qed.

(* ------------------------------------------------------------------ *)
(** ** Lines: what the writer joins, the scanner splits *)

Lemma split_aux_line (c : ascii) (l tail cur : string) :
  PyStr.contains c l = false ->
  PyStr.split_aux c (l ++ tail) cur = PyStr.split_aux c tail (PyStr.rev l ++ cur).
Proof.
  revert cur. induction l as [|a l IH]; intros cur H; [reflexivity|].
  simpl in H. apply orb_false_iff in H as [Ha Hl].
  cbn [append PyStr.split_aux]. rewrite Ha, (IH _ Hl).
  now rewrite rev_cons, append_assoc.
Qed.

Lemma split_join (c : ascii) (l : string) (ls : list string) :
  Forall (fun l => PyStr.contains c l = false) (l :: ls) ->
  PyStr.split c (PyStr.join (str1 c) (l :: ls)) = l :: ls.
Proof.
  unfold PyStr.split. revert l. induction ls as [|l' ls IH]; intros l Hall.
  - apply Forall_inv in Hall. cbn [PyStr.join].
    rewrite <- (append_nil_r l) at 1.
    rewrite (split_aux_line _ _ _ _ Hall). cbn [PyStr.split_aux].
    now rewrite append_nil_r, rev_rev.
  - pose proof (Forall_inv Hall) as Hl. apply Forall_inv_tail in Hall.
    change (PyStr.join (str1 c) (l :: l' :: ls))
      with (l ++ String c (PyStr.join (str1 c) (l' :: ls))).
    rewrite (split_aux_line _ _ _ _ Hl). cbn [PyStr.split_aux].
    rewrite Ascii.eqb_refl, append_nil_r, rev_rev. f_equal. now apply IH.
Qed.

(** Scanning the joined lines parses each line on its own, when no
    line is blank or holds a newline. *)
Lemma to_parsed_lines_join (l : string) (ls : list string) (indent_size : Z) :
  Forall (fun l => PyStr.contains NEWLINE l = false
                   /\ String.eqb (PyStr.strip l) "" = false) (l :: ls) ->
  to_parsed_lines (PyStr.join (str1 NEWLINE) (l :: ls)) indent_size
  = mapM (parse_line indent_size) (l :: ls).
Proof.
  intros Hall. unfold to_parsed_lines.
  rewrite split_join by (eapply Forall_impl; [|exact Hall]; now intros ? [? _]).
  f_equal. induction Hall as [|x xs [_ Hx] _ IH]; [reflexivity|].
  cbn [filter]. rewrite Hx. cbn [negb]. now rewrite IH.
Qed.

(** A line at depth [depth]: that many indents, then a content that
    starts with no whitespace. *)
Lemma parse_line_indented (indent_size depth : Z) (content : string) :
  0 < indent_size -> 0 <= depth ->
  PyStr.lstrip content = content ->
  parse_line indent_size
    (PyStr.spaces (Z.to_nat (depth * indent_size)) ++ content)
  = Ok {| ln_raw := PyStr.spaces (Z.to_nat (depth * indent_size)) ++ content;
          ln_depth := depth;
          ln_indent := depth * indent_size;
          ln_content := content |}.
Proof.
  intros Hsize Hdepth Hcontent. unfold parse_line.
  rewrite lstrip_spaces, Hcontent, len_append, len_spaces.
  destruct (Z.eqb_spec indent_size 0) as [|_]; [lia|].
  replace (Z.of_nat (Z.to_nat (depth * indent_size)) + PyStr.len content
           - PyStr.len content) with (depth * indent_size) by lia.
  now rewrite Z.div_mul by lia.
Qed.

(* ------------------------------------------------------------------ *)
(** ** Lines that bind a key to a primitive *)

Lemma escape_chars_no_newline (s : string) :
  PyStr.contains NEWLINE (escape_chars s) = false.
Proof.
  induction s as [|c s IH]; [reflexivity|].
  cbn [escape_chars]. rewrite contains_app, IH, orb_false_r.
  unfold escape_char.
  destruct (Ascii.eqb c BACKSLASH); [reflexivity|].
  destruct (Ascii.eqb c DOUBLE_QUOTE); [reflexivity|].
  destruct (Ascii.eqb_spec c NEWLINE) as [|Hn]; [reflexivity|].
  destruct (Ascii.eqb c CARRIAGE_RETURN); [reflexivity|].
  simpl. rewrite orb_false_r. now apply Ascii.eqb_neq.
Qed.

Lemma escape_chars_bracket (s : string) :
  PyStr.contains "[" (escape_chars s) = PyStr.contains "[" s.
Proof.
  induction s as [|c s IH]; [reflexivity|].
  cbn [escape_chars PyStr.contains]. rewrite contains_app, IH. f_equal.
  unfold escape_char.
  destruct (Ascii.eqb_spec c BACKSLASH) as [->|]; [reflexivity|].
  destruct (Ascii.eqb_spec c DOUBLE_QUOTE) as [->|]; [reflexivity|].
  destruct (Ascii.eqb_spec c NEWLINE) as [->|]; [reflexivity|].
  destruct (Ascii.eqb_spec c CARRIAGE_RETURN) as [->|]; [reflexivity|].
  simpl. now rewrite orb_false_r.
Qed.

Lemma contains_quoted (x : ascii) (body : string) :
  Ascii.eqb DOUBLE_QUOTE x = false ->
  PyStr.contains x (quoted body) = PyStr.contains x body.
Proof.
  intros Hx. unfold quoted.
  change (String DOUBLE_QUOTE (body ++ str1 DOUBLE_QUOTE))
    with (str1 DOUBLE_QUOTE ++ body ++ str1 DOUBLE_QUOTE).
  rewrite !contains_app. cbn [str1 PyStr.contains].
  now rewrite Hx, !orb_false_r.
Qed.

(** The text of a key: not blank at either end, and on one line. *)
Lemma encode_key_facts (key : string) :
  encode_key key <> ""
  /\ PyStr.strip (encode_key key) = encode_key key
  /\ PyStr.contains NEWLINE (encode_key key) = false.
Proof.
  unfold encode_key. destruct (match_key_regex key) eqn:Hm.
  - destruct (match_key_regex_plain key Hm) as [Hne Hplain].
    split; [exact Hne|split; [now apply plain_strip|]].
    now apply plain_not_contains.
  - split; [discriminate|split; [apply strip_quoted|]].
    rewrite contains_quoted by reflexivity.
    rewrite escape_string_chars. apply escape_chars_no_newline.
Qed.

(** The token of a value that [token_reads_back]: not blank at either
    end, on one line, and without a bracket when the value has none. *)
Lemma encode_primitive_facts (value : JsonValue) (d : Delimiter) (t : string) :
  token_reads_back value d = true ->
  encode_primitive value d = Ok t ->
  t <> ""
  /\ PyStr.strip t = t
  /\ PyStr.contains NEWLINE t = false
  /\ (is_bracket_free value = true -> PyStr.contains "[" t = false).
Proof.
  intros Hback Henc.
  destruct value as [|b|z|f|s|items|members]; try discriminate Hback;
    cbn [encode_primitive] in Henc; injection Henc as <-.
  - repeat split; discriminate.
  - destruct b; repeat split; discriminate.
  - assert (H : forall x, PyStr.is_digit x || Ascii.eqb x "-" = false ->
                         PyStr.contains x (PyStr.of_int z) = false).
    { intros x Hx.
      apply all_chars_not_contains
        with (p := fun c => PyStr.is_digit c || Ascii.eqb c "-");
        [exact Hx|apply of_int_chars]. }
    split; [|split; [apply strip_of_int|split; [|intros _]]; now apply H].
    destruct (of_int_shape z) as (c & r & _ & _ & _ & ->).
    destruct (z <? 0); discriminate.
  - unfold encode_string_literal. destruct (is_safe_unquoted s d) eqn:Hbare.
    + destruct (is_safe_unquoted_facts s d Hbare)
        as (Hne & Hs & _ & _ & _ & _ & _ & Hbr & _ & Hnl & _).
      repeat split; auto.
    + split; [discriminate|split; [apply strip_quoted|split]].
      * rewrite contains_quoted by reflexivity.
        rewrite escape_string_chars. apply escape_chars_no_newline.
      * cbn [is_bracket_free]. intros Hfree. apply negb_true_iff in Hfree.
        rewrite contains_quoted by reflexivity.
        now rewrite escape_string_chars, escape_chars_bracket.
Qed.

(** The line written for a member. *)
Lemma binding_text_facts (key : string) (value : JsonValue) (d : Delimiter)
  (t : string) :
  token_reads_back value d = true ->
  encode_primitive value d = Ok t ->
  PyStr.rstrip (binding_text key t) = binding_text key t
  /\ PyStr.lstrip (binding_text key t) = binding_text key t
  /\ PyStr.strip (binding_text key t) = binding_text key t
  /\ binding_text key t <> ""
  /\ PyStr.contains NEWLINE (binding_text key t) = false.
Proof.
  intros Hback Henc.
  destruct (encode_key_facts key) as (Hkne & Hks & Hknl).
  destruct (encode_primitive_facts value d t Hback Henc) as (Hne & Hs & Hnl & _).
  unfold binding_text.
  assert (Hstrip : PyStr.strip (encode_key key ++ ": " ++ t)
                   = encode_key key ++ ": " ++ t)
    by now apply strip_between.
  split; [|split; [|split; [exact Hstrip|split]]].
  - rewrite <- append_assoc. now apply rstrip_ends.
  - now apply lstrip_starts.
  - destruct (encode_key key); [congruence|discriminate].
  - rewrite !contains_app, Hknl, Hnl. reflexivity.
Qed.

Lemma find_bracket_absent (content : string) :
  PyStr.contains OPEN_BRACKET content = false ->
  parse_array_header_line content DEFAULT_DELIMITER = Ok None.
Proof.
  intros H. unfold parse_array_header_line.
  destruct (PyStr.startswith (PyStr.lstrip content) (str1 DOUBLE_QUOTE));
    [reflexivity|].
  now rewrite (find_absent _ _ H).
Qed.

(** The line written for a member that [binding_reads_back] binds the
    key to the value. *)
Lemma binding_text_binds (key : string) (value : JsonValue) (d : Delimiter)
  (t : string) :
  binding_reads_back key value d = true ->
  encode_primitive value d = Ok t ->
  binds_primitive 0 (root_line (binding_text key t)) (key, value).
Proof.
  intros Hsafe Henc. unfold binding_reads_back in Hsafe.
  apply andb_true_iff in Hsafe as [Hback Hline].
  destruct (encode_key_facts key) as (Hkne & Hks & Hknl).
  destruct (encode_primitive_facts value d t Hback Henc)
    as (Hne & Hs & Hnl & Hbracket).
  unfold binds_primitive, root_line. cbn [ln_depth ln_content fst snd].
  split; [reflexivity|split].
  - unfold binding_text, encode_key.
    destruct (match_key_regex key) eqn:Hm.
    + cbn [negb orb] in Hline.
      destruct (match_key_regex_plain key Hm) as [_ Hplain].
      apply find_bracket_absent. unfold OPEN_BRACKET.
      rewrite !contains_app, (Hbracket Hline).
      rewrite (plain_not_contains "[" key) by (reflexivity || exact Hplain).
      reflexivity.
    + unfold parse_array_header_line, quoted. cbn [append PyStr.lstrip].
      change (PyStr.is_space DOUBLE_QUOTE) with false. cbn iota.
      now rewrite startswith_head, Ascii.eqb_refl.
  - exists (PyStr.len (encode_key key) + 1).
    assert (Hfrom : PyStr.from (binding_text key t) (PyStr.len (encode_key key) + 1)
                    = String " " t).
    { unfold binding_text.
      replace (encode_key key ++ ": " ++ t)
        with ((encode_key key ++ ":") ++ String " " t)
        by (rewrite append_assoc; reflexivity).
      apply from_at. rewrite len_append. reflexivity. }
    rewrite Hfrom, strip_space_head, Hs.
    split; [|split; [exact Hne|]].
    + apply (parse_key_token_encode_key key (String " " t)).
    + now apply primitive_token_round_trip with (d := d).
Qed.

Lemma quoted_key_line_loop_escaped (s rest : string) :
  quoted_key_line_loop
    (escape_chars s ++ String DOUBLE_QUOTE (String COLON rest)) = true.
Proof.
  induction s as [|c s IH]; [reflexivity|].
  cbn [escape_chars]. rewrite append_assoc. unfold escape_char.
  destruct (Ascii.eqb_spec c BACKSLASH) as [->|Hb]; [exact IH|].
  destruct (Ascii.eqb_spec c DOUBLE_QUOTE) as [->|Hq]; [exact IH|].
  destruct (Ascii.eqb_spec c NEWLINE) as [->|Hn]; [exact IH|].
  destruct (Ascii.eqb_spec c CARRIAGE_RETURN) as [->|Hr]; [exact IH|].
  cbn [str1 append].
  destruct (escape_chars_snoc_nonempty s DOUBLE_QUOTE (String COLON rest))
    as (x & y & Hxy).
  cbn [quoted_key_line_loop]. rewrite Hxy.
  apply Ascii.eqb_neq in Hb, Hq. rewrite Hb, Hq. rewrite <- Hxy. exact IH.
Qed.

(** A line that starts with a written key and a colon is a key-value
    line. *)
Lemma is_key_value_line_written (key rest : string) :
  is_key_value_line (root_line (encode_key key ++ String COLON rest)) = true.
Proof.
  unfold is_key_value_line, root_line. cbn [ln_content].
  unfold encode_key. destruct (match_key_regex key) eqn:Hm.
  - destruct (match_key_regex_plain key Hm) as [Hne Hplain].
    destruct key as [|c r]; [congruence|]. cbn [append].
    assert (Hc : Ascii.eqb c DOUBLE_QUOTE = false).
    { apply contains_head_false with (r := r). now apply plain_not_contains. }
    rewrite Hc.
    change (String c (r ++ String COLON rest)) with (String c r ++ String COLON rest).
    rewrite contains_app. cbn [PyStr.contains].
    now rewrite Ascii.eqb_refl, orb_true_r.
  - unfold quoted. cbn [append]. rewrite Ascii.eqb_refl.
    rewrite append_assoc. cbn [str1 append].
    rewrite escape_string_chars. apply quoted_key_line_loop_escaped.
Qed.

Lemma push_root (writer : LineWriter) (content : string) :
  PyStr.rstrip content = content ->
  push writer 0 content
  = {| indent_size := indent_size writer;
       lines := (lines writer ++ [content])%list |}.
Proof.
  intros H. unfold push. rewrite H. reflexivity.
Qed.

Lemma encode_key_value_pair_primitive (fuel : nat) (key : string)
  (value : JsonValue) (writer : LineWriter) (depth : Depth)
  (options : ResolvedEncodeOptions) :
  is_json_primitive value = true ->
  encode_key_value_pair (S fuel) key value writer depth options
  = let* encoded := encode_primitive value (enc_delimiter options) in
    Ok (push writer depth (encode_key key ++ ": " ++ encoded)).
Proof.
  destruct value; intros H; try discriminate H; reflexivity.
Qed.

Lemma token_reads_back_primitive (value : JsonValue) (d : Delimiter) :
  token_reads_back value d = true -> is_json_primitive value = true.
Proof.
  destruct value; intros H; try discriminate H; reflexivity.
Qed.

(** The lines [encode_object] writes at depth 0 for members that are
    primitives. *)
Lemma encode_object_flat (fuel : nat) (members : JsonObject)
  (options : ResolvedEncodeOptions) :
  Forall (fun km => token_reads_back (snd km) (enc_delimiter options) = true)
         members ->
  forall writer : LineWriter,
  exists texts,
    mapM (member_line (enc_delimiter options)) members = Ok texts
    /\ encode_object (S (S fuel)) members writer 0 options
       = Ok {| indent_size := indent_size writer;
               lines := (lines writer ++ texts)%list |}.
Proof.
  cbn [encode_object].
  induction 1 as [|[k v] members Hv _ IH]; intros writer.
  - exists []. split; [reflexivity|]. cbn [foldM].
    rewrite List.app_nil_r. now destruct writer.
  - cbn [fst snd] in *. cbn [foldM fst snd].
    rewrite encode_key_value_pair_primitive
      by now apply token_reads_back_primitive with (d := enc_delimiter options).
    destruct (encode_primitive v (enc_delimiter options)) as [t| |] eqn:Ht;
      [|destruct v; discriminate..].
    cbn [bind].
    destruct (binding_text_facts k v _ t Hv Ht) as (Hr & _).
    fold (binding_text k t). rewrite (push_root _ _ Hr).
    destruct (IH {| indent_size := indent_size writer;
                    lines := (lines writer ++ [binding_text k t])%list |})
      as (texts & Htexts & Hrun).
    exists (binding_text k t :: texts). split.
    + cbn [mapM]. unfold member_line at 1. cbn [fst snd]. rewrite Ht.
      cbn [bind]. now rewrite Htexts.
    + rewrite Hrun. cbn [indent_size lines]. now rewrite <- List.app_assoc.
Qed.

Lemma member_lines_bind (d : Delimiter) (members : JsonObject)
  (texts : list string) :
  Forall (fun km => binding_reads_back (fst km) (snd km) d = true) members ->
  mapM (member_line d) members = Ok texts ->
  Forall2 (binds_primitive 0) (map root_line texts) members
  /\ Forall (fun l => PyStr.strip l = l /\ l <> ""
                      /\ PyStr.lstrip l = l
                      /\ PyStr.contains NEWLINE l = false) texts
  /\ Forall2 (fun l km => exists rest, l = encode_key (fst km) ++ String COLON rest)
             texts members.
Proof.
  intros Hall. revert texts.
  induction Hall as [|[k v] members Hkv _ IH]; intros texts Hlines.
  - injection Hlines as <-. repeat split; constructor.
  - cbn [mapM] in Hlines. unfold member_line at 1 in Hlines.
    cbn [fst snd] in *.
    destruct (encode_primitive v d) as [t| |] eqn:Ht; try discriminate Hlines.
    cbn [bind] in Hlines.
    destruct (mapM (member_line d) members) as [ts| |]; try discriminate Hlines.
    cbn [bind] in Hlines. injection Hlines as <-.
    destruct (IH ts eq_refl) as (Hbind & Hfacts & Hkeys).
    pose proof Hkv as Hback. unfold binding_reads_back in Hback.
    apply andb_true_iff in Hback as [Hback _].
    destruct (binding_text_facts k v d t Hback Ht) as (_ & Hl & Hs & Hne & Hnl).
    split; [|split].
    + cbn [map]. constructor; [|exact Hbind].
      now apply binding_text_binds with (d := d).
    + constructor; [|exact Hfacts]. repeat split; assumption.
    + constructor; [|exact Hkeys]. cbn [fst].
      exists (String " " t). reflexivity.
Qed.

Lemma strip_join (sep l : string) (ls : list string) :
  Forall (fun l => PyStr.strip l = l /\ l <> "") (l :: ls) ->
  PyStr.strip (PyStr.join sep (l :: ls)) = PyStr.join sep (l :: ls)
  /\ PyStr.join sep (l :: ls) <> "".
Proof.
  revert l. induction ls as [|l' ls IH]; intros l Hall.
  - apply Forall_inv in Hall. exact Hall.
  - pose proof (Forall_inv Hall) as [Hl Hne]. apply Forall_inv_tail in Hall.
    destruct (IH l' Hall) as [Hs Hjne].
    change (PyStr.join sep (l :: l' :: ls))
      with (l ++ sep ++ PyStr.join sep (l' :: ls)).
    split; [now apply strip_between|].
    destruct l; [congruence|discriminate].
Qed.

Lemma mapM_parse_root_lines (indent_size : Z) (texts : list string) :
  0 < indent_size ->
  Forall (fun l => PyStr.lstrip l = l) texts ->
  mapM (parse_line indent_size) texts = Ok (map root_line texts).
Proof.
  intros Hsize. induction 1 as [|l ls Hl _ IH]; [reflexivity|].
  cbn [mapM map].
  rewrite (parse_line_indented indent_size 0 l Hsize (Z.le_refl 0) Hl : 
             parse_line indent_size l = Ok (root_line l)).
  cbn [bind]. now rewrite IH.
Qed.

Lemma assign_all_fresh (bindings : list (string * JsonValue)) :
  forall obj : JsonObject,
    NoDup (dict_keys obj ++ dict_keys bindings)%list ->
    assign_all bindings obj = (obj ++ bindings)%list.
Proof.
  unfold assign_all.
  induction bindings as [|[k v] bindings IH]; intros obj Hnd.
  - simpl. now rewrite List.app_nil_r.
  - cbn [fold_left fst snd].
    assert (Hfresh : ~ In k (dict_keys obj)).
    { apply NoDup_remove_2 in Hnd. intros Hin. apply Hnd.
      apply in_or_app. now left. }
    rewrite (dict_set_fresh k v obj Hfresh), (IH (obj ++ [(k, v)])%list).
    + now rewrite <- List.app_assoc.
    + unfold dict_keys in *. rewrite map_app. simpl.
      rewrite <- List.app_assoc. exact Hnd.
Qed.

(* ------------------------------------------------------------------ *)
(** ** Whole documents *)

Lemma decode_nonblank (text : string) (options : DecodeOptions) :
  PyStr.strip text = text -> text <> "" ->
  decode text options
  = let* lines := to_parsed_lines text
                    (dec_indent (resolve_decode_options options)) in
    if Nat.eqb (length lines) 0 then Ok (JObj [])
    else decode_value_from_lines (decode_fuel lines) (new_cursor lines)
                                 (resolve_decode_options options).
Proof.
  intros Hs Hne. unfold decode. rewrite Hs.
  destruct (String.eqb_spec text "") as [|_]; [congruence|]. reflexivity.
Qed.

Lemma scan_root_lines (l : string) (ls : list string) (indent_size : Z) :
  0 < indent_size ->
  Forall (fun l => PyStr.strip l = l /\ l <> ""
                   /\ PyStr.lstrip l = l
                   /\ PyStr.contains NEWLINE l = false) (l :: ls) ->
  to_parsed_lines (PyStr.join (str1 NEWLINE) (l :: ls)) indent_size
  = Ok (map root_line (l :: ls)).
Proof.
  intros Hsize Hall. rewrite to_parsed_lines_join.
  - apply mapM_parse_root_lines; [exact Hsize|].
    eapply Forall_impl; [|exact Hall]. now intros x (_ & _ & Hx & _).
  - eapply Forall_impl; [|exact Hall]. intros x (Hs & Hne & _ & Hnl).
    split; [exact Hnl|now apply strip_fixed_nonblank].
Qed.

(** An object whose members are primitives that [binding_reads_back]
    is read back from the text written for it. *)
Lemma decode_encode_flat_object (members : JsonObject)
  (enc_options : ResolvedEncodeOptions) (dec_options : DecodeOptions)
  (text : string) :
  NoDup (dict_keys members) ->
  Forall (fun km => binding_reads_back (fst km) (snd km)
                      (enc_delimiter enc_options) = true) members ->
  0 < dec_indent (resolve_decode_options dec_options) ->
  encode_value (JObj members) enc_options = Ok text ->
  decode text dec_options = Ok (JObj members).
Proof.
  intros Hnd Hall Hindent Henc.
  assert (Hback : Forall (fun km => token_reads_back (snd km)
                                      (enc_delimiter enc_options) = true) members).
  { eapply Forall_impl; [|exact Hall]. intros km H.
    unfold binding_reads_back in H. now apply andb_true_iff in H as [? _]. }
  unfold encode_value, encode_value_with, encode_fuel in Henc.
  cbn [is_json_primitive] in Henc.
  pose proof (json_size_pos (JObj members)) as Hsize.
  destruct (json_size (JObj members)) as [|size]; [lia|].
  replace (2 * S size + 2)%nat with (S (S (2 * size + 2))) in Henc by lia.
  destruct (encode_object_flat (2 * size + 2) members enc_options Hback
              (new_writer (enc_indent enc_options))) as (texts & Htexts & Hrun).
  rewrite Hrun in Henc. cbn [bind] in Henc. injection Henc as <-.
  unfold to_string. cbn [lines new_writer app].
  destruct (member_lines_bind _ _ _ Hall Htexts) as (Hbind & Hfacts & Hkeys).
  destruct texts as [|l ls]; [inversion Hbind; subst; reflexivity|].
  destruct (strip_join (str1 NEWLINE) l ls) as [Hs Hne].
  { eapply Forall_impl; [|exact Hfacts]. now intros x (? & ? & _). }
  rewrite (decode_nonblank _ _ Hs Hne).
  rewrite (scan_root_lines l ls _ Hindent Hfacts). cbn [bind].
  cbn [map length Nat.eqb].
  unfold decode_value_from_lines.
  change (peek (new_cursor (root_line l :: map root_line ls)))
    with (Some (root_line l)). cbv iota.
  destruct members as [|[k v] members]; [inversion Hbind|].
  assert (Hheader : (if is_root_array_header_line (root_line l)
                     then parse_array_header_line (ln_content (root_line l))
                                                  DEFAULT_DELIMITER
                     else Ok None) = Ok None).
  { inversion Hbind as [|? b ? ? (_ & Hh & _)]; subst.
    destruct (is_root_array_header_line (root_line l)); [exact Hh|reflexivity]. }
  rewrite Hheader. cbn [bind].
  assert (Hkv : is_key_value_line (root_line l) = true).
  { inversion Hkeys as [|? ? ? ? [rest ->]]; subst.
    apply is_key_value_line_written. }
  rewrite Hkv. cbn [negb]. rewrite andb_false_r.
  unfold decode_object.
  pose proof (decode_object_from_bindings 0 (resolve_decode_options dec_options)
                (root_line l :: map root_line ls) ((k, v) :: members)
                Hbind [] []
                (decode_fuel (root_line l :: map root_line ls))) as Hdec.
  cbn [app] in Hdec. unfold new_cursor.
  change (length (@nil ParsedLine)) with O in Hdec.
  rewrite Hdec by (unfold decode_fuel; lia).
  cbn [bind]. rewrite assign_all_fresh by exact Hnd. reflexivity.
Qed.

(** X10: an object whose members are primitives comes back from
    [decode] as it went into [encode_value], for every delimiter and
    indent of the encoder and every positive indent of the decoder, in
    strict mode or not, when its keys are distinct and each member is
    one that [binding_reads_back]: no float, no bare string that
    [float()] reads as a number, no string with an opening bracket
    under a key written without quotes. *)
Theorem decode_inverts_encode_value_on_flat_objects :
  forall (members : JsonObject) (enc_options : ResolvedEncodeOptions)
         (dec_options : DecodeOptions) (text : string),
    NoDup (dict_keys members) ->
    Forall (fun km => binding_reads_back (fst km) (snd km)
                        (enc_delimiter enc_options) = true) members ->
    0 < dec_indent (resolve_decode_options dec_options) ->
    encode_value (JObj members) enc_options = Ok text ->
    decode text dec_options = Ok (JObj members).
Proof.
  exact decode_encode_flat_object.
Qed.

(* ------------------------------------------------------------------ *)

Lemma quoted_key_line_loop_closed (s : string) :
  quoted_key_line_loop (escape_chars s ++ str1 DOUBLE_QUOTE) = false.
Proof.
  induction s as [|c s IH]; [reflexivity|].
  cbn [escape_chars]. rewrite append_assoc. unfold escape_char.
  destruct (Ascii.eqb_spec c BACKSLASH) as [->|Hb]; [exact IH|].
  destruct (Ascii.eqb_spec c DOUBLE_QUOTE) as [->|Hq]; [exact IH|].
  destruct (Ascii.eqb_spec c NEWLINE) as [->|Hn]; [exact IH|].
  destruct (Ascii.eqb_spec c CARRIAGE_RETURN) as [->|Hr]; [exact IH|].
  cbn [str1 append].
  destruct (escape_chars_snoc_nonempty s DOUBLE_QUOTE "") as (x & y & Hxy).
  unfold str1 in IH |- *. cbn [quoted_key_line_loop]. rewrite Hxy.
  apply Ascii.eqb_neq in Hb, Hq. rewrite Hb, Hq. rewrite <- Hxy. exact IH.
Qed.

(** A token alone on a line is neither an array header nor a key-value
    line. *)
Lemma token_line_is_plain (value : JsonValue) (d : Delimiter) (t : string) :
  token_reads_back value d = true ->
  encode_primitive value d = Ok t ->
  PyStr.startswith t (str1 OPEN_BRACKET) = false
  /\ is_key_value_line (root_line t) = false.
Proof.
  intros Hback Henc.
  assert (Hbare : forall s : string,
             s <> "" -> PyStr.contains "[" s = false ->
             PyStr.contains DOUBLE_QUOTE s = false ->
             PyStr.contains COLON s = false ->
             PyStr.startswith s (str1 OPEN_BRACKET) = false
             /\ is_key_value_line (root_line s) = false).
  { intros [|c r] Hne Hbr Hq Hcolon; [congruence|].
    rewrite startswith_head. split.
    - now apply contains_head_false with (r := r).
    - unfold is_key_value_line, root_line. cbn [ln_content].
      now rewrite (contains_head_false _ _ _ Hq). }
  assert (Hdigits : forall z x, PyStr.is_digit x || Ascii.eqb x "-" = false ->
                                PyStr.contains x (PyStr.of_int z) = false).
  { intros z x Hx.
    apply all_chars_not_contains
      with (p := fun c => PyStr.is_digit c || Ascii.eqb c "-");
      [exact Hx|apply of_int_chars]. }
  destruct value as [|b|z|f|s|items|members]; try discriminate Hback;
    cbn [encode_primitive] in Henc; injection Henc as <-.
  - now apply Hbare.
  - destruct b; now apply Hbare.
  - apply Hbare; try now apply Hdigits.
    destruct (of_int_shape z) as (c & r & _ & _ & _ & ->).
    destruct (z <? 0); discriminate.
  - unfold encode_string_literal. destruct (is_safe_unquoted s d) eqn:Hsafe.
    + destruct (is_safe_unquoted_facts s d Hsafe)
        as (Hne & _ & _ & _ & Hcolon & Hq & _ & Hbr & _).
      now apply Hbare.
    + split; [reflexivity|].
      unfold is_key_value_line, root_line, quoted. cbn [ln_content].
      rewrite Ascii.eqb_refl, escape_string_chars.
      apply quoted_key_line_loop_closed.
Qed.

Lemma lstrip_fixed (t : string) :
  PyStr.strip t = t -> t <> "" -> PyStr.lstrip t = t.
Proof.
  intros Hs Hne. rewrite <- (append_nil_r t). now apply lstrip_starts.
Qed.

(** A primitive that [token_reads_back] is read back from the text
    written for it as a whole document. *)
Lemma decode_encode_primitive (value : JsonValue)
  (enc_options : ResolvedEncodeOptions) (dec_options : DecodeOptions)
  (text : string) :
  token_reads_back value (enc_delimiter enc_options) = true ->
  0 < dec_indent (resolve_decode_options dec_options) ->
  encode_value value enc_options = Ok text ->
  decode text dec_options = Ok value.
Proof.
  intros Hback Hindent Henc.
  unfold encode_value, encode_value_with in Henc.
  rewrite (token_reads_back_primitive _ _ Hback) in Henc.
  destruct (encode_primitive_facts _ _ _ Hback Henc) as (Hne & Hs & Hnl & _).
  destruct (token_line_is_plain _ _ _ Hback Henc) as [Hstart Hkv].
  rewrite (decode_nonblank _ _ Hs Hne).
  pose proof (scan_root_lines text [] _ Hindent) as Hscan.
  cbn [PyStr.join] in Hscan. rewrite Hscan.
  2: { constructor; [|constructor]. repeat split; auto. now apply lstrip_fixed. }
  cbn [bind map length Nat.eqb]. unfold decode_value_from_lines.
  change (peek (new_cursor [root_line text])) with (Some (root_line text)).
  cbv iota.
  unfold is_root_array_header_line, is_array_header_after_hyphen, root_line at 1.
  cbn [ln_content]. rewrite Hs, Hstart. cbn [andb bind].
  change (cursor_length (new_cursor [root_line text])) with 1%nat.
  rewrite Hkv. cbn [Nat.eqb negb andb ln_content root_line]. rewrite Hs.
  now apply primitive_token_round_trip with (d := enc_delimiter enc_options).
Qed.

(** X11: null, a boolean, an integer of any size, or a string that is
    written between quotes or is no numeric literal, comes back from
    [decode] as it went into [encode_value] as a whole document, for
    every encoder option and every positive indent of the decoder. *)
Theorem decode_inverts_encode_value_on_primitives :
  forall (value : JsonValue) (enc_options : ResolvedEncodeOptions)
         (dec_options : DecodeOptions) (text : string),
    token_reads_back value (enc_delimiter enc_options) = true ->
    0 < dec_indent (resolve_decode_options dec_options) ->
    encode_value value enc_options = Ok text ->
    decode text dec_options = Ok value.
Proof.
  exact decode_encode_primitive.
Qed.

(* ------------------------------------------------------------------ *)

Lemma strip_ends_chars (c e : ascii) (r a : string) :
  String c r = a ++ str1 e ->
  PyStr.is_space c = false -> PyStr.is_space e = false ->
  PyStr.strip (String c r) = String c r.
Proof.
  intros E Hc He. unfold PyStr.strip. simpl PyStr.lstrip. rewrite Hc, E.
  now apply rstrip_snoc.
Qed.

(** The text of a header: not blank at either end, on one line, with a
    colon. *)
Lemma format_header_facts (n : Z) (key : option string)
  (fields : option (list string)) (d : Delimiter) (marker : bool) :
  is_valid_delimiter d = true ->
  let header := format_header n key fields d marker in
  PyStr.strip header = header
  /\ header <> ""
  /\ PyStr.contains NEWLINE header = false
  /\ PyStr.contains COLON header = true
  /\ (key = None -> PyStr.startswith header (str1 OPEN_BRACKET) = true).
Proof.
  intros Hd header.
  assert (Hparts : header
                   = header_key_text key
                     ++ String "[" (header_bracket_text n d marker
                                    ++ String "]" (header_fields_text fields d
                                                   ++ str1 ":"))).
  { subst header. rewrite <- (append_nil_r (format_header n key fields d marker)).
    apply format_header_parts. }
  assert (Hlast : header
                  = (header_key_text key
                     ++ String "[" (header_bracket_text n d marker
                                    ++ String "]" (header_fields_text fields d)))
                    ++ str1 ":").
  { rewrite Hparts. repeat first [rewrite append_assoc | progress cbn [append]].
    reflexivity. }
  assert (Hkey : header_key_text key = ""
                 \/ (PyStr.strip (header_key_text key) = header_key_text key
                     /\ header_key_text key <> "")).
  { destruct key as [k|]; [right|now left]. cbn [header_key_text].
    destruct (encode_key_facts k) as (? & ? & _). now split. }
  assert (Hfirst : exists c r, header = String c r /\ PyStr.is_space c = false
                               /\ (key = None -> c = OPEN_BRACKET)).
  { destruct Hkey as [Hk|[Hs Hne]].
    - rewrite Hparts, Hk. cbn [append]. do 2 eexists.
      split; [reflexivity|split; [reflexivity|reflexivity]].
    - destruct (strip_fixed_ends _ Hs Hne) as [(c & r & Hcr & Hc) _].
      rewrite Hparts, Hcr. cbn [append]. do 2 eexists.
      split; [reflexivity|split; [exact Hc|]].
      intros ->. discriminate Hcr. }
  destruct Hfirst as (c & r & Hcr & Hc & Hopen).
  assert (Hnl_key : PyStr.contains NEWLINE (header_key_text key) = false).
  { destruct key as [k|]; [|reflexivity]. now destruct (encode_key_facts k) as (_ & _ & ?). }
  assert (Hnl_bracket : PyStr.contains NEWLINE (header_bracket_text n d marker)
                        = false).
  { unfold header_bracket_text. rewrite !contains_app.
    assert (Hn : PyStr.contains NEWLINE (PyStr.of_int n) = false).
    { apply all_chars_not_contains
        with (p := fun c => PyStr.is_digit c || Ascii.eqb c "-");
        [reflexivity|apply of_int_chars]. }
    rewrite Hn.
    destruct (valid_delimiter_cases d Hd) as [->|[->| ->]]; now destruct marker. }
  assert (Hnl_fields : PyStr.contains NEWLINE (header_fields_text fields d)
                       = false).
  { destruct fields as [[|f fs]|]; try reflexivity.
    cbn [header_fields_text PyStr.contains]. rewrite contains_app.
    cbn [orb PyStr.contains Ascii.eqb]. rewrite orb_false_r.
    change (Ascii.eqb "{" NEWLINE) with false. cbn [orb].
    apply all_chars_not_contains
      with (p := fun c => negb (Ascii.eqb c NEWLINE)); [reflexivity|].
    apply join_chars.
    - destruct (valid_delimiter_cases d Hd) as [->|[->| ->]]; reflexivity.
    - apply Forall_forall. intros part Hin.
      apply in_map_iff in Hin as (k & <- & _).
      apply contains_false_all_chars.
      now destruct (encode_key_facts k) as (_ & _ & ?). }
  split; [|split; [|split; [|split]]].
  - rewrite Hcr. rewrite Hcr in Hlast.
    now apply (strip_ends_chars c ":" r _ Hlast).
  - rewrite Hcr. discriminate.
  - rewrite Hparts. rewrite contains_app, Hnl_key.
    cbn [orb PyStr.contains]. change (Ascii.eqb "[" NEWLINE) with false.
    cbn [orb]. rewrite contains_app, Hnl_bracket.
    cbn [orb PyStr.contains]. change (Ascii.eqb "]" NEWLINE) with false.
    cbn [orb]. now rewrite contains_app, Hnl_fields.
  - rewrite Hlast, contains_app. cbn [str1 PyStr.contains].
    now rewrite Ascii.eqb_refl, orb_true_r.
  - intros Hnone. rewrite Hcr, (Hopen Hnone). apply startswith_head.
Qed.

Lemma cells_join_facts (values : list JsonValue) (d : Delimiter) (joined : string) :
  is_valid_delimiter d = true ->
  values <> [] ->
  forallb (fun value => cell_round_trips value d) values = true ->
  encode_and_join_primitives values d = Ok joined ->
  PyStr.strip joined = joined
  /\ joined <> ""
  /\ PyStr.contains NEWLINE joined = false.
Proof.
  intros Hd Hne Hall Henc.
  destruct (cell_round_trips_parts _ _ Hall) as [Hback Hsafe].
  unfold encode_and_join_primitives in Henc.
  destruct (mapM (fun value => encode_primitive value d) values) as [tokens| |]
    eqn:Htokens; try discriminate Henc.
  cbn [bind] in Henc. injection Henc as <-.
  assert (Hfacts : Forall (fun t => (PyStr.strip t = t /\ t <> "")
                                    /\ PyStr.contains NEWLINE t = false) tokens).
  { clear Hne Hall Hsafe. revert tokens Htokens.
    induction values as [|v vs IH]; intros tokens Htokens.
    - injection Htokens as <-. constructor.
    - cbn [forallb] in Hback. apply andb_true_iff in Hback as [Hv Hvs].
      cbn [mapM] in Htokens.
      destruct (encode_primitive v d) as [t| |] eqn:Ht; try discriminate Htokens.
      cbn [bind] in Htokens.
      destruct (mapM (fun value => encode_primitive value d) vs) as [ts| |];
        try discriminate Htokens.
      cbn [bind] in Htokens. injection Htokens as <-.
      destruct (encode_primitive_facts v d t Hv Ht) as (? & ? & ? & _).
      constructor; [repeat split; assumption|now apply IH]. }
  destruct tokens as [|t ts].
  { apply mapM_length in Htokens. destruct values; [congruence|discriminate]. }
  destruct (strip_join (str1 d) t ts) as [Hs Hjne].
  { eapply Forall_impl; [|exact Hfacts]. now intros x [? _]. }
  split; [exact Hs|split; [exact Hjne|]].
  apply contains_false_all_chars. apply join_chars.
  - destruct (valid_delimiter_cases d Hd) as [->|[->| ->]]; reflexivity.
  - eapply Forall_impl; [|exact Hfacts]. intros x [_ Hx].
    now apply contains_false_all_chars.
Qed.

Lemma strip_separator (d : Delimiter) (joined : string) :
  PyStr.strip ((if Ascii.eqb d TAB then str1 TAB else " ") ++ joined)
  = PyStr.strip joined.
Proof.
  now destruct (Ascii.eqb d TAB).
Qed.

Lemma select_array_form_primitives (v : JsonValue) (values : list JsonValue) :
  forallb is_json_primitive (v :: values) = true ->
  select_array_form (v :: values) = FormInline.
Proof.
  intros H. unfold select_array_form. cbn [length Nat.eqb].
  unfold is_array_of_primitives. now rewrite H.
Qed.

Lemma cell_round_trips_primitive (values : list JsonValue) (d : Delimiter) :
  forallb (fun value => cell_round_trips value d) values = true ->
  forallb is_json_primitive values = true.
Proof.
  induction values as [|v vs IH]; [reflexivity|]. cbn [forallb].
  intros H. apply andb_true_iff in H as [Hv Hvs].
  rewrite (IH Hvs), andb_true_r.
  unfold cell_round_trips in Hv. apply andb_true_iff in Hv as [Hv _].
  now apply token_reads_back_primitive with (d := d).
Qed.

(** A non-empty array of primitives is read back from the one line
    written for it. *)
Lemma decode_encode_inline_array (values : list JsonValue)
  (enc_options : ResolvedEncodeOptions) (dec_options : DecodeOptions)
  (text : string) :
  is_valid_delimiter (enc_delimiter enc_options) = true ->
  values <> [] ->
  forallb (fun value => cell_round_trips value (enc_delimiter enc_options)) values
  = true ->
  0 < dec_indent (resolve_decode_options dec_options) ->
  encode_value (JArr values) enc_options = Ok text ->
  decode text dec_options = Ok (JArr values).
Proof.
  intros Hd Hne Hall Hindent Henc.
  set (d := enc_delimiter enc_options) in *.
  set (marker := enc_lengthMarker enc_options) in *.
  set (n := Z.of_nat (length values)).
  set (header := format_header n None None d marker).
  set (sep := if Ascii.eqb d TAB then str1 TAB else " ").
  pose proof (cell_round_trips_primitive _ _ Hall) as Hprim.
  unfold encode_value, encode_value_with, encode_fuel in Henc.
  cbn [is_json_primitive] in Henc.
  destruct (2 * json_size (JArr values) + 2)%nat as [|fuel] eqn:Hfuel; [lia|].
  cbn [encode_array] in Henc.
  destruct values as [|v values]; [congruence|].
  rewrite (select_array_form_primitives v values Hprim) in Henc.
  unfold encode_inline_primitive_array, encode_inline_array_line in Henc.
  fold d marker n header sep in Henc.
  destruct (encode_and_join_primitives (v :: values) d) as [joined| |] eqn:Hjoined;
    try discriminate Henc.
  cbn [bind] in Henc.
  destruct (cells_join_facts _ _ _ Hd Hne Hall Hjoined) as (Hjs & Hjne & Hjnl).
  destruct (format_header_facts n None None d marker Hd)
    as (Hhs & Hhne & Hhnl & Hhcolon & Hhopen).
  fold header in Hhs, Hhne, Hhnl, Hhcolon, Hhopen.
  assert (Hline : PyStr.strip (header ++ sep ++ joined) = header ++ sep ++ joined)
    by now apply strip_between.
  assert (Hlne : header ++ sep ++ joined <> "").
  { destruct header; [congruence|discriminate]. }
  rewrite push_root in Henc.
  2: { rewrite <- append_assoc. now apply rstrip_ends. }
  injection Henc as <-. unfold to_string. cbn [lines new_writer app PyStr.join].
  rewrite (decode_nonblank _ _ Hline Hlne).
  pose proof (scan_root_lines (header ++ sep ++ joined) [] _ Hindent) as Hscan.
  cbn [PyStr.join] in Hscan. rewrite Hscan.
  2: { constructor; [|constructor].
       split; [exact Hline|split; [exact Hlne|split; [now apply lstrip_fixed|]]].
       rewrite !contains_app, Hhnl, Hjnl. subst sep.
       now destruct (Ascii.eqb d TAB). }
  cbn [bind map length Nat.eqb]. unfold decode_value_from_lines.
  change (peek (new_cursor [root_line (header ++ sep ++ joined)]))
    with (Some (root_line (header ++ sep ++ joined))).
  cbv iota.
  assert (Hroot : is_root_array_header_line (root_line (header ++ sep ++ joined))
                  = true).
  { unfold is_root_array_header_line, is_array_header_after_hyphen, root_line.
    cbn [ln_content]. rewrite Hline.
    rewrite contains_app, Hhcolon. cbn [orb]. rewrite andb_true_r.
    specialize (Hhopen eq_refl).
    destruct header as [|c r]; [discriminate Hhopen|].
    rewrite startswith_head in Hhopen. cbn [append]. now rewrite startswith_head. }
  rewrite Hroot. cbn [ln_content root_line].
  subst header.
  rewrite (parse_array_header_line_written n None None d DEFAULT_DELIMITER marker
             (sep ++ joined));
    [|subst n; lia|exact Hd|now left|reflexivity|reflexivity].
  cbn [bind]. subst sep. rewrite strip_separator, Hjs.
  unfold nonempty_or_none.
  destruct (String.eqb_spec joined "") as [|_]; [congruence|].
  unfold decode_fuel. cbn [length Nat.mul Nat.add decode_array_from_header].
  unfold has_inline_values. rewrite Hjs.
  destruct (String.eqb_spec joined "") as [|_]; [congruence|].
  rewrite (decode_inline_written (v :: values)); [reflexivity| | | |]; auto.
Qed.

(** X12: a non-empty array of primitives comes back from [decode] as
    it went into [encode_value], for each of the three delimiters, with
    or without length marker, in strict mode or not, when each element
    is one that a cell gives back. *)
Theorem decode_inverts_encode_value_on_inline_arrays :
  forall (values : list JsonValue) (enc_options : ResolvedEncodeOptions)
         (dec_options : DecodeOptions) (text : string),
    is_valid_delimiter (enc_delimiter enc_options) = true ->
    values <> [] ->
    forallb (fun value => cell_round_trips value (enc_delimiter enc_options))
            values = true ->
    0 < dec_indent (resolve_decode_options dec_options) ->
    encode_value (JArr values) enc_options = Ok text ->
    decode text dec_options = Ok (JArr values).
Proof.
  exact decode_encode_inline_array.
Qed.

(* ------------------------------------------------------------------ *)
(** ** Tables *)

Lemma startswith_cons_false (c a : ascii) (r p : string) :
  Ascii.eqb c a = false -> PyStr.startswith (String c r) (String a p) = false.
Proof.
  intros H. unfold PyStr.startswith. simpl.
  destruct (ascii_dec a c) as [->|_]; [|reflexivity].
  now rewrite Ascii.eqb_refl in H.
Qed.

Lemma startswith_cons_same (c : ascii) (r p : string) :
  PyStr.startswith (String c r) (String c p) = PyStr.startswith r p.
Proof.
  unfold PyStr.startswith. simpl.
  destruct (ascii_dec c c) as [_|Hne]; [reflexivity|congruence].
Qed.

(** No token starts a list item. *)
Lemma token_not_list_item (value : JsonValue) (d : Delimiter) (t rest : string) :
  token_reads_back value d = true ->
  encode_primitive value d = Ok t ->
  PyStr.startswith (t ++ rest) LIST_ITEM_PREFIX = false
  /\ String.eqb (t ++ rest) LIST_ITEM_MARKER = false.
Proof.
  intros Hback Henc.
  assert (Hhead : forall (c : ascii) (r : string),
             Ascii.eqb c "-" = false ->
             PyStr.startswith (String c r ++ rest) LIST_ITEM_PREFIX = false
             /\ String.eqb (String c r ++ rest) LIST_ITEM_MARKER = false).
  { intros c r Hc. cbn [append]. split.
    - now apply startswith_cons_false.
    - unfold LIST_ITEM_MARKER. cbn [String.eqb]. now rewrite Hc. }
  destruct value as [|b|z|f|s|items|members]; try discriminate Hback;
    cbn [encode_primitive] in Henc; injection Henc as <-.
  - now apply Hhead.
  - destruct b; now apply Hhead.
  - destruct (of_int_shape z) as (c & r & Hall & _ & _ & ->).
    assert (Hc : PyStr.is_digit c = true)
      by (simpl in Hall; now apply andb_true_iff in Hall as [? _]).
    assert (Hcs : Ascii.eqb c "-" = false /\ Ascii.eqb c " " = false).
    { destruct c as [[] [] [] [] [] [] [] []]; try (split; reflexivity);
        discriminate Hc. }
    destruct Hcs as [Hminus Hspace].
    destruct (z <? 0); [|now apply Hhead].
    cbn [append]. unfold LIST_ITEM_PREFIX, LIST_ITEM_MARKER. split.
    + rewrite startswith_cons_same. now apply startswith_cons_false.
    + reflexivity.
  - unfold encode_string_literal. destruct (is_safe_unquoted s d) eqn:Hsafe.
    + destruct (is_safe_unquoted_facts s d Hsafe)
        as (Hne & _ & _ & _ & _ & _ & _ & _ & _ & _ & _ & Hitem).
      destruct s as [|c r]; [congruence|].
      apply Hhead. unfold LIST_ITEM_MARKER in Hitem.
      destruct (Ascii.eqb_spec c "-") as [->|]; [|reflexivity].
      rewrite startswith_cons_same in Hitem. destruct r; discriminate Hitem.
    + unfold quoted. now apply (Hhead DOUBLE_QUOTE).
Qed.

Lemma row_not_list_item (values : list JsonValue) (d : Delimiter)
  (joined : string) :
  values <> [] ->
  forallb (fun value => token_reads_back value d) values = true ->
  encode_and_join_primitives values d = Ok joined ->
  PyStr.startswith joined LIST_ITEM_PREFIX = false
  /\ String.eqb joined LIST_ITEM_MARKER = false.
Proof.
  intros Hne Hback Henc.
  destruct values as [|v vs]; [congruence|].
  cbn [forallb] in Hback. apply andb_true_iff in Hback as [Hv _].
  unfold encode_and_join_primitives in Henc. cbn [mapM] in Henc.
  destruct (encode_primitive v d) as [t| |] eqn:Ht; try discriminate Henc.
  cbn [bind] in Henc.
  destruct (mapM (fun value => encode_primitive value d) vs) as [[|t' ts]| |];
    try discriminate Henc; cbn [bind] in Henc; injection Henc as <-.
  - cbn [PyStr.join]. rewrite <- (append_nil_r t).
    now apply token_not_list_item with (value := v) (d := d).
  - change (PyStr.join (str1 d) (t :: t' :: ts))
      with (t ++ str1 d ++ PyStr.join (str1 d) (t' :: ts)).
    now apply token_not_list_item with (value := v) (d := d).
Qed.

(** A line pushed one level deep that is no list item. *)
Lemma push_nested (writer : LineWriter) (content : string) :
  PyStr.rstrip content = content ->
  PyStr.startswith content LIST_ITEM_PREFIX = false ->
  String.eqb content LIST_ITEM_MARKER = false ->
  push writer 1 content
  = {| indent_size := indent_size writer;
       lines := (lines writer
                 ++ [(PyStr.spaces (Z.to_nat (1 * indent_size writer))
                      ++ content)%string])%list |}.
Proof.
  intros Hr Hprefix Hmarker. unfold push. rewrite Hr, Hprefix, Hmarker.
  reflexivity.
Qed.

Lemma row_values_all (members : JsonObject) :
  NoDup (dict_keys members) ->
  row_values members (dict_keys members) = Ok (map snd members).
Proof.
  induction members as [|[k v] members IH]; intros Hnd; [reflexivity|].
  change (dict_keys ((k, v) :: members)) with (k :: dict_keys members) in *.
  inversion Hnd as [|? ? Hfresh Hnd']; subst.
  unfold row_values. cbn [mapM].
  fold (row_values ((k, v) :: members) (dict_keys members)).
  rewrite (row_values_skip k v members _ Hfresh), (IH Hnd').
  cbn [dict_get]. rewrite String.eqb_refl. reflexivity.
Qed.

Lemma combine_keys_values (members : JsonObject) :
  combine (dict_keys members) (map snd members) = members.
Proof.
  induction members as [|[k v] members IH]; [reflexivity|].
  cbn [dict_keys map fst snd combine]. f_equal. exact IH.
Qed.

(** The lines [write_tabular_rows] writes one level deep, and what
    [decode_tabular_row] makes of each. *)
Lemma write_tabular_rows_lines (rows : list JsonValue) (header : list string)
  (options : ResolvedEncodeOptions) (hdr : ArrayHeaderInfo)
  (dec_options : ResolvedDecodeOptions) :
  is_valid_delimiter (enc_delimiter options) = true ->
  header <> [] -> NoDup header ->
  hdr_delimiter hdr = enc_delimiter options ->
  header_fields hdr = header ->
  Forall (row_round_trips header (enc_delimiter options)) rows ->
  forall writer : LineWriter,
  exists texts,
    write_tabular_rows rows header writer 1 options
    = Ok {| indent_size := indent_size writer;
            lines := (lines writer
                      ++ map (fun t => (PyStr.spaces
                                          (Z.to_nat (1 * indent_size writer))
                                        ++ t)%string)
                             texts)%list |}
    /\ Forall (fun t => PyStr.strip t = t /\ t <> ""
                        /\ PyStr.contains NEWLINE t = false) texts
    /\ Forall2 (fun t row =>
                  forall line, ln_content line = t ->
                               decode_tabular_row hdr line dec_options = Ok row)
               texts rows.
Proof.
  intros Hd Hne Hnd Hdelim Hfields. unfold write_tabular_rows.
  induction 1 as [|row rows Hrow _ IH]; intros writer.
  - exists []. cbn [foldM map]. rewrite List.app_nil_r.
    split; [now destruct writer|split; constructor].
  - destruct row as [| | | | | |members]; try contradiction.
    destruct Hrow as [Hkeys Hcells].
    assert (Hnd' : NoDup (dict_keys members)) by now rewrite Hkeys.
    pose proof (row_values_all members Hnd') as Hvalues. rewrite Hkeys in Hvalues.
    cbn [foldM]. rewrite Hvalues. cbn [bind].
    assert (Hvne : map snd members <> []).
    { rewrite <- Hkeys in Hne. destruct members; [now elim Hne|discriminate]. }
    destruct (encode_and_join_primitives (map snd members) (enc_delimiter options))
      as [joined| |] eqn:Hjoined.
    2,3: destruct (encode_and_join_primitives_succeeds (map snd members)
                     (enc_delimiter options)) as [joined Hok];
      [apply Forall_forall; apply forallb_forall;
       exact (cell_round_trips_primitive _ _ Hcells)|congruence].
    cbn [bind].
    destruct (cells_join_facts _ _ _ Hd Hvne Hcells Hjoined) as (Hjs & Hjne & Hjnl).
    destruct (cell_round_trips_parts _ _ Hcells) as [Hback _].
    destruct (row_not_list_item _ _ _ Hvne Hback Hjoined) as [Hprefix Hmarker].
    rewrite push_nested; [| |exact Hprefix|exact Hmarker].
    2: exact (rstrip_ends "" joined Hjs Hjne).
    destruct (IH {| indent_size := indent_size writer;
                    lines := (lines writer
                              ++ [(PyStr.spaces (Z.to_nat (1 * indent_size writer))
                                   ++ joined)%string])%list |})
      as (texts & Hrun & Hfacts & Hdecode).
    exists (joined :: texts). split; [|split].
    + rewrite Hrun. cbn [indent_size lines map].
      now rewrite <- List.app_assoc.
    + constructor; [repeat split; assumption|exact Hfacts].
    + constructor; [|exact Hdecode].
      intros line Hline.
      rewrite (decode_tabular_row_written hdr line (map snd members));
        rewrite ?Hfields, ?Hdelim, ?Hline; auto.
      * rewrite <- Hkeys. now rewrite combine_keys_values.
      * rewrite <- Hkeys. unfold dict_keys. now rewrite !length_map.
Qed.

Lemma lstrip_snoc_nonempty (x : string) (c : ascii) :
  PyStr.is_space c = false -> PyStr.lstrip (x ++ str1 c) <> "".
Proof.
  intros Hc. induction x as [|a x IH]; simpl.
  - now rewrite Hc.
  - destruct (PyStr.is_space a); [exact IH|discriminate].
Qed.

Lemma strip_head_nonblank (c : ascii) (r : string) :
  PyStr.is_space c = false -> PyStr.strip (String c r) <> "".
Proof.
  intros Hc. unfold PyStr.strip. simpl PyStr.lstrip. rewrite Hc.
  unfold PyStr.rstrip. rewrite rev_cons. intros H.
  apply (f_equal String.length) in H. rewrite length_rev in H.
  apply (lstrip_snoc_nonempty (PyStr.rev r) c Hc).
  destruct (PyStr.lstrip (PyStr.rev r ++ str1 c)); [reflexivity|discriminate H].
Qed.

Lemma decode_started (c : ascii) (r : string) (options : DecodeOptions) :
  PyStr.is_space c = false ->
  decode (String c r) options
  = let* lines := to_parsed_lines (String c r)
                    (dec_indent (resolve_decode_options options)) in
    if Nat.eqb (length lines) 0 then Ok (JObj [])
    else decode_value_from_lines (decode_fuel lines) (new_cursor lines)
                                 (resolve_decode_options options).
Proof.
  intros Hc. unfold decode.
  destruct (String.eqb_spec (PyStr.strip (String c r)) "") as [E|_];
    [now apply strip_head_nonblank in E|reflexivity].
Qed.

(** The loop of [decode_tabular_array] over rows that each decode. *)
Lemma decode_tabular_array_from_rows (header : ArrayHeaderInfo)
  (options : ResolvedDecodeOptions) (lines : list ParsedLine)
  (rows : list JsonValue) :
  Forall2 (fun line row => ln_depth line = 1
                           /\ decode_tabular_row header line options = Ok row)
          lines rows ->
  forall (pre : list ParsedLine) (objects : list JsonValue) (fuel : nat),
    (length lines < fuel)%nat ->
    hdr_length header = Z.of_nat (length objects + length lines) ->
    decode_tabular_array_from fuel header objects
      {| cur_lines := pre ++ lines; cur_index := length pre |} 0 options
    = Ok ((objects ++ rows)%list,
          {| cur_lines := pre ++ lines; cur_index := length (pre ++ lines) |}).
Proof.
  induction 1 as [|line row lines rows [Hdepth Hrow] _ IH];
    intros pre objects fuel Hfuel Hlen.
  - destruct fuel as [|fuel]; [simpl in Hfuel; lia|].
    rewrite !List.app_nil_r. cbn [decode_tabular_array_from].
    rewrite at_end_last. cbn [negb andb].
    unfold finish_tabular_array, check_no_more_rows.
    rewrite at_end_last, andb_false_r.
    simpl in Hlen. rewrite Nat.add_0_r in Hlen.
    rewrite Hlen, assert_expected_count_exact. reflexivity.
  - destruct fuel as [|fuel]; simpl in Hfuel; [lia|].
    cbn [decode_tabular_array_from].
    rewrite at_end_middle, peek_middle. cbn [negb andb].
    assert (Hless : (Z.of_nat (length objects) <? hdr_length header) = true).
    { apply Z.ltb_lt. rewrite Hlen. simpl. lia. }
    rewrite Hless, Hdepth. cbn [Z.add Z.ltb Z.eqb Z.compare Pos.compare
                                  Pos.compare_cont].
    rewrite Hrow. cbn [bind]. rewrite advance_middle.
    rewrite (IH (pre ++ [line])%list (objects ++ [row])%list fuel) by
      (try lia; rewrite Hlen, length_app; simpl; lia).
    now rewrite <- !List.app_assoc.
Qed.

Lemma select_array_form_tabular_facts (rows : list JsonValue)
  (header : list string) :
  select_array_form rows = FormTabular header ->
  rows <> [] /\ header <> [].
Proof.
  unfold select_array_form.
  destruct rows as [|row rows]; [discriminate|]. cbn [length Nat.eqb].
  destruct (is_array_of_primitives (JArr (row :: rows))); [discriminate|].
  destruct (is_array_of_arrays (JArr (row :: rows))
            && forallb is_array_of_primitives (row :: rows)); [discriminate|].
  destruct (is_array_of_objects (JArr (row :: rows))); [|discriminate].
  unfold extract_tabular_header.
  destruct row as [| | | | | |members]; try discriminate.
  destruct (dict_keys members) as [|k ks] eqn:Hkeys; [discriminate|].
  destruct (is_tabular_array (JObj members :: rows) (k :: ks)); [|discriminate].
  intros H. injection H as <-. split; discriminate.
Qed.

Lemma mapM_parse_nested_lines (indent_size : Z) (texts : list string) :
  0 < indent_size ->
  Forall (fun t => PyStr.lstrip t = t) texts ->
  mapM (parse_line indent_size)
       (map (fun t => PyStr.spaces (Z.to_nat (1 * indent_size)) ++ t) texts)
  = Ok (map (nested_line indent_size) texts).
Proof.
  intros Hsize. induction 1 as [|t ts Ht _ IH]; [reflexivity|].
  cbn [mapM map].
  rewrite (parse_line_indented indent_size 1 t Hsize ltac:(lia) Ht :
             parse_line indent_size
               (PyStr.spaces (Z.to_nat (1 * indent_size)) ++ t)
             = Ok (nested_line indent_size t)).
  cbn [bind]. now rewrite IH.
Qed.

Lemma nested_lines_decode (hdr : ArrayHeaderInfo)
  (options : ResolvedDecodeOptions) (indent_size : Z) (texts : list string)
  (rows : list JsonValue) :
  Forall2 (fun t row =>
             forall line, ln_content line = t ->
                          decode_tabular_row hdr line options = Ok row)
          texts rows ->
  Forall2 (fun line row => ln_depth line = 1
                           /\ decode_tabular_row hdr line options = Ok row)
          (map (nested_line indent_size) texts) rows.
Proof.
  induction 1 as [|t row ts rs Ht _ IH]; [constructor|].
  cbn [map]. constructor; [|exact IH].
  split; [reflexivity|]. now apply Ht.
Qed.

(** A table is read back from the text written for it. *)
Lemma decode_encode_table (rows : list JsonValue) (header : list string)
  (enc_options : ResolvedEncodeOptions) (dec_options : DecodeOptions)
  (text : string) :
  is_valid_delimiter (enc_delimiter enc_options) = true ->
  select_array_form rows = FormTabular header ->
  NoDup header ->
  forallb match_key_regex header = true ->
  Forall (row_round_trips header (enc_delimiter enc_options)) rows ->
  0 < enc_indent enc_options ->
  dec_indent (resolve_decode_options dec_options) = enc_indent enc_options ->
  encode_value (JArr rows) enc_options = Ok text ->
  decode text dec_options = Ok (JArr rows).
Proof.
  intros Hd Hform Hnd Hbare Hrows Hsize Hindent Henc.
  set (d := enc_delimiter enc_options) in *.
  set (marker := enc_lengthMarker enc_options) in *.
  set (size := enc_indent enc_options) in *.
  set (n := Z.of_nat (length rows)).
  set (header_line := format_header n None (Some header) d marker).
  set (hdr := written_header n None (Some header) d marker).
  set (resolved := resolve_decode_options dec_options) in *.
  destruct (select_array_form_tabular_facts rows header Hform) as [Hrne Hhne].
  unfold encode_value, encode_value_with, encode_fuel in Henc.
  cbn [is_json_primitive] in Henc.
  destruct (2 * json_size (JArr rows) + 2)%nat as [|fuel] eqn:Hfuel; [lia|].
  cbn [encode_array] in Henc. rewrite Hform in Henc.
  unfold encode_array_of_objects_as_tabular in Henc.
  fold d marker n header_line in Henc.
  destruct (format_header_facts n None (Some header) d marker Hd)
    as (Hhs & Hhne' & Hhnl & Hhcolon & Hhopen).
  fold header_line in Hhs, Hhne', Hhnl, Hhcolon, Hhopen.
  specialize (Hhopen eq_refl).
  rewrite push_root in Henc.
  2: { exact (rstrip_ends "" header_line Hhs Hhne'). }
  assert (Hfields : header_fields hdr = header).
  { subst hdr. unfold header_fields, written_header. cbn [hdr_fields].
    destruct header; [congruence|reflexivity]. }
  destruct (write_tabular_rows_lines rows header enc_options hdr resolved
              Hd Hhne Hnd eq_refl Hfields Hrows
              {| indent_size := size;
                 lines := ([] ++ [header_line])%list |})
    as (texts & Hrun & Hfacts & Hdecode).
  unfold new_writer in Henc. cbn [indent_size lines] in Henc, Hrun.
  change (0 + 1) with 1 in Henc. fold size in Henc.
  rewrite Hrun in Henc. cbn [bind] in Henc. injection Henc as <-.
  unfold to_string. cbn [lines app].
  change (match size with
          | 0 => 0
          | Z.pos y' => Z.pos y'
          | Z.neg y' => Z.neg y'
          end) with (1 * size).
  assert (Hshape : exists hl, header_line = String OPEN_BRACKET hl).
  { clearbody header_line. destruct header_line as [|c hl]; [congruence|].
    rewrite startswith_head in Hhopen. apply Ascii.eqb_eq in Hhopen. subst c.
    eauto. }
  destruct Hshape as [hl Hshape].
  assert (Htext : exists r,
             PyStr.join (str1 NEWLINE)
               (header_line
                :: map (fun t => PyStr.spaces (Z.to_nat (1 * size)) ++ t) texts)
             = String OPEN_BRACKET r).
  { rewrite Hshape. destruct texts as [|t ts]; cbn [map PyStr.join append]; eauto. }
  destruct Htext as [r Htext].
  rewrite Htext, decode_started, <- Htext by reflexivity.
  fold resolved. rewrite Hindent.
  rewrite to_parsed_lines_join.
  2: { constructor.
       - split; [exact Hhnl|now apply strip_fixed_nonblank].
       - apply Forall_forall. intros l Hin.
         apply in_map_iff in Hin as (t & <- & Hin).
         rewrite Forall_forall in Hfacts.
         destruct (Hfacts t Hin) as (Hts & Htne & Htnl).
         split.
         + rewrite contains_app, Htnl, orb_false_r.
           apply all_chars_not_contains with (p := fun c => Ascii.eqb c " ");
             [reflexivity|].
           generalize (Z.to_nat (1 * size)) as k.
           induction k as [|k IHk]; [reflexivity|exact IHk].
         + unfold PyStr.strip. rewrite lstrip_spaces.
           fold (PyStr.strip t). now apply strip_fixed_nonblank. }
  cbn [mapM].
  rewrite (parse_line_indented size 0 header_line Hsize (Z.le_refl 0)
             (lstrip_fixed _ Hhs Hhne') :
             parse_line size header_line = Ok (root_line header_line)).
  cbn [bind]. rewrite mapM_parse_nested_lines.
  2: exact Hsize.
  2: { eapply Forall_impl; [|exact Hfacts]. intros t (Hts & Htne & _).
       now apply lstrip_fixed. }
  cbn [bind length Nat.eqb]. unfold decode_value_from_lines.
  change (peek (new_cursor (root_line header_line
                            :: map (nested_line size) texts)))
    with (Some (root_line header_line)).
  cbv iota.
  assert (Hroot : is_root_array_header_line (root_line header_line) = true).
  { unfold is_root_array_header_line, is_array_header_after_hyphen, root_line.
    cbn [ln_content]. rewrite Hhs, Hhcolon, andb_true_r. exact Hhopen. }
  rewrite Hroot. cbn [ln_content root_line].
  pose proof (parse_array_header_line_written n None (Some header) d
                DEFAULT_DELIMITER marker "") as Hparse.
  rewrite append_nil_r in Hparse. fold header_line hdr in Hparse.
  rewrite Hparse; [|subst n; lia|exact Hd|now left|reflexivity|exact Hbare].
  cbn [bind PyStr.strip nonempty_or_none]. 
  change (nonempty_or_none (PyStr.strip "")) with (@None string).
  unfold decode_fuel. cbn [length].
  replace (5 * S (length (map (nested_line size) texts)) + 3)%nat
    with (S (S (5 * length texts + 6))) by (rewrite length_map; lia).
  cbn [decode_array_from_header has_inline_values].
  assert (Hhas : has_fields hdr = true).
  { subst hdr. unfold has_fields, written_header. cbn [hdr_fields].
    destruct header; [congruence|reflexivity]. }
  rewrite Hhas. unfold decode_tabular_array.
  assert (Hlines : Forall2 (fun line row =>
                              ln_depth line = 1
                              /\ decode_tabular_row hdr line resolved = Ok row)
                           (map (nested_line size) texts) rows).
  { now apply nested_lines_decode. }
  pose proof (Forall2_length Hlines) as Hcount. rewrite length_map in Hcount.
  pose proof (decode_tabular_array_from_rows hdr resolved _ _ Hlines
                [root_line header_line] [] (S (5 * length texts + 6))) as Hloop.
  cbn [app length] in Hloop. 
  change (advance (new_cursor (root_line header_line
                               :: map (nested_line size) texts)))
    with {| cur_lines := root_line header_line :: map (nested_line size) texts;
            cur_index := 1 |}.
  rewrite Hloop.
  - reflexivity.
  - rewrite length_map. lia.
  - subst hdr n. cbn [hdr_length written_header]. rewrite length_map, Hcount.
    reflexivity.
Qed.

(** X13: an array the encoder writes as a table comes back from
    [decode] as it went into [encode_value] -- header line, then one
    row a level deep for each object -- for each of the three
    delimiters, with or without length marker, in strict mode or not,
    when the decoder's indent is the encoder's, the field names need no
    quotes, and every row lists the fields in the header's order with
    values that a cell gives back. *)
Theorem decode_inverts_encode_value_on_tables :
  forall (rows : list JsonValue) (header : list string)
         (enc_options : ResolvedEncodeOptions) (dec_options : DecodeOptions)
         (text : string),
    is_valid_delimiter (enc_delimiter enc_options) = true ->
    select_array_form rows = FormTabular header ->
    NoDup header ->
    forallb match_key_regex header = true ->
    Forall (row_round_trips header (enc_delimiter enc_options)) rows ->
    0 < enc_indent enc_options ->
    dec_indent (resolve_decode_options dec_options) = enc_indent enc_options ->
    encode_value (JArr rows) enc_options = Ok text ->
    decode text dec_options = Ok (JArr rows).
Proof.
  exact decode_encode_table.
Qed.

(* ------------------------------------------------------------------ *)
(** ** Declared lengths *)

Lemma assert_expected_count_strict (actual expected : Z) (label : string)
  (options : ResolvedDecodeOptions) (u : unit) :
  dec_strict options = true ->
  assert_expected_count actual expected label options = Ok u ->
  actual = expected.
Proof.
  intros Hstrict. unfold assert_expected_count. rewrite Hstrict. cbn [andb].
  destruct (Z.eqb_spec actual expected); [auto|discriminate].
Qed.

Lemma finish_tabular_array_count (header : ArrayHeaderInfo)
  (objects : list JsonValue) (cursor : LineCursor) (row_depth : Depth)
  (options : ResolvedDecodeOptions) (items : list JsonValue) (cursor' : LineCursor) :
  finish_tabular_array header objects cursor row_depth options
  = Ok (items, cursor') ->
  items = objects
  /\ (dec_strict options = true ->
      Z.of_nat (length items) = hdr_length header).
Proof.
  unfold finish_tabular_array. intros H.
  destruct (assert_expected_count (Z.of_nat (length objects)) (hdr_length header)
              "tabular rows" options) as [u| |] eqn:Hcount; try discriminate H.
  cbn [bind] in H.
  destruct (check_no_more_rows header cursor row_depth options);
    try discriminate H.
  cbn [bind] in H. injection H as <- <-. split; [reflexivity|].
  intros Hstrict. now apply assert_expected_count_strict in Hcount.
Qed.

Lemma finish_list_array_count (header : ArrayHeaderInfo)
  (objects : list JsonValue) (cursor : LineCursor) (item_depth : Depth)
  (options : ResolvedDecodeOptions) (items : list JsonValue) (cursor' : LineCursor) :
  finish_list_array header objects cursor item_depth options
  = Ok (items, cursor') ->
  items = objects
  /\ (dec_strict options = true ->
      Z.of_nat (length items) = hdr_length header).
Proof.
  unfold finish_list_array. intros H.
  destruct (assert_expected_count (Z.of_nat (length objects)) (hdr_length header)
              "list array items" options) as [u| |] eqn:Hcount; try discriminate H.
  cbn [bind] in H.
  destruct (check_no_more_items header cursor item_depth options);
    try discriminate H.
  cbn [bind] in H. injection H as <- <-. split; [reflexivity|].
  intros Hstrict. now apply assert_expected_count_strict in Hcount.
Qed.

(** What the loops of [decode_tabular_array] and [decode_list_array]
    return: in strict mode as many items as declared, and never more
    than declared beyond those they started with. *)
Lemma decode_tabular_array_from_count (fuel : nat) (header : ArrayHeaderInfo)
  (options : ResolvedDecodeOptions) (base_depth : Depth) :
  forall (objects : list JsonValue) (cursor : LineCursor)
         (items : list JsonValue) (cursor' : LineCursor),
    decode_tabular_array_from fuel header objects cursor base_depth options
    = Ok (items, cursor') ->
    (dec_strict options = true -> Z.of_nat (length items) = hdr_length header)
    /\ Z.of_nat (length items)
       <= Z.max (Z.of_nat (length objects)) (hdr_length header).
Proof.
  induction fuel as [|fuel IH]; intros objects cursor items cursor' H;
    [discriminate H|].
  cbn [decode_tabular_array_from] in H.
  assert (Hfinish : forall row_depth,
             finish_tabular_array header objects cursor row_depth options
             = Ok (items, cursor') ->
             (dec_strict options = true ->
              Z.of_nat (length items) = hdr_length header)
             /\ Z.of_nat (length items)
                <= Z.max (Z.of_nat (length objects)) (hdr_length header)).
  { intros row_depth Hf.
    destruct (finish_tabular_array_count _ _ _ _ _ _ _ Hf) as [-> Hs].
    split; [exact Hs|lia]. }
  destruct (negb (at_end cursor)
            && (Z.of_nat (length objects) <? hdr_length header)) eqn:Hloop;
    [|now apply Hfinish in H].
  apply andb_true_iff in Hloop as [_ Hless]. apply Z.ltb_lt in Hless.
  destruct (peek cursor) as [line|]; [|now apply Hfinish in H].
  destruct (ln_depth line <? base_depth + 1); [now apply Hfinish in H|].
  destruct (ln_depth line =? base_depth + 1); [|now apply Hfinish in H].
  destruct (decode_tabular_row header line options) as [obj| |];
    try discriminate H.
  cbn [bind] in H. apply IH in H as [Hs Hle]. split; [exact Hs|].
  rewrite length_app in Hle. simpl in Hle. lia.
Qed.

Lemma decode_list_array_from_count (fuel : nat) (header : ArrayHeaderInfo)
  (options : ResolvedDecodeOptions) (base_depth : Depth) :
  forall (objects : list JsonValue) (cursor : LineCursor)
         (items : list JsonValue) (cursor' : LineCursor),
    decode_list_array_from fuel header objects cursor base_depth options
    = Ok (items, cursor') ->
    (dec_strict options = true -> Z.of_nat (length items) = hdr_length header)
    /\ Z.of_nat (length items)
       <= Z.max (Z.of_nat (length objects)) (hdr_length header).
Proof.
  induction fuel as [|fuel IH]; intros objects cursor items cursor' H;
    [discriminate H|].
  cbn [decode_list_array_from] in H.
  assert (Hfinish : forall item_depth,
             finish_list_array header objects cursor item_depth options
             = Ok (items, cursor') ->
             (dec_strict options = true ->
              Z.of_nat (length items) = hdr_length header)
             /\ Z.of_nat (length items)
                <= Z.max (Z.of_nat (length objects)) (hdr_length header)).
  { intros item_depth Hf.
    destruct (finish_list_array_count _ _ _ _ _ _ _ Hf) as [-> Hs].
    split; [exact Hs|lia]. }
  assert (Hnext : forall (item : JsonValue) (c : LineCursor),
             decode_list_array_from fuel header (objects ++ [item]) c base_depth
                                    options = Ok (items, cursor') ->
             Z.of_nat (length objects) < hdr_length header ->
             (dec_strict options = true ->
              Z.of_nat (length items) = hdr_length header)
             /\ Z.of_nat (length items)
                <= Z.max (Z.of_nat (length objects)) (hdr_length header)).
  { intros item c Hrec Hless. apply IH in Hrec as [Hs Hle].
    split; [exact Hs|]. rewrite length_app in Hle. simpl in Hle. lia. }
  destruct (negb (at_end cursor)
            && (Z.of_nat (length objects) <? hdr_length header)) eqn:Hloop;
    [|now apply Hfinish in H].
  apply andb_true_iff in Hloop as [_ Hless]. apply Z.ltb_lt in Hless.
  destruct (peek cursor) as [line|]; [|now apply Hfinish in H].
  destruct (ln_depth line <? min_candidate_depth (base_depth + 1));
    [now apply Hfinish in H|].
  destruct (in_candidate_depths (base_depth + 1) (ln_depth line));
    [|now apply Hfinish in H].
  destruct (String.eqb (ln_content line) LIST_ITEM_MARKER);
    [now apply Hnext in H|].
  destruct (PyStr.startswith (ln_content line) LIST_ITEM_PREFIX).
  - destruct (decode_list_item fuel cursor (base_depth + 1) (hdr_delimiter header)
                options) as [[item c]| |]; try discriminate H.
    cbn [bind] in H. now apply Hnext in H.
  - destruct (parse_array_header_line (ln_content line) (hdr_delimiter header))
      as [[[nested inline_values]|]| |]; try discriminate H; cbn [bind] in H.
    + destruct (decode_array_from_header fuel nested inline_values
                  (advance cursor) (base_depth + 1) options) as [[value c]| |];
        try discriminate H.
      cbn [bind] in H. now apply Hnext in H.
    + now apply Hfinish in H.
Qed.

Lemma decode_array_from_header_count (fuel : nat) (header : ArrayHeaderInfo)
  (inline_values : option string) (cursor : LineCursor) (base_depth : Depth)
  (options : ResolvedDecodeOptions) (items : list JsonValue)
  (cursor' : LineCursor) :
  decode_array_from_header fuel header inline_values cursor base_depth options
  = Ok (items, cursor') ->
  (dec_strict options = true -> Z.of_nat (length items) = hdr_length header)
  /\ (has_inline_values inline_values = None ->
      Z.of_nat (length items) <= Z.max 0 (hdr_length header)).
Proof.
  destruct fuel as [|fuel]; [discriminate|].
  cbn [decode_array_from_header].
  destruct (has_inline_values inline_values) as [text|].
  - unfold decode_inline_primitive_array.
    destruct (map_row_values_to_primitives _) as [primitives| |];
      try discriminate.
    cbn [bind].
    destruct (assert_expected_count (Z.of_nat (length primitives))
                (hdr_length header) "inline array items" options) as [u| |]
      eqn:Hcount; try discriminate.
    cbn [bind]. intros H. injection H as <- <-.
    split; [|discriminate].
    intros Hstrict. now apply assert_expected_count_strict in Hcount.
  - destruct (has_fields header); intros H.
    + apply decode_tabular_array_from_count in H as [Hs Hle]. now split.
    + apply decode_list_array_from_count in H as [Hs Hle]. now split.
Qed.

(** X14: whatever the lines hold, an array that
    [decode_array_from_header] returns in strict mode has exactly the
    length its header declares -- inline, tabular or list -- and in
    either mode a tabular or list array never has more items than
    declared: lines beyond the declared count are left unread. *)
Theorem decoded_array_has_declared_length :
  forall (fuel : nat) (header : ArrayHeaderInfo) (inline_values : option string)
         (cursor : LineCursor) (base_depth : Depth)
         (options : ResolvedDecodeOptions) (items : list JsonValue)
         (cursor' : LineCursor),
    decode_array_from_header fuel header inline_values cursor base_depth options
    = Ok (items, cursor') ->
    (dec_strict options = true -> Z.of_nat (length items) = hdr_length header)
    /\ (has_inline_values inline_values = None ->
        Z.of_nat (length items) <= Z.max 0 (hdr_length header)).
Proof.
  exact decode_array_from_header_count.
Qed.

(* ------------------------------------------------------------------ *)
(** ** Encoder options *)

Lemma normalise_delimiter_outcome (value : string) :
  match _normalise_delimiter value with
  | Ok d => is_valid_delimiter d = true
  | Raise e => e = UnsupportedDelimiter value
  | OutOfFuel => False
  end.
Proof.
  unfold _normalise_delimiter.
  repeat match goal with
         | |- context [if ?b then _ else _] => destruct b; [reflexivity|]
         end.
  reflexivity.
Qed.

Lemma resolve_encode_options_outcome (options : EncodeOptions) :
  match resolve_encode_options options with
  | Ok resolved => is_valid_delimiter (enc_delimiter resolved) = true
  | Raise e => is_option_error e = true
  | OutOfFuel => False
  end.
Proof.
  unfold resolve_encode_options.
  destruct (opt_delimiter options) as [value|].
  - pose proof (normalise_delimiter_outcome value) as Hd.
    destruct (_normalise_delimiter value) as [d|e|]; [|now subst e|contradiction].
    cbn [bind].
    destruct (opt_length_marker options) as [[[|]| |s]|]; cbn; auto.
    destruct (String.eqb s "#"); cbn; auto.
  - cbn [bind].
    destruct (opt_length_marker options) as [[[|]| |s]|]; cbn; auto.
    destruct (String.eqb s "#"); cbn; auto.
Qed.


(* ------------------------------------------------------------------ *)
(** ** Coalescing surplus tokens *)

Lemma join_app (sep : string) (a b : list string) :
  a <> [] -> b <> [] ->
  PyStr.join sep (a ++ b) = PyStr.join sep a ++ sep ++ PyStr.join sep b.
Proof.
  intros Ha Hb. induction a as [|x a IH]; [congruence|].
  destruct a as [|y a].
  - destruct b as [|z b]; [congruence|reflexivity].
  - change (PyStr.join sep ((x :: y :: a) ++ b))
      with (x ++ sep ++ PyStr.join sep ((y :: a) ++ b)).
    rewrite IH by discriminate.
    change (PyStr.join sep (x :: y :: a))
      with (x ++ sep ++ PyStr.join sep (y :: a)).
    now rewrite !append_assoc.
Qed.

Lemma join_merge_tail (values : list string) (expected : Z) (d : Delimiter) :
  0 < expected -> expected <= Z.of_nat (length values) ->
  PyStr.join (str1 d) (merge_tail values expected d) = PyStr.join (str1 d) values.
Proof.
  intros Hpos Hle. unfold merge_tail.
  set (k := Z.to_nat (expected - 1)).
  assert (Hk : (k < length values)%nat) by lia.
  rewrite <- (firstn_skipn k values) at 3.
  assert (Htail : skipn k values <> []).
  { intros E. apply (f_equal (@length string)) in E.
    rewrite length_skipn in E. simpl in E. lia. }
  destruct (firstn k values) as [|x xs] eqn:Hhead; [reflexivity|].
  rewrite !join_app; try discriminate; auto.
Qed.

Lemma join_chunks_facts (fuel : nat) (d : Delimiter) (k : nat) :
  (0 < k)%nat ->
  forall values : list string,
    (length values <= fuel)%nat ->
    PyStr.join (str1 d) (join_chunks fuel values k d) = PyStr.join (str1 d) values
    /\ (values <> [] -> join_chunks fuel values k d <> [])
    /\ forall m : nat, length values = (m * k)%nat ->
                       length (join_chunks fuel values k d) = m.
Proof.
  intros Hk. induction fuel as [|fuel IH]; intros values Hfuel.
  - destruct values; [|simpl in Hfuel; lia].
    repeat split; try congruence. intros m Hm. simpl in Hm |- *. nia.
  - destruct values as [|v vs].
    + repeat split; try congruence. intros m Hm. simpl in Hm |- *. nia.
    + cbn [join_chunks].
      assert (Hpos : (0 < length (v :: vs))%nat) by (simpl; lia).
      assert (Hhead : firstn k (v :: vs) <> []).
      { destruct k; [lia|]. discriminate. }
      remember (v :: vs) as values eqn:Hvalues.
      assert (Hrest : (length (skipn k values) <= fuel)%nat).
      { rewrite length_skipn. lia. }
      destruct (IH (skipn k values) Hrest) as (Hjoin & Hne & Hcount).
      split; [|split; [discriminate|]].
      * destruct (skipn k values) as [|r rs] eqn:Hskip.
        -- destruct fuel; cbn [join_chunks PyStr.join];
             rewrite <- (firstn_skipn k values) at 2;
             now rewrite Hskip, List.app_nil_r.
        -- specialize (Hne ltac:(discriminate)).
           destruct (join_chunks fuel (r :: rs) k d) as [|c cs] eqn:Hchunks;
             [congruence|].
           change (PyStr.join (str1 d)
                     (PyStr.join (str1 d) (firstn k values) :: c :: cs))
             with (PyStr.join (str1 d) (firstn k values)
                   ++ str1 d ++ PyStr.join (str1 d) (c :: cs)).
           rewrite Hjoin, <- join_app by (auto; discriminate).
           now rewrite <- Hskip, firstn_skipn.
      * intros m Hm. destruct m as [|m]; [simpl in Hm; lia|].
        cbn [length]. f_equal. apply Hcount.
        rewrite length_skipn, Hm. simpl. lia.
Qed.

(** X16: [_coalesce_inline_values] loses no text -- the tokens it
    returns, joined by the delimiter, are the tokens it was given,
    joined by the delimiter -- and when it is given more tokens than
    the positive count expected it returns exactly that many. *)
Theorem coalesce_inline_values_keeps_text :
  forall (values : list string) (expected : Z) (d : Delimiter),
    PyStr.join (str1 d) (_coalesce_inline_values values expected d)
    = PyStr.join (str1 d) values
    /\ (0 < expected -> expected < Z.of_nat (length values) ->
        Z.of_nat (length (_coalesce_inline_values values expected d)) = expected).
Proof.
  intros values expected d. unfold _coalesce_inline_values.
  set (n := Z.of_nat (length values)).
  destruct (Z.leb_spec expected 0) as [H0|H0]; [split; [reflexivity|lia]|].
  destruct (Z.eqb_spec n expected) as [H1|H1]; [split; [reflexivity|lia]|].
  destruct (Z.ltb_spec n expected) as [H2|H2]; [split; [reflexivity|lia]|].
  destruct ((n mod expected =? 0) && (1 <? n / expected)) eqn:Hchunk.
  - apply andb_true_iff in Hchunk as [Hmod Hsize].
    apply Z.eqb_eq in Hmod. apply Z.ltb_lt in Hsize.
    assert (Hk : (0 < Z.to_nat (n / expected))%nat) by lia.
    destruct (join_chunks_facts (length values) d (Z.to_nat (n / expected)) Hk
                values (Nat.le_refl _)) as (Hjoin & _ & Hcount).
    split; [exact Hjoin|]. intros _ _.
    rewrite (Hcount (Z.to_nat expected)); [lia|].
    apply Nat2Z.inj. rewrite Nat2Z.inj_mul, !Z2Nat.id by lia.
    fold n. rewrite Z.mul_comm. apply Z.div_exact in Hmod; lia.
  - destruct (Z.ltb_spec 1 expected) as [H3|H3].
    + destruct (Z.ltb_spec expected n) as [H4|H4]; [|lia]. cbn [andb].
      split; [apply join_merge_tail; lia|].
      intros _ _. apply length_merge_tail; lia.
    + exfalso. assert (expected = 1) by lia. subst expected.
      rewrite Z.mod_1_r, Z.div_1_r in Hchunk. cbn [Z.eqb andb] in Hchunk.
      apply Z.ltb_ge in Hchunk. lia.
Qed.

(* ------------------------------------------------------------------ *)
(** ** Normalisation of dicts *)

Lemma normalize_dict_assigns (items : list (PyKey * PyValue)) :
  normalize_value (PDict items)
  = JObj (assign_all (map normalized_item items) []).
Proof.
  change (normalize_value (PDict items))
    with (JObj (fold_left
                  (fun result_ kv =>
                     match kv with
                     | (key, val) =>
                         dict_set (key_str key) (normalize_value val) result_
                     end)
                  items [])).
  f_equal. unfold assign_all. generalize (@nil (string * JsonValue)) as acc.
  induction items as [|[key val] items IH]; intros acc; [reflexivity|].
  cbn [fold_left map]. apply IH.
Qed.


(* ------------------------------------------------------------------ *)
(** ** Blank texts and a zero indent *)

Lemma lstrip_empty_iff (s : string) :
  PyStr.lstrip s = "" <-> PyStr.all_chars PyStr.is_space s = true.
Proof.
  induction s as [|c s IH]; simpl; [tauto|].
  destruct (PyStr.is_space c); simpl; [exact IH|].
  split; discriminate.
Qed.

Lemma rev_empty (s : string) : PyStr.rev s = "" -> s = "".
Proof.
  intros H. apply (f_equal String.length) in H. rewrite length_rev in H.
  destruct s; [reflexivity|discriminate H].
Qed.

Lemma lstrip_spaces_only (s : string) :
  PyStr.all_chars PyStr.is_space (PyStr.lstrip s) = true -> PyStr.lstrip s = "".
Proof.
  induction s as [|c s IH]; simpl; [reflexivity|].
  destruct (PyStr.is_space c) eqn:Hc; [exact IH|].
  simpl. rewrite Hc. discriminate.
Qed.

(** A text is blank when it holds whitespace only. *)
Lemma strip_empty_iff (s : string) :
  PyStr.strip s = "" <-> PyStr.all_chars PyStr.is_space s = true.
Proof.
  unfold PyStr.strip, PyStr.rstrip. split.
  - intros H. apply rev_empty, lstrip_empty_iff in H.
    rewrite all_chars_rev in H. now apply lstrip_spaces_only, lstrip_empty_iff in H.
  - intros H. apply lstrip_empty_iff in H. now rewrite H.
Qed.

Lemma split_aux_blank_current (c : ascii) (s cur : string) :
  Forall (fun l => PyStr.all_chars PyStr.is_space l = true)
         (PyStr.split_aux c s cur) ->
  PyStr.all_chars PyStr.is_space cur = true.
Proof.
  revert cur. induction s as [|a s IH]; intros cur H; cbn [PyStr.split_aux] in H.
  - apply Forall_inv in H. now rewrite all_chars_rev in H.
  - destruct (Ascii.eqb a c).
    + apply Forall_inv in H. now rewrite all_chars_rev in H.
    + apply IH in H. cbn [PyStr.all_chars] in H.
      now apply andb_true_iff in H as [_ ?].
Qed.

Lemma split_aux_blank (c : ascii) (s cur : string) :
  PyStr.is_space c = true ->
  Forall (fun l => PyStr.all_chars PyStr.is_space l = true)
         (PyStr.split_aux c s cur) ->
  PyStr.all_chars PyStr.is_space s = true.
Proof.
  intros Hc. revert cur. induction s as [|a s IH]; intros cur H; [reflexivity|].
  cbn [PyStr.split_aux] in H. cbn [PyStr.all_chars].
  destruct (Ascii.eqb_spec a c) as [->|_].
  - rewrite Hc. apply Forall_inv_tail in H. now apply IH in H.
  - rewrite (IH _ H), andb_true_r.
    apply split_aux_blank_current in H. cbn [PyStr.all_chars] in H.
    now apply andb_true_iff in H as [? _].
Qed.

(** A text that is not blank has a line that is not blank. *)
Lemma nonblank_line_exists (text : string) :
  PyStr.strip text <> "" ->
  exists l ls,
    filter (fun raw_line => negb (String.eqb (PyStr.strip raw_line) ""))
           (PyStr.split NEWLINE text) = l :: ls.
Proof.
  intros Htext.
  destruct (filter (fun raw_line => negb (String.eqb (PyStr.strip raw_line) ""))
                   (PyStr.split NEWLINE text)) as [|l ls] eqn:Hfilter; [|eauto].
  exfalso. apply Htext. apply strip_empty_iff.
  apply (split_aux_blank NEWLINE text "" eq_refl).
  apply Forall_forall. intros l Hin. apply strip_empty_iff.
  destruct (String.eqb_spec (PyStr.strip l) "") as [E|Hne]; [exact E|].
  assert (Hl : In l (filter (fun raw_line =>
                               negb (String.eqb (PyStr.strip raw_line) ""))
                            (PyStr.split NEWLINE text))).
  { apply filter_In. split; [exact Hin|].
    destruct (String.eqb_spec (PyStr.strip l) ""); [contradiction|reflexivity]. }
  rewrite Hfilter in Hl. contradiction.
Qed.

(** X18: with the option [indent] set to 0, [decode] returns the empty
    object for a blank text and raises [ZeroDivisionError], not a
    [ValueError], for every other text: the scanner divides the
    indentation of the first line that is not blank by the indent. *)
Theorem decode_with_zero_indent :
  forall (input_text : string) (strict : option bool),
    let options := {| opt_dec_indent := Some 0; opt_strict := strict |} in
    (PyStr.strip input_text = "" -> decode input_text options = Ok (JObj []))
    /\ (PyStr.strip input_text <> "" ->
        decode input_text options = Raise ZeroDivisionError).
Proof.
  intros input_text strict options. unfold decode. split.
  - intros ->. now rewrite orb_true_r.
  - intros Htext.
    destruct (String.eqb_spec input_text "") as [->|_]; [now elim Htext|].
    destruct (String.eqb_spec (PyStr.strip input_text) "") as [|_];
      [contradiction|].
    cbn [orb]. unfold to_parsed_lines.
    destruct (nonblank_line_exists input_text Htext) as (l & ls & ->).
    reflexivity.
Qed.

(* ------------------------------------------------------------------ *)
(** ** Rows with too few values *)

Lemma fill_row_short (fields : list string) (primitives : list JsonValue) :
  forall (idx : nat) (obj : JsonObject),
    (idx <= length primitives)%nat ->
    (length primitives < idx + length fields)%nat ->
    fill_row fields idx primitives obj = Raise IndexError.
Proof.
  induction fields as [|f fields IH]; intros idx obj Hidx Hshort.
  - simpl in Hshort. lia.
  - cbn [fill_row]. destruct (nth_error primitives idx) as [v|] eqn:Hv;
      [|reflexivity].
    assert (Hlt : (idx < length primitives)%nat).
    { apply nth_error_Some. congruence. }
    apply IH; simpl in Hshort; lia.
Qed.

Lemma coalesce_row_short (tokens : list string) (expected : Z) (d : Delimiter) :
  Z.of_nat (length tokens) < expected ->
  _coalesce_row_values tokens expected d = tokens.
Proof.
  intros Hshort. unfold _coalesce_row_values.
  destruct (Z.leb_spec expected 0); [reflexivity|].
  destruct (Z.eqb_spec (Z.of_nat (length tokens)) expected); [reflexivity|].
  destruct (Z.ltb_spec expected (Z.of_nat (length tokens))); [lia|reflexivity].
Qed.

(** X19: a table row with fewer cells than the header has fields is
    never accepted.  Strict mode raises the count mismatch; without
    strict mode the row is not padded: reading the cell of the first
    field that has none raises [IndexError], unless a cell before it
    fails to parse. *)
Theorem decode_tabular_row_rejects_short_rows :
  forall (header : ArrayHeaderInfo) (line : ParsedLine)
         (options : ResolvedDecodeOptions),
    let tokens := parse_delimited_values (ln_content line) (hdr_delimiter header) in
    (length tokens < length (header_fields header))%nat ->
    (dec_strict options = true ->
     decode_tabular_row header line options
     = Raise (CountMismatch (Z.of_nat (length (header_fields header)))
                            "tabular row values" (Z.of_nat (length tokens))))
    /\ (dec_strict options = false ->
        decode_tabular_row header line options
        = match map_row_values_to_primitives tokens with
          | Ok _ => Raise IndexError
          | Raise e => Raise e
          | OutOfFuel => OutOfFuel
          end).
Proof.
  intros header line options tokens Hshort.
  unfold decode_tabular_row. fold tokens.
  rewrite coalesce_row_short by lia.
  unfold assert_expected_count. split; intros ->; cbn [andb].
  - destruct (Z.eqb_spec (Z.of_nat (length tokens))
                         (Z.of_nat (length (header_fields header)))); [lia|].
    reflexivity.
  - cbn [bind].
    destruct (map_row_values_to_primitives tokens) as [primitives| |] eqn:Hp;
      [|reflexivity..].
    cbn [bind]. unfold map_row_values_to_primitives in Hp.
    apply mapM_length in Hp.
    rewrite fill_row_short by (simpl; lia). reflexivity.
Qed.

(* ------------------------------------------------------------------ *)
(** ** Key-value lines *)

Lemma unescape_loop_cons (char : ascii) (rest result_ : string) :
  unescape_loop (String char rest) result_
  = if Ascii.eqb char BACKSLASH then
      match rest with
      | EmptyString => Raise EscapeAtEnd
      | String nxt rest' =>
          if Ascii.eqb nxt "n" then unescape_loop rest' (result_ ++ str1 NEWLINE)
          else if Ascii.eqb nxt "t" then unescape_loop rest' (result_ ++ str1 TAB)
          else if Ascii.eqb nxt "r"
          then unescape_loop rest' (result_ ++ str1 CARRIAGE_RETURN)
          else if Ascii.eqb nxt BACKSLASH
          then unescape_loop rest' (result_ ++ str1 BACKSLASH)
          else if Ascii.eqb nxt DOUBLE_QUOTE
          then unescape_loop rest' (result_ ++ str1 DOUBLE_QUOTE)
          else Raise (InvalidEscape nxt)
      end
    else unescape_loop rest (result_ ++ str1 char).
Proof.
  reflexivity.
Qed.

Lemma unescape_loop_outcome_upto (n : nat) :
  forall value result_ : string,
    (String.length value <= n)%nat ->
    match unescape_loop value result_ with
    | Ok _ => True
    | Raise e => is_escape_error e = true
    | OutOfFuel => False
    end.
Proof.
  induction n as [|n IH]; intros value result_ Hlen.
  - destruct value; [exact I|simpl in Hlen; lia].
  - destruct value as [|c rest]; [exact I|].
    rewrite unescape_loop_cons. simpl in Hlen.
    destruct (Ascii.eqb c BACKSLASH); [|apply IH; lia].
    destruct rest as [|nxt rest']; [reflexivity|]. simpl in Hlen.
    repeat match goal with
           | |- context [if ?b then _ else _] => destruct b; [apply IH; lia|]
           end.
    reflexivity.
Qed.

Lemma unescape_string_outcome (value : string) :
  match unescape_string value with
  | Ok _ => True
  | Raise e => is_escape_error e = true
  | OutOfFuel => False
  end.
Proof.
  apply (unescape_loop_outcome_upto (String.length value)). lia.
Qed.

Lemma find_aux_present (c : ascii) (s : string) (i : Z) :
  PyStr.contains c s = true -> i <= PyStr.find_aux c s i.
Proof.
  revert i. induction s as [|a s IH]; intros i H; [discriminate H|].
  simpl in H |- *. destruct (Ascii.eqb a c); [lia|].
  specialize (IH (i + 1) H). lia.
Qed.

(** The loops of [is_key_value_line] and [parse_quoted_key] walk a
    quoted key in step. *)
Lemma quoted_key_line_loop_cons (char : ascii) (rest : string) :
  quoted_key_line_loop (String char rest)
  = match rest with
    | String nxt rest' =>
        if Ascii.eqb char BACKSLASH then quoted_key_line_loop rest'
        else if Ascii.eqb char DOUBLE_QUOTE then Ascii.eqb nxt COLON
        else quoted_key_line_loop rest
    | EmptyString =>
        if Ascii.eqb char DOUBLE_QUOTE then false
        else quoted_key_line_loop rest
    end.
Proof.
  reflexivity.
Qed.

Lemma parse_quoted_key_loop_cons (char : ascii) (rest : string) (i : Z)
  (key_content : string) :
  parse_quoted_key_loop (String char rest) i key_content
  = match rest with
    | String nxt rest' =>
        if Ascii.eqb char BACKSLASH
        then parse_quoted_key_loop rest' (i + 2)
               (key_content ++ String char (str1 nxt))
        else if Ascii.eqb char DOUBLE_QUOTE then
          if negb (Ascii.eqb nxt COLON) then Raise MissingColon
          else let* parsed := unescape_string key_content in Ok (parsed, i + 2)
        else parse_quoted_key_loop rest (i + 1) (key_content ++ str1 char)
    | EmptyString =>
        if Ascii.eqb char DOUBLE_QUOTE then Raise MissingColon
        else parse_quoted_key_loop rest (i + 1) (key_content ++ str1 char)
    end.
Proof.
  reflexivity.
Qed.

Lemma quoted_key_loops_agree_upto (n : nat) :
  forall (unread : string) (i : Z) (key_content : string),
    (String.length unread <= n)%nat ->
    if quoted_key_line_loop unread
    then exists (text : string) (end_ : Z),
           parse_quoted_key_loop unread i key_content
           = let* parsed := unescape_string text in Ok (parsed, end_)
    else exists e, parse_quoted_key_loop unread i key_content = Raise e
                   /\ is_key_error e = true.
Proof.
  induction n as [|n IH]; intros unread i key_content Hlen.
  - destruct unread; [|simpl in Hlen; lia]. cbn. eauto.
  - destruct unread as [|c rest]; [cbn; eauto|].
    rewrite quoted_key_line_loop_cons, parse_quoted_key_loop_cons.
    simpl in Hlen. destruct rest as [|nxt rest'].
    + destruct (Ascii.eqb c DOUBLE_QUOTE); [cbn; eauto|].
      apply IH. simpl. lia.
    + simpl in Hlen. destruct (Ascii.eqb c BACKSLASH); [apply IH; lia|].
      destruct (Ascii.eqb c DOUBLE_QUOTE); [|apply IH; simpl; lia].
      destruct (Ascii.eqb nxt COLON); cbn [negb]; eauto.
Qed.

(** X20: [is_key_value_line] answers as [parse_key_token] will fare on
    the line: where it says yes, the key is parsed, unless a quoted key
    holds a bad escape; where it says no, parsing the key raises
    ['Missing key'], ['Missing colon after key'] or ['Unterminated
    quoted key']. *)
Theorem is_key_value_line_foretells_parse_key_token :
  forall line : ParsedLine,
    if is_key_value_line line
    then (exists (key : string) (end_ : Z),
             parse_key_token (ln_content line) 0 = Ok (key, end_))
         \/ (exists e, parse_key_token (ln_content line) 0 = Raise e
                       /\ is_escape_error e = true)
    else exists e, parse_key_token (ln_content line) 0 = Raise e
                   /\ is_key_error e = true.
Proof.
  intros line. unfold is_key_value_line, parse_key_token.
  destruct (ln_content line) as [|c rest] eqn:Hcontent; [cbn; eauto|].
  rewrite at_head. destruct (Ascii.eqb_spec c DOUBLE_QUOTE) as [->|Hq].
  - unfold parse_quoted_key.
    change (PyStr.from (String DOUBLE_QUOTE rest) (0 + 1)) with rest.
    pose proof (quoted_key_loops_agree_upto (String.length rest) rest (0 + 1) ""
                  (Nat.le_refl _)) as H.
    destruct (quoted_key_line_loop rest); [|exact H].
    destruct H as (text & end_ & ->).
    pose proof (unescape_string_outcome text) as Hu.
    destruct (unescape_string text) as [parsed|e|]; cbn [bind];
      [left; eauto|right; eauto|contradiction].
  - unfold parse_unquoted_key.
    destruct (PyStr.contains COLON (String c rest)) eqn:Hcolon.
    + left. destruct (Z.eqb_spec (PyStr.find COLON (String c rest) 0) (-1))
        as [E|_]; [|eauto].
      exfalso. unfold PyStr.find in E. rewrite from_zero in E.
      pose proof (find_aux_present COLON (String c rest) 0 Hcolon). lia.
    + rewrite (find_absent _ _ Hcolon). cbn. eauto.
Qed.

(* ------------------------------------------------------------------ *)
(** ** The writer and the scanner *)

Lemma rstrip_fixed (t : string) :
  PyStr.strip t = t -> PyStr.rstrip t = t.
Proof.
  intros Hs. destruct t as [|c r]; [reflexivity|].
  exact (rstrip_ends "" (String c r) Hs ltac:(discriminate)).
Qed.

Lemma written_depth_nonneg (depth : Depth) (content : string) :
  0 <= depth -> 0 <= written_depth depth content.
Proof.
  intros H. unfold written_depth.
  destruct ((0 <? depth) && _); lia.
Qed.

Lemma push_written (writer : LineWriter) (depth : Depth) (content : string) :
  PyStr.strip content = content ->
  push writer depth content
  = {| indent_size := indent_size writer;
       lines := (lines writer
                 ++ [(PyStr.spaces
                        (Z.to_nat (written_depth depth content * indent_size writer))
                      ++ content)%string])%list |}.
Proof.
  intros Hs. unfold push, written_depth. now rewrite (rstrip_fixed _ Hs).
Qed.

Lemma push_all_lines (items : list (Depth * string)) :
  Forall (fun item => PyStr.strip (snd item) = snd item) items ->
  forall writer : LineWriter,
    push_all writer items
    = {| indent_size := indent_size writer;
         lines := (lines writer
                   ++ map (fun item =>
                             (PyStr.spaces
                                (Z.to_nat (written_depth (fst item) (snd item)
                                           * indent_size writer))
                              ++ snd item)%string)
                          items)%list |}.
Proof.
  unfold push_all. induction 1 as [|[depth content] items Hitem _ IH];
    intros writer.
  - cbn [fold_left map]. rewrite List.app_nil_r. now destruct writer.
  - cbn [fold_left fst snd map] in *. rewrite (push_written _ _ _ Hitem), IH.
    cbn [indent_size lines]. now rewrite <- List.app_assoc.
Qed.

Lemma spaces_no_newline (n : nat) :
  PyStr.contains NEWLINE (PyStr.spaces n) = false.
Proof.
  induction n as [|n IH]; [reflexivity|exact IH].
Qed.

Lemma mapM_parse_written (indent_size : Z) (items : list (Depth * string)) :
  0 < indent_size ->
  Forall (fun item => 0 <= fst item
                      /\ PyStr.strip (snd item) = snd item
                      /\ snd item <> ""
                      /\ PyStr.contains NEWLINE (snd item) = false) items ->
  mapM (parse_line indent_size)
       (map (fun item => ln_raw (scanned_line indent_size item)) items)
  = Ok (map (scanned_line indent_size) items).
Proof.
  intros Hsize.
  induction 1 as [|[depth content] rest (Hd & Hs & Hcne & _) _ IH];
    [reflexivity|].
  cbn [map mapM].
  rewrite (parse_line_indented indent_size (written_depth depth content) content
             Hsize (written_depth_nonneg _ _ Hd) (lstrip_fixed _ Hs Hcne)
           : parse_line indent_size
               (ln_raw (scanned_line indent_size (depth, content)))
             = Ok (scanned_line indent_size (depth, content))).
  cbn [bind]. now rewrite IH.
Qed.

Lemma written_lines_scan (indent_size : Z) (items : list (Depth * string)) :
  Forall (fun item => 0 <= fst item
                      /\ PyStr.strip (snd item) = snd item
                      /\ snd item <> ""
                      /\ PyStr.contains NEWLINE (snd item) = false) items ->
  Forall (fun l => PyStr.contains NEWLINE l = false
                   /\ String.eqb (PyStr.strip l) "" = false)
         (map (fun item => ln_raw (scanned_line indent_size item)) items).
Proof.
  intros Hall. apply Forall_forall. intros l Hin.
  apply in_map_iff in Hin as (it & <- & Hin).
  rewrite Forall_forall in Hall. destruct (Hall it Hin) as (_ & Hs & Hcne & Hnl).
  unfold scanned_line. cbn [ln_raw]. split.
  - rewrite contains_app, spaces_no_newline. exact Hnl.
  - unfold PyStr.strip. rewrite lstrip_spaces. fold (PyStr.strip (snd it)).
    now apply strip_fixed_nonblank.
Qed.

(** The text of the writer scans into the lines pushed. *)
Lemma written_text_scans (indent_size : Z) (items : list (Depth * string)) :
  0 < indent_size ->
  items <> [] ->
  Forall (fun item => 0 <= fst item
                      /\ PyStr.strip (snd item) = snd item
                      /\ snd item <> ""
                      /\ PyStr.contains NEWLINE (snd item) = false) items ->
  to_parsed_lines (to_string (push_all (new_writer indent_size) items))
                  indent_size
  = Ok (map (scanned_line indent_size) items).
Proof.
  intros Hsize Hne Hall. rename indent_size into size.
  rewrite push_all_lines
    by (eapply Forall_impl; [|exact Hall]; now intros item (_ & ? & _)).
  unfold to_string. cbn [lines new_writer indent_size app].
  pose proof (written_lines_scan size items Hall) as Hscan.
  pose proof (mapM_parse_written size items Hsize Hall) as Hparse.
  destruct items as [|item items]; [congruence|].
  cbn [map] in Hscan, Hparse |- *.
  rewrite <- Hparse. now apply to_parsed_lines_join.
Qed.

(** X21: what the writer is given at a depth, the scanner reads at
    that depth.  For contents that are not blank at either end and
    hold no newline, pushed at depths that are not negative, the text
    of the writer scans -- with the writer's indent -- into one line
    for each push, with the content pushed and the depth it was pushed
    at; a list item pushed below the root is written, and read, one
    level up. *)
Theorem to_parsed_lines_inverts_writer :
  forall (indent_size : Z) (items : list (Depth * string)),
    0 < indent_size ->
    items <> [] ->
    Forall (fun item => 0 <= fst item
                        /\ PyStr.strip (snd item) = snd item
                        /\ snd item <> ""
                        /\ PyStr.contains NEWLINE (snd item) = false) items ->
    to_parsed_lines (to_string (push_all (new_writer indent_size) items))
                    indent_size
    = Ok (map (scanned_line indent_size) items).
Proof.
  exact written_text_scans.
Qed.

(* ------------------------------------------------------------------ *)
(** ** Nested objects *)

Lemma distinct_keys_nodup (keys : list string) :
  distinct_keys keys = true -> NoDup keys.
Proof.
  induction keys as [|k rest IH]; [constructor|].
  cbn [distinct_keys]. intros H. apply andb_true_iff in H as [Hk Hrest].
  constructor; [|now apply IH].
  intros Hin. apply negb_true_iff in Hk.
  assert (Hex : existsb (String.eqb k) rest = true).
  { apply existsb_exists. exists k. split; [exact Hin|apply String.eqb_refl]. }
  congruence.
Qed.

Lemma push_all_app (writer : LineWriter) (a b : list (Depth * string)) :
  push_all writer (a ++ b) = push_all (push_all writer a) b.
Proof.
  unfold push_all. apply fold_left_app.
Qed.

(** A loop of pushes. *)
Lemma foldM_pushes {A : Type} (f : LineWriter -> A -> result LineWriter)
  (g : A -> list (Depth * string)) (xs : list A) :
  (forall x, In x xs -> forall w, f w x = Ok (push_all w (g x))) ->
  forall w, foldM f xs w = Ok (push_all w (flat_map g xs)).
Proof.
  induction xs as [|x xs IH]; intros H w; [reflexivity|].
  cbn [foldM flat_map]. rewrite (H x (or_introl eq_refl)). cbn [bind].
  rewrite push_all_app. apply IH. intros y Hy. apply H. now right.
Qed.

Lemma encode_primitive_token_text (value : JsonValue) (d : Delimiter) :
  is_json_primitive value = true ->
  encode_primitive value d = Ok (token_text value d).
Proof.
  intros H. unfold token_text.
  now destruct (encode_primitive_succeeds value d H) as [t ->].
Qed.

Lemma encode_inline_array_line_text (prefix : option string)
  (items : list JsonValue) (options : ResolvedEncodeOptions) :
  forallb is_json_primitive items = true ->
  encode_inline_array_line items (enc_delimiter options) prefix
                           (enc_lengthMarker options)
  = Ok (array_line_text prefix items options).
Proof.
  intros H. unfold array_line_text.
  now destruct (encode_inline_array_line_succeeds items (enc_delimiter options)
                  prefix (enc_lengthMarker options) H) as [t ->].
Qed.

(** The cursor, by the lines it has not read. *)
Lemma peek_at (all_lines : list ParsedLine) (index : nat) :
  peek {| cur_lines := all_lines; cur_index := index |}
  = hd_error (skipn index all_lines).
Proof.
  unfold peek. cbn [cur_lines cur_index]. revert index.
  induction all_lines as [|l ls IH]; intros [|i]; cbn; auto.
Qed.

Lemma at_end_at (all_lines : list ParsedLine) (index : nat) :
  at_end {| cur_lines := all_lines; cur_index := index |}
  = match skipn index all_lines with [] => true | _ => false end.
Proof.
  unfold at_end. cbn [cur_lines cur_index]. revert index.
  induction all_lines as [|l ls IH]; intros [|i]; cbn; auto.
Qed.

Lemma advance_at (all_lines : list ParsedLine) (index : nat) (line : ParsedLine)
  (rest : list ParsedLine) :
  skipn index all_lines = line :: rest ->
  advance {| cur_lines := all_lines; cur_index := index |}
  = {| cur_lines := all_lines; cur_index := S index |}
  /\ skipn (S index) all_lines = rest.
Proof.
  intros H. unfold advance. rewrite peek_at, H. cbn [hd_error cur_lines cur_index].
  split; [reflexivity|].
  change (S index) with (1 + index)%nat. now rewrite <- skipn_skipn, H.
Qed.

Lemma skipn_block (all_lines : list ParsedLine) (index : nat)
  (block after : list ParsedLine) :
  skipn index all_lines = (block ++ after)%list ->
  skipn (index + length block) all_lines = after.
Proof.
  intros H. rewrite Nat.add_comm, <- skipn_skipn, H.
  now rewrite skipn_app, skipn_all, Nat.sub_diag.
Qed.

(** A written key starts with a letter, an underscore or a quote. *)
Lemma encode_key_head (key : string) :
  exists (c : ascii) (r : string),
    encode_key key = String c r
    /\ PyStr.is_space c = false
    /\ Ascii.eqb c "-" = false
    /\ Ascii.eqb c "[" = false.
Proof.
  unfold encode_key. destruct (match_key_regex key) eqn:Hm.
  - destruct (match_key_regex_plain key Hm) as [Hne Hplain].
    destruct key as [|c r]; [congruence|]. exists c, r.
    cbn [PyStr.all_chars] in Hplain. apply andb_true_iff in Hplain as [Hc _].
    unfold is_plain_char in Hc. apply negb_true_iff in Hc.
    repeat match type of Hc with
           | _ || _ = false => apply orb_false_iff in Hc as [Hc ?]
           end.
    auto.
  - exists DOUBLE_QUOTE, (escape_string key ++ str1 DOUBLE_QUOTE).
    repeat split; reflexivity.
Qed.

(** The parsed form of a line that starts with a written key. *)
Lemma scanned_key_line (indent_size : Z) (depth : Depth) (key tail : string) :
  let line := scanned_line indent_size (depth, encode_key key ++ tail) in
  ln_depth line = depth
  /\ ln_content line = encode_key key ++ tail
  /\ PyStr.startswith (ln_content line) LIST_ITEM_PREFIX = false
  /\ String.eqb (ln_content line) LIST_ITEM_MARKER = false.
Proof.
  destruct (encode_key_head key) as (c & r & Hkey & _ & Hc & _).
  assert (Hprefix : PyStr.startswith (encode_key key ++ tail) LIST_ITEM_PREFIX
                    = false).
  { rewrite Hkey. cbn [append]. now apply startswith_cons_false. }
  assert (Hmarker : String.eqb (encode_key key ++ tail) LIST_ITEM_MARKER = false).
  { rewrite Hkey. cbn [append]. unfold LIST_ITEM_MARKER. cbn [String.eqb].
    now rewrite Hc. }
  unfold scanned_line, written_depth. cbn [fst snd ln_depth ln_content].
  rewrite Hprefix, Hmarker. cbn [orb]. rewrite andb_false_r.
  repeat split; assumption.
Qed.

Lemma flat_map_single {A B : Type} (f : A -> B) (xs : list A) :
  flat_map (fun x => [f x]) xs = map f xs.
Proof.
  induction xs as [|x xs IH]; [reflexivity|].
  cbn [flat_map map app]. now rewrite IH.
Qed.

Lemma row_reads_back_spec (header : list string) (d : Delimiter)
  (row : JsonValue) :
  row_reads_back header d row = true -> row_round_trips header d row.
Proof.
  destruct row as [| | | | | |members]; try discriminate.
  cbn [row_reads_back row_round_trips]. intros H.
  apply andb_true_iff in H as [Hk Hc]. split; [|exact Hc].
  now destruct (list_eq_dec string_dec (dict_keys members) header).
Qed.

(** The row written for an object of a table. *)
Lemma row_line_written (header : list string) (d : Delimiter) (row : JsonValue) :
  is_valid_delimiter d = true -> header <> [] -> NoDup header ->
  row_reads_back header d row = true ->
  exists members : JsonObject,
    row = JObj members
    /\ dict_keys members = header
    /\ forallb (fun value => cell_round_trips value d) (map snd members) = true
    /\ row_values members header = Ok (map snd members)
    /\ encode_and_join_primitives (map snd members) d
       = Ok (row_line_text d header row)
    /\ PyStr.strip (row_line_text d header row) = row_line_text d header row
    /\ row_line_text d header row <> ""
    /\ PyStr.contains NEWLINE (row_line_text d header row) = false
    /\ PyStr.startswith (row_line_text d header row) LIST_ITEM_PREFIX = false
    /\ String.eqb (row_line_text d header row) LIST_ITEM_MARKER = false.
Proof.
  intros Hd Hne Hnd Hrow. apply row_reads_back_spec in Hrow.
  destruct row as [| | | | | |members]; try contradiction.
  destruct Hrow as [Hkeys Hcells]. exists members.
  assert (Hvalues : row_values members header = Ok (map snd members)).
  { rewrite <- Hkeys. apply row_values_all. now rewrite Hkeys. }
  assert (Hvne : map snd members <> []).
  { rewrite <- Hkeys in Hne. destruct members; [now elim Hne|discriminate]. }
  destruct (encode_and_join_primitives_succeeds (map snd members) d)
    as [joined Hjoined].
  { apply Forall_forall, forallb_forall.
    exact (cell_round_trips_primitive _ _ Hcells). }
  assert (Htext : row_line_text d header (JObj members) = joined).
  { unfold row_line_text, row_text. rewrite Hvalues. cbn [bind].
    now rewrite Hjoined. }
  rewrite Htext.
  destruct (cells_join_facts _ _ _ Hd Hvne Hcells Hjoined) as (Hjs & Hjne & Hjnl).
  destruct (cell_round_trips_parts _ _ Hcells) as [Hback _].
  destruct (row_not_list_item _ _ _ Hvne Hback Hjoined) as [Hprefix Hmarker].
  repeat split; assumption || reflexivity.
Qed.

(** What [write_tabular_rows] pushes. *)
Lemma write_tabular_rows_items (rows : list JsonValue) (header : list string)
  (writer : LineWriter) (depth : Depth) (options : ResolvedEncodeOptions) :
  is_valid_delimiter (enc_delimiter options) = true ->
  header <> [] -> NoDup header ->
  forallb (row_reads_back header (enc_delimiter options)) rows = true ->
  write_tabular_rows rows header writer depth options
  = Ok (push_all writer
          (map (fun row => (depth, row_line_text (enc_delimiter options) header row))
               rows)).
Proof.
  intros Hd Hne Hnd Hall. unfold write_tabular_rows.
  rewrite <- flat_map_single. apply foldM_pushes.
  intros row Hin w. rewrite forallb_forall in Hall.
  destruct (row_line_written header _ row Hd Hne Hnd (Hall row Hin))
    as (members & -> & _ & _ & Hvalues & Hjoined & _).
  rewrite Hvalues. cbn [bind]. now rewrite Hjoined.
Qed.

(** The parsed form of a line that is no list item. *)
Lemma scanned_row_line (indent_size : Z) (item : Depth * string) :
  PyStr.startswith (snd item) LIST_ITEM_PREFIX = false ->
  String.eqb (snd item) LIST_ITEM_MARKER = false ->
  ln_depth (scanned_line indent_size item) = fst item
  /\ ln_content (scanned_line indent_size item) = snd item.
Proof.
  intros Hp Hm. unfold scanned_line, written_depth.
  cbn [ln_depth ln_content]. rewrite Hp, Hm. cbn [orb].
  now rewrite andb_false_r.
Qed.

(** The loop of [decode_tabular_array] on the rows written for a
    table, at any depth. *)
Lemma decode_tabular_array_from_written (indent_size : Z) (d : Delimiter)
  (header : list string) (hdr : ArrayHeaderInfo)
  (decode_options : ResolvedDecodeOptions) (base_depth : Depth)
  (todo : list JsonValue) :
  is_valid_delimiter d = true -> header <> [] -> NoDup header ->
  hdr_delimiter hdr = d -> header_fields hdr = header ->
  forallb (row_reads_back header d) todo = true ->
  forall (objects : list JsonValue) (all_lines : list ParsedLine) (index : nat)
         (after : list ParsedLine) (fuel : nat),
    skipn index all_lines
    = (map (scanned_line indent_size)
           (map (fun row => (base_depth + 1, row_line_text d header row)) todo)
       ++ after)%list ->
    ends_block base_depth after ->
    hdr_length hdr = Z.of_nat (length objects + length todo) ->
    (length todo + 1 <= fuel)%nat ->
    decode_tabular_array_from fuel hdr objects
      {| cur_lines := all_lines; cur_index := index |} base_depth decode_options
    = Ok ((objects ++ todo)%list,
          {| cur_lines := all_lines; cur_index := (index + length todo)%nat |}).
Proof.
  intros Hd Hne Hnd Hdelim Hfields.
  induction todo as [|row rows IH];
    intros Hall objects all_lines index after fuel Hskip Hafter Hlen Hfuel.
  - destruct fuel as [|fuel]; [cbn [length] in Hfuel; lia|].
    cbn [decode_tabular_array_from]. cbn [map app length] in *.
    rewrite Nat.add_0_r in *.
    assert (Hdone : (Z.of_nat (length objects) <? hdr_length hdr) = false)
      by (apply Z.ltb_ge; lia).
    rewrite Hdone, andb_false_r. unfold finish_tabular_array.
    rewrite Hlen, assert_expected_count_exact. cbn [bind].
    unfold check_no_more_rows. rewrite at_end_at, peek_at, Hskip.
    rewrite List.app_nil_r.
    destruct after as [|l after']; [now rewrite andb_false_r|].
    cbn [hd_error]. destruct Hafter as (Hle & _).
    destruct (Z.eqb_spec (ln_depth l) (base_depth + 1)); [lia|]. cbn [andb].
    now destruct (dec_strict decode_options && negb false).
  - cbn [forallb] in Hall. apply andb_true_iff in Hall as [Hrow Hrows].
    cbn [length] in Hlen, Hfuel. cbn [map app] in Hskip.
    destruct fuel as [|fuel]; [lia|].
    cbn [decode_tabular_array_from]. rewrite at_end_at, peek_at, Hskip.
    cbn [hd_error negb andb].
    destruct (Z.ltb_spec (Z.of_nat (length objects)) (hdr_length hdr)); [|lia].
    destruct (row_line_written header d row Hd Hne Hnd Hrow)
      as (members & -> & Hkeys & Hcells & _ & Hjoined & _ & _ & _ & Hp & Hm).
    destruct (scanned_row_line indent_size
                (base_depth + 1, row_line_text d header (JObj members)) Hp Hm)
      as [Hdepth Hcontent].
    cbn [fst snd] in Hdepth, Hcontent.
    rewrite Hdepth, Z.ltb_irrefl, Z.eqb_refl.
    rewrite (decode_tabular_row_written hdr _ (map snd members));
      rewrite ?Hfields, ?Hdelim, ?Hcontent; auto.
    2: { rewrite <- Hkeys. unfold dict_keys. now rewrite !length_map. }
    cbn [bind]. rewrite <- Hkeys, combine_keys_values.
    destruct (advance_at _ _ _ _ Hskip) as [-> Hnext].
    rewrite (IH Hrows (objects ++ [JObj members])%list all_lines (S index) after
                fuel Hnext Hafter);
      [|rewrite length_app; cbn [length]; lia|lia].
    rewrite <- List.app_assoc. cbn [app length].
    now replace (S index + length rows)%nat with (index + S (length rows))%nat
      by lia.
Qed.

(** The two shapes of an array that [array_reads_back]. *)
Lemma array_reads_back_cases (d : Delimiter) (items : list JsonValue) :
  array_reads_back d items = true ->
  (exists header,
      select_array_form items = FormTabular header
      /\ header <> [] /\ NoDup header
      /\ forallb match_key_regex header = true
      /\ forallb (row_reads_back header d) items = true)
  \/ forallb (fun item => cell_round_trips item d) items = true.
Proof.
  unfold array_reads_back. intros H.
  destruct (select_array_form items) as [| | |header|] eqn:Hform; auto.
  left. exists header.
  apply andb_true_iff in H as [H Hrows]. apply andb_true_iff in H as [Hdist Hbare].
  destruct (select_array_form_tabular_facts items header Hform) as [_ Hne].
  repeat split; auto. now apply distinct_keys_nodup.
Qed.

(** The lines of an array of primitives and of a table. *)
Lemma member_items_inline (options : ResolvedEncodeOptions) (depth : Depth)
  (key : string) (items : list JsonValue) :
  forallb (fun item => cell_round_trips item (enc_delimiter options)) items = true ->
  select_array_form items <> FormListItems
  /\ member_items options depth key (JArr items)
     = [(depth, array_line_text (Some key) items options)].
Proof.
  intros Hcells. cbn [member_items].
  destruct items as [|v vs]; [split; [discriminate|reflexivity]|].
  rewrite (select_array_form_primitives v vs
             (cell_round_trips_primitive _ _ Hcells)).
  split; [discriminate|reflexivity].
Qed.

(** What [encode_object] and [encode_key_value_pair] push for members
    that are primitives, arrays of primitives, tables and objects of
    such. *)
Lemma encoders_write_items (options : ResolvedEncodeOptions) (fuel : nat) :
  is_valid_delimiter (enc_delimiter options) = true ->
  (forall (members : JsonObject) (writer : LineWriter) (depth : Depth),
      (2 * json_size (JObj members) <= fuel)%nat ->
      forallb (fun km => member_reads_back (enc_delimiter options) (fst km) (snd km))
              members = true ->
      encode_object fuel members writer depth options
      = Ok (push_all writer (object_items options depth members)))
  /\ (forall (key : string) (value : JsonValue) (writer : LineWriter)
             (depth : Depth),
         (2 * json_size value + 1 <= fuel)%nat ->
         member_reads_back (enc_delimiter options) key value = true ->
         encode_key_value_pair fuel key value writer depth options
         = Ok (push_all writer (member_items options depth key value))).
Proof.
  intros Hd. induction fuel as [|fuel [IHobj IHpair]].
  - split; intros; [pose proof (json_size_pos (JObj members))|]; lia.
  - split.
    + intros members writer depth Hfuel Hall. cbn [encode_object].
      unfold object_items. apply foldM_pushes.
      intros [k v] Hin w. cbn [fst snd]. apply IHpair.
      * pose proof (in_members_size k v members Hin) as Hsize.
        change (json_size (JObj members)) with (S (members_size members)) in Hfuel.
        lia.
      * rewrite forallb_forall in Hall. exact (Hall (k, v) Hin).
    + intros key value writer depth Hfuel Hback.
      destruct value as [|b|z|f|s|items|members].
      1-5: rewrite encode_key_value_pair_primitive by reflexivity;
        rewrite encode_primitive_token_text by reflexivity; reflexivity.
      * cbn [member_reads_back] in Hback.
        apply andb_true_iff in Hback as [_ Harray].
        cbn [encode_key_value_pair].
        pose proof (json_size_pos (JArr items)) as Hpos.
        destruct fuel as [|fuel']; [lia|]. cbn [encode_array member_items].
        destruct (array_reads_back_cases _ _ Harray)
          as [(header & Hform & Hne & Hnd & _ & Hrows)|Hcells].
        -- rewrite Hform. unfold encode_array_of_objects_as_tabular.
           rewrite write_tabular_rows_items by assumption.
           reflexivity.
        -- pose proof (cell_round_trips_primitive _ _ Hcells) as Hprim.
           destruct items as [|v vs]; [reflexivity|].
           rewrite (select_array_form_primitives v vs Hprim).
           unfold encode_inline_primitive_array.
           now rewrite (encode_inline_array_line_text (Some key) (v :: vs) options
                          Hprim).
      * cbn [member_reads_back] in Hback.
        apply andb_true_iff in Hback as [_ Hall].
        cbn [encode_key_value_pair member_items].
        destruct members as [|m ms]; [reflexivity|].
        cbn [dict_keys map].
        rewrite IHobj; [reflexivity| |exact Hall].
        lia.
Qed.

Lemma ends_block_weaken (bound bound' : Depth) (after : list ParsedLine) :
  bound <= bound' -> ends_block bound after -> ends_block bound' after.
Proof.
  intros Hle. destruct after as [|l after]; [trivial|].
  cbn [ends_block]. intros (H & Hitem). split; [lia|].
  intros E. apply Hitem. lia.
Qed.

(** The lines of the members that follow end the block of a member. *)
Lemma ends_block_members (indent_size : Z) (options : ResolvedEncodeOptions)
  (decode_options : ResolvedDecodeOptions) (depth : Depth) (members : JsonObject)
  (post : list ParsedLine) :
  Forall (fun km => member_decodes indent_size options decode_options depth
                                   (fst km) (snd km)) members ->
  ends_block (depth - 1) post ->
  ends_block depth
    (map (scanned_line indent_size) (object_items options depth members) ++ post).
Proof.
  intros Hall Hpost. destruct Hall as [|[k v] members Hm _].
  - cbn. apply (ends_block_weaken (depth - 1)); [lia|exact Hpost].
  - destruct Hm as (tail & rest_items & Hitems & _). cbn [fst snd] in Hitems.
    unfold object_items. cbn [flat_map fst snd]. rewrite Hitems.
    cbn [app map ends_block].
    destruct (scanned_key_line indent_size depth k tail) as (Hd & Hc & Hnp & Hnm).
    split; [lia|]. now intros _.
Qed.

(** The loop of [decode_object] on the lines written for members that
    [decode_key_value] reads back. *)
Lemma decode_object_from_members (indent_size : Z)
  (options : ResolvedEncodeOptions) (decode_options : ResolvedDecodeOptions)
  (depth : Depth) (members : JsonObject) :
  Forall (fun km => member_decodes indent_size options decode_options depth
                                   (fst km) (snd km)) members ->
  forall (all_lines : list ParsedLine) (index : nat) (post : list ParsedLine)
         (obj : JsonObject) (fuel : nat),
    skipn index all_lines
    = (map (scanned_line indent_size) (object_items options depth members)
       ++ post)%list ->
    ends_block (depth - 1) post ->
    (2 * length (object_items options depth members) + 2 <= fuel)%nat ->
    decode_object_from fuel obj {| cur_lines := all_lines; cur_index := index |}
                       depth decode_options
    = Ok (assign_all members obj,
          {| cur_lines := all_lines;
             cur_index := (index + length (object_items options depth members))%nat |}).
Proof.
  induction 1 as [|[k v] members Hm Hrest IH];
    intros all_lines index post obj fuel Hskip Hpost Hfuel.
  - cbn [object_items flat_map map app length] in *.
    destruct fuel as [|fuel]; [lia|].
    cbn [decode_object_from]. rewrite at_end_at, peek_at, Hskip, Nat.add_0_r.
    destruct post as [|l post']; [reflexivity|]. cbn [hd_error].
    destruct Hpost as (Hdepth & _).
    destruct (Z.ltb_spec (ln_depth l) depth); [reflexivity|lia].
  - pose proof (ends_block_members indent_size options decode_options depth members
                  post Hrest Hpost) as Hafter.
    destruct Hm as (tail & rest_items & Hitems & Hdecode). cbn [fst snd] in *.
    unfold object_items in *. cbn [flat_map fst snd] in *. rewrite Hitems in *.
    cbn [app map length] in Hskip, Hfuel |- *.
    rewrite map_app, <- List.app_assoc in Hskip. rewrite length_app in *.
    destruct fuel as [|fuel]; [lia|]. cbn [decode_object_from].
    rewrite at_end_at, peek_at, Hskip. cbn [hd_error].
    destruct (scanned_key_line indent_size depth k tail) as (Hd & Hc & _).
    rewrite Hd, Z.ltb_irrefl, Z.eqb_refl, Hc.
    destruct (advance_at _ _ _ _ Hskip) as [-> Hnext].
    rewrite (Hdecode all_lines (S index) _ fuel Hnext Hafter) by lia.
    cbn [bind].
    rewrite (IH all_lines (S index + length rest_items)%nat post _ fuel);
      [|rewrite <- (length_map (scanned_line indent_size));
        now apply skipn_block|exact Hpost|lia].
    unfold assign_all. cbn [fold_left fst snd].
    do 3 f_equal. lia.
Qed.

Lemma key_line_no_header (key : string) :
  parse_array_header_line (encode_key key ++ ":") DEFAULT_DELIMITER = Ok None.
Proof.
  unfold encode_key. destruct (match_key_regex key) eqn:Hm.
  - destruct (match_key_regex_plain key Hm) as [_ Hplain].
    apply find_bracket_absent. unfold OPEN_BRACKET.
    rewrite contains_app, (plain_not_contains "[" key)
      by (reflexivity || exact Hplain).
    reflexivity.
  - unfold parse_array_header_line, quoted. cbn [append PyStr.lstrip].
    change (PyStr.is_space DOUBLE_QUOTE) with false. cbn iota.
    now rewrite startswith_head, Ascii.eqb_refl.
Qed.

(** A primitive member. *)
Lemma primitive_member_decodes (indent_size : Z) (options : ResolvedEncodeOptions)
  (decode_options : ResolvedDecodeOptions) (depth : Depth) (key : string)
  (value : JsonValue) :
  is_json_primitive value = true ->
  binding_reads_back key value (enc_delimiter options) = true ->
  member_decodes indent_size options decode_options depth key value.
Proof.
  intros Hprim Hback.
  set (t := token_text value (enc_delimiter options)).
  exists (": " ++ t), []. split.
  { destruct value; try discriminate Hprim; reflexivity. }
  intros all_lines index after fuel Hskip Hafter Hfuel.
  pose proof (binding_text_binds key value _ t Hback
                (encode_primitive_token_text value _ Hprim)) as (_ & Hh & He).
  rewrite Nat.add_0_r.
  assert (Hline : binds_primitive depth
                    {| ln_raw := ""; ln_depth := depth; ln_indent := 0;
                       ln_content := binding_text key t |} (key, value)).
  { split; [reflexivity|]. split; [exact Hh|exact He]. }
  exact (decode_key_value_primitive fuel depth _ (key, value) _ decode_options
           Hline ltac:(cbn [length] in Hfuel; lia)).
Qed.

(** The line of an array of primitives: the header, and the cells
    when there are any. *)
Lemma array_line_text_parts (prefix : option string) (items : list JsonValue)
  (options : ResolvedEncodeOptions) :
  forallb is_json_primitive items = true ->
  exists rest : string,
    array_line_text prefix items options
    = format_header (Z.of_nat (length items)) prefix None
                    (enc_delimiter options) (enc_lengthMarker options) ++ rest
    /\ match items with
       | [] => rest = ""
       | _ => exists joined,
                encode_and_join_primitives items (enc_delimiter options)
                = Ok joined
                /\ rest = (if Ascii.eqb (enc_delimiter options) TAB
                           then str1 TAB else " ") ++ joined
       end.
Proof.
  intros Hprim. unfold array_line_text, encode_inline_array_line.
  destruct items as [|v vs].
  - exists "". now rewrite append_nil_r.
  - destruct (encode_and_join_primitives_succeeds (v :: vs) (enc_delimiter options))
      as [joined Hjoined].
    { apply Forall_forall. now apply forallb_forall. }
    rewrite Hjoined. cbn [bind]. eexists. split; [reflexivity|].
    now exists joined.
Qed.

(** An array of primitives under a key written without quotes. *)
Lemma array_member_decodes (indent_size : Z) (options : ResolvedEncodeOptions)
  (decode_options : ResolvedDecodeOptions) (depth : Depth) (key : string)
  (items : list JsonValue) :
  is_valid_delimiter (enc_delimiter options) = true ->
  match_key_regex key = true ->
  forallb (fun item => cell_round_trips item (enc_delimiter options)) items = true ->
  member_decodes indent_size options decode_options depth key (JArr items).
Proof.
  intros Hd Hkey Hcells.
  set (d := enc_delimiter options) in *.
  set (marker := enc_lengthMarker options).
  set (n := Z.of_nat (length items)).
  pose proof (cell_round_trips_primitive _ _ Hcells) as Hprim.
  destruct (array_line_text_parts (Some key) items options Hprim) as (rest & Htext & Hrest).
  fold d marker n in Htext.
  pose proof (format_header_parts n (Some key) None d marker rest) as Hparts.
  cbn [header_key_text] in Hparts.
  destruct (member_items_inline options depth key items Hcells) as [_ Hitems].
  eexists. exists []. split.
  { rewrite Hitems, Htext, Hparts. reflexivity. }
  intros all_lines index after fuel Hskip Hafter Hfuel.
  cbn [map app length] in Hskip, Hfuel. rewrite Nat.add_0_r, <- Hparts.
  assert (Hne : String.eqb key "" = false).
  { destruct key; [discriminate Hkey|reflexivity]. }
  destruct fuel as [|[|[|fuel]]]; try lia.
  cbn [decode_key_value].
  rewrite (parse_array_header_line_written n (Some key) None d DEFAULT_DELIMITER
             marker rest);
    [|subst n; lia|exact Hd|now left|exact Hkey|reflexivity].
  cbn [bind key_is_set hdr_key written_header]. rewrite Hne.
  cbn [decode_array_from_header].
  destruct items as [|v vs].
  - subst rest. cbn [PyStr.strip PyStr.lstrip PyStr.rstrip nonempty_or_none].
    change (nonempty_or_none (PyStr.strip "")) with (@None string).
    cbn [has_inline_values has_fields hdr_fields decode_list_array_from length].
    cbn [hdr_length]. subst n. cbn [length Z.of_nat Z.ltb Z.compare].
    rewrite andb_false_r.
    unfold finish_list_array. rewrite assert_expected_count_exact. cbn [bind].
    unfold check_no_more_items. rewrite at_end_at, peek_at, Hskip.
    destruct after as [|l after'].
    + rewrite andb_false_r. reflexivity.
    + cbn [hd_error]. destruct Hafter as (Hle & Hitem).
      unfold in_candidate_depths.
      destruct (Z.eqb_spec (ln_depth l) (depth + 1)); [lia|]. cbn [orb].
      destruct (Z.eqb_spec (ln_depth l) (depth + 1 - 1)) as [E|_].
      * destruct (Hitem ltac:(lia)) as [-> ->].
        now destruct (dec_strict decode_options); destruct (0 <? depth + 1).
      * rewrite andb_false_r. now destruct (dec_strict decode_options).
  - destruct Hrest as (joined & Hjoined & ->).
    destruct (cells_join_facts (v :: vs) d joined Hd ltac:(discriminate) Hcells
                Hjoined) as (Hjs & Hjne & _).
    rewrite strip_separator, Hjs. unfold nonempty_or_none.
    destruct (String.eqb_spec joined "") as [|_]; [congruence|].
    unfold has_inline_values. rewrite Hjs.
    destruct (String.eqb_spec joined "") as [|_]; [congruence|].
    rewrite (decode_inline_written (v :: vs)); [reflexivity| | | |]; auto.
Qed.

(** A table under a key written without quotes. *)
Lemma table_member_decodes (indent_size : Z) (options : ResolvedEncodeOptions)
  (decode_options : ResolvedDecodeOptions) (depth : Depth) (key : string)
  (items : list JsonValue) (header : list string) :
  is_valid_delimiter (enc_delimiter options) = true ->
  match_key_regex key = true ->
  select_array_form items = FormTabular header ->
  header <> [] -> NoDup header ->
  forallb match_key_regex header = true ->
  forallb (row_reads_back header (enc_delimiter options)) items = true ->
  member_decodes indent_size options decode_options depth key (JArr items).
Proof.
  intros Hd Hkey Hform Hne Hnd Hbare Hrows.
  set (d := enc_delimiter options) in *.
  set (marker := enc_lengthMarker options).
  set (n := Z.of_nat (length items)).
  pose proof (format_header_parts n (Some key) (Some header) d marker "") as Hparts.
  cbn [header_key_text] in Hparts. rewrite append_nil_r in Hparts.
  eexists. eexists. split.
  { cbn [member_items]. rewrite Hform. fold d marker n. rewrite Hparts.
    reflexivity. }
  intros all_lines index after fuel Hskip Hafter Hfuel.
  rewrite <- Hparts. rewrite length_map in Hfuel |- *.
  assert (Hkne : String.eqb key "" = false).
  { destruct key; [discriminate Hkey|reflexivity]. }
  destruct fuel as [|[|fuel]]; try lia.
  cbn [decode_key_value].
  pose proof (parse_array_header_line_written n (Some key) (Some header) d
                DEFAULT_DELIMITER marker "" ltac:(subst n; lia) Hd
                ltac:(now left) Hkey Hbare) as Hparse.
  rewrite append_nil_r in Hparse. rewrite Hparse.
  change (nonempty_or_none (PyStr.strip "")) with (@None string).
  cbn [bind key_is_set hdr_key written_header]. rewrite Hkne.
  cbn [decode_array_from_header has_inline_values].
  destruct header as [|f fs]; [congruence|].
  cbn [has_fields hdr_fields]. unfold decode_tabular_array.
  rewrite (decode_tabular_array_from_written indent_size d (f :: fs)
             (written_header n (Some key) (Some (f :: fs)) d marker)
             decode_options depth items Hd Hne Hnd eq_refl eq_refl Hrows []
             all_lines index after fuel Hskip Hafter);
    [reflexivity|reflexivity|lia].
Qed.

(** An object whose members [decode_key_value] reads back. *)
Lemma object_member_decodes (indent_size : Z) (options : ResolvedEncodeOptions)
  (decode_options : ResolvedDecodeOptions) (depth : Depth) (key : string)
  (members : JsonObject) :
  distinct_keys (dict_keys members) = true ->
  Forall (fun km => member_decodes indent_size options decode_options (depth + 1)
                                   (fst km) (snd km)) members ->
  member_decodes indent_size options decode_options depth key (JObj members).
Proof.
  intros Hdistinct Hall.
  exists ":", (object_items options (depth + 1) members). split; [reflexivity|].
  intros all_lines index after fuel Hskip Hafter Hfuel.
  destruct fuel as [|fuel]; [lia|]. cbn [decode_key_value].
  rewrite key_line_no_header. cbn [bind].
  rewrite (parse_key_token_encode_key key ""
           : parse_key_token (encode_key key ++ ":") 0 = _).
  cbn [bind].
  assert (Hfrom : PyStr.from (encode_key key ++ ":") (PyStr.len (encode_key key) + 1)
                  = "").
  { replace (encode_key key ++ ":") with ((encode_key key ++ ":") ++ "")
      by apply append_nil_r.
    apply from_at. now rewrite len_append. }
  rewrite Hfrom. cbn [PyStr.strip PyStr.lstrip]. 
  change (PyStr.rstrip "") with "". cbn [String.eqb].
  rewrite peek_at, Hskip.
  destruct members as [|[k1 v1] ms].
  - cbn [object_items flat_map map app length]. rewrite Nat.add_0_r.
    destruct after as [|l after']; [reflexivity|]. cbn [hd_error].
    destruct Hafter as (Hle & _).
    destruct (Z.ltb_spec depth (ln_depth l)); [lia|reflexivity].
  - assert (Hhead : exists l rest,
               map (scanned_line indent_size)
                   (object_items options (depth + 1) ((k1, v1) :: ms))
               = l :: rest /\ ln_depth l = depth + 1).
    { inversion Hall as [|? ? (tail1 & rest1 & Hitems1 & _) _]; subst.
      cbn [fst snd] in Hitems1. unfold object_items. cbn [flat_map fst snd].
      rewrite Hitems1. cbn [app map]. do 2 eexists. split; [reflexivity|].
      now destruct (scanned_key_line indent_size (depth + 1) k1 tail1). }
    destruct Hhead as (l & rest & Hlines & Hdepth).
    rewrite Hlines. cbn [app hd_error]. rewrite Hdepth.
    destruct (Z.ltb_spec depth (depth + 1)); [|lia].
    rewrite (decode_object_from_members indent_size options decode_options
               (depth + 1) ((k1, v1) :: ms) Hall all_lines index after [] fuel
               Hskip);
      [| |lia].
    + cbn [bind]. rewrite assign_all_fresh.
      * reflexivity.
      * cbn [dict_keys map app]. now apply distinct_keys_nodup.
    + now replace (depth + 1 - 1) with depth by lia.
Qed.

(** Every member that [member_reads_back] is read back by
    [decode_key_value]. *)
Lemma members_decode (indent_size : Z) (options : ResolvedEncodeOptions)
  (decode_options : ResolvedDecodeOptions) :
  is_valid_delimiter (enc_delimiter options) = true ->
  forall (size : nat) (key : string) (value : JsonValue) (depth : Depth),
    (json_size value <= size)%nat ->
    member_reads_back (enc_delimiter options) key value = true ->
    member_decodes indent_size options decode_options depth key value.
Proof.
  intros Hd. induction size as [|size IH]; intros key value depth Hsize Hback.
  - pose proof (json_size_pos value). lia.
  - destruct value as [|b|z|f|s|items|members].
    1-5: apply primitive_member_decodes; [reflexivity|exact Hback].
    + cbn [member_reads_back] in Hback. apply andb_true_iff in Hback as [Hkey Harray].
      destruct (array_reads_back_cases _ _ Harray)
        as [(header & Hform & Hne & Hnd & Hbare & Hrows)|Hcells].
      * now apply table_member_decodes with (header := header).
      * now apply array_member_decodes.
    + cbn [member_reads_back] in Hback. apply andb_true_iff in Hback as [Hdist Hall].
      apply object_member_decodes; [exact Hdist|].
      apply Forall_forall. intros [k v] Hin. cbn [fst snd]. apply IH.
      * pose proof (in_members_size k v members Hin).
        change (json_size (JObj members)) with (S (members_size members)) in Hsize.
        lia.
      * rewrite forallb_forall in Hall. exact (Hall (k, v) Hin).
Qed.

(** The lines written for a member: not blank at either end, each on
    one line, at the member's depth or below. *)
Lemma member_items_facts (options : ResolvedEncodeOptions) :
  is_valid_delimiter (enc_delimiter options) = true ->
  forall (size : nat) (key : string) (value : JsonValue) (depth : Depth),
    (json_size value <= size)%nat ->
    member_reads_back (enc_delimiter options) key value = true ->
    0 <= depth ->
    Forall (fun item => 0 <= fst item
                        /\ PyStr.strip (snd item) = snd item
                        /\ snd item <> ""
                        /\ PyStr.contains NEWLINE (snd item) = false)
           (member_items options depth key value).
Proof.
  intros Hd. set (d := enc_delimiter options) in *.
  induction size as [|size IH]; intros key value depth Hsize Hback Hdepth.
  - pose proof (json_size_pos value). lia.
  - destruct (encode_key_facts key) as (Hkne & Hks & Hknl).
    destruct value as [|b|z|f|s|items|members].
    1-5: cbn [member_reads_back] in Hback; unfold binding_reads_back in Hback;
      apply andb_true_iff in Hback as [Htok _];
      match type of Htok with
      | token_reads_back ?v _ = true =>
          destruct (binding_text_facts key v d (token_text v d) Htok
                      (encode_primitive_token_text v d
                         (token_reads_back_primitive v d Htok)))
            as (_ & _ & Hs & Hne & Hnl)
      end;
      constructor; [|constructor]; cbn [fst snd]; auto.
    + cbn [member_reads_back] in Hback. apply andb_true_iff in Hback as [_ Harray].
      destruct (array_reads_back_cases _ _ Harray)
        as [(header & Hform & Hne & Hnd & _ & Hrows)|Hcells].
      { cbn [member_items]. rewrite Hform. constructor.
        - cbn [fst snd].
          destruct (format_header_facts (Z.of_nat (length items)) (Some key)
                      (Some header) d (enc_lengthMarker options) Hd)
            as (Hhs & Hhne & Hhnl & _).
          auto.
        - apply Forall_forall. intros it Hin.
          apply in_map_iff in Hin as (row & <- & Hin). cbn [fst snd].
          rewrite forallb_forall in Hrows.
          destruct (row_line_written header d row Hd Hne Hnd (Hrows row Hin))
            as (members & _ & _ & _ & _ & _ & Hs & Hrne & Hnl & _).
          repeat split; auto. lia. }
      pose proof (cell_round_trips_primitive _ _ Hcells) as Hprim.
      destruct (array_line_text_parts (Some key) items options Hprim)
        as (rest & Htext & Hrest).
      destruct (format_header_facts (Z.of_nat (length items)) (Some key) None d
                  (enc_lengthMarker options) Hd) as (Hhs & Hhne & Hhnl & _).
      destruct (member_items_inline options depth key items Hcells) as [_ ->].
      constructor; [|constructor]. cbn [fst snd].
      rewrite Htext. fold d. split; [exact Hdepth|].
      destruct items as [|v vs].
      * subst rest. rewrite append_nil_r. auto.
      * destruct Hrest as (joined & Hjoined & ->).
        destruct (cells_join_facts (v :: vs) d joined Hd ltac:(discriminate)
                    Hcells Hjoined) as (Hjs & Hjne & Hjnl).
        split; [now apply strip_between|]. split.
        -- destruct (format_header _ _ _ _ _); [congruence|discriminate].
        -- rewrite !contains_app, Hhnl, Hjnl. fold d.
           now destruct (Ascii.eqb d TAB).
    + cbn [member_reads_back] in Hback. apply andb_true_iff in Hback as [_ Hall].
      cbn [member_items]. constructor.
      * cbn [fst snd]. split; [exact Hdepth|]. split; [|split].
        -- now apply (strip_between (encode_key key) "" ":").
        -- destruct (encode_key key); [congruence|discriminate].
        -- now rewrite contains_app, Hknl.
      * apply Forall_flat_map, Forall_forall. intros [k v] Hin. cbn [fst snd].
        apply IH; [| |lia].
        -- pose proof (in_members_size k v members Hin).
           change (json_size (JObj members)) with (S (members_size members))
             in Hsize.
           lia.
        -- rewrite forallb_forall in Hall. exact (Hall (k, v) Hin).
Qed.

(** A header line under a key written without quotes is a key-value
    line. *)
Lemma header_line_is_key_value_line (n : Z) (key : string)
  (fields : option (list string)) (d : Delimiter) (marker : bool)
  (rest : string) (line : ParsedLine) :
  match_key_regex key = true ->
  is_valid_delimiter d = true ->
  ln_content line = format_header n (Some key) fields d marker ++ rest ->
  is_key_value_line line = true.
Proof.
  intros Hkey Hd Hc.
  destruct (format_header_facts n (Some key) fields d marker Hd)
    as (_ & _ & _ & Hcolon & _).
  unfold is_key_value_line. rewrite Hc.
  pose proof (format_header_parts n (Some key) fields d marker rest) as Hparts.
  cbn [header_key_text] in Hparts. unfold encode_key in Hparts.
  rewrite Hkey in Hparts.
  destruct (match_key_regex_plain key Hkey) as [Hne Hplain].
  destruct key as [|c r]; [congruence|].
  assert (Hc' : Ascii.eqb c DOUBLE_QUOTE = false).
  { apply contains_head_false with (r := r). now apply plain_not_contains. }
  rewrite Hparts at 1. cbn [append]. rewrite Hc'.
  now rewrite contains_app, Hcolon.
Qed.

(** The first line written for a member is a key-value line. *)
Lemma member_head_is_key_value_line (options : ResolvedEncodeOptions)
  (depth : Depth) (key : string) (value : JsonValue) :
  is_valid_delimiter (enc_delimiter options) = true ->
  member_reads_back (enc_delimiter options) key value = true ->
  exists (content : string) (rest_items : list (Depth * string)),
    member_items options depth key value = (depth, content) :: rest_items
    /\ forall line : ParsedLine,
         ln_content line = content -> is_key_value_line line = true.
Proof.
  intros Hd Hback.
  assert (Hwritten : forall (rest : string) (line : ParsedLine),
             ln_content line = encode_key key ++ String COLON rest ->
             is_key_value_line line = true).
  { intros rest line Hc. pose proof (is_key_value_line_written key rest) as H.
    unfold is_key_value_line in *. cbn [ln_content root_line] in H.
    now rewrite Hc. }
  destruct value as [|b|z|f|s|items|members].
  1-5: do 2 eexists; (split; [reflexivity|]); apply Hwritten.
  - cbn [member_reads_back] in Hback. apply andb_true_iff in Hback as [Hkey Harray].
    destruct (array_reads_back_cases _ _ Harray)
      as [(header & Hform & _)|Hcells].
    + cbn [member_items]. rewrite Hform. do 2 eexists. split; [reflexivity|].
      intros line Hc. apply (header_line_is_key_value_line
                               (Z.of_nat (length items)) key (Some header)
                               (enc_delimiter options) (enc_lengthMarker options)
                               "" line Hkey Hd).
      now rewrite append_nil_r.
    + destruct (member_items_inline options depth key items Hcells) as [_ ->].
      destruct (array_line_text_parts (Some key) items options
                  (cell_round_trips_primitive _ _ Hcells)) as (rest & Htext & _).
      do 2 eexists. split; [reflexivity|]. intros line Hc.
      apply (header_line_is_key_value_line (Z.of_nat (length items)) key None
               (enc_delimiter options) (enc_lengthMarker options) rest line
               Hkey Hd).
      now rewrite Hc, Htext.
  - do 2 eexists. split; [reflexivity|]. apply Hwritten.
Qed.

(** An object of primitives, arrays of primitives, tables and objects
    of such is read back from the lines written for it. *)
Lemma decode_encode_nested_object (members : JsonObject)
  (enc_options : ResolvedEncodeOptions) (dec_options : DecodeOptions)
  (text : string) :
  is_valid_delimiter (enc_delimiter enc_options) = true ->
  distinct_keys (dict_keys members) = true ->
  forallb (fun km => member_reads_back (enc_delimiter enc_options)
                                       (fst km) (snd km)) members = true ->
  0 < enc_indent enc_options ->
  dec_indent (resolve_decode_options dec_options) = enc_indent enc_options ->
  encode_value (JObj members) enc_options = Ok text ->
  decode text dec_options = Ok (JObj members).
Proof.
  intros Hd Hdist Hall Hindent Hsame Henc.
  set (size := enc_indent enc_options) in *.
  set (resolved := resolve_decode_options dec_options) in *.
  unfold encode_value, encode_value_with in Henc. cbn [is_json_primitive] in Henc.
  rewrite (proj1 (encoders_write_items enc_options (encode_fuel (JObj members))
                    Hd))
    in Henc; [|unfold encode_fuel; lia|exact Hall].
  cbn [bind] in Henc. injection Henc as <-. fold size.
  assert (Hfacts : Forall (fun item => 0 <= fst item
                                       /\ PyStr.strip (snd item) = snd item
                                       /\ snd item <> ""
                                       /\ PyStr.contains NEWLINE (snd item) = false)
                          (object_items enc_options 0 members)).
  { unfold object_items. apply Forall_flat_map, Forall_forall.
    intros [k v] Hin. cbn [fst snd].
    apply (member_items_facts enc_options Hd (json_size v)); [lia| |lia].
    rewrite forallb_forall in Hall. exact (Hall (k, v) Hin). }
  assert (Hdecodes : Forall (fun km => member_decodes size enc_options resolved 0
                                                      (fst km) (snd km)) members).
  { apply Forall_forall. intros [k v] Hin. cbn [fst snd].
    apply (members_decode size enc_options resolved Hd (json_size v)); [lia|].
    rewrite forallb_forall in Hall. exact (Hall (k, v) Hin). }
  pose proof (decode_object_from_members size enc_options resolved 0 members
                Hdecodes) as Hrun.
  destruct members as [|[k v] ms]; [reflexivity|].
  destruct (member_head_is_key_value_line enc_options 0 k v Hd)
    as (content & rest_items & Hitems & Hkv).
  { cbn [forallb fst snd] in Hall. now apply andb_true_iff in Hall as [? _]. }
  set (items := object_items enc_options 0 ((k, v) :: ms)) in *.
  assert (Hitems_eq : exists others, items = (0, content) :: others).
  { subst items. unfold object_items. cbn [flat_map fst snd]. rewrite Hitems.
    cbn [app]. now eexists. }
  destruct Hitems_eq as (others & Hitems_eq).
  assert (Hhead : exists c r, content = String c r
                              /\ PyStr.is_space c = false
                              /\ Ascii.eqb c "[" = false).
  { inversion Hdecodes as [|? ? (tail & rest' & Hitems' & _) _]; subst.
    cbn [fst snd] in Hitems'. rewrite Hitems in Hitems'.
    injection Hitems' as -> _.
    destruct (encode_key_head k) as (c & r & -> & Hspace & _ & Hbracket).
    cbn [append]. eauto. }
  destruct Hhead as (c & r & -> & Hspace & Hbracket).
  pose proof (written_text_scans size items Hindent
                ltac:(rewrite Hitems_eq; discriminate) Hfacts) as Hscan.
  assert (Htext : exists r', to_string (push_all (new_writer size) items)
                             = String c r').
  { rewrite push_all_lines
      by (eapply Forall_impl; [|exact Hfacts]; now intros item (_ & ? & _)).
    unfold to_string. cbn [lines new_writer app indent_size].
    rewrite Hitems_eq. cbn [map fst snd]. unfold written_depth.
    cbn [Z.ltb Z.compare andb Z.mul Z.to_nat PyStr.spaces append].
    match goal with
    | |- context [map ?f others] => destruct (map f others)
    end; cbn [PyStr.join append]; eauto. }
  destruct Htext as (r' & Htext). rewrite Htext in Hscan |- *.
  rewrite (decode_started c r' dec_options Hspace). fold resolved.
  rewrite Hsame, Hscan. cbn [bind].
  assert (Hstrip : PyStr.strip (String c r) = String c r).
  { rewrite Hitems_eq in Hfacts. inversion Hfacts as [|? ? (_ & Hs & _) _]; subst.
    exact Hs. }
  assert (Hfirst : exists first rest_lines,
             map (scanned_line size) items = first :: rest_lines
             /\ ln_content first = String c r).
  { rewrite Hitems_eq. cbn [map]. now do 2 eexists. }
  destruct Hfirst as (first & rest_lines & Hlines & Hcontent).
  specialize (Hrun (map (scanned_line size) items) O [] [] (decode_fuel
                (map (scanned_line size) items))).
  rewrite Hlines in Hrun |- *. cbn [length Nat.eqb].
  unfold decode_value_from_lines.
  change (peek (new_cursor (first :: rest_lines))) with (Some first). cbv iota.
  unfold is_root_array_header_line, is_array_header_after_hyphen.
  rewrite Hcontent, Hstrip, startswith_head. unfold OPEN_BRACKET.
  rewrite Hbracket. cbn [andb bind].
  rewrite (Hkv first Hcontent). cbn [negb]. rewrite andb_false_r.
  unfold decode_object, new_cursor. rewrite Hrun.
  - cbn [bind]. rewrite assign_all_fresh.
    + reflexivity.
    + cbn [dict_keys map app]. now apply distinct_keys_nodup.
  - cbn [skipn]. now rewrite List.app_nil_r.
  - exact I.
  - unfold decode_fuel. rewrite <- Hlines, length_map. cbn [length]. lia.
Qed.

(** X22: an object comes back from [decode] as it went into
    [encode_value], whatever the depth to which objects are nested in
    it, when at every level the keys are distinct and each member is a
    primitive that [binding_reads_back]; or, under a key written
    without quotes, an array of primitives that cells give back, empty
    or not, or an array that the encoder writes as a table, with
    distinct field names that need no quotes and rows that list the
    fields in the header's order; or an object of such members, empty
    or not.  It holds for each of the three delimiters, with or without
    length marker, in strict mode or not, when the decoder's indent is
    the encoder's. *)
Theorem decode_inverts_encode_value_on_nested_objects :
  forall (members : JsonObject) (enc_options : ResolvedEncodeOptions)
         (dec_options : DecodeOptions) (text : string),
    is_valid_delimiter (enc_delimiter enc_options) = true ->
    distinct_keys (dict_keys members) = true ->
    forallb (fun km => member_reads_back (enc_delimiter enc_options)
                                         (fst km) (snd km)) members = true ->
    0 < enc_indent enc_options ->
    dec_indent (resolve_decode_options dec_options) = enc_indent enc_options ->
    encode_value (JObj members) enc_options = Ok text ->
    decode text dec_options = Ok (JObj members).
Proof.
  exact decode_encode_nested_object.
Qed.

(* ------------------------------------------------------------------ *)
(** ** List arrays *)

Lemma push_all_cons (writer : LineWriter) (depth : Depth) (content : string)
  (items : list (Depth * string)) :
  push_all writer ((depth, content) :: items)
  = push_all (push writer depth content) items.
Proof.
  reflexivity.
Qed.

Lemma list_item_cases (d : Delimiter) (item : JsonValue) :
  list_item_reads_back d item = true ->
  (exists row, item = JArr row
               /\ forallb (fun value => cell_round_trips value d) row = true)
  \/ (is_json_primitive item = true /\ token_reads_back item d = true).
Proof.
  destruct item as [|b|z|f|s|row|members]; cbn [list_item_reads_back];
    intros H; try discriminate H; try (right; now split).
  - right. apply andb_true_iff in H as [H _]. now split.
  - left. now exists row.
Qed.

(** What [encode_array] pushes for a root array that holds an array,
    besides arrays of primitives and primitives: the arrays-of-arrays
    form and the list-items form write the same lines. *)
Lemma encode_list_array_items (values : list JsonValue) (fuel : nat)
  (writer : LineWriter) (options : ResolvedEncodeOptions) :
  forallb (list_item_reads_back (enc_delimiter options)) values = true ->
  existsb is_json_array values = true ->
  encode_array (S (S fuel)) None values writer 0 options
  = Ok (push_all writer (list_array_items options values)).
Proof.
  intros Hall Hsome.
  set (d := enc_delimiter options) in *.
  assert (Hitem : forall x, In x values ->
             (exists row, x = JArr row /\ forallb is_json_primitive row = true)
             \/ (is_json_primitive x = true)).
  { intros x Hin. rewrite forallb_forall in Hall.
    destruct (list_item_cases d x (Hall x Hin)) as [(row & -> & Hrow)|[Hp _]];
      [left|now right].
    exists row. split; [reflexivity|].
    now apply cell_round_trips_primitive with (d := d). }
  assert (Hpush : forall x, In x values -> forall w,
             (match x with
              | JArr _ =>
                  if is_array_of_primitives x
                  then push_list_item_inline w (0 + 1) x options
                  else Raise AttributeError
              | JObj _ => Raise AttributeError
              | _ => push_list_item_primitive w (0 + 1) x options
              end)
             = Ok (push_all w [(1, list_item_text options x)])).
  { intros x Hin w. destruct (Hitem x Hin) as [(row & -> & Hrow)|Hp].
    - cbn [is_array_of_primitives]. rewrite Hrow.
      unfold push_list_item_inline. cbn [array_items].
      now rewrite (encode_inline_array_line_text None row options Hrow).
    - destruct x; try discriminate Hp; unfold push_list_item_primitive;
        rewrite encode_primitive_token_text by reflexivity; reflexivity. }
  assert (Hflat : forall w,
             push_all w (flat_map (fun x => [(1, list_item_text options x)]) values)
             = push_all w (map (fun x => (1, list_item_text options x)) values)).
  { intros w.
    assert (E : forall xs : list JsonValue,
               flat_map (fun x => [(1, list_item_text options x)]) xs
               = map (fun x => (1, list_item_text options x)) xs).
    { induction xs as [|x xs IH]; [reflexivity|].
      cbn [flat_map map app]. now rewrite IH. }
    now rewrite E. }
  assert (Hprims : is_array_of_primitives (JArr values) = false).
  { cbn [is_array_of_primitives]. apply existsb_exists in Hsome as (x & Hin & Hx).
    destruct (forallb is_json_primitive values) eqn:Hp; [|reflexivity].
    rewrite forallb_forall in Hp. specialize (Hp x Hin).
    destruct x; discriminate. }
  assert (Hobjects : is_array_of_objects (JArr values) = false).
  { apply existsb_exists in Hsome as (x & Hin & Hx).
    cbn [is_array_of_objects]. destruct values as [|v vs]; [reflexivity|].
    destruct (forallb is_json_object (v :: vs)) eqn:Hp; [|reflexivity].
    rewrite forallb_forall in Hp. specialize (Hp x Hin).
    destruct x; discriminate. }
  cbn [encode_array]. unfold select_array_form.
  destruct values as [|v vs]; [discriminate Hsome|].
  cbn [length Nat.eqb]. rewrite Hprims, Hobjects.
  unfold list_array_items. rewrite push_all_cons, <- Hflat. fold d.
  destruct (is_array_of_arrays (JArr (v :: vs))
            && forallb is_array_of_primitives (v :: vs)) eqn:Hform.
  - apply andb_true_iff in Hform as [_ Harrays].
    unfold encode_array_of_arrays_as_list_items. apply foldM_pushes.
    intros x Hin w. rewrite forallb_forall in Harrays.
    specialize (Hpush x Hin w). rewrite (Harrays x Hin) in *.
    destruct x; try discriminate (Harrays _ Hin).
    unfold push_list_item_inline in Hpush. exact Hpush.
  - cbn [encode_mixed_array_as_list_items]. apply foldM_pushes.
    intros x Hin w. specialize (Hpush x Hin w).
    destruct (Hitem x Hin) as [(row & -> & Hrow)|Hp].
    + cbn [is_array_of_primitives] in *. rewrite Hrow in *. exact Hpush.
    + destruct x; try discriminate Hp; exact Hpush.
Qed.

Lemma escape_chars_colon (s : string) :
  PyStr.contains COLON (escape_chars s) = PyStr.contains COLON s.
Proof.
  induction s as [|c s IH]; [reflexivity|].
  cbn [escape_chars PyStr.contains]. rewrite contains_app, IH. f_equal.
  unfold escape_char.
  destruct (Ascii.eqb_spec c BACKSLASH) as [->|]; [reflexivity|].
  destruct (Ascii.eqb_spec c DOUBLE_QUOTE) as [->|]; [reflexivity|].
  destruct (Ascii.eqb_spec c NEWLINE) as [->|]; [reflexivity|].
  destruct (Ascii.eqb_spec c CARRIAGE_RETURN) as [->|]; [reflexivity|].
  simpl. now rewrite orb_false_r.
Qed.

(** The token of a primitive item holds no colon. *)
Lemma list_item_token_no_colon (d : Delimiter) (item : JsonValue) :
  list_item_reads_back d item = true ->
  is_json_primitive item = true ->
  PyStr.contains COLON (token_text item d) = false.
Proof.
  intros Hback Hprim.
  destruct item as [|b|z|f|s|row|members]; try discriminate Hprim;
    try discriminate Hback; unfold token_text; cbn [encode_primitive].
  - reflexivity.
  - now destruct b.
  - apply all_chars_not_contains
      with (p := fun c => PyStr.is_digit c || Ascii.eqb c "-");
      [reflexivity|apply of_int_chars].
  - cbn [list_item_reads_back] in Hback. apply andb_true_iff in Hback as [_ Hs].
    apply negb_true_iff in Hs. unfold encode_string_literal.
    destruct (is_safe_unquoted s d); [exact Hs|].
    rewrite contains_quoted by reflexivity.
    now rewrite escape_string_chars, escape_chars_colon.
Qed.

(** The line of an array of primitives: not blank at either end, on
    one line, with a colon; without a key it starts with a bracket. *)
Lemma array_line_text_facts (prefix : option string) (row : list JsonValue)
  (options : ResolvedEncodeOptions) :
  is_valid_delimiter (enc_delimiter options) = true ->
  forallb (fun value => cell_round_trips value (enc_delimiter options)) row = true ->
  let line := array_line_text prefix row options in
  PyStr.strip line = line
  /\ line <> ""
  /\ PyStr.contains NEWLINE line = false
  /\ PyStr.contains COLON line = true
  /\ (prefix = None -> PyStr.startswith line (str1 OPEN_BRACKET) = true).
Proof.
  intros Hd Hcells line. set (d := enc_delimiter options) in *.
  pose proof (cell_round_trips_primitive _ _ Hcells) as Hprim.
  destruct (array_line_text_parts prefix row options Hprim)
    as (rest & Htext & Hrest).
  destruct (format_header_facts (Z.of_nat (length row)) prefix None d
              (enc_lengthMarker options) Hd)
    as (Hhs & Hhne & Hhnl & Hhcolon & Hhopen).
  subst line. rewrite Htext. fold d.
  set (header := format_header (Z.of_nat (length row)) prefix None d
                               (enc_lengthMarker options)) in *.
  assert (Hopen : prefix = None ->
                  PyStr.startswith (header ++ rest) (str1 OPEN_BRACKET) = true).
  { intros Hnone. specialize (Hhopen Hnone).
    destruct header as [|c r]; [discriminate Hhopen|].
    rewrite startswith_head in Hhopen. cbn [append]. now rewrite startswith_head. }
  assert (Hcolon : PyStr.contains COLON (header ++ rest) = true)
    by now rewrite contains_app, Hhcolon.
  destruct row as [|v vs].
  - subst rest. rewrite append_nil_r in *. auto.
  - destruct Hrest as (joined & Hjoined & ->).
    destruct (cells_join_facts (v :: vs) d joined Hd ltac:(discriminate)
                Hcells Hjoined) as (Hjs & Hjne & Hjnl).
    split; [now apply strip_between|]. split; [|split; [|split]]; auto.
    + destruct header; [congruence|discriminate].
    + rewrite !contains_app, Hhnl, Hjnl. fold d. now destruct (Ascii.eqb d TAB).
Qed.

(** [decode_array_from_header] on the header and the cells of a written
    line: the array comes back and the cursor stays.  For an empty array
    the look at the next line must find no list item. *)
Lemma decode_array_from_header_written (prefix : option string)
  (row : list JsonValue) (options : ResolvedEncodeOptions) (rest : string)
  (cursor : LineCursor) (base_depth : Depth)
  (decode_options : ResolvedDecodeOptions) (fuel : nat) :
  is_valid_delimiter (enc_delimiter options) = true ->
  forallb (fun value => cell_round_trips value (enc_delimiter options)) row = true ->
  match row with
  | [] => rest = ""
  | _ => exists joined,
           encode_and_join_primitives row (enc_delimiter options) = Ok joined
           /\ rest = (if Ascii.eqb (enc_delimiter options) TAB
                      then str1 TAB else " ") ++ joined
  end ->
  (forall header, row = [] ->
                  check_no_more_items header cursor (base_depth + 1) decode_options
                  = Ok tt) ->
  decode_array_from_header (S (S fuel))
    (written_header (Z.of_nat (length row)) prefix None (enc_delimiter options)
                    (enc_lengthMarker options))
    (nonempty_or_none (PyStr.strip rest)) cursor base_depth decode_options
  = Ok (row, cursor).
Proof.
  intros Hd Hcells Hrest Hnext. set (d := enc_delimiter options) in *.
  cbn [decode_array_from_header].
  destruct row as [|v vs].
  - subst rest. change (nonempty_or_none (PyStr.strip "")) with (@None string).
    cbn [has_inline_values has_fields hdr_fields written_header
         decode_list_array_from length hdr_length Z.of_nat Z.ltb Z.compare].
    rewrite andb_false_r.
    unfold finish_list_array. rewrite assert_expected_count_exact. cbn [bind].
    now rewrite Hnext.
  - destruct Hrest as (joined & Hjoined & ->).
    destruct (cells_join_facts (v :: vs) d joined Hd ltac:(discriminate) Hcells
                Hjoined) as (Hjs & Hjne & _).
    rewrite strip_separator, Hjs. unfold nonempty_or_none.
    destruct (String.eqb_spec joined "") as [|_]; [congruence|].
    unfold has_inline_values. rewrite Hjs.
    destruct (String.eqb_spec joined "") as [|_]; [congruence|].
    rewrite (decode_inline_written (v :: vs)); [reflexivity| | | |]; auto.
Qed.

Lemma list_item_text_marks (options : ResolvedEncodeOptions) (item : JsonValue) :
  String.eqb (list_item_text options item) LIST_ITEM_MARKER = false
  /\ PyStr.startswith (list_item_text options item) LIST_ITEM_PREFIX = true
  /\ forall t, list_item_text options item = LIST_ITEM_PREFIX ++ t ->
               PyStr.from (list_item_text options item) 2 = t.
Proof.
  unfold list_item_text, LIST_ITEM_PREFIX, LIST_ITEM_MARKER. cbn [append].
  split; [reflexivity|]. split.
  - rewrite !startswith_cons_same.
    now destruct (match item with JArr _ => _ | _ => _ end).
  - intros t [= <-]. reflexivity.
Qed.

Lemma list_item_text_primitive (options : ResolvedEncodeOptions)
  (item : JsonValue) :
  is_json_primitive item = true ->
  list_item_text options item
  = LIST_ITEM_PREFIX ++ token_text item (enc_delimiter options).
Proof.
  destruct item; intros H; try discriminate H; reflexivity.
Qed.

(** One list item, read by [decode_list_item]. *)
Lemma decode_list_item_written (options : ResolvedEncodeOptions)
  (item : JsonValue) (all_lines : list ParsedLine) (index : nat)
  (rest : list ParsedLine) (decode_options : ResolvedDecodeOptions)
  (fuel : nat) :
  is_valid_delimiter (enc_delimiter options) = true ->
  list_item_reads_back (enc_delimiter options) item = true ->
  skipn index all_lines = root_line (list_item_text options item) :: rest ->
  (forall l, hd_error rest = Some l -> ln_depth l = 0) ->
  decode_list_item (S (S (S fuel)))
                   {| cur_lines := all_lines; cur_index := index |} 1
                   (enc_delimiter options) decode_options
  = Ok (item, {| cur_lines := all_lines; cur_index := S index |}).
Proof.
  intros Hd Hback Hskip Hrest. set (d := enc_delimiter options) in *.
  cbn [decode_list_item]. rewrite peek_at, Hskip. cbn [hd_error].
  destruct (advance_at _ _ _ _ Hskip) as [-> Hnext].
  cbn [ln_content root_line].
  destruct (list_item_text_marks options item) as (-> & _ & Hfrom).
  destruct (list_item_cases d item Hback) as [(row & -> & Hrow)|[Hprim Htok]].
  - rewrite (Hfrom _ eq_refl).
    destruct (array_line_text_facts None row options Hd Hrow)
      as (Hs & Hne & _ & Hcolon & Hopen).
    rewrite Hs.
    destruct (String.eqb_spec (array_line_text None row options) "") as [|_];
      [congruence|].
    unfold is_array_header_after_hyphen. rewrite Hs, (Hopen eq_refl), Hcolon.
    cbn [andb].
    destruct (array_line_text_parts None row options
                (cell_round_trips_primitive _ _ Hrow)) as (tail & Htext & Htail).
    rewrite Htext. fold d.
    rewrite (parse_array_header_line_written (Z.of_nat (length row)) None None d d
               (enc_lengthMarker options) tail);
      [|lia|exact Hd|now right|reflexivity|reflexivity].
    cbn [bind].
    rewrite (decode_array_from_header_written None row options tail);
      [reflexivity|exact Hd|exact Hrow|exact Htail|].
    intros header _. unfold check_no_more_items.
    rewrite at_end_at, peek_at, Hnext.
    destruct rest as [|l rest']; [now rewrite andb_false_r|].
    cbn [hd_error]. rewrite (Hrest l eq_refl).
    now destruct (dec_strict decode_options).
  - rewrite (Hfrom _ (list_item_text_primitive options item Hprim)). fold d.
    pose proof (encode_primitive_token_text item d Hprim) as Henc.
    destruct (encode_primitive_facts item d _ Htok Henc) as (Hne & Hs & _).
    pose proof (list_item_token_no_colon d item Hback Hprim) as Hcolon.
    rewrite Hs.
    destruct (String.eqb_spec (token_text item d) "") as [|_]; [congruence|].
    unfold is_array_header_after_hyphen, is_object_first_field_after_hyphen.
    rewrite Hs, Hcolon, andb_false_r. cbn [bind].
    now rewrite (primitive_token_round_trip item d _ Htok Henc).
Qed.

(** The loop of [decode_list_array] on the lines written for the items. *)
Lemma decode_list_array_from_items (options : ResolvedEncodeOptions)
  (decode_options : ResolvedDecodeOptions) (header : ArrayHeaderInfo)
  (todo : list JsonValue) :
  is_valid_delimiter (enc_delimiter options) = true ->
  hdr_delimiter header = enc_delimiter options ->
  forallb (list_item_reads_back (enc_delimiter options)) todo = true ->
  forall (done : list JsonValue) (all_lines : list ParsedLine) (index fuel : nat),
    skipn index all_lines
    = map (fun item => root_line (list_item_text options item)) todo ->
    hdr_length header = Z.of_nat (length done + length todo) ->
    (length todo + 4 <= fuel)%nat ->
    decode_list_array_from fuel header done
      {| cur_lines := all_lines; cur_index := index |} 0 decode_options
    = Ok ((done ++ todo)%list,
          {| cur_lines := all_lines; cur_index := (index + length todo)%nat |}).
Proof.
  intros Hd Hdelim.
  induction todo as [|x xs IH];
    intros Hall done all_lines index fuel Hskip Hlen Hfuel.
  - destruct fuel as [|fuel]; [cbn [length] in Hfuel; lia|].
    cbn [decode_list_array_from]. rewrite at_end_at, Hskip.
    cbn [map negb andb length] in *. rewrite Nat.add_0_r in *.
    unfold finish_list_array. rewrite Hlen, assert_expected_count_exact.
    cbn [bind]. unfold check_no_more_items. rewrite at_end_at, Hskip.
    rewrite andb_false_r, List.app_nil_r. reflexivity.
  - cbn [forallb] in Hall. apply andb_true_iff in Hall as [Hx Hxs].
    cbn [length] in Hlen, Hfuel.
    destruct fuel as [|fuel]; [lia|].
    cbn [decode_list_array_from]. rewrite at_end_at, peek_at, Hskip.
    destruct fuel as [|[|[|fuel]]]; try lia.
    cbn [map hd_error negb andb ln_depth ln_content root_line].
    destruct (Z.ltb_spec (Z.of_nat (length done)) (hdr_length header)); [|lia].
    change (0 <? min_candidate_depth (0 + 1)) with false.
    change (in_candidate_depths (0 + 1) 0) with true. cbv iota.
    destruct (list_item_text_marks options x) as (-> & -> & _).
    rewrite Hdelim. change (0 + 1) with 1.
    rewrite (decode_list_item_written options x all_lines index _ decode_options
               fuel Hd Hx Hskip).
    2: { intros l. destruct xs; cbn [map hd_error]; [discriminate|].
         now intros [= <-]. }
    cbn [bind].
    destruct (advance_at _ _ _ _ Hskip) as [_ Hnext].
    rewrite (IH Hxs (done ++ [x])%list all_lines (S index) _ Hnext);
      [|rewrite length_app; cbn [length]; lia|lia].
    rewrite <- List.app_assoc. cbn [app length].
    now replace (S index + length xs)%nat with (index + S (length xs))%nat by lia.
Qed.

(** The content of a list-item line: not blank at either end, and on
    one line. *)
Lemma list_item_text_facts (options : ResolvedEncodeOptions) (item : JsonValue) :
  is_valid_delimiter (enc_delimiter options) = true ->
  list_item_reads_back (enc_delimiter options) item = true ->
  PyStr.strip (list_item_text options item) = list_item_text options item
  /\ list_item_text options item <> ""
  /\ PyStr.contains NEWLINE (list_item_text options item) = false.
Proof.
  intros Hd Hback. set (d := enc_delimiter options) in *.
  assert (Hbody : exists t, list_item_text options item = "-" ++ " " ++ t
                            /\ PyStr.strip t = t /\ t <> ""
                            /\ PyStr.contains NEWLINE t = false).
  { destruct (list_item_cases d item Hback) as [(row & -> & Hrow)|[Hprim Htok]].
    - destruct (array_line_text_facts None row options Hd Hrow)
        as (Hs & Hne & Hnl & _).
      eexists. split; [reflexivity|]. auto.
    - rewrite (list_item_text_primitive options item Hprim). fold d.
      destruct (encode_primitive_facts item d _ Htok
                  (encode_primitive_token_text item d Hprim))
        as (Hne & Hs & Hnl & _).
      eexists. split; [reflexivity|]. auto. }
  destruct Hbody as (t & -> & Hs & Hne & Hnl).
  split; [apply strip_between; auto; discriminate|].
  split; [discriminate|]. cbn [append PyStr.contains]. exact Hnl.
Qed.

(** A root array that holds an array, besides arrays of primitives and
    primitives, is read back from the lines written for it. *)
Lemma decode_encode_list_array (values : list JsonValue)
  (enc_options : ResolvedEncodeOptions) (dec_options : DecodeOptions)
  (text : string) :
  is_valid_delimiter (enc_delimiter enc_options) = true ->
  forallb (list_item_reads_back (enc_delimiter enc_options)) values = true ->
  existsb is_json_array values = true ->
  0 < dec_indent (resolve_decode_options dec_options) ->
  encode_value (JArr values) enc_options = Ok text ->
  decode text dec_options = Ok (JArr values).
Proof.
  intros Hd Hall Hsome Hindent Henc.
  set (d := enc_delimiter enc_options) in *.
  set (marker := enc_lengthMarker enc_options).
  set (n := Z.of_nat (length values)).
  set (header := format_header n None None d marker).
  set (texts := map (list_item_text enc_options) values).
  unfold encode_value, encode_value_with, encode_fuel in Henc.
  cbn [is_json_primitive] in Henc.
  replace (2 * json_size (JArr values) + 2)%nat
    with (S (S (2 * json_size (JArr values)))) in Henc by lia.
  rewrite encode_list_array_items in Henc by assumption.
  cbn [bind] in Henc.
  assert (Etext : text = to_string (push_all (new_writer (enc_indent enc_options))
                                             (list_array_items enc_options values)))
    by congruence.
  subst text. clear Henc.
  destruct (format_header_facts n None None d marker Hd)
    as (Hhs & Hhne & Hhnl & Hhcolon & Hhopen).
  fold header in Hhs, Hhne, Hhnl, Hhcolon, Hhopen.
  assert (Htexts : Forall (fun l => PyStr.strip l = l /\ l <> ""
                                    /\ PyStr.lstrip l = l
                                    /\ PyStr.contains NEWLINE l = false) texts).
  { subst texts. apply Forall_forall. intros l Hin.
    apply in_map_iff in Hin as (item & <- & Hin).
    rewrite forallb_forall in Hall.
    destruct (list_item_text_facts enc_options item Hd (Hall item Hin))
      as (Hs & Hne & Hnl).
    split; [exact Hs|split; [exact Hne|split; [now apply lstrip_fixed|exact Hnl]]]. }
  assert (Hlines : Forall (fun l => PyStr.strip l = l /\ l <> ""
                                    /\ PyStr.lstrip l = l
                                    /\ PyStr.contains NEWLINE l = false)
                          (header :: texts)).
  { constructor; [|exact Htexts].
    split; [exact Hhs|split; [exact Hhne|split; [now apply lstrip_fixed|exact Hhnl]]]. }
  assert (Hwritten : to_string (push_all (new_writer (enc_indent enc_options))
                                         (list_array_items enc_options values))
                     = PyStr.join (str1 NEWLINE) (header :: texts)).
  { rewrite push_all_lines.
    - unfold to_string. cbn [lines new_writer app indent_size]. f_equal.
      unfold list_array_items. fold d marker n header. cbn [map fst snd].
      f_equal. subst texts. rewrite map_map. apply map_ext. intros item.
      cbn [fst snd]. unfold written_depth.
      destruct (list_item_text_marks enc_options item) as (_ & -> & _).
      reflexivity.
    - unfold list_array_items. fold d marker n header. constructor; [exact Hhs|].
      apply Forall_forall. intros it Hin.
      apply in_map_iff in Hin as (item & <- & Hin). cbn [snd].
      rewrite forallb_forall in Hall.
      now destruct (list_item_text_facts enc_options item Hd (Hall item Hin)). }
  rewrite Hwritten.
  destruct (strip_join (str1 NEWLINE) header texts) as [Hs Hne].
  { eapply Forall_impl; [|exact Hlines]. now intros x (? & ? & _). }
  rewrite (decode_nonblank _ _ Hs Hne).
  rewrite (scan_root_lines header texts _ Hindent Hlines). cbn [bind].
  cbn [map length Nat.eqb]. unfold decode_value_from_lines.
  change (peek (new_cursor (root_line header :: map root_line texts)))
    with (Some (root_line header)).
  cbv iota.
  assert (Hroot : is_root_array_header_line (root_line header) = true).
  { unfold is_root_array_header_line, is_array_header_after_hyphen, root_line.
    cbn [ln_content]. now rewrite Hhs, (Hhopen eq_refl), Hhcolon. }
  rewrite Hroot. cbn [ln_content root_line].
  pose proof (parse_array_header_line_written n None None d DEFAULT_DELIMITER
                marker "" ltac:(subst n; lia) Hd ltac:(now left) eq_refl eq_refl)
    as Hparse.
  rewrite append_nil_r in Hparse. fold header in Hparse. rewrite Hparse.
  change (nonempty_or_none (PyStr.strip "")) with (@None string).
  cbn [bind]. unfold decode_fuel. cbn [length].
  remember (5 * S (length (map root_line texts)) + 3)%nat as fuel eqn:Hfuel.
  destruct fuel as [|fuel]; [lia|].
  cbn [decode_array_from_header has_inline_values has_fields hdr_fields
       written_header].
  destruct (advance_at (root_line header :: map root_line texts) O
              (root_line header) (map root_line texts) eq_refl) as [Hadv Hnext].
  unfold new_cursor. rewrite Hadv.
  rewrite (decode_list_array_from_items enc_options
             (resolve_decode_options dec_options)
             (written_header n None None d marker) values Hd eq_refl Hall []
             _ 1%nat fuel).
  - reflexivity.
  - rewrite Hnext. subst texts. now rewrite map_map.
  - reflexivity.
  - subst texts. rewrite !length_map in Hfuel. lia.
Qed.

(** X23: a root array that holds at least one array, and besides
    arrays of primitives -- empty or not -- only primitives, comes back
    from [decode] as it went into [encode_value]: the header, then one
    list item for each element, written by the arrays-of-arrays form or
    by the list-items form.  It holds for each of the three delimiters,
    with or without length marker, in strict mode or not, for every
    positive indent of the decoder, when the cells are ones that a cell
    gives back and the primitives are ones whose token reads back and
    holds no colon. *)
Theorem decode_inverts_encode_value_on_list_arrays :
  forall (values : list JsonValue) (enc_options : ResolvedEncodeOptions)
         (dec_options : DecodeOptions) (text : string),
    is_valid_delimiter (enc_delimiter enc_options) = true ->
    forallb (list_item_reads_back (enc_delimiter enc_options)) values = true ->
    existsb is_json_array values = true ->
    0 < dec_indent (resolve_decode_options dec_options) ->
    encode_value (JArr values) enc_options = Ok text ->
    decode text dec_options = Ok (JArr values).
Proof.
  exact decode_encode_list_array.
Qed.

(* ------------------------------------------------------------------ *)
(** ** Normalisation of values that are JSON already *)

Lemma normalize_host_value (size : nat) :
  forall value : JsonValue,
    (json_size value <= size)%nat ->
    is_normal value = true ->
    normalize_value (host_value value) = value.
Proof.
  induction size as [|size IH]; intros value Hsize Hnormal.
  - pose proof (json_size_pos value). lia.
  - destruct value as [|b|z|f|s|items|members]; try reflexivity.
    + cbn [host_value normalize_value]. cbn [is_normal] in Hnormal.
      apply andb_true_iff in Hnormal as [H1 H2].
      apply negb_true_iff in H1, H2. now rewrite H1, H2.
    + cbn [host_value normalize_value]. f_equal. rewrite map_map.
      rewrite <- (map_id items) at 2. apply map_ext_in. intros item Hin.
      apply IH.
      * pose proof (in_items_size item items Hin).
        change (json_size (JArr items)) with (S (items_size items)) in Hsize. lia.
      * cbn [is_normal] in Hnormal. rewrite forallb_forall in Hnormal. auto.
    + cbn [is_normal] in Hnormal. apply andb_true_iff in Hnormal as [Hdist Hall].
      cbn [host_value]. rewrite normalize_dict_assigns, map_map. f_equal.
      assert (E : map (fun km : string * JsonValue =>
                         normalized_item (KStr (fst km), host_value (snd km)))
                      members
                  = members).
      { rewrite <- (map_id members) at 2. apply map_ext_in. intros [k v] Hin.
        unfold normalized_item. cbn [fst snd key_str]. f_equal. apply IH.
        - pose proof (in_members_size k v members Hin).
          change (json_size (JObj members)) with (S (members_size members))
            in Hsize.
          lia.
        - rewrite forallb_forall in Hall. exact (Hall (k, v) Hin). }
      rewrite E. rewrite assign_all_fresh; [reflexivity|].
      cbn [dict_keys map app]. now apply distinct_keys_nodup.
Qed.

(** X24: normalisation leaves a value that is JSON already as it is:
    a value built from None, booleans, integers of any size, strings,
    finite floats other than -0.0, lists, and dicts with distinct string
    keys is normalised to the JSON value it stands for, at any depth of
    nesting. *)
Theorem normalize_value_keeps_json_values :
  forall value : JsonValue,
    is_normal value = true ->
    normalize_value (host_value value) = value.
Proof.
  intros value. apply (normalize_host_value (json_size value)). lia.
Qed.

(* ------------------------------------------------------------------ *)
(** ** List arrays with objects *)

Lemma dict_get_member (k : string) (v : JsonValue) (obj : JsonObject) :
  NoDup (dict_keys obj) -> In (k, v) obj -> dict_get k obj = Some v.
Proof.
  induction obj as [|[k' v'] obj IH]; intros Hnd Hin; [contradiction|].
  cbn [dict_keys map fst] in Hnd. inversion Hnd as [|? ? Hfresh Hnd']; subst.
  cbn [dict_get]. destruct Hin as [[= -> ->]|Hin].
  - now rewrite String.eqb_refl.
  - destruct (String.eqb_spec k' k) as [->|_]; [|now apply IH].
    exfalso. apply Hfresh. apply in_map_iff. now exists (k, v).
Qed.

(** The loop over the other keys of a list-item object is the loop over
    its other members. *)
Lemma foldM_extra_keys (obj : JsonObject)
  (g : string -> JsonValue -> LineWriter -> result LineWriter)
  (others : JsonObject) :
  (forall k v, In (k, v) others -> dict_get k obj = Some v) ->
  forall w : LineWriter,
    foldM (fun w extra_key =>
             let* member :=
               match dict_get extra_key obj with
               | Some v => Ok v
               | None => Raise (KeyError extra_key)
               end in
             g extra_key member w)
          (dict_keys others) w
    = foldM (fun w km => g (fst km) (snd km) w) others w.
Proof.
  induction others as [|[k v] others IH]; intros Hget w; [reflexivity|].
  cbn [dict_keys map fst foldM snd].
  rewrite (Hget k v (or_introl eq_refl)). cbn [bind].
  destruct (g k v w) as [w'| |]; cbn [bind]; try reflexivity.
  apply IH. intros k' v' Hin. apply Hget. now right.
Qed.

Lemma list_member_cases (d : Delimiter) (item : JsonValue) :
  list_member_reads_back d item = true ->
  item = JObj []
  \/ (exists key value others,
         item = JObj ((key, value) :: others)
         /\ NoDup (key :: dict_keys others)
         /\ is_json_primitive value = true
         /\ binding_reads_back key value d = true
         /\ forallb (fun km => member_reads_back d (fst km) (snd km)) others
            = true)
  \/ ((forall members, item <> JObj members)
      /\ list_item_reads_back d item = true).
Proof.
  intros H.
  destruct item as [|b|z|f|s|row|[|[key value] others]];
    try (right; right; split; [discriminate|exact H]).
  - now left.
  - right. left. exists key, value, others.
    cbn [list_member_reads_back] in H.
    apply andb_true_iff in H as [H Hothers]. apply andb_true_iff in H as [Hd Hb].
    split; [reflexivity|]. split; [now apply distinct_keys_nodup|].
    split; [|now split].
    unfold binding_reads_back in Hb. apply andb_true_iff in Hb as [Ht _].
    now apply token_reads_back_primitive with (d := d).
Qed.

(** [encode_object_as_list_item] on an object whose first member is a
    primitive. *)
Lemma encode_object_as_list_item_primitive_first (fuel : nat) (key : string)
  (value : JsonValue) (others : JsonObject) (writer : LineWriter)
  (depth : Depth) (options : ResolvedEncodeOptions) :
  is_json_primitive value = true ->
  encode_object_as_list_item (S fuel) ((key, value) :: others) writer depth
                             options
  = let* encoded := encode_primitive value (enc_delimiter options) in
    foldM (fun w extra_key =>
             let* member :=
               match dict_get extra_key ((key, value) :: others) with
               | Some v => Ok v
               | None => Raise (KeyError extra_key)
               end in
             encode_key_value_pair fuel extra_key member w (depth + 1) options)
          (dict_keys others)
          (push writer depth
                (LIST_ITEM_PREFIX ++ encode_key key ++ ": " ++ encoded)).
Proof.
  destruct value; intros H; try discriminate H;
    cbn [encode_object_as_list_item dict_keys map fst];
    unfold dict_get at 1; rewrite String.eqb_refl; reflexivity.
Qed.

(** What [encode_array] pushes for a root array in list-items form,
    whatever its primitives are. *)
Lemma encode_list_document_pushes (values : list JsonValue) (fuel : nat)
  (writer : LineWriter) (options : ResolvedEncodeOptions) :
  is_valid_delimiter (enc_delimiter options) = true ->
  Forall (fun item => is_json_primitive item = true
                      \/ list_member_reads_back (enc_delimiter options) item
                         = true) values ->
  select_array_form values = FormListItems ->
  (2 * json_size (JArr values) + 1 <= fuel)%nat ->
  encode_array fuel None values writer 0 options
  = Ok (push_all writer (list_document_items options values)).
Proof.
  intros Hd Hall Hform Hfuel. set (d := enc_delimiter options) in *.
  pose proof (json_size_pos (JArr values)) as Hpos.
  destruct fuel as [|[|fuel]]; try lia.
  cbn [encode_array]. rewrite Hform. cbn [encode_mixed_array_as_list_items].
  unfold list_document_items. rewrite push_all_cons. fold d.
  apply foldM_pushes. intros item Hin w.
  rewrite Forall_forall in Hall.
  pose proof (in_items_size item values Hin) as Hsize.
  change (json_size (JArr values)) with (S (items_size values)) in Hfuel.
  change (0 + 1) with 1.
  destruct (Hall item Hin) as [Hp|Hback].
  { destruct item as [| | | | | |members]; try discriminate Hp;
      unfold push_list_item_primitive;
      rewrite encode_primitive_token_text by reflexivity; reflexivity. }
  destruct (list_member_cases d item Hback)
    as [->|[(key & value & others & -> & Hnd & Hprim & Hback' & Hothers)
           |[Hshape Hitem]]].
  - destruct fuel as [|fuel]; [cbn [json_size fold_right] in Hsize; lia|].
    reflexivity.
  - change (json_size (JObj ((key, value) :: others)))
      with (S (json_size value + members_size others)) in Hsize.
    pose proof (json_size_pos value) as Hvpos.
    destruct fuel as [|fuel]; [lia|].
    rewrite (encode_object_as_list_item_primitive_first fuel key value others
               w 1 options Hprim).
    fold d. rewrite (encode_primitive_token_text value d Hprim). cbn [bind].
    rewrite (foldM_extra_keys ((key, value) :: others)
               (fun k m w => encode_key_value_pair fuel k m w (1 + 1) options)).
    + cbn [list_item_items]. rewrite push_all_cons. fold d.
      unfold object_items. apply foldM_pushes.
      intros [k v] Hkv w'. cbn [fst snd]. change (1 + 1) with 2.
      apply (proj2 (encoders_write_items options fuel Hd)).
      * pose proof (in_members_size k v others Hkv). lia.
      * rewrite forallb_forall in Hothers. exact (Hothers (k, v) Hkv).
    + intros k v Hkv. apply dict_get_member; [exact Hnd|now right].
  - assert (Hcase : (exists row, item = JArr row
                                 /\ forallb is_json_primitive row = true)
                    \/ is_json_primitive item = true).
    { destruct (list_item_cases d item Hitem) as [(row & -> & Hrow)|[Hp _]];
        [left|now right].
      exists row. split; [reflexivity|].
      now apply cell_round_trips_primitive with (d := d). }
    destruct Hcase as [(row & -> & Hrow)|Hp].
    + cbn [is_array_of_primitives list_item_items]. rewrite Hrow.
      unfold push_list_item_inline. cbn [array_items].
      now rewrite (encode_inline_array_line_text None row options Hrow).
    + destruct item as [| | | | | |members]; try discriminate Hp;
        unfold push_list_item_primitive;
        rewrite encode_primitive_token_text by reflexivity; reflexivity.
Qed.

Lemma encode_list_document_items (values : list JsonValue) (fuel : nat)
  (writer : LineWriter) (options : ResolvedEncodeOptions) :
  is_valid_delimiter (enc_delimiter options) = true ->
  forallb (list_member_reads_back (enc_delimiter options)) values = true ->
  select_array_form values = FormListItems ->
  (2 * json_size (JArr values) + 1 <= fuel)%nat ->
  encode_array fuel None values writer 0 options
  = Ok (push_all writer (list_document_items options values)).
Proof.
  intros Hd Hall. apply encode_list_document_pushes; [exact Hd|].
  apply Forall_forall. intros item Hin. right.
  rewrite forallb_forall in Hall. exact (Hall item Hin).
Qed.

(** A list item pushed a level below the root is read at the root. *)
Lemma scanned_list_item_line (indent_size : Z) (content : string) :
  PyStr.startswith content LIST_ITEM_PREFIX || String.eqb content LIST_ITEM_MARKER
  = true ->
  scanned_line indent_size (1, content) = root_line content.
Proof.
  intros H. unfold scanned_line, written_depth, root_line. cbn [fst snd].
  rewrite H. reflexivity.
Qed.

Lemma list_item_items_head (options : ResolvedEncodeOptions) (item : JsonValue) :
  exists (content : string) (rest_items : list (Depth * string)),
    list_item_items options item = (1, content) :: rest_items
    /\ PyStr.startswith content LIST_ITEM_PREFIX
       || String.eqb content LIST_ITEM_MARKER = true.
Proof.
  assert (Hprefix : forall t, PyStr.startswith (LIST_ITEM_PREFIX ++ t)
                                               LIST_ITEM_PREFIX = true).
  { intros t. unfold LIST_ITEM_PREFIX. cbn [append].
    rewrite !startswith_cons_same. now destruct t. }
  assert (Htext : forall x : JsonValue,
             PyStr.startswith (list_item_text options x) LIST_ITEM_PREFIX
             || String.eqb (list_item_text options x) LIST_ITEM_MARKER = true).
  { intros x. unfold list_item_text. now rewrite Hprefix. }
  destruct item as [|b|z|f|s|row|[|[key value] others]];
    do 2 eexists; (split; [reflexivity|]); try apply Htext.
  - reflexivity.
  - now rewrite Hprefix.
Qed.

(** The first line of the lines of list items lies at the root. *)
Lemma list_blocks_head_depth (indent_size : Z) (options : ResolvedEncodeOptions)
  (items : list JsonValue) (l : ParsedLine) :
  hd_error (map (scanned_line indent_size)
                (flat_map (list_item_items options) items)) = Some l ->
  ln_depth l = 0.
Proof.
  destruct items as [|x xs]; [discriminate|]. cbn [flat_map].
  destruct (list_item_items_head options x) as (c & rest & -> & Hc).
  cbn [app map hd_error]. rewrite (scanned_list_item_line _ _ Hc).
  now intros [= <-].
Qed.

(** The loop of [decode_object_from_list_item] on the lines written
    for the other members of a list-item object. *)
Lemma decode_item_fields_from_members (indent_size : Z)
  (options : ResolvedEncodeOptions) (decode_options : ResolvedDecodeOptions)
  (depth : Depth) (members : JsonObject) :
  Forall (fun km => member_decodes indent_size options decode_options depth
                                   (fst km) (snd km)) members ->
  forall (all_lines : list ParsedLine) (index : nat) (post : list ParsedLine)
         (obj : JsonObject) (fuel : nat),
    skipn index all_lines
    = (map (scanned_line indent_size) (object_items options depth members)
       ++ post)%list ->
    ends_block (depth - 1) post ->
    (2 * length (object_items options depth members) + 2 <= fuel)%nat ->
    decode_item_fields_from fuel obj
      {| cur_lines := all_lines; cur_index := index |} depth decode_options
    = Ok (assign_all members obj,
          {| cur_lines := all_lines;
             cur_index := (index + length (object_items options depth members))%nat |}).
Proof.
  induction 1 as [|[k v] members Hm Hrest IH];
    intros all_lines index post obj fuel Hskip Hpost Hfuel.
  - cbn [object_items flat_map map app length] in *.
    destruct fuel as [|fuel]; [lia|].
    cbn [decode_item_fields_from]. rewrite at_end_at, peek_at, Hskip, Nat.add_0_r.
    destruct post as [|l post']; [reflexivity|]. cbn [hd_error].
    destruct Hpost as (Hdepth & _).
    destruct (Z.ltb_spec (ln_depth l) depth); [reflexivity|lia].
  - pose proof (ends_block_members indent_size options decode_options depth members
                  post Hrest Hpost) as Hafter.
    destruct Hm as (tail & rest_items & Hitems & Hdecode). cbn [fst snd] in *.
    unfold object_items in *. cbn [flat_map fst snd] in *. rewrite Hitems in *.
    cbn [app map length] in Hskip, Hfuel |- *.
    rewrite map_app, <- List.app_assoc in Hskip. rewrite length_app in *.
    destruct fuel as [|fuel]; [lia|]. cbn [decode_item_fields_from].
    rewrite at_end_at, peek_at, Hskip. cbn [hd_error].
    destruct (scanned_key_line indent_size depth k tail) as (Hd & Hc & Hnp & _).
    rewrite Hd, Z.ltb_irrefl, Z.eqb_refl, Hnp, Hc. cbn [negb andb].
    destruct (advance_at _ _ _ _ Hskip) as [-> Hnext].
    rewrite (Hdecode all_lines (S index) _ fuel Hnext Hafter) by lia.
    cbn [bind].
    rewrite (IH all_lines (S index + length rest_items)%nat post _ fuel);
      [|rewrite <- (length_map (scanned_line indent_size));
        now apply skipn_block|exact Hpost|lia].
    unfold assign_all. cbn [fold_left fst snd].
    do 3 f_equal. lia.
Qed.

(** A list item that is an object whose first member is a primitive,
    read by [decode_list_item]. *)
Lemma decode_list_item_object (indent_size : Z) (options : ResolvedEncodeOptions)
  (decode_options : ResolvedDecodeOptions) (key : string) (value : JsonValue)
  (others : JsonObject) (all_lines : list ParsedLine) (index : nat)
  (after : list ParsedLine) (fuel : nat) :
  is_valid_delimiter (enc_delimiter options) = true ->
  NoDup (key :: dict_keys others) ->
  is_json_primitive value = true ->
  binding_reads_back key value (enc_delimiter options) = true ->
  forallb (fun km => member_reads_back (enc_delimiter options) (fst km) (snd km))
          others = true ->
  skipn index all_lines
  = root_line (LIST_ITEM_PREFIX
               ++ binding_text key (token_text value (enc_delimiter options)))
    :: (map (scanned_line indent_size) (object_items options 2 others) ++ after) ->
  ends_block 1 after ->
  (2 * length (object_items options 2%Z others) + 5 <= fuel)%nat ->
  decode_list_item fuel {| cur_lines := all_lines; cur_index := index |} 1
                   (enc_delimiter options) decode_options
  = Ok (JObj ((key, value) :: others),
        {| cur_lines := all_lines;
           cur_index :=
             (index + S (length (object_items options 2%Z others)))%nat |}).
Proof.
  intros Hd Hnd Hprim Hback Hothers Hskip Hafter Hfuel.
  set (d := enc_delimiter options) in *.
  set (t := token_text value d) in *.
  pose proof (encode_primitive_token_text value d Hprim) as Henc. fold t in Henc.
  assert (Htok : token_reads_back value d = true).
  { unfold binding_reads_back in Hback. now apply andb_true_iff in Hback as [? _]. }
  destruct (binding_text_facts key value d t Htok Henc) as (_ & _ & Hs & Hne & _).
  pose proof (binding_text_binds key value d t Hback Henc) as (_ & Hh & He).
  cbn [ln_content root_line fst snd] in Hh, He.
  destruct fuel as [|[|fuel]]; try lia.
  cbn [decode_list_item]. rewrite peek_at, Hskip. cbn [hd_error].
  destruct (advance_at _ _ _ _ Hskip) as [-> Hnext].
  cbn [ln_content root_line].
  change (String.eqb (LIST_ITEM_PREFIX ++ binding_text key t) LIST_ITEM_MARKER)
    with false.
  cbv iota.
  change (PyStr.from (LIST_ITEM_PREFIX ++ binding_text key t) 2)
    with (binding_text key t).
  rewrite Hs.
  destruct (String.eqb_spec (binding_text key t) "") as [|_]; [congruence|].
  assert (Hnot_header : is_array_header_after_hyphen (binding_text key t) = false).
  { unfold is_array_header_after_hyphen. rewrite Hs.
    destruct (encode_key_head key) as (c & r & Hkey & _ & _ & Hbr).
    unfold binding_text. rewrite Hkey. cbn [append].
    rewrite startswith_head. unfold OPEN_BRACKET. now rewrite Hbr. }
  rewrite Hnot_header. cbn [bind].
  assert (Hfield : is_object_first_field_after_hyphen (binding_text key t) = true).
  { unfold is_object_first_field_after_hyphen, binding_text.
    rewrite contains_app. cbn [append PyStr.contains].
    now rewrite Ascii.eqb_refl, orb_true_r. }
  rewrite Hfield. cbn [decode_object_from_list_item ln_content root_line].
  change (PyStr.from (LIST_ITEM_PREFIX ++ binding_text key t) 2)
    with (binding_text key t).
  assert (Hline : binds_primitive 1
                    {| ln_raw := ""; ln_depth := 1; ln_indent := 0;
                       ln_content := binding_text key t |} (key, value)).
  { split; [reflexivity|]. split; [exact Hh|exact He]. }
  rewrite (decode_key_value_primitive fuel 1 _ (key, value) _ decode_options
             Hline ltac:(lia)
           : decode_key_value fuel (binding_text key t) _ 1 decode_options = _).
  cbn [bind fst snd]. change (1 + 1) with 2.
  assert (Hdecodes : Forall (fun km => member_decodes indent_size options
                                         decode_options 2 (fst km) (snd km))
                            others).
  { apply Forall_forall. intros [k v] Hin. cbn [fst snd].
    apply (members_decode indent_size options decode_options Hd (json_size v));
      [lia|].
    rewrite forallb_forall in Hothers. exact (Hothers (k, v) Hin). }
  rewrite (decode_item_fields_from_members indent_size options decode_options 2
             others Hdecodes all_lines (S index) after [(key, value)] fuel Hnext);
    [|now change (2 - 1) with 1|lia].
  cbn [bind]. rewrite assign_all_fresh by exact Hnd. cbn [app].
  do 3 f_equal. lia.
Qed.

(** One turn of the loop of [decode_list_array] on the lines written
    for an item of a root array. *)
Lemma decode_list_array_from_step (indent_size : Z)
  (options : ResolvedEncodeOptions) (decode_options : ResolvedDecodeOptions)
  (header : ArrayHeaderInfo) (x : JsonValue) (done : list JsonValue)
  (all_lines post : list ParsedLine) (index fuel : nat) :
  is_valid_delimiter (enc_delimiter options) = true ->
  hdr_delimiter header = enc_delimiter options ->
  list_member_reads_back (enc_delimiter options) x = true ->
  skipn index all_lines
  = (map (scanned_line indent_size) (list_item_items options x) ++ post)%list ->
  (forall l, hd_error post = Some l -> ln_depth l = 0) ->
  Z.of_nat (length done) < hdr_length header ->
  (2 * length (list_item_items options x) + 5 <= fuel)%nat ->
  decode_list_array_from (S fuel) header done
    {| cur_lines := all_lines; cur_index := index |} 0 decode_options
  = decode_list_array_from fuel header (done ++ [x])%list
      {| cur_lines := all_lines;
         cur_index := (index + length (list_item_items options x))%nat |}
      0 decode_options.
Proof.
  intros Hd Hdelim Hx Hskip Hrest_depth Hlen Hfuel.
  cbn [decode_list_array_from]. rewrite at_end_at, peek_at.
  destruct (Z.ltb_spec (Z.of_nat (length done)) (hdr_length header)); [|lia].
  rewrite Hdelim.
  destruct (list_member_cases _ x Hx)
    as [->|[(key & value & others & -> & Hnd & Hprim & Hback & Hothers)
           |[Hshape Hitem]]].
  - cbn [list_item_items map app length] in Hskip, Hfuel |- *.
    rewrite (scanned_list_item_line indent_size LIST_ITEM_MARKER eq_refl)
      in Hskip.
    rewrite Hskip.
    cbn [hd_error negb andb ln_depth ln_content root_line].
    change (0 <? min_candidate_depth (0 + 1)) with false.
    change (in_candidate_depths (0 + 1) 0) with true. cbv iota.
    change (String.eqb LIST_ITEM_MARKER LIST_ITEM_MARKER) with true. cbv iota.
    destruct (advance_at _ _ _ _ Hskip) as [-> Hnext].
    now replace (index + 1)%nat with (S index) by lia.
  - cbn [list_item_items map app length] in Hskip, Hfuel |- *.
    set (content := LIST_ITEM_PREFIX
                    ++ binding_text key
                         (token_text value (enc_delimiter options))) in *.
    assert (Hcontent : PyStr.startswith content LIST_ITEM_PREFIX
                       || String.eqb content LIST_ITEM_MARKER = true).
    { destruct (list_item_items_head options (JObj ((key, value) :: others)))
        as (c & r & E & Hc).
      cbn [list_item_items] in E. injection E as <- _. exact Hc. }
    rewrite (scanned_list_item_line indent_size content Hcontent) in Hskip.
    rewrite Hskip.
    cbn [hd_error negb andb ln_depth ln_content root_line].
    change (0 <? min_candidate_depth (0 + 1)) with false.
    change (in_candidate_depths (0 + 1) 0) with true. cbv iota.
    change (String.eqb content LIST_ITEM_MARKER) with false.
    rewrite orb_false_r in Hcontent. rewrite Hcontent. cbv iota.
    change (0 + 1) with 1.
    rewrite (decode_list_item_object indent_size options decode_options key value
               others all_lines index post fuel Hd Hnd Hprim Hback Hothers Hskip).
    2: { destruct post as [|l ls]; [exact I|].
         cbn [ends_block]. rewrite (Hrest_depth l eq_refl).
         split; [lia|discriminate]. }
    2: lia.
    reflexivity.
  - assert (Hitems : list_item_items options x = [(1, list_item_text options x)]).
    { destruct x as [| | | | | |members]; try reflexivity.
      now elim (Hshape members). }
    rewrite Hitems in *. cbn [map app length] in Hskip, Hfuel |- *.
    destruct (list_item_text_marks options x) as (Hm & Hp & _).
    rewrite (scanned_list_item_line indent_size (list_item_text options x))
      in Hskip by now rewrite Hp.
    rewrite Hskip.
    cbn [hd_error negb andb ln_depth ln_content root_line].
    change (0 <? min_candidate_depth (0 + 1)) with false.
    change (in_candidate_depths (0 + 1) 0) with true. cbv iota.
    rewrite Hm, Hp. change (0 + 1) with 1.
    destruct fuel as [|[|[|fuel]]]; try lia.
    rewrite (decode_list_item_written options x all_lines index _ decode_options
               fuel Hd Hitem Hskip Hrest_depth).
    now replace (index + 1)%nat with (S index) by lia.
Qed.

(** The loop of [decode_list_array] on the lines written for the items
    of a root array, objects included. *)
Lemma decode_list_array_from_blocks (indent_size : Z)
  (options : ResolvedEncodeOptions) (decode_options : ResolvedDecodeOptions)
  (header : ArrayHeaderInfo) (todo : list JsonValue) :
  is_valid_delimiter (enc_delimiter options) = true ->
  hdr_delimiter header = enc_delimiter options ->
  forallb (list_member_reads_back (enc_delimiter options)) todo = true ->
  forall (done : list JsonValue) (all_lines : list ParsedLine) (index fuel : nat),
    skipn index all_lines
    = map (scanned_line indent_size) (flat_map (list_item_items options) todo) ->
    hdr_length header = Z.of_nat (length done + length todo) ->
    (2 * length (flat_map (list_item_items options) todo) + 6 <= fuel)%nat ->
    decode_list_array_from fuel header done
      {| cur_lines := all_lines; cur_index := index |} 0 decode_options
    = Ok ((done ++ todo)%list,
          {| cur_lines := all_lines;
             cur_index :=
               (index + length (flat_map (list_item_items options) todo))%nat |}).
Proof.
  intros Hd Hdelim.
  induction todo as [|x xs IH];
    intros Hall done all_lines index fuel Hskip Hlen Hfuel.
  - destruct fuel as [|fuel]; [cbn [length flat_map] in Hfuel; lia|].
    cbn [decode_list_array_from]. rewrite at_end_at, Hskip.
    cbn [flat_map map negb andb length] in *. rewrite Nat.add_0_r in *.
    unfold finish_list_array. rewrite Hlen, assert_expected_count_exact.
    cbn [bind]. unfold check_no_more_items. rewrite at_end_at, Hskip.
    rewrite andb_false_r, List.app_nil_r. reflexivity.
  - cbn [forallb] in Hall. apply andb_true_iff in Hall as [Hx Hxs].
    cbn [length] in Hlen. cbn [flat_map] in Hskip, Hfuel |- *.
    rewrite map_app in Hskip. rewrite length_app in Hfuel |- *.
    destruct (list_item_items_head options x) as (c & r & Hhead & _).
    assert (Hone : (1 <= length (list_item_items options x))%nat)
      by (rewrite Hhead; cbn [length]; lia).
    destruct fuel as [|fuel]; [lia|].
    rewrite (decode_list_array_from_step indent_size options decode_options
               header x done all_lines _ index fuel Hd Hdelim Hx Hskip);
      [|intros l; apply list_blocks_head_depth|lia|lia].
    rewrite (IH Hxs (done ++ [x])%list all_lines
               (index + length (list_item_items options x))%nat fuel).
    + rewrite <- List.app_assoc. cbn [app]. do 3 f_equal. lia.
    + rewrite <- (length_map (scanned_line indent_size)).
      now apply skipn_block.
    + rewrite length_app. cbn [length]. lia.
    + lia.
Qed.

(** The lines written for an item of a list array: not blank at either
    end, each on one line. *)
Lemma list_item_items_facts (options : ResolvedEncodeOptions) (item : JsonValue) :
  is_valid_delimiter (enc_delimiter options) = true ->
  list_member_reads_back (enc_delimiter options) item = true ->
  Forall (fun it => 0 <= fst it
                    /\ PyStr.strip (snd it) = snd it
                    /\ snd it <> ""
                    /\ PyStr.contains NEWLINE (snd it) = false)
         (list_item_items options item).
Proof.
  intros Hd Hitem. set (d := enc_delimiter options) in *.
  destruct (list_member_cases d item Hitem)
    as [->|[(key & value & others & -> & Hnd & Hprim & Hback & Hothers)
           |[Hshape Hback]]].
  - constructor; [|constructor]. cbn [fst snd].
    repeat split; try reflexivity; try lia. discriminate.
  - cbn [list_item_items]. fold d. constructor.
    + cbn [fst snd].
      assert (Htok : token_reads_back value d = true).
      { unfold binding_reads_back in Hback.
        now apply andb_true_iff in Hback as [? _]. }
      destruct (binding_text_facts key value d _ Htok
                  (encode_primitive_token_text value d Hprim))
        as (_ & _ & Hs & Hne & Hnl).
      split; [lia|]. split; [|split; [discriminate|exact Hnl]].
      apply (strip_between "-" " "); auto; discriminate.
    + unfold object_items. apply Forall_flat_map, Forall_forall.
      intros [k v] Hin. cbn [fst snd].
      apply (member_items_facts options Hd (json_size v)); [lia| |lia].
      rewrite forallb_forall in Hothers. exact (Hothers (k, v) Hin).
  - assert (Hitems : list_item_items options item
                     = [(1, list_item_text options item)]).
    { destruct item as [| | | | | |members]; try reflexivity.
      now elim (Hshape members). }
    rewrite Hitems. constructor; [|constructor]. cbn [fst snd].
    destruct (list_item_text_facts options item Hd Hback) as (Hs & Hne & Hnl).
    repeat split; auto. lia.
Qed.

(** [decode] on the lines written for a root array in list-items form
    comes down to the loop of [decode_list_array] on the lines below the
    header. *)
Lemma decode_list_document_runs (values : list JsonValue)
  (enc_options : ResolvedEncodeOptions) (dec_options : DecodeOptions) :
  is_valid_delimiter (enc_delimiter enc_options) = true ->
  0 < enc_indent enc_options ->
  dec_indent (resolve_decode_options dec_options) = enc_indent enc_options ->
  Forall (fun it => 0 <= fst it
                    /\ PyStr.strip (snd it) = snd it
                    /\ snd it <> ""
                    /\ PyStr.contains NEWLINE (snd it) = false)
         (flat_map (list_item_items enc_options) values) ->
  exists (fuel : nat) (all_lines : list ParsedLine),
    (2 * length (flat_map (list_item_items enc_options) values) + 6 <= fuel)%nat
    /\ skipn 1 all_lines
       = map (scanned_line (enc_indent enc_options))
             (flat_map (list_item_items enc_options) values)
    /\ decode (to_string (push_all (new_writer (enc_indent enc_options))
                                   (list_document_items enc_options values)))
              dec_options
       = match decode_list_array_from fuel
                 (written_header (Z.of_nat (length values)) None None
                                 (enc_delimiter enc_options)
                                 (enc_lengthMarker enc_options))
                 [] {| cur_lines := all_lines; cur_index := 1 |} 0
                 (resolve_decode_options dec_options) with
         | Ok (items, _) => Ok (JArr items)
         | Raise e => Raise e
         | OutOfFuel => OutOfFuel
         end.
Proof.
  intros Hd Hindent Hsame Hitems.
  set (size := enc_indent enc_options) in *.
  set (resolved := resolve_decode_options dec_options) in *.
  destruct (format_header_facts (Z.of_nat (length values)) None None
              (enc_delimiter enc_options) (enc_lengthMarker enc_options) Hd)
    as (Hhs & Hhne & Hhnl & Hhcolon & Hhopen).
  specialize (Hhopen eq_refl).
  unfold list_document_items in *.
  remember (format_header (Z.of_nat (length values)) None None
                          (enc_delimiter enc_options)
                          (enc_lengthMarker enc_options)) as header eqn:Hheader.
  assert (Hfacts : Forall (fun it => 0 <= fst it
                                     /\ PyStr.strip (snd it) = snd it
                                     /\ snd it <> ""
                                     /\ PyStr.contains NEWLINE (snd it) = false)
                          ((0, header)
                           :: flat_map (list_item_items enc_options) values)).
  { constructor; [cbn [fst snd]; repeat split; auto; lia|exact Hitems]. }
  pose proof (written_text_scans size
                ((0, header) :: flat_map (list_item_items enc_options) values)
                Hindent ltac:(discriminate) Hfacts) as Hscan.
  assert (Hshape : exists r, header = String "[" r).
  { destruct header as [|c r]; [discriminate Hhopen|].
    rewrite startswith_head in Hhopen. apply Ascii.eqb_eq in Hhopen.
    subst c. now exists r. }
  destruct Hshape as (r & Hshape).
  assert (Htext : exists r',
             to_string (push_all (new_writer size)
                                 ((0, header)
                                  :: flat_map (list_item_items enc_options) values))
             = String "[" r').
  { rewrite push_all_lines
      by (eapply Forall_impl; [|exact Hfacts]; now intros item (_ & ? & _)).
    unfold to_string. cbn [lines new_writer app indent_size map fst snd].
    unfold written_depth at 1.
    cbn [Z.ltb Z.compare andb Z.mul Z.to_nat PyStr.spaces append].
    rewrite Hshape.
    match goal with
    | |- context [map ?f ?l] => destruct (map f l)
    end; cbn [PyStr.join append]; eauto. }
  destruct Htext as (r' & Htext). rewrite Htext in Hscan |- *.
  rewrite (decode_started "[" r' dec_options eq_refl). fold resolved.
  rewrite Hsame, Hscan. cbn [bind map length Nat.eqb].
  change (scanned_line size (0, header)) with (root_line header).
  unfold decode_value_from_lines.
  match goal with
  | |- context [peek (new_cursor (root_line header :: ?ls))] =>
      change (peek (new_cursor (root_line header :: ls)))
        with (Some (root_line header))
  end.
  cbv iota.
  assert (Hroot : is_root_array_header_line (root_line header) = true).
  { unfold is_root_array_header_line, is_array_header_after_hyphen, root_line.
    cbn [ln_content]. now rewrite Hhs, Hhopen, Hhcolon. }
  rewrite Hroot. cbn [ln_content root_line].
  pose proof (parse_array_header_line_written (Z.of_nat (length values)) None None
                (enc_delimiter enc_options) DEFAULT_DELIMITER
                (enc_lengthMarker enc_options) "" ltac:(lia) Hd ltac:(now left)
                eq_refl eq_refl) as Hparse.
  rewrite append_nil_r, <- Hheader in Hparse. rewrite Hparse.
  change (nonempty_or_none (PyStr.strip "")) with (@None string).
  cbn [bind]. unfold decode_fuel. cbn [length].
  match goal with
  | |- context [(5 * S ?len + 3)%nat] =>
      remember (5 * S len + 3)%nat as fuel eqn:Hfuel
  end.
  destruct fuel as [|fuel]; [lia|].
  cbn [decode_array_from_header has_inline_values has_fields hdr_fields
       written_header].
  match goal with
  | |- context [advance (new_cursor (root_line header :: ?ls))] =>
      destruct (advance_at (root_line header :: ls) O (root_line header) ls
                           eq_refl) as [Hadv Hnext]
  end.
  unfold new_cursor. rewrite Hadv.
  exists fuel, (root_line header
                :: map (scanned_line size)
                       (flat_map (list_item_items enc_options) values)).
  split; [rewrite length_map in Hfuel; lia|]. split; [reflexivity|].
  match goal with
  | |- context [decode_list_array_from ?f ?h ?d ?c ?b ?o] =>
      destruct (decode_list_array_from f h d c b o) as [[items c']| |]
  end; reflexivity.
Qed.

(** A root array in list-items form, objects included, is read back
    from the lines written for it. *)
Lemma decode_encode_list_document (values : list JsonValue)
  (enc_options : ResolvedEncodeOptions) (dec_options : DecodeOptions)
  (text : string) :
  is_valid_delimiter (enc_delimiter enc_options) = true ->
  forallb (list_member_reads_back (enc_delimiter enc_options)) values = true ->
  select_array_form values = FormListItems ->
  0 < enc_indent enc_options ->
  dec_indent (resolve_decode_options dec_options) = enc_indent enc_options ->
  encode_value (JArr values) enc_options = Ok text ->
  decode text dec_options = Ok (JArr values).
Proof.
  intros Hd Hall Hform Hindent Hsame Henc.
  unfold encode_value, encode_value_with in Henc.
  cbn [is_json_primitive] in Henc.
  rewrite (encode_list_document_items values (encode_fuel (JArr values)) _
             enc_options Hd Hall Hform) in Henc by (unfold encode_fuel; lia).
  cbn [bind] in Henc.
  assert (Etext : text = to_string (push_all (new_writer (enc_indent enc_options))
                                             (list_document_items enc_options
                                                                  values)))
    by congruence.
  subst text. clear Henc.
  destruct (decode_list_document_runs values enc_options dec_options Hd Hindent
              Hsame) as (fuel & all_lines & Hfuel & Hskip & ->).
  { apply Forall_flat_map, Forall_forall. intros item Hin.
    apply list_item_items_facts; [exact Hd|].
    rewrite forallb_forall in Hall. exact (Hall item Hin). }
  now rewrite (decode_list_array_from_blocks (enc_indent enc_options) enc_options
                 (resolve_decode_options dec_options)
                 (written_header (Z.of_nat (length values)) None None
                                 (enc_delimiter enc_options)
                                 (enc_lengthMarker enc_options))
                 values Hd eq_refl Hall [] all_lines 1%nat fuel Hskip eq_refl
                 Hfuel).
Qed.

(** X25: a root array that the encoder writes in list-items form comes
    back from [decode] as it went into [encode_value] when each element
    is a primitive whose token reads back and holds no colon, an array
    of primitives that cells give back, the empty object, or an object
    with distinct keys whose first member is a primitive that
    [binding_reads_back] and whose other members are ones that
    [member_reads_back]: primitives, arrays of primitives, tables and
    objects nested to any depth.  The first member is written on the
    line of the hyphen and the others two levels deep.  It holds for
    each of the three delimiters, with or without length marker, in
    strict mode or not, when the decoder's indent is the encoder's. *)
Theorem decode_inverts_encode_value_on_lists_of_objects :
  forall (values : list JsonValue) (enc_options : ResolvedEncodeOptions)
         (dec_options : DecodeOptions) (text : string),
    is_valid_delimiter (enc_delimiter enc_options) = true ->
    forallb (list_member_reads_back (enc_delimiter enc_options)) values = true ->
    select_array_form values = FormListItems ->
    0 < enc_indent enc_options ->
    dec_indent (resolve_decode_options dec_options) = enc_indent enc_options ->
    encode_value (JArr values) enc_options = Ok text ->
    decode text dec_options = Ok (JArr values).
Proof.
  exact decode_encode_list_document.
Qed.
(* ------------------------------------------------------------------ *)
(** ** Strings with a colon in list arrays *)

(** A string that holds a colon is written between quotes. *)
Lemma colon_string_token (s : string) (d : Delimiter) :
  PyStr.contains COLON s = true ->
  token_text (JStr s) d = quoted (escape_chars s).
Proof.
  intros Hcolon. unfold token_text. cbn [encode_primitive].
  unfold encode_string_literal.
  assert (Hsafe : is_safe_unquoted s d = false).
  { unfold is_safe_unquoted.
    change (PyStr.contains ":" s) with (PyStr.contains COLON s).
    rewrite Hcolon. cbn [orb].
    destruct (String.eqb s ""); [reflexivity|].
    destruct (negb (String.eqb s (PyStr.strip s))); [reflexivity|].
    destruct (String.eqb s TRUE_LITERAL || String.eqb s FALSE_LITERAL
              || String.eqb s NULL_LITERAL); [reflexivity|].
    destruct (is_numeric_like s); reflexivity. }
  now rewrite Hsafe, escape_string_chars.
Qed.

(** The line written for such a string in a list array: not blank at
    either end, on one line. *)
Lemma colon_string_item_facts (options : ResolvedEncodeOptions) (s : string) :
  PyStr.contains COLON s = true ->
  Forall (fun it => 0 <= fst it
                    /\ PyStr.strip (snd it) = snd it
                    /\ snd it <> ""
                    /\ PyStr.contains NEWLINE (snd it) = false)
         (list_item_items options (JStr s)).
Proof.
  intros Hcolon. cbn [list_item_items]. constructor; [|constructor].
  cbn [fst snd]. unfold list_item_text.
  rewrite (colon_string_token s (enc_delimiter options) Hcolon).
  split; [lia|]. split; [|split].
  - apply (strip_between "-" " "); try reflexivity; try discriminate.
    apply strip_quoted.
  - discriminate.
  - unfold LIST_ITEM_PREFIX.
    change ("- " ++ quoted (escape_chars s))
      with (String "-" (String " " (quoted (escape_chars s)))).
    cbn [PyStr.contains].
    rewrite contains_quoted by reflexivity.
    now rewrite escape_chars_no_newline.
Qed.

(** The loop of [parse_quoted_key] finds the closing quote of a string
    literal at the end of the text, with no colon after it. *)
Lemma parse_quoted_key_loop_closed (s : string) (i : Z) (key_content : string) :
  parse_quoted_key_loop (escape_chars s ++ str1 DOUBLE_QUOTE) i key_content
  = Raise MissingColon.
Proof.
  revert i key_content. induction s as [|c s IH]; intros i key_content;
    [reflexivity|].
  cbn [escape_chars]. rewrite append_assoc. unfold escape_char.
  destruct (Ascii.eqb_spec c BACKSLASH) as [->|Hb];
    [|destruct (Ascii.eqb_spec c DOUBLE_QUOTE) as [->|Hq];
      [|destruct (Ascii.eqb_spec c NEWLINE) as [->|Hn];
        [|destruct (Ascii.eqb_spec c CARRIAGE_RETURN) as [->|Hr]]]].
  1-4: cbn [str1 append]; rewrite parse_quoted_key_loop_pair; apply IH.
  cbn [str1 append].
  destruct (escape_chars_snoc_nonempty s DOUBLE_QUOTE "") as (x & y & Hxy).
  unfold str1 in IH |- *. cbn [parse_quoted_key_loop]. rewrite Hxy.
  apply Ascii.eqb_neq in Hb, Hq. rewrite Hb, Hq. rewrite <- Hxy. apply IH.
Qed.

(** A string literal alone is no key. *)
Lemma parse_key_token_string_literal (s : string) :
  parse_key_token (quoted (escape_chars s)) 0 = Raise MissingColon.
Proof.
  unfold parse_key_token, quoted. rewrite at_head, Ascii.eqb_refl.
  unfold parse_quoted_key.
  change (PyStr.from (String DOUBLE_QUOTE (escape_chars s ++ str1 DOUBLE_QUOTE))
                     (0 + 1))
    with (escape_chars s ++ str1 DOUBLE_QUOTE).
  apply parse_quoted_key_loop_closed.
Qed.

Lemma string_literal_no_header (body : string) (d : Delimiter) :
  parse_array_header_line (quoted body) d = Ok None.
Proof.
  unfold parse_array_header_line, quoted. cbn [PyStr.lstrip].
  change (PyStr.is_space DOUBLE_QUOTE) with false. cbn iota.
  now rewrite startswith_head, Ascii.eqb_refl.
Qed.

(** [decode_list_item] on the line written for a string that holds a
    colon: the literal is taken for the first field of an object. *)
Lemma decode_list_item_colon_string (options : ResolvedEncodeOptions)
  (s : string) (all_lines : list ParsedLine) (index : nat)
  (rest : list ParsedLine) (delimiter : Delimiter)
  (decode_options : ResolvedDecodeOptions) (fuel : nat) :
  PyStr.contains COLON s = true ->
  skipn index all_lines = root_line (list_item_text options (JStr s)) :: rest ->
  decode_list_item (S (S (S fuel)))
                   {| cur_lines := all_lines; cur_index := index |} 1
                   delimiter decode_options
  = Raise MissingColon.
Proof.
  intros Hcolon Hskip.
  cbn [decode_list_item]. rewrite peek_at, Hskip. cbn [hd_error].
  destruct (advance_at _ _ _ _ Hskip) as [-> Hnext].
  cbn [ln_content root_line].
  destruct (list_item_text_marks options (JStr s)) as (-> & _ & Hfrom).
  pose proof (Hfrom _ (list_item_text_primitive options (JStr s) eq_refl))
    as Hafter.
  rewrite (colon_string_token s (enc_delimiter options) Hcolon) in Hafter.
  rewrite Hafter, strip_quoted.
  change (String.eqb (quoted (escape_chars s)) "") with false. cbv iota.
  assert (Hhead : is_array_header_after_hyphen (quoted (escape_chars s)) = false).
  { unfold is_array_header_after_hyphen. rewrite strip_quoted.
    unfold quoted at 1. now rewrite startswith_head. }
  rewrite Hhead. cbn [bind].
  unfold is_object_first_field_after_hyphen.
  rewrite contains_quoted by reflexivity.
  rewrite escape_chars_colon, Hcolon.
  cbn [decode_object_from_list_item ln_content root_line]. rewrite Hafter.
  cbn [decode_key_value].
  rewrite string_literal_no_header. cbn [bind].
  now rewrite parse_key_token_string_literal.
Qed.

(** The loop of [decode_list_array] stops with the error at such a
    line. *)
Lemma decode_list_array_from_colon_string (options : ResolvedEncodeOptions)
  (decode_options : ResolvedDecodeOptions) (header : ArrayHeaderInfo)
  (s : string) (done : list JsonValue) (all_lines rest : list ParsedLine)
  (index fuel : nat) :
  PyStr.contains COLON s = true ->
  skipn index all_lines = root_line (list_item_text options (JStr s)) :: rest ->
  Z.of_nat (length done) < hdr_length header ->
  (3 <= fuel)%nat ->
  decode_list_array_from (S fuel) header done
    {| cur_lines := all_lines; cur_index := index |} 0 decode_options
  = Raise MissingColon.
Proof.
  intros Hcolon Hskip Hlen Hfuel.
  cbn [decode_list_array_from]. rewrite at_end_at, peek_at, Hskip.
  cbn [hd_error negb andb ln_depth ln_content root_line].
  destruct (Z.ltb_spec (Z.of_nat (length done)) (hdr_length header)); [|lia].
  change (0 <? min_candidate_depth (0 + 1)) with false.
  change (in_candidate_depths (0 + 1) 0) with true. cbv iota.
  destruct (list_item_text_marks options (JStr s)) as (-> & -> & _).
  change (0 + 1) with 1.
  destruct fuel as [|[|[|fuel]]]; try lia.
  now rewrite (decode_list_item_colon_string options s all_lines index rest _
                 decode_options fuel Hcolon Hskip).
Qed.

(** The items before the string are read, then the loop stops. *)
Lemma decode_list_array_from_rejects (indent_size : Z)
  (options : ResolvedEncodeOptions) (decode_options : ResolvedDecodeOptions)
  (header : ArrayHeaderInfo) (s : string) (before : list JsonValue) :
  is_valid_delimiter (enc_delimiter options) = true ->
  hdr_delimiter header = enc_delimiter options ->
  PyStr.contains COLON s = true ->
  forallb (list_member_reads_back (enc_delimiter options)) before = true ->
  forall (done : list JsonValue) (all_lines rest : list ParsedLine)
         (index fuel : nat),
    skipn index all_lines
    = (map (scanned_line indent_size) (flat_map (list_item_items options) before)
       ++ root_line (list_item_text options (JStr s)) :: rest)%list ->
    Z.of_nat (length done + length before) < hdr_length header ->
    (2 * length (flat_map (list_item_items options) before) + 6 <= fuel)%nat ->
    decode_list_array_from fuel header done
      {| cur_lines := all_lines; cur_index := index |} 0 decode_options
    = Raise MissingColon.
Proof.
  intros Hd Hdelim Hcolon.
  induction before as [|x xs IH];
    intros Hall done all_lines rest index fuel Hskip Hlen Hfuel.
  - cbn [flat_map map app length] in *. destruct fuel as [|fuel]; [lia|].
    apply (decode_list_array_from_colon_string options decode_options header s
             done all_lines rest index fuel Hcolon Hskip); lia.
  - cbn [forallb] in Hall. apply andb_true_iff in Hall as [Hx Hxs].
    cbn [length] in Hlen. cbn [flat_map] in Hskip, Hfuel.
    rewrite map_app, <- List.app_assoc in Hskip. rewrite length_app in Hfuel.
    destruct (list_item_items_head options x) as (c & r & Hhead & _).
    assert (Hone : (1 <= length (list_item_items options x))%nat)
      by (rewrite Hhead; cbn [length]; lia).
    destruct fuel as [|fuel]; [lia|].
    rewrite (decode_list_array_from_step indent_size options decode_options
               header x done all_lines _ index fuel Hd Hdelim Hx Hskip).
    + apply (IH Hxs (done ++ [x])%list all_lines rest _ fuel).
      * rewrite <- (length_map (scanned_line indent_size)).
        now apply skipn_block.
      * rewrite length_app. cbn [length]. lia.
      * lia.
    + intros l. destruct xs as [|y ys]; cbn [flat_map map app hd_error].
      * now intros [= <-].
      * destruct (list_item_items_head options y) as (c' & r' & -> & Hc').
        cbn [app map hd_error]. rewrite (scanned_list_item_line _ _ Hc').
        now intros [= <-].
    + lia.
    + lia.
Qed.

(** The first string with a colon, and the items before it. *)
Lemma first_colon_string (d : Delimiter) (values : list JsonValue) :
  forallb (fun item => list_member_reads_back d item || is_colon_string item)
          values = true ->
  existsb is_colon_string values = true ->
  exists (before : list JsonValue) (s : string) (after : list JsonValue),
    values = (before ++ JStr s :: after)%list
    /\ PyStr.contains COLON s = true
    /\ forallb (list_member_reads_back d) before = true.
Proof.
  induction values as [|x xs IH]; intros Hall Hsome; [discriminate Hsome|].
  cbn [forallb existsb] in Hall, Hsome.
  apply andb_true_iff in Hall as [Hx Hxs].
  destruct (is_colon_string x) eqn:Hc.
  - destruct x as [| | | |s| |]; try discriminate Hc.
    now exists [], s, xs.
  - rewrite orb_false_r in Hx. cbn [orb] in Hsome.
    destruct (IH Hxs Hsome) as (before & s & after & -> & Hs & Hbefore).
    exists (x :: before), s, after. cbn [app forallb].
    now rewrite Hx, Hbefore.
Qed.

(** [decode] raises on the lines written for a list array that holds
    a string with a colon. *)
Lemma decode_encode_colon_string_list (values : list JsonValue)
  (enc_options : ResolvedEncodeOptions) (dec_options : DecodeOptions)
  (text : string) :
  is_valid_delimiter (enc_delimiter enc_options) = true ->
  forallb (fun item => list_member_reads_back (enc_delimiter enc_options) item
                       || is_colon_string item) values = true ->
  existsb is_colon_string values = true ->
  select_array_form values = FormListItems ->
  0 < enc_indent enc_options ->
  dec_indent (resolve_decode_options dec_options) = enc_indent enc_options ->
  encode_value (JArr values) enc_options = Ok text ->
  decode text dec_options = Raise MissingColon.
Proof.
  intros Hd Hall Hsome Hform Hindent Hsame Henc.
  assert (Hitem : forall item, In item values ->
             list_member_reads_back (enc_delimiter enc_options) item = true
             \/ exists s, item = JStr s /\ PyStr.contains COLON s = true).
  { intros item Hin. rewrite forallb_forall in Hall.
    specialize (Hall item Hin). apply orb_true_iff in Hall as [Hback|Hc];
      [now left|right].
    destruct item as [| | | |s| |]; try discriminate Hc. now exists s. }
  unfold encode_value, encode_value_with in Henc.
  cbn [is_json_primitive] in Henc.
  rewrite (encode_list_document_pushes values (encode_fuel (JArr values)) _
             enc_options Hd) in Henc;
    [|apply Forall_forall; intros item Hin;
      destruct (Hitem item Hin) as [Hback|(s & -> & _)]; [now right|now left]
     |exact Hform|unfold encode_fuel; lia].
  cbn [bind] in Henc.
  assert (Etext : text = to_string (push_all (new_writer (enc_indent enc_options))
                                             (list_document_items enc_options
                                                                  values)))
    by congruence.
  subst text. clear Henc.
  destruct (decode_list_document_runs values enc_options dec_options Hd Hindent
              Hsame) as (fuel & all_lines & Hfuel & Hskip & ->).
  { apply Forall_flat_map, Forall_forall. intros item Hin.
    destruct (Hitem item Hin) as [Hback|(s & -> & Hs)].
    - now apply list_item_items_facts.
    - now apply colon_string_item_facts. }
  destruct (first_colon_string _ values Hall Hsome)
    as (before & s & after & -> & Hs & Hbefore).
  rewrite flat_map_app, map_app in Hskip.
  rewrite flat_map_app, length_app in Hfuel.
  cbn [flat_map list_item_items app map] in Hskip.
  rewrite (scanned_list_item_line (enc_indent enc_options)
             (list_item_text enc_options (JStr s))) in Hskip
    by (destruct (list_item_text_marks enc_options (JStr s)) as (_ & -> & _);
        reflexivity).
  rewrite (decode_list_array_from_rejects (enc_indent enc_options) enc_options
             (resolve_decode_options dec_options)
             (written_header (Z.of_nat (length (before ++ JStr s :: after)))
                             None None (enc_delimiter enc_options)
                             (enc_lengthMarker enc_options))
             s before Hd eq_refl Hs Hbefore [] all_lines _ 1%nat fuel Hskip).
  - reflexivity.
  - cbn [hdr_length written_header]. rewrite length_app. cbn [length]. lia.
  - lia.
Qed.

(** X26: a string that holds a colon does not come back from a list
    array.  When a root array is written in list-items form and holds
    such a string, while its other elements are ones that
    [list_member_reads_back], [decode] raises the error
    [Missing colon after key] on the text [encode_value] returns: the
    string is written between quotes on the line of its hyphen, the
    colon inside the quotes makes [decode_list_item] take the line for
    the first field of an object, and [parse_key_token] finds no colon
    after the closing quote.  It holds for each of the three
    delimiters, with or without length marker, in strict mode or not,
    when the decoder's indent is the encoder's. *)
Theorem decode_rejects_written_list_strings_with_colon :
  forall (values : list JsonValue) (enc_options : ResolvedEncodeOptions)
         (dec_options : DecodeOptions) (text : string),
    is_valid_delimiter (enc_delimiter enc_options) = true ->
    forallb (fun item => list_member_reads_back (enc_delimiter enc_options) item
                         || is_colon_string item) values = true ->
    existsb is_colon_string values = true ->
    select_array_form values = FormListItems ->
    0 < enc_indent enc_options ->
    dec_indent (resolve_decode_options dec_options) = enc_indent enc_options ->
    encode_value (JArr values) enc_options = Ok text ->
    decode text dec_options = Raise MissingColon.
Proof.
  exact decode_encode_colon_string_list.
Qed.
(* ------------------------------------------------------------------ *)
(** ** Arrays under keys that need quotes *)

Lemma quoted_key_array_cases (d : Delimiter) (km : string * JsonValue) :
  is_quoted_key_array d km = true ->
  exists (key : string) (items : list JsonValue),
    km = (key, JArr items)
    /\ match_key_regex key = false
    /\ forallb (fun value => cell_round_trips value d) items = true.
Proof.
  destruct km as [key value]. unfold is_quoted_key_array. cbn [fst snd].
  intros H. apply andb_true_iff in H as [Hkey Hvalue].
  apply negb_true_iff in Hkey.
  destruct value as [| | | | |items|]; try discriminate Hvalue.
  now exists key, items.
Qed.

(** The line of such an array: the key between quotes, then the
    bracket. *)
Lemma quoted_key_array_text (options : ResolvedEncodeOptions) (key : string)
  (items : list JsonValue) :
  match_key_regex key = false ->
  forallb (fun value => cell_round_trips value (enc_delimiter options)) items
  = true ->
  exists tail : string,
    array_line_text (Some key) items options
    = encode_key key ++ String "[" tail
    /\ encode_key key = quoted (escape_chars key).
Proof.
  intros Hkey Hcells.
  destruct (array_line_text_parts (Some key) items options
              (cell_round_trips_primitive _ _ Hcells)) as (rest & -> & _).
  rewrite format_header_parts. cbn [header_key_text].
  eexists. split; [reflexivity|].
  unfold encode_key. now rewrite Hkey, escape_string_chars.
Qed.

(** What [encode_key_value_pair] pushes for an array of primitives,
    whatever the key. *)
Lemma encode_key_value_pair_cells (options : ResolvedEncodeOptions) (fuel : nat)
  (key : string) (items : list JsonValue) (writer : LineWriter) (depth : Depth) :
  forallb (fun value => cell_round_trips value (enc_delimiter options)) items
  = true ->
  (2 <= fuel)%nat ->
  encode_key_value_pair fuel key (JArr items) writer depth options
  = Ok (push_all writer (member_items options depth key (JArr items))).
Proof.
  intros Hcells Hfuel.
  destruct fuel as [|fuel]; [lia|]. cbn [encode_key_value_pair].
  destruct fuel as [|fuel]; [lia|]. cbn [encode_array member_items].
  pose proof (cell_round_trips_primitive _ _ Hcells) as Hprim.
  destruct items as [|v vs]; [reflexivity|].
  rewrite (select_array_form_primitives v vs Hprim).
  unfold encode_inline_primitive_array.
  now rewrite (encode_inline_array_line_text (Some key) (v :: vs) options Hprim).
Qed.

(** What [encode_object] pushes for members that read back and arrays
    of primitives under any key. *)
Lemma encode_object_pushes (options : ResolvedEncodeOptions) (fuel : nat)
  (members : JsonObject) (writer : LineWriter) (depth : Depth) :
  is_valid_delimiter (enc_delimiter options) = true ->
  (2 * json_size (JObj members) <= fuel)%nat ->
  Forall (fun km => member_reads_back (enc_delimiter options) (fst km) (snd km)
                    = true
                    \/ is_quoted_key_array (enc_delimiter options) km = true)
         members ->
  encode_object fuel members writer depth options
  = Ok (push_all writer (object_items options depth members)).
Proof.
  intros Hd Hfuel Hall.
  pose proof (json_size_pos (JObj members)) as Hpos.
  destruct fuel as [|fuel]; [lia|]. cbn [encode_object].
  unfold object_items. apply foldM_pushes.
  intros [k v] Hin w. cbn [fst snd].
  pose proof (in_members_size k v members Hin) as Hsize.
  pose proof (json_size_pos v) as Hvpos.
  change (json_size (JObj members)) with (S (members_size members)) in Hfuel.
  rewrite Forall_forall in Hall.
  destruct (Hall (k, v) Hin) as [Hback|Hquoted].
  - apply (proj2 (encoders_write_items options fuel Hd)); [lia|exact Hback].
  - destruct (quoted_key_array_cases _ _ Hquoted)
      as (key & items & [= -> ->] & _ & Hcells).
    apply encode_key_value_pair_cells; [exact Hcells|lia].
Qed.

(** The lines of a member start with its key at the member's depth. *)
Lemma member_items_head (indent_size : Z) (options : ResolvedEncodeOptions)
  (decode_options : ResolvedDecodeOptions) (depth : Depth)
  (km : string * JsonValue) :
  is_valid_delimiter (enc_delimiter options) = true ->
  member_reads_back (enc_delimiter options) (fst km) (snd km) = true
  \/ is_quoted_key_array (enc_delimiter options) km = true ->
  exists (tail : string) (rest_items : list (Depth * string)),
    member_items options depth (fst km) (snd km)
    = (depth, encode_key (fst km) ++ tail) :: rest_items.
Proof.
  intros Hd [Hback|Hquoted].
  - destruct (members_decode indent_size options decode_options Hd
                (json_size (snd km)) (fst km) (snd km) depth (le_n _) Hback)
      as (tail & rest_items & Hitems & _).
    now exists tail, rest_items.
  - destruct (quoted_key_array_cases _ _ Hquoted)
      as (key & items & -> & Hkey & Hcells). cbn [fst snd].
    destruct (member_items_inline options depth key items Hcells) as [_ ->].
    destruct (quoted_key_array_text options key items Hkey Hcells)
      as (tail & -> & _).
    now exists (String "[" tail), [].
Qed.

(** The lines of members that read back and of arrays of primitives:
    not blank at either end, each on one line. *)
Lemma object_items_facts (options : ResolvedEncodeOptions)
  (members : JsonObject) :
  is_valid_delimiter (enc_delimiter options) = true ->
  Forall (fun km => member_reads_back (enc_delimiter options) (fst km) (snd km)
                    = true
                    \/ is_quoted_key_array (enc_delimiter options) km = true)
         members ->
  Forall (fun item => 0 <= fst item
                      /\ PyStr.strip (snd item) = snd item
                      /\ snd item <> ""
                      /\ PyStr.contains NEWLINE (snd item) = false)
         (object_items options 0 members).
Proof.
  intros Hd Hall. unfold object_items.
  apply Forall_flat_map. eapply Forall_impl; [|exact Hall].
  intros [k v] [Hback|Hquoted]; cbn [fst snd] in *.
  - apply (member_items_facts options Hd (json_size v)); [lia|exact Hback|lia].
  - destruct (quoted_key_array_cases _ _ Hquoted)
      as (key & items & [= -> ->] & _ & Hcells).
    destruct (member_items_inline options 0 key items Hcells) as [_ ->].
    destruct (array_line_text_facts (Some key) items options Hd Hcells)
      as (Hs & Hne & Hnl & _).
    constructor; [|constructor]. cbn [fst snd]. repeat split; auto. lia.
Qed.

(** After the closing quote of a key comes a character that is no
    colon: the three loops that look for the end of the key. *)
Lemma parse_quoted_key_loop_open (s : string) (c : ascii) (rest : string)
  (i : Z) (key_content : string) :
  Ascii.eqb c COLON = false ->
  parse_quoted_key_loop (escape_chars s ++ String DOUBLE_QUOTE (String c rest))
                        i key_content
  = Raise MissingColon.
Proof.
  intros Hc. revert i key_content.
  induction s as [|a s IH]; intros i key_content.
  - cbn [escape_chars append parse_quoted_key_loop].
    change (Ascii.eqb DOUBLE_QUOTE BACKSLASH) with false.
    now rewrite Ascii.eqb_refl, Hc.
  - cbn [escape_chars]. rewrite append_assoc. unfold escape_char.
    destruct (Ascii.eqb_spec a BACKSLASH) as [->|Hb];
      [|destruct (Ascii.eqb_spec a DOUBLE_QUOTE) as [->|Hq];
        [|destruct (Ascii.eqb_spec a NEWLINE) as [->|Hn];
          [|destruct (Ascii.eqb_spec a CARRIAGE_RETURN) as [->|Hr]]]].
    1-4: cbn [str1 append]; rewrite parse_quoted_key_loop_pair; apply IH.
    cbn [str1 append].
    destruct (escape_chars_snoc_nonempty s DOUBLE_QUOTE (String c rest))
      as (x & y & Hxy).
    cbn [parse_quoted_key_loop]. rewrite Hxy.
    apply Ascii.eqb_neq in Hb, Hq. rewrite Hb, Hq. rewrite <- Hxy. apply IH.
Qed.

Lemma quoted_key_line_loop_open (s : string) (c : ascii) (rest : string) :
  Ascii.eqb c COLON = false ->
  quoted_key_line_loop (escape_chars s ++ String DOUBLE_QUOTE (String c rest))
  = false.
Proof.
  intros Hc. induction s as [|a s IH].
  - cbn [escape_chars append quoted_key_line_loop].
    change (Ascii.eqb DOUBLE_QUOTE BACKSLASH) with false.
    now rewrite Ascii.eqb_refl.
  - cbn [escape_chars]. rewrite append_assoc. unfold escape_char.
    destruct (Ascii.eqb_spec a BACKSLASH) as [->|Hb]; [exact IH|].
    destruct (Ascii.eqb_spec a DOUBLE_QUOTE) as [->|Hq]; [exact IH|].
    destruct (Ascii.eqb_spec a NEWLINE) as [->|Hn]; [exact IH|].
    destruct (Ascii.eqb_spec a CARRIAGE_RETURN) as [->|Hr]; [exact IH|].
    cbn [str1 append].
    destruct (escape_chars_snoc_nonempty s DOUBLE_QUOTE (String c rest))
      as (x & y & Hxy).
    cbn [quoted_key_line_loop]. rewrite Hxy.
    apply Ascii.eqb_neq in Hb, Hq. rewrite Hb, Hq. rewrite <- Hxy. exact IH.
Qed.

Lemma parse_string_literal_loop_open (s : string) (c : ascii) (rest content : string) :
  parse_string_literal_loop
    (escape_chars s ++ String DOUBLE_QUOTE (String c rest)) content
  = Raise UnexpectedAfterQuote.
Proof.
  revert content. induction s as [|a s IH]; intros content; [reflexivity|].
  cbn [escape_chars]. rewrite append_assoc. unfold escape_char.
  destruct (Ascii.eqb_spec a BACKSLASH) as [->|Hb]; [apply IH|].
  destruct (Ascii.eqb_spec a DOUBLE_QUOTE) as [->|Hq]; [apply IH|].
  destruct (Ascii.eqb_spec a NEWLINE) as [->|Hn]; [apply IH|].
  destruct (Ascii.eqb_spec a CARRIAGE_RETURN) as [->|Hr]; [apply IH|].
  cbn [str1 append].
  destruct (escape_chars_snoc_nonempty s DOUBLE_QUOTE (String c rest))
    as (x & y & Hxy).
  cbn [parse_string_literal_loop]. rewrite Hxy.
  apply Ascii.eqb_neq in Hb, Hq. rewrite Hb, Hq. rewrite <- Hxy. apply IH.
Qed.

(** The line of an array under a quoted key, read as a member and as
    a document of one line. *)
Lemma decode_key_value_quoted_key_array (fuel : nat) (key tail : string)
  (cursor : LineCursor) (depth : Depth) (options : ResolvedDecodeOptions) :
  decode_key_value (S fuel) (quoted (escape_chars key) ++ String "[" tail)
                   cursor depth options
  = Raise MissingColon.
Proof.
  cbn [decode_key_value].
  assert (Hheader : parse_array_header_line
                      (quoted (escape_chars key) ++ String "[" tail)
                      DEFAULT_DELIMITER = Ok None).
  { unfold parse_array_header_line, quoted. cbn [append PyStr.lstrip].
    change (PyStr.is_space DOUBLE_QUOTE) with false. cbn iota.
    now rewrite startswith_head, Ascii.eqb_refl. }
  rewrite Hheader. cbn [bind].
  unfold parse_key_token, quoted. cbn [append]. rewrite at_head, Ascii.eqb_refl.
  unfold parse_quoted_key.
  change (PyStr.from (String DOUBLE_QUOTE
                        ((escape_chars key ++ str1 DOUBLE_QUOTE)
                         ++ String "[" tail)) (0 + 1))
    with ((escape_chars key ++ str1 DOUBLE_QUOTE) ++ String "[" tail).
  rewrite append_assoc. cbn [str1 append].
  now rewrite parse_quoted_key_loop_open.
Qed.

Lemma parse_primitive_token_quoted_key_array (key tail : string) :
  PyStr.strip (quoted (escape_chars key) ++ String "[" tail)
  = quoted (escape_chars key) ++ String "[" tail ->
  parse_primitive_token (quoted (escape_chars key) ++ String "[" tail)
  = Raise UnexpectedAfterQuote.
Proof.
  intros Hstrip. unfold parse_primitive_token, parse_string_literal.
  rewrite !Hstrip. unfold quoted. cbn [append].
  change (String.eqb (String DOUBLE_QUOTE
                        ((escape_chars key ++ str1 DOUBLE_QUOTE)
                         ++ String "[" tail)) "")
    with false.
  cbv iota. rewrite startswith_head, !Ascii.eqb_refl.
  rewrite append_assoc. cbn [str1 append].
  now rewrite parse_string_literal_loop_open.
Qed.

Lemma quoted_key_array_line_is_no_key_value_line (key tail : string)
  (line : ParsedLine) :
  ln_content line = quoted (escape_chars key) ++ String "[" tail ->
  is_key_value_line line = false.
Proof.
  intros Hc. unfold is_key_value_line. rewrite Hc. unfold quoted.
  cbn [append]. rewrite Ascii.eqb_refl, append_assoc. cbn [str1 append].
  now apply quoted_key_line_loop_open.
Qed.

(** The lines of the members that follow, and then the line of the
    array, end the block of a member. *)
Lemma ends_block_before_line (indent_size : Z) (options : ResolvedEncodeOptions)
  (decode_options : ResolvedDecodeOptions) (depth : Depth) (members : JsonObject)
  (key tail : string) (rest : list ParsedLine) :
  Forall (fun km => member_decodes indent_size options decode_options depth
                                   (fst km) (snd km)) members ->
  ends_block depth
    (map (scanned_line indent_size) (object_items options depth members)
     ++ scanned_line indent_size (depth, encode_key key ++ tail) :: rest).
Proof.
  intros Hall. destruct Hall as [|[k v] members Hm _].
  - cbn [object_items flat_map map app ends_block].
    destruct (scanned_key_line indent_size depth key tail) as (Hd & _ & Hnp & Hnm).
    split; [lia|]. now intros _.
  - destruct Hm as (tail' & rest_items & Hitems & _). cbn [fst snd] in Hitems.
    unfold object_items. cbn [flat_map fst snd]. rewrite Hitems.
    cbn [app map ends_block].
    destruct (scanned_key_line indent_size depth k tail') as (Hd & _ & Hnp & Hnm).
    split; [lia|]. now intros _.
Qed.

(** The loop of [decode_object] reads the members before the array,
    then stops at its line. *)
Lemma decode_object_from_rejects (indent_size : Z)
  (options : ResolvedEncodeOptions) (decode_options : ResolvedDecodeOptions)
  (depth : Depth) (key tail : string) (before : JsonObject) :
  match_key_regex key = false ->
  Forall (fun km => member_decodes indent_size options decode_options depth
                                   (fst km) (snd km)) before ->
  forall (all_lines : list ParsedLine) (index : nat) (rest : list ParsedLine)
         (obj : JsonObject) (fuel : nat),
    skipn index all_lines
    = (map (scanned_line indent_size) (object_items options depth before)
       ++ scanned_line indent_size
            (depth, (encode_key key ++ String "[" tail)%string)
          :: rest)%list ->
    (2 * length (object_items options depth before) + 3 <= fuel)%nat ->
    decode_object_from fuel obj {| cur_lines := all_lines; cur_index := index |}
                       depth decode_options
    = Raise MissingColon.
Proof.
  intros Hkey.
  induction 1 as [|[k v] members Hm Hrest IH];
    intros all_lines index rest obj fuel Hskip Hfuel.
  - cbn [object_items flat_map map app length] in *.
    destruct fuel as [|[|fuel]]; try lia.
    cbn [decode_object_from]. rewrite at_end_at, peek_at, Hskip. cbn [hd_error].
    destruct (scanned_key_line indent_size depth key (String "[" tail))
      as (Hd & Hc & _).
    rewrite Hd, Z.ltb_irrefl, Z.eqb_refl, Hc.
    unfold encode_key. rewrite Hkey, escape_string_chars.
    now rewrite decode_key_value_quoted_key_array.
  - pose proof (ends_block_before_line indent_size options decode_options depth
                  members key (String "[" tail) rest Hrest) as Hafter.
    destruct Hm as (tail' & rest_items & Hitems & Hdecode). cbn [fst snd] in *.
    unfold object_items in *. cbn [flat_map fst snd] in *. rewrite Hitems in *.
    cbn [app map length] in Hskip, Hfuel |- *.
    rewrite map_app, <- List.app_assoc in Hskip. rewrite length_app in *.
    destruct fuel as [|fuel]; [lia|]. cbn [decode_object_from].
    rewrite at_end_at, peek_at, Hskip. cbn [hd_error].
    destruct (scanned_key_line indent_size depth k tail') as (Hd & Hc & _).
    rewrite Hd, Z.ltb_irrefl, Z.eqb_refl, Hc.
    destruct (advance_at _ _ _ _ Hskip) as [-> Hnext].
    rewrite (Hdecode all_lines (S index) _ fuel Hnext Hafter) by lia.
    cbn [bind].
    apply (IH all_lines (S index + length rest_items)%nat rest _ fuel);
      [|lia].
    rewrite <- (length_map (scanned_line indent_size)).
    now apply skipn_block.
Qed.

(** [decode] on a written text whose first line lies at the root comes
    down to [decode_value_from_lines] on the scanned lines. *)
Lemma decode_written_text (size : Z) (content : string)
  (others : list (Depth * string)) (dec_options : DecodeOptions) :
  0 < size ->
  dec_indent (resolve_decode_options dec_options) = size ->
  Forall (fun item => 0 <= fst item
                      /\ PyStr.strip (snd item) = snd item
                      /\ snd item <> ""
                      /\ PyStr.contains NEWLINE (snd item) = false)
         ((0, content) :: others) ->
  decode (to_string (push_all (new_writer size) ((0, content) :: others)))
         dec_options
  = decode_value_from_lines
      (decode_fuel (map (scanned_line size) ((0, content) :: others)))
      (new_cursor (map (scanned_line size) ((0, content) :: others)))
      (resolve_decode_options dec_options).
Proof.
  intros Hsize Hsame Hfacts.
  pose proof (written_text_scans size ((0, content) :: others) Hsize
                ltac:(discriminate) Hfacts) as Hscan.
  assert (Hhead : exists c r, content = String c r /\ PyStr.is_space c = false).
  { inversion Hfacts as [|? ? (_ & Hs & Hne & _) _]; subst.
    cbn [snd] in Hs, Hne. exact (proj1 (strip_fixed_ends content Hs Hne)). }
  destruct Hhead as (c & r & -> & Hspace).
  assert (Htext : exists r',
             to_string (push_all (new_writer size) ((0, String c r) :: others))
             = String c r').
  { rewrite push_all_lines
      by (eapply Forall_impl; [|exact Hfacts]; now intros item (_ & ? & _)).
    unfold to_string. cbn [lines new_writer app indent_size map fst snd].
    unfold written_depth at 1.
    cbn [Z.ltb Z.compare andb Z.mul Z.to_nat PyStr.spaces append].
    match goal with
    | |- context [map ?f ?l] => destruct (map f l)
    end; cbn [PyStr.join append]; eauto. }
  destruct Htext as (r' & Htext). rewrite Htext in Hscan |- *.
  rewrite (decode_started c r' dec_options Hspace).
  rewrite Hsame, Hscan. cbn [bind map length Nat.eqb]. reflexivity.
Qed.

Lemma member_items_nonempty (options : ResolvedEncodeOptions) (depth : Depth)
  (key : string) (value : JsonValue) :
  (1 <= length (member_items options depth key value))%nat.
Proof.
  destruct value as [| | | | |items|members]; cbn [member_items length]; try lia.
  destruct (select_array_form items); cbn [length]; lia.
Qed.

Lemma object_items_length (options : ResolvedEncodeOptions) (depth : Depth)
  (members : JsonObject) :
  (length members <= length (object_items options depth members))%nat.
Proof.
  unfold object_items. induction members as [|[k v] members IH]; [reflexivity|].
  cbn [flat_map length fst snd]. rewrite length_app.
  pose proof (member_items_nonempty options (depth) k v). lia.
Qed.

(** The first array under a quoted key, and the members before it. *)
Lemma first_quoted_key_array (d : Delimiter) (members : JsonObject) :
  forallb (fun km => member_reads_back d (fst km) (snd km)
                     || is_quoted_key_array d km) members = true ->
  existsb (is_quoted_key_array d) members = true ->
  exists (before : JsonObject) (key : string) (items : list JsonValue)
         (after : JsonObject),
    members = (before ++ (key, JArr items) :: after)%list
    /\ match_key_regex key = false
    /\ forallb (fun value => cell_round_trips value d) items = true
    /\ forallb (fun km => member_reads_back d (fst km) (snd km)) before = true.
Proof.
  induction members as [|x xs IH]; intros Hall Hsome; [discriminate Hsome|].
  cbn [forallb existsb] in Hall, Hsome.
  apply andb_true_iff in Hall as [Hx Hxs].
  destruct (is_quoted_key_array d x) eqn:Hq.
  - destruct (quoted_key_array_cases d x Hq) as (key & items & -> & Hkey & Hcells).
    now exists [], key, items, xs.
  - rewrite orb_false_r in Hx. cbn [orb] in Hsome.
    destruct (IH Hxs Hsome)
      as (before & key & items & after & -> & Hkey & Hcells & Hbefore).
    exists (x :: before), key, items, after. cbn [app forallb].
    now rewrite Hx, Hbefore.
Qed.

(** [decode] raises on the lines written for an object that holds an
    array of primitives under a key that needs quotes. *)
Lemma decode_encode_quoted_key_array (members : JsonObject)
  (enc_options : ResolvedEncodeOptions) (dec_options : DecodeOptions)
  (text : string) :
  is_valid_delimiter (enc_delimiter enc_options) = true ->
  forallb (fun km => member_reads_back (enc_delimiter enc_options)
                                       (fst km) (snd km)
                     || is_quoted_key_array (enc_delimiter enc_options) km)
          members = true ->
  existsb (is_quoted_key_array (enc_delimiter enc_options)) members = true ->
  0 < enc_indent enc_options ->
  dec_indent (resolve_decode_options dec_options) = enc_indent enc_options ->
  encode_value (JObj members) enc_options = Ok text ->
  decode text dec_options
  = Raise (match members with
           | [_] => UnexpectedAfterQuote
           | _ => MissingColon
           end).
Proof.
  intros Hd Hall Hsome Hindent Hsame Henc.
  set (size := enc_indent enc_options) in *.
  set (resolved := resolve_decode_options dec_options) in *.
  set (d := enc_delimiter enc_options) in *.
  assert (Hmembers : Forall (fun km => member_reads_back d (fst km) (snd km) = true
                                       \/ is_quoted_key_array d km = true)
                            members).
  { apply Forall_forall. intros km Hin. rewrite forallb_forall in Hall.
    now apply orb_true_iff, Hall. }
  unfold encode_value, encode_value_with in Henc. cbn [is_json_primitive] in Henc.
  rewrite (encode_object_pushes enc_options (encode_fuel (JObj members)) members
             _ 0 Hd) in Henc; [|unfold encode_fuel; lia|exact Hmembers].
  cbn [bind] in Henc.
  assert (Etext : text = to_string (push_all (new_writer size)
                                             (object_items enc_options 0 members)))
    by (injection Henc as E; symmetry; exact E).
  subst text. clear Henc.
  pose proof (object_items_facts enc_options members Hd Hmembers) as Hfacts.
  pose proof (object_items_length enc_options 0 members) as Hlength.
  destruct (first_quoted_key_array d members Hall Hsome)
    as (before & key & items & after & Esplit & Hkey & Hcells & Hbefore).
  destruct (quoted_key_array_text enc_options key items Hkey Hcells)
    as (tail & Hline & Hquoted).
  assert (Hdecodes : Forall (fun km => member_decodes size enc_options resolved 0
                                                      (fst km) (snd km)) before).
  { apply Forall_forall. intros [k v] Hin. cbn [fst snd].
    apply (members_decode size enc_options resolved Hd (json_size v)); [lia|].
    rewrite forallb_forall in Hbefore. exact (Hbefore (k, v) Hin). }
  assert (Hitems : object_items enc_options 0 members
                   = (object_items enc_options 0 before
                      ++ (0, (encode_key key ++ String "[" tail)%string)
                         :: object_items enc_options 0 after)%list).
  { rewrite Esplit. unfold object_items. rewrite flat_map_app.
    cbn [flat_map fst snd].
    destruct (member_items_inline enc_options 0 key items Hcells) as [_ ->].
    now rewrite Hline. }
  assert (Hfirst : exists content others,
             object_items enc_options 0 members = (0, content) :: others
             /\ exists (k : string) (t : string), content = encode_key k ++ t).
  { destruct members as [|km ms]; [discriminate Hsome|].
    inversion Hmembers as [|? ? Hkm _]; subst.
    destruct (member_items_head size enc_options resolved 0 km Hd Hkm)
      as (t & rest_items & Hhead).
    unfold object_items. cbn [flat_map]. rewrite Hhead. cbn [app].
    do 2 eexists. split; [reflexivity|]. now exists (fst km), t. }
  destruct Hfirst as (content & others & Hfirst & k0 & t0 & Hcontent).
  rewrite Hfirst in Hfacts |- *.
  rewrite (decode_written_text size content others dec_options Hindent Hsame
             Hfacts).
  fold resolved. rewrite <- Hfirst.
  set (all_lines := map (scanned_line size) (object_items enc_options 0 members)).
  assert (Hlines : exists first rest_lines,
             all_lines = first :: rest_lines /\ ln_content first = content
             /\ ln_depth first = 0).
  { subst all_lines. rewrite Hfirst. cbn [map]. do 2 eexists.
    split; [reflexivity|]. rewrite Hcontent.
    destruct (scanned_key_line size 0 k0 t0) as (Hdepth & Hc & _).
    now split. }
  destruct Hlines as (first & rest_lines & Hlines & Hfirst_content & Hfirst_depth).
  assert (Hstrip : PyStr.strip content = content).
  { inversion Hfacts as [|? ? (_ & Hs & _) _]; subst. exact Hs. }
  assert (Hroot : is_root_array_header_line first = false).
  { unfold is_root_array_header_line, is_array_header_after_hyphen.
    rewrite Hfirst_content, Hstrip, Hcontent.
    destruct (encode_key_head k0) as (c & r & -> & _ & _ & Hbracket).
    cbn [append]. rewrite startswith_head. unfold OPEN_BRACKET.
    now rewrite Hbracket. }
  unfold decode_value_from_lines.
  rewrite Hlines.
  change (peek (new_cursor (first :: rest_lines))) with (Some first). cbv iota.
  rewrite Hroot. cbn [bind].
  unfold cursor_length, new_cursor. cbn [cur_lines length].
  assert (Hcount : length all_lines = length (object_items enc_options 0 members))
    by (subst all_lines; apply length_map).
  rewrite Hlines in Hcount. cbn [length] in Hcount.
  destruct members as [|m [|m' ms]]; [discriminate Hsome| |].
  - (* the array is the only member, on the only line *)
    destruct before as [|b bs]; [|destruct bs; discriminate Esplit].
    cbn [app] in Esplit. injection Esplit as -> <-.
    cbn [object_items flat_map app] in Hitems. unfold object_items in Hfirst.
    cbn [flat_map app] in Hfirst. rewrite List.app_nil_r in Hfirst.
    destruct (member_items_inline enc_options 0 key items Hcells) as [_ Hone].
    cbn [fst snd] in Hfirst. rewrite Hone, Hline in Hfirst.
    injection Hfirst as <- <-.
    destruct rest_lines as [|l ls];
      [|subst all_lines; unfold object_items in Hlines;
        cbn [flat_map app fst snd] in Hlines;
        rewrite Hone, List.app_nil_r in Hlines; discriminate Hlines].
    cbn [length Nat.eqb andb].
    rewrite Hquoted in Hfirst_content, Hstrip.
    rewrite (quoted_key_array_line_is_no_key_value_line key tail first
               Hfirst_content).
    cbn [negb]. rewrite Hfirst_content, Hstrip.
    now apply parse_primitive_token_quoted_key_array.
  - (* two members or more *)
    cbn [length] in Hlength.
    destruct rest_lines as [|l ls]; [cbn [length] in Hcount; lia|].
    cbn [length Nat.eqb andb]. unfold decode_object.
    rewrite <- Hlines.
    rewrite (decode_object_from_rejects size enc_options resolved 0 key tail before
               Hkey Hdecodes all_lines O
               (map (scanned_line size) (object_items enc_options 0 after)) []
               (decode_fuel all_lines)).
    + reflexivity.
    + cbn [skipn]. subst all_lines. rewrite Hitems, map_app. reflexivity.
    + unfold decode_fuel. subst all_lines.
      rewrite length_map, Hitems, length_app. lia.
Qed.

(** X27: an array under a key that needs quotes does not come back.
    When an object holds an array of primitives under a key that
    [encode_key] writes between quotes, while its other members are ones
    that [member_reads_back], [decode] raises on the text
    [encode_value] returns.  [parse_array_header_line] gives up on a
    line that starts with a quote, so that the line is read as a key
    and a value, and the bracket after the closing quote is no colon:
    the error is [Missing colon after key], or, when the array is the
    only member and its line the whole text,
    [Unexpected characters after closing quote], the line being read as
    one string literal.  It holds for each of the three delimiters,
    with or without length marker, in strict mode or not, when the
    decoder's indent is the encoder's. *)
Theorem decode_rejects_written_arrays_under_quoted_keys :
  forall (members : JsonObject) (enc_options : ResolvedEncodeOptions)
         (dec_options : DecodeOptions) (text : string),
    is_valid_delimiter (enc_delimiter enc_options) = true ->
    forallb (fun km => member_reads_back (enc_delimiter enc_options)
                                         (fst km) (snd km)
                       || is_quoted_key_array (enc_delimiter enc_options) km)
            members = true ->
    existsb (is_quoted_key_array (enc_delimiter enc_options)) members = true ->
    0 < enc_indent enc_options ->
    dec_indent (resolve_decode_options dec_options) = enc_indent enc_options ->
    encode_value (JObj members) enc_options = Ok text ->
    decode text dec_options
    = Raise (match members with
             | [_] => UnexpectedAfterQuote
             | _ => MissingColon
             end).
Proof.
  exact decode_encode_quoted_key_array.
Qed.
(* ------------------------------------------------------------------ *)
(** ** Blank lines *)

Lemma split_aux_app (c : ascii) (a b cur : string) :
  PyStr.split_aux c (a ++ String c b) cur
  = (PyStr.split_aux c a cur ++ PyStr.split c b)%list.
Proof.
  revert cur. induction a as [|x a IH]; intros cur.
  - cbn [append PyStr.split_aux app]. now rewrite Ascii.eqb_refl.
  - cbn [append PyStr.split_aux]. destruct (Ascii.eqb x c); [|apply IH].
    cbn [app]. f_equal. apply IH.
Qed.

(** The lines of two texts joined by the separator are the lines of
    the one, then the lines of the other. *)
Lemma split_app (c : ascii) (a b : string) :
  PyStr.split c (a ++ String c b) = (PyStr.split c a ++ PyStr.split c b)%list.
Proof.
  apply split_aux_app.
Qed.

Lemma split_aux_spaces (c : ascii) (s cur : string) :
  PyStr.all_chars PyStr.is_space s = true ->
  PyStr.all_chars PyStr.is_space cur = true ->
  Forall (fun l => PyStr.strip l = "") (PyStr.split_aux c s cur).
Proof.
  revert cur. induction s as [|a s IH]; intros cur Hs Hcur.
  - constructor; [|constructor]. apply strip_empty_iff.
    now rewrite all_chars_rev.
  - cbn [PyStr.all_chars] in Hs. apply andb_true_iff in Hs as [Ha Hs].
    cbn [PyStr.split_aux]. destruct (Ascii.eqb a c).
    + constructor; [|now apply IH].
      apply strip_empty_iff. now rewrite all_chars_rev.
    + apply IH; [exact Hs|]. cbn [PyStr.all_chars]. now rewrite Ha, Hcur.
Qed.

Lemma filter_blank_lines (raw_lines : list string) :
  Forall (fun l => PyStr.strip l = "") raw_lines ->
  filter (fun raw_line => negb (String.eqb (PyStr.strip raw_line) "")) raw_lines
  = [].
Proof.
  induction 1 as [|l ls Hl _ IH]; [reflexivity|].
  cbn [filter]. now rewrite Hl.
Qed.

(** The lines of a text of whitespace are all skipped. *)
Lemma blank_text_lines (blank : string) :
  PyStr.all_chars PyStr.is_space blank = true ->
  filter (fun raw_line => negb (String.eqb (PyStr.strip raw_line) ""))
         (PyStr.split NEWLINE blank)
  = [].
Proof.
  intros H. apply filter_blank_lines. now apply split_aux_spaces.
Qed.

(** The test of [decode] for a blank text agrees with the scanner,
    which keeps no line of such a text. *)
Lemma decode_reads_lines (text : string) (options : DecodeOptions) :
  decode text options
  = let* lines := to_parsed_lines text
                    (dec_indent (resolve_decode_options options)) in
    if Nat.eqb (length lines) 0 then Ok (JObj [])
    else decode_value_from_lines (decode_fuel lines) (new_cursor lines)
                                 (resolve_decode_options options).
Proof.
  unfold decode.
  destruct (String.eqb text "" || String.eqb (PyStr.strip text) "") eqn:E;
    [|reflexivity].
  assert (Hs : PyStr.strip text = "").
  { apply orb_true_iff in E as [E|E]; apply String.eqb_eq in E;
      [now subst|exact E]. }
  unfold to_parsed_lines. rewrite blank_text_lines; [reflexivity|].
  now apply strip_empty_iff.
Qed.

(** [decode] reads the lines that are not blank, and nothing else. *)
Lemma decode_same_lines (text text' : string) (options : DecodeOptions) :
  filter (fun raw_line => negb (String.eqb (PyStr.strip raw_line) ""))
         (PyStr.split NEWLINE text)
  = filter (fun raw_line => negb (String.eqb (PyStr.strip raw_line) ""))
           (PyStr.split NEWLINE text') ->
  decode text options = decode text' options.
Proof.
  intros H. rewrite !decode_reads_lines. unfold to_parsed_lines. now rewrite H.
Qed.

(** X28: blank lines do not count.  Lines of whitespace between two
    parts of a text, after a text, or before it, leave the outcome of
    [decode] as it is, value or error, whatever the text and the
    options: a newline at the end of a document, or several, change
    nothing. *)
Theorem decode_skips_blank_lines :
  forall (before blank after : string) (options : DecodeOptions),
    PyStr.all_chars PyStr.is_space blank = true ->
    decode (before ++ String NEWLINE (blank ++ String NEWLINE after)) options
    = decode (before ++ String NEWLINE after) options
    /\ decode (before ++ String NEWLINE blank) options = decode before options
    /\ decode (blank ++ String NEWLINE after) options = decode after options.
Proof.
  intros before blank after options Hblank.
  pose proof (blank_text_lines blank Hblank) as Hlines.
  repeat split; apply decode_same_lines;
    rewrite !split_app, !filter_app, Hlines.
  - reflexivity.
  - apply List.app_nil_r.
  - reflexivity.
Qed.
(* ------------------------------------------------------------------ *)
(** ** [encode] and [decode] together *)

(** The empty array at the root. *)
Lemma decode_encode_empty_array (enc_options : ResolvedEncodeOptions)
  (dec_options : DecodeOptions) (text : string) :
  is_valid_delimiter (enc_delimiter enc_options) = true ->
  0 < enc_indent enc_options ->
  dec_indent (resolve_decode_options dec_options) = enc_indent enc_options ->
  encode_value (JArr []) enc_options = Ok text ->
  decode text dec_options = Ok (JArr []).
Proof.
  intros Hd Hindent Hsame Henc.
  unfold encode_value, encode_value_with in Henc.
  change (encode_fuel (JArr [])) with 4%nat in Henc.
  cbn [is_json_primitive encode_array select_array_form length Nat.eqb bind]
    in Henc.
  injection Henc as <-.
  change (to_string (push (new_writer (enc_indent enc_options)) 0
                          (format_header 0 None None (enc_delimiter enc_options)
                                         (enc_lengthMarker enc_options))))
    with (to_string (push_all (new_writer (enc_indent enc_options))
                              (list_document_items enc_options []))).
  destruct (decode_list_document_runs [] enc_options dec_options Hd Hindent
              Hsame) as (fuel & all_lines & Hfuel & Hskip & ->);
    [constructor|].
  now rewrite (decode_list_array_from_blocks (enc_indent enc_options) enc_options
                 (resolve_decode_options dec_options)
                 (written_header (Z.of_nat (length (@nil JsonValue))) None None
                                 (enc_delimiter enc_options)
                                 (enc_lengthMarker enc_options))
                 [] Hd eq_refl eq_refl [] all_lines 1%nat fuel Hskip eq_refl
                 Hfuel).
Qed.

(** A document that [document_reads_back] is read back from the text
    [encode_value] returns for it. *)
Lemma decode_encode_document (value : JsonValue)
  (enc_options : ResolvedEncodeOptions) (dec_options : DecodeOptions)
  (text : string) :
  is_valid_delimiter (enc_delimiter enc_options) = true ->
  document_reads_back (enc_delimiter enc_options) value = true ->
  0 < enc_indent enc_options ->
  dec_indent (resolve_decode_options dec_options) = enc_indent enc_options ->
  encode_value value enc_options = Ok text ->
  decode text dec_options = Ok value.
Proof.
  intros Hd Hback Hindent Hsame Henc.
  assert (Hdec : 0 < dec_indent (resolve_decode_options dec_options))
    by now rewrite Hsame.
  destruct value as [|b|z|f|s|items|members].
  1-5: now apply (decode_encode_primitive _ enc_options dec_options text).
  - cbn [document_reads_back] in Hback.
    destruct (select_array_form items) as [| | |header|] eqn:Hform.
    + assert (items = []) as ->.
      { destruct items as [|v vs]; [reflexivity|].
        unfold select_array_form in Hform. cbn [length Nat.eqb] in Hform.
        repeat match type of Hform with
               | (if ?c then _ else _) = _ => destruct c; try discriminate Hform
               | match ?c with _ => _ end = _ => destruct c; try discriminate Hform
               end. }
      now apply (decode_encode_empty_array enc_options dec_options text).
    + unfold array_reads_back in Hback. rewrite Hform in Hback.
      apply (decode_encode_inline_array items enc_options dec_options text);
        auto.
      intros ->. discriminate Hform.
    + apply (decode_encode_list_array items enc_options dec_options text); auto.
      unfold select_array_form in Hform.
      destruct (Nat.eqb (length items) 0); [discriminate Hform|].
      destruct (is_array_of_primitives (JArr items)); [discriminate Hform|].
      destruct (is_array_of_arrays (JArr items)
                && forallb is_array_of_primitives items) eqn:Harrays.
      * apply andb_true_iff in Harrays as [Harrays _].
        destruct items as [|v vs]; [discriminate Harrays|].
        cbn [is_array_of_arrays forallb] in Harrays.
        apply andb_true_iff in Harrays as [Hv _].
        cbn [existsb]. now rewrite Hv.
      * destruct (is_array_of_objects (JArr items)); [|discriminate Hform].
        destruct (extract_tabular_header items); discriminate Hform.
    + destruct (array_reads_back_cases _ _ Hback)
        as [(header' & Hform' & Hne & Hnd & Hbare & Hrows)|Hcells].
      * rewrite Hform in Hform'. injection Hform' as <-.
        apply (decode_encode_table items header enc_options dec_options text);
          auto.
        apply Forall_forall. intros row Hin. apply row_reads_back_spec.
        rewrite forallb_forall in Hrows. exact (Hrows row Hin).
      * unfold array_reads_back in Hback. rewrite Hform in Hback.
        apply andb_true_iff in Hback as [Hback Hrows].
        apply andb_true_iff in Hback as [Hdist Hbare].
        destruct (select_array_form_tabular_facts items header Hform) as [_ Hne].
        apply (decode_encode_table items header enc_options dec_options text);
          auto.
        -- now apply distinct_keys_nodup.
        -- apply Forall_forall. intros row Hin. apply row_reads_back_spec.
           rewrite forallb_forall in Hrows. exact (Hrows row Hin).
    + now apply (decode_encode_list_document items enc_options dec_options text).
  - cbn [document_reads_back] in Hback.
    apply andb_true_iff in Hback as [Hdist Hall].
    now apply (decode_encode_nested_object members enc_options dec_options text).
Qed.

(** X29: [decode] inverts [encode].  For a JSON value handed to
    [encode] as the Python value it is, with options that
    [resolve_encode_options] accepts, the text returned is decoded to
    that value when the value is a document that
    [document_reads_back] for the delimiter chosen: [normalize_value]
    leaves the value as it is, the encoders write it, and the decoders
    read each of its forms back -- primitives, objects nested to any
    depth, inline arrays, tables, arrays of arrays and list arrays with
    objects.  The decoder's indent is the encoder's; the length marker
    and strict mode play no part. *)
Theorem decode_inverts_encode_on_documents :
  forall (value : JsonValue) (options : EncodeOptions)
         (resolved : ResolvedEncodeOptions) (dec_options : DecodeOptions)
         (text : string),
    is_normal value = true ->
    resolve_encode_options options = Ok resolved ->
    document_reads_back (enc_delimiter resolved) value = true ->
    0 < enc_indent resolved ->
    dec_indent (resolve_decode_options dec_options) = enc_indent resolved ->
    encode (host_value value) options = Ok text ->
    decode text dec_options = Ok value.
Proof.
  intros value options resolved dec_options text Hnormal Hresolved Hback Hindent
         Hsame Henc.
  pose proof (resolve_encode_options_outcome options) as Hd.
  rewrite Hresolved in Hd.
  unfold encode in Henc. rewrite Hresolved in Henc. cbn [bind] in Henc.
  rewrite (normalize_host_value (json_size value) value (le_n _) Hnormal) in Henc.
  now apply (decode_encode_document value resolved dec_options text).
Qed.

End ToonProofs.

(* ================================================================== *)
(** * The properties at concrete inputs *)

(** C2: the integer 2^53 + 1 lies outside the safe range and is
    normalised to a Number, not to the String of its decimal text that
    the unreachable branch would give. *)
Lemma normalize_big_int_stays_number :
  2 ^ 53 < 9007199254740993
  /\ normalize_value (rt := example_runtime) (PInt 9007199254740993)
     = JInt 9007199254740993
  /\ normalize_value (rt := example_runtime) (PInt 9007199254740993)
     <> JStr (PyStr.of_int 9007199254740993)
  /\ bigint_branch 9007199254740993 = JStr "9007199254740993".
Proof.
  split; [reflexivity|]. split; [reflexivity|]. split; [discriminate|].
  reflexivity.
Defined.










(* ================================================================== *)
(** * The round trips at concrete inputs *)

#[local] Existing Instance example_runtime.

Lemma parse_primitive_token_inverts_encode_primitive_witness :
  token_reads_back (JStr "a,b") COMMA = true
  /\ encode_primitive (JStr "a,b") COMMA = Ok (quoted "a,b")
  /\ parse_primitive_token (quoted "a,b") = Ok (JStr "a,b").
Proof.
  split; [reflexivity|]. split; [reflexivity|].
  apply (parse_primitive_token_inverts_encode_primitive (JStr "a,b") COMMA);
    reflexivity.
Defined.

Lemma parse_delimited_values_inverts_join_witness :
  is_valid_delimiter COMMA = true
  /\ forallb (fun value => cell_safe value COMMA) [JInt 1; JStr "a,b"; JNull]
     = true
  /\ encode_and_join_primitives [JInt 1; JStr "a,b"; JNull] COMMA
     = Ok ("1," ++ quoted "a,b" ++ ",null")
  /\ mapM (fun value => encode_primitive value COMMA) [JInt 1; JStr "a,b"; JNull]
     = Ok (parse_delimited_values ("1," ++ quoted "a,b" ++ ",null") COMMA).
Proof.
  split; [reflexivity|]. split; [reflexivity|]. split; [reflexivity|].
  apply (parse_delimited_values_inverts_join [JInt 1; JStr "a,b"; JNull] COMMA);
    reflexivity.
Defined.

Lemma parse_array_header_line_inverts_format_header_witness :
  0 <= 3
  /\ is_valid_delimiter PIPE = true
  /\ is_bare_key_option (Some "items") = true
  /\ are_bare_fields (Some ["id"; "name"]) = true
  /\ format_header 3 (Some "items") (Some ["id"; "name"]) PIPE true
     = "items[#3|]{id|name}:"
  /\ parse_array_header_line
       (format_header 3 (Some "items") (Some ["id"; "name"]) PIPE true ++ " x")
       COMMA
     = Ok (Some (written_header 3 (Some "items") (Some ["id"; "name"]) PIPE true,
                 nonempty_or_none (PyStr.strip " x"))).
Proof.
  split; [lia|]. split; [reflexivity|]. split; [reflexivity|].
  split; [reflexivity|]. split; [reflexivity|].
  apply (parse_array_header_line_inverts_format_header 3 (Some "items")
           (Some ["id"; "name"]) PIPE COMMA true " x");
    [lia|reflexivity|now left|reflexivity|reflexivity].
Defined.

Lemma decode_inline_primitive_array_inverts_join_witness :
  is_valid_delimiter (hdr_delimiter inline_header) = true
  /\ hdr_length inline_header = Z.of_nat (length [JInt 1; JStr "x"; JBool true])
  /\ encode_and_join_primitives [JInt 1; JStr "x"; JBool true] COMMA
     = Ok "1,x,true"
  /\ decode_inline_primitive_array inline_header "1,x,true"
       {| dec_indent := 2; dec_strict := true |}
     = Ok [JInt 1; JStr "x"; JBool true].
Proof.
  split; [reflexivity|]. split; [reflexivity|]. split; [reflexivity|].
  apply (decode_inline_primitive_array_inverts_join
           [JInt 1; JStr "x"; JBool true] inline_header "1,x,true");
    reflexivity.
Defined.


Lemma decode_inverts_encode_value_on_flat_objects_witness :
  NoDup (dict_keys flat_members)
  /\ Forall (fun km => binding_reads_back (fst km) (snd km) COMMA = true)
            flat_members
  /\ encode_value (JObj flat_members) default_encode_options
     = Ok flat_members_text
  /\ decode flat_members_text no_decode_options = Ok (JObj flat_members).
Proof.
  assert (Hnd : NoDup (dict_keys flat_members)).
  { repeat constructor; simpl; intuition discriminate. }
  assert (Hall : Forall (fun km => binding_reads_back (fst km) (snd km) COMMA
                                   = true) flat_members).
  { repeat constructor. }
  split; [exact Hnd|]. split; [exact Hall|]. split; [reflexivity|].
  apply (decode_inverts_encode_value_on_flat_objects flat_members
           default_encode_options no_decode_options flat_members_text Hnd Hall);
    reflexivity.
Defined.

Lemma decode_inverts_encode_value_on_primitives_witness :
  token_reads_back (JStr "hello world") COMMA = true
  /\ encode_value (JStr "hello world") default_encode_options
     = Ok "hello world"
  /\ decode "hello world" no_decode_options = Ok (JStr "hello world").
Proof.
  split; [reflexivity|]. split; [reflexivity|].
  apply (decode_inverts_encode_value_on_primitives (JStr "hello world")
           default_encode_options no_decode_options "hello world");
    reflexivity.
Defined.

Lemma decode_inverts_encode_value_on_inline_arrays_witness :
  forallb (fun value => cell_round_trips value COMMA) [JInt 1; JInt 2; JInt 3]
  = true
  /\ encode_value (JArr [JInt 1; JInt 2; JInt 3]) default_encode_options
     = Ok "[3]: 1,2,3"
  /\ decode "[3]: 1,2,3" no_decode_options = Ok (JArr [JInt 1; JInt 2; JInt 3]).
Proof.
  split; [reflexivity|]. split; [reflexivity|].
  apply (decode_inverts_encode_value_on_inline_arrays [JInt 1; JInt 2; JInt 3]
           default_encode_options no_decode_options "[3]: 1,2,3");
    [reflexivity|discriminate|reflexivity|reflexivity|reflexivity].
Defined.

Lemma decode_inverts_encode_value_on_tables_witness :
  select_array_form user_rows = FormTabular ["id"; "name"]
  /\ Forall (row_round_trips ["id"; "name"] COMMA) user_rows
  /\ encode_value (JArr user_rows) default_encode_options = Ok user_rows_text
  /\ decode user_rows_text no_decode_options = Ok (JArr user_rows).
Proof.
  assert (Hrows : Forall (row_round_trips ["id"; "name"] COMMA) user_rows).
  { repeat constructor. }
  split; [reflexivity|]. split; [exact Hrows|]. split; [reflexivity|].
  apply (decode_inverts_encode_value_on_tables user_rows ["id"; "name"]
           default_encode_options no_decode_options user_rows_text);
    [reflexivity|reflexivity| |reflexivity|exact Hrows|reflexivity|reflexivity
    |reflexivity].
  repeat constructor; simpl; intuition discriminate.
Defined.

Lemma decoded_array_has_declared_length_witness :
  decode_array_from_header 3 inline_header (Some "1,x,true") (new_cursor []) 0
    {| dec_indent := 2; dec_strict := true |}
  = Ok ([JInt 1; JStr "x"; JBool true], new_cursor [])
  /\ Z.of_nat (length [JInt 1; JStr "x"; JBool true]) = hdr_length inline_header.
Proof.
  split; [reflexivity|].
  apply (proj1 (decoded_array_has_declared_length 3 inline_header
                  (Some "1,x,true") (new_cursor []) 0
                  {| dec_indent := 2; dec_strict := true |}
                  [JInt 1; JStr "x"; JBool true] (new_cursor []) eq_refl)).
  reflexivity.
Defined.

Lemma decode_tabular_row_rejects_short_rows_witness :
  (length (parse_delimited_values (ln_content (row_line "1,Ada")) COMMA)
   < length (header_fields table_header))%nat
  /\ decode_tabular_row table_header (row_line "1,Ada")
       {| dec_indent := 2; dec_strict := true |}
     = Raise (CountMismatch 3 "tabular row values" 2)
  /\ decode_tabular_row table_header (row_line "1,Ada")
       {| dec_indent := 2; dec_strict := false |}
     = Raise IndexError.
Proof.
  assert (Hshort : (length (parse_delimited_values
                              (ln_content (row_line "1,Ada")) COMMA)
                    < length (header_fields table_header))%nat)
    by (vm_compute; lia).
  split; [exact Hshort|]. split.
  - apply (proj1 (decode_tabular_row_rejects_short_rows table_header
                    (row_line "1,Ada") {| dec_indent := 2; dec_strict := true |}
                    Hshort)).
    reflexivity.
  - apply (proj2 (decode_tabular_row_rejects_short_rows table_header
                    (row_line "1,Ada") {| dec_indent := 2; dec_strict := false |}
                    Hshort)).
    reflexivity.
Defined.

Lemma to_parsed_lines_inverts_writer_witness :
  to_string (push_all (new_writer 2) pushed_items)
  = "a:
  b: 1
- x"
  /\ to_parsed_lines (to_string (push_all (new_writer 2) pushed_items)) 2
     = Ok (map (scanned_line 2) pushed_items)
  /\ map ln_depth (map (scanned_line 2) pushed_items) = [0; 1; 0].
Proof.
  split; [reflexivity|]. split; [|reflexivity].
  apply (to_parsed_lines_inverts_writer 2 pushed_items);
    [lia|discriminate|].
  repeat constructor; simpl; try lia; discriminate.
Defined.

Lemma decode_inverts_encode_value_on_nested_objects_witness :
  distinct_keys (dict_keys team_members) = true
  /\ forallb (fun km => member_reads_back COMMA (fst km) (snd km)) team_members
     = true
  /\ encode_value (JObj team_members) default_encode_options
     = Ok team_members_text
  /\ decode team_members_text no_decode_options = Ok (JObj team_members).
Proof.
  split; [reflexivity|]. split; [reflexivity|]. split; [reflexivity|].
  apply (decode_inverts_encode_value_on_nested_objects team_members
           default_encode_options no_decode_options team_members_text);
    (reflexivity || (simpl; lia)).
Defined.

Lemma decode_inverts_encode_value_on_list_arrays_witness :
  forallb (list_item_reads_back COMMA) mixed_items = true
  /\ existsb is_json_array mixed_items = true
  /\ encode_value (JArr mixed_items) default_encode_options
     = Ok mixed_items_text
  /\ decode mixed_items_text no_decode_options = Ok (JArr mixed_items).
Proof.
  split; [reflexivity|]. split; [reflexivity|]. split; [reflexivity|].
  apply (decode_inverts_encode_value_on_list_arrays mixed_items
           default_encode_options no_decode_options mixed_items_text);
    (reflexivity || (simpl; lia)).
Defined.

Lemma decode_inverts_encode_value_on_lists_of_objects_witness :
  forallb (list_member_reads_back COMMA) roster_items = true
  /\ select_array_form roster_items = FormListItems
  /\ encode_value (JArr roster_items) default_encode_options
     = Ok roster_items_text
  /\ decode roster_items_text no_decode_options = Ok (JArr roster_items).
Proof.
  split; [reflexivity|]. split; [reflexivity|]. split; [reflexivity|].
  apply (decode_inverts_encode_value_on_lists_of_objects roster_items
           default_encode_options no_decode_options roster_items_text);
    (reflexivity || (simpl; lia)).
Defined.

Lemma decode_rejects_written_list_strings_with_colon_witness :
  forallb (fun item => list_member_reads_back COMMA item || is_colon_string item)
          colon_items = true
  /\ existsb is_colon_string colon_items = true
  /\ select_array_form colon_items = FormListItems
  /\ encode_value (JArr colon_items) default_encode_options
     = Ok colon_items_text
  /\ decode colon_items_text no_decode_options = Raise MissingColon.
Proof.
  split; [reflexivity|]. split; [reflexivity|]. split; [reflexivity|].
  split; [reflexivity|].
  apply (decode_rejects_written_list_strings_with_colon colon_items
           default_encode_options no_decode_options colon_items_text);
    (reflexivity || (simpl; lia)).
Defined.

Lemma decode_rejects_written_arrays_under_quoted_keys_witness :
  forallb (fun km => member_reads_back COMMA (fst km) (snd km)
                     || is_quoted_key_array COMMA km) quoted_key_members = true
  /\ existsb (is_quoted_key_array COMMA) quoted_key_members = true
  /\ encode_value (JObj quoted_key_members) default_encode_options
     = Ok quoted_key_members_text
  /\ decode quoted_key_members_text no_decode_options = Raise MissingColon
  /\ decode (quoted "my key" ++ "[2]: 1,2") no_decode_options
     = Raise UnexpectedAfterQuote.
Proof.
  split; [reflexivity|]. split; [reflexivity|]. split; [reflexivity|]. split.
  - apply (decode_rejects_written_arrays_under_quoted_keys quoted_key_members
             default_encode_options no_decode_options quoted_key_members_text);
      (reflexivity || (simpl; lia)).
  - apply (decode_rejects_written_arrays_under_quoted_keys quoted_key_alone
             default_encode_options no_decode_options
             (quoted "my key" ++ "[2]: 1,2"));
      (reflexivity || (simpl; lia)).
Defined.

Lemma decode_skips_blank_lines_witness :
  PyStr.all_chars PyStr.is_space "  " = true
  /\ (decode (flat_members_text
              ++ String NEWLINE ("  " ++ String NEWLINE user_rows_text))
             no_decode_options
      = decode (flat_members_text ++ String NEWLINE user_rows_text)
               no_decode_options
      /\ decode (flat_members_text ++ String NEWLINE "  ") no_decode_options
         = decode flat_members_text no_decode_options
      /\ decode ("  " ++ String NEWLINE user_rows_text) no_decode_options
         = decode user_rows_text no_decode_options).
Proof.
  split; [reflexivity|].
  apply (decode_skips_blank_lines flat_members_text "  " user_rows_text
           no_decode_options).
  reflexivity.
Defined.

Lemma decode_inverts_encode_on_documents_witness :
  is_normal (JObj team_members) = true
  /\ resolve_encode_options no_encode_options = Ok default_encode_options
  /\ document_reads_back COMMA (JObj team_members) = true
  /\ encode (host_value (JObj team_members)) no_encode_options
     = Ok team_members_text
  /\ decode team_members_text no_decode_options = Ok (JObj team_members).
Proof.
  split; [reflexivity|]. split; [reflexivity|]. split; [reflexivity|].
  split; [reflexivity|].
  apply (decode_inverts_encode_on_documents (JObj team_members) no_encode_options
           default_encode_options no_decode_options team_members_text);
    (reflexivity || (simpl; lia)).
Defined.

Lemma normalize_value_keeps_json_values_witness :
  is_normal (JObj team_members) = true
  /\ normalize_value (host_value (JObj team_members)) = JObj team_members.
Proof.
  split; [reflexivity|].
  apply (normalize_value_keeps_json_values (JObj team_members)). reflexivity.
Defined.
